(** * Evaluation dashboard backend: aggregation and indexing engine

    A shallow embedding of the domain layer (value objects and entities), the
    in-memory repositories, the use cases, the CSV parsers and the routes of
    the evaluation dashboard backend, with the properties its specification
    states about them and further properties the code shows.

    Conventions of the embedding.
    - A Python [str] is a Rocq [string] holding one character per code point.
      The literals of the source and the data decoded by the CSV loader
      (encoding latin-1) stay below code point 256; [latin1] turns a literal
      written in this file (UTF-8) into that representation. Text with
      code points from 256 on, which only a request can carry, is outside
      the model; below 256 the decimal digits of [\d] and [int] are 0-9
      alone, and a property that rests on it says so ([solo_ascii]).
    - A Python [float] is the rational it denotes ([Q], compared with [==]).
      [statistics.mean] sums exactly and returns the float nearest to
      sum / count ([Float.redondear]: binary64, ties to even). The
      recommendation engine, which compares its means with 4.0, is modelled
      with that rounded mean ([statistics_mean]). The means of the entities
      and of the average calculator are the exact quotient ([mean]): no
      branch there depends on the last bit (their only test, mean > 0,
      separates 0.0 from means of at least 1.0), and their properties are
      those of exact arithmetic.
    - An insertion-ordered [dict] is its list of items; a raised exception is
      the [Raise] branch of [result]. *)

From Stdlib Require Import List String Ascii Bool Arith ZArith QArith Qround Qpower.
From Stdlib Require Import Lia Lqa.
From Stdlib Require Import Permutation Sorted.
Import ListNotations.
Local Open Scope string_scope.
Local Open Scope list_scope.

Set Implicit Arguments.

(* ================================================================== *)
(** * Python strings *)

Module Str.

(** Decoding of the two-byte UTF-8 sequences of the range 128..255. *)
Fixpoint latin1 (s : string) : string :=
  match s with
  | EmptyString => EmptyString
  | String c s' =>
      match s' with
      | String d s'' =>
          if (nat_of_ascii c =? 194)%nat then String d (latin1 s'')
          else if (nat_of_ascii c =? 195)%nat
               then String (ascii_of_nat (nat_of_ascii d + 64)) (latin1 s'')
               else String c (latin1 s')
      | EmptyString => String c EmptyString
      end
  end.

Definition in_range (lo hi : nat) (c : ascii) : bool :=
  let n := nat_of_ascii c in ((lo <=? n) && (n <=? hi))%nat.

(** [str.lower] on one code point below 256: A-Z and the accented capitals
    (all of 192..222 but the multiplication sign 215) move up by 32. *)
Definition lower_char (c : ascii) : ascii :=
  if in_range 65 90 c || in_range 192 214 c || in_range 216 222 c
  then ascii_of_nat (nat_of_ascii c + 32)
  else c.

Fixpoint lower (s : string) : string :=
  match s with
  | EmptyString => EmptyString
  | String c s' => String (lower_char c) (lower s')
  end.

(** [k in s]: substring test. *)
Fixpoint contains (k s : string) : bool :=
  prefix k s ||
  match s with
  | EmptyString => false
  | String _ s' => contains k s'
  end.

(** [a < b] on strings: lexicographic on code points. *)
Definition ltb (a b : string) : bool :=
  match String.compare a b with Lt => true | _ => false end.

(** The decimal digits below code point 256: 0-9. ([str.isdigit], [\d] and
    [int] also take the decimal digits of other scripts, all from code
    point 1632 on.) *)
Definition is_digit (c : ascii) : bool := in_range 48 57 c.

(** [str.isspace] below code point 256. *)
Definition is_space (c : ascii) : bool :=
  in_range 9 13 c || in_range 28 32 c ||
  (nat_of_ascii c =? 133)%nat || (nat_of_ascii c =? 160)%nat.

Fixpoint lstrip (s : string) : string :=
  match s with
  | String c s' => if is_space c then lstrip s' else s
  | EmptyString => EmptyString
  end.

Fixpoint rstrip (s : string) : string :=
  match s with
  | String c s' =>
      match rstrip s' with
      | EmptyString => if is_space c then EmptyString else String c EmptyString
      | r => String c r
      end
  | EmptyString => EmptyString
  end.

Definition strip (s : string) : string := rstrip (lstrip s).

(** [s.split(sep)] for a one-character separator. *)
Fixpoint split (sep : ascii) (s : string) : list string :=
  match s with
  | EmptyString => [EmptyString]
  | String c s' =>
      if Ascii.eqb c sep then EmptyString :: split sep s'
      else match split sep s' with
           | w :: ws => String c w :: ws
           | [] => [String c EmptyString]
           end
  end.

Fixpoint digits_value (acc : Z) (s : string) : option Z :=
  match s with
  | EmptyString => Some acc
  | String c s' =>
      if is_digit c
      then digits_value (10 * acc + Z.of_nat (nat_of_ascii c - 48)) s'
      else None
  end.

(** [int(s)] on a string of decimal digits surrounded by optional white
    space, the only shape the program applies it to; [None] stands for the
    [ValueError] Python raises on the other strings modelled here. *)
Definition int (s : string) : option Z :=
  match strip s with
  | EmptyString => None
  | t => digits_value 0 t
  end.

End Str.

(* ================================================================== *)
(** * Exceptions and results *)

(** app/core/exceptions.py, with the builtin exceptions the code can meet;
    every exception keeps the argument its constructor received. *)
Inductive exn : Type :=
| ProfesorNotFoundError (documento : string)
| InvalidCalificacionError (valor : Q)
| ValueError (msg : string)
| IndexError
| StatisticsError.

Inductive result (A : Type) : Type :=
| Ok (a : A)
| Raise (e : exn).
Arguments Ok {A} a.
Arguments Raise {A} e.

Definition bind {A B} (m : result A) (f : A -> result B) : result B :=
  match m with
  | Ok a => f a
  | Raise e => Raise e
  end.

Notation "x <- m ;; k" := (bind m (fun x => k))
  (at level 61, m at next level, right associativity).

(** The message [str(e)] of an exception of the domain. *)
Definition ProfesorNotFoundError_message (documento : string) : string :=
  (Str.latin1 "Profesor con documento " ++ documento ++ " no encontrado")%string.

(* ================================================================== *)
(** * Domain: value objects *)

(** The exact mean of a sequence known to be non-empty (head and tail);
    the empty case, where [statistics.mean] raises [StatisticsError], is
    handled at each call site the way the source guards it. *)
Definition Qsum (l : list Q) : Q := fold_right Qplus 0%Q l.

Definition mean (x : Q) (xs : list Q) : Q :=
  (Qsum (x :: xs) / inject_Z (Z.of_nat (List.length (x :: xs))))%Q.

(** [mean(l) if l else 0.0], the guarded form most call sites use. *)
Definition mean_or_zero (l : list Q) : Q :=
  match l with
  | [] => 0%Q
  | x :: xs => mean x xs
  end.

(** ** Floats

    The floats of the program are finite binary64 numbers; each is the
    rational it denotes. [redondear] is the conversion of an exact rational
    to the nearest float, a tie going to the float with an even significand:
    what [float(str)] and the division of [statistics.mean] do. The floats
    around [x] are the multiples of [ulp x]: 2^(e-52) for 2^e <= |x| <
    2^(e+1), and 2^-1074 below 2^-1022. Overflow is left out: no mean of
    ratings leaves [0, 5]. *)

Module Float.

(** The integer nearest to [x], a tie going to the even one. *)
Definition entero_mas_cercano (x : Q) : Z :=
  let f := Qfloor x in
  match Qcompare (x - inject_Z f) (1 # 2) with
  | Lt => f
  | Gt => (f + 1)%Z
  | Eq => if Z.even f then f else (f + 1)%Z
  end.

(** The binary exponent of [x > 0]: floor (log2 x). *)
Definition exponente (x : Q) : Z :=
  let e := (Z.log2 (Qnum x) - Z.log2 (Zpos (Qden x)))%Z in
  if Qle_bool (2 ^ e) x then e else (e - 1)%Z.

Definition ulp (x : Q) : Q := (2 ^ (Z.max (exponente x) (-1022) - 52))%Q.

Definition redondear_positivo (x : Q) : Q :=
  Qred (inject_Z (entero_mas_cercano (x / ulp x)) * ulp x).

Definition redondear (x : Q) : Q :=
  match Qcompare x 0 with
  | Eq => 0%Q
  | Gt => redondear_positivo x
  | Lt => (- redondear_positivo (- x))%Q
  end.

End Float.

(** [statistics.mean] on a non-empty sequence of floats: the exact mean,
    rounded once. *)
Definition statistics_mean (x : Q) (xs : list Q) : Q := Float.redondear (mean x xs).

Module Calificacion.

(** The bounds, at the defaults every construction of the program leaves
    them at: [Calificacion(v)] is always called with the value alone. *)
Definition MIN_VALOR : Q := 1%Q.
Definition MAX_VALOR : Q := 5%Q.

(** The test of [__post_init__]: MIN_VALOR <= valor <= MAX_VALOR. *)
Definition in_range (v : Q) : bool :=
  Qle_bool MIN_VALOR v && Qle_bool v MAX_VALOR.

(** A frozen dataclass: an instance exists only once [__post_init__] has
    accepted its value. *)
Record t : Type := mk { valor : Q; valor_ok : in_range valor = true }.

(** [Calificacion(v)]. *)
Definition new (v : Q) : result t :=
  match in_range v as b return in_range v = b -> result t with
  | true => fun H => Ok (mk v H)
  | false => fun _ => Raise (InvalidCalificacionError v)
  end eq_refl.

Definition es_aprobatoria (c : t) : bool := Qle_bool 3 (valor c).
Definition es_excelente (c : t) : bool := Qle_bool (9 # 2) (valor c).

Definition nivel_desempeno (c : t) : string :=
  if Qle_bool (9 # 2) (valor c) then "Excelente"
  else if Qle_bool 4 (valor c) then "Sobresaliente"
  else if Qle_bool (7 # 2) (valor c) then "Bueno"
  else if Qle_bool 3 (valor c) then "Aceptable"
  else "Insuficiente".

(** [float(cal)]. *)
Definition to_float (c : t) : Q := valor c.

End Calificacion.

(** ** Regular expressions, as far as [Periodo.PATTERN] needs them *)

Module Re.

Inductive regex : Type :=
| Caret                      (* ^ *)
| Dollar                     (* $ *)
| Digit                      (* \d *)
| Chr (c : ascii)
| Class (cs : list ascii)    (* [...] *)
| Cat (r1 r2 : regex)
| Rep (n : nat) (r : regex). (* r{n} *)

Definition newline : ascii := ascii_of_nat 10.

(** Without MULTILINE, [$] matches at the end of the string and just
    before a newline that ends the string. *)
Definition at_end (s : string) : bool :=
  match s with
  | EmptyString => true
  | String c EmptyString => Ascii.eqb c newline
  | _ => false
  end.

Definition one (p : ascii -> bool) (pos : nat) (s : string)
  : list (nat * string) :=
  match s with
  | String c s' => if p c then [(S pos, s')] else []
  | EmptyString => []
  end.

(** All the ways [r] can match a prefix of [s], the rest of the subject
    standing at offset [pos]: the offsets and rests it can stop at. *)
Fixpoint run (r : regex) (pos : nat) (s : string) : list (nat * string) :=
  match r with
  | Caret => if (pos =? 0)%nat then [(pos, s)] else []
  | Dollar => if at_end s then [(pos, s)] else []
  | Digit => one Str.is_digit pos s
  | Chr c => one (Ascii.eqb c) pos s
  | Class cs => one (fun d => existsb (Ascii.eqb d) cs) pos s
  | Cat r1 r2 => flat_map (fun ps => run r2 (fst ps) (snd ps)) (run r1 pos s)
  | Rep n r' =>
      (fix rep (n : nat) (pos : nat) (s : string) : list (nat * string) :=
         match n with
         | O => [(pos, s)]
         | S n' => flat_map (fun ps => rep n' (fst ps) (snd ps)) (run r' pos s)
         end) n pos s
  end.

(** [pattern.match(s)] is not [None]. *)
Definition matches (r : regex) (s : string) : bool :=
  match run r 0 s with
  | [] => false
  | _ :: _ => true
  end.

End Re.

Module Periodo.

(** re.compile(r'^\d{4}-[12]$') *)
Definition PATTERN : Re.regex :=
  Re.Cat Re.Caret
    (Re.Cat (Re.Rep 4 Re.Digit)
       (Re.Cat (Re.Chr "-"%char)
          (Re.Cat (Re.Class ["1"%char; "2"%char]) Re.Dollar))).

Record t : Type := mk { valor : string; valor_ok : Re.matches PATTERN valor = true }.

Definition format_error (s : string) : exn :=
  ValueError (Str.latin1 "Formato de período inválido: " ++ s ++
              ". Esperado: YYYY-1 o YYYY-2")%string.

(** [Periodo(s)]. *)
Definition new (s : string) : result t :=
  match Re.matches PATTERN s as b return Re.matches PATTERN s = b -> result t with
  | true => fun H => Ok (mk s H)
  | false => fun _ => Raise (format_error s)
  end eq_refl.

(** [int(self.valor.split('-')[i])]; an index out of range or a failing
    [int] is an exception in Python. *)
Definition campo (i : nat) (p : t) : option Z :=
  match nth_error (Str.split "-"%char (valor p)) i with
  | Some w => Str.int w
  | None => None
  end.

Definition anio (p : t) : option Z := campo 0 p.
Definition semestre (p : t) : option Z := campo 1 p.

(** The dataclass [__eq__]: equality of the field. *)
Definition eqb (p q : t) : bool := String.eqb (valor p) (valor q).

(** [__lt__]; [None] when one of the properties raises. *)
Definition lt (p q : t) : option bool :=
  match anio p, anio q with
  | Some a, Some b =>
      if negb (a =? b)%Z then Some (a <? b)%Z
      else match semestre p, semestre q with
           | Some x, Some y => Some (x <? y)%Z
           | _, _ => None
           end
  | _, _ => None
  end.


(** The sort key the order goes by. *)
Definition key (p : t) : Z * Z :=
  (match anio p with Some a => a | None => 0%Z end,
   match semestre p with Some x => x | None => 0%Z end).

Definition ltb (p q : t) : bool :=
  match lt p q with Some b => b | None => false end.

End Periodo.

(* ================================================================== *)
(** * Insertion-ordered dictionaries *)

Module Dict.
Section Ops.
Variables K V : Type.
Variable eqb : K -> K -> bool.

Definition t : Type := list (K * V).

(** [d.get(k)] *)
Fixpoint get (k : K) (d : t) : option V :=
  match d with
  | [] => None
  | (k', v) :: d' => if eqb k' k then Some v else get k d'
  end.

(** [d[k] = f(d.get(k))]: an existing key keeps its place and its key
    object, a new key goes to the end. *)
Fixpoint update (k : K) (f : option V -> V) (d : t) : t :=
  match d with
  | [] => [(k, f None)]
  | (k', v) :: d' =>
      if eqb k' k then (k', f (Some v)) :: d'
      else (k', v) :: update k f d'
  end.

(** [d[k] = v] *)
Definition set (k : K) (v : V) (d : t) : t := update k (fun _ => v) d.

Definition mem (k : K) (d : t) : bool :=
  match get k d with Some _ => true | None => false end.

Definition keys (d : t) : list K := map fst d.
Definition values (d : t) : list V := map snd d.
End Ops.

Section DefaultDicts.
Variables K X : Type.
Variable eqb : K -> K -> bool.

(** [d[k].append(x)] on a [defaultdict(list)] *)
Definition append (k : K) (x : X) (d : t K (list X)) : t K (list X) :=
  update eqb k (fun o => match o with Some l => l ++ [x] | None => [x] end) d.

(** [d[k] += 1] on a [defaultdict(int)] *)
Definition incr (k : K) (d : t K nat) : t K nat :=
  update eqb k (fun o => match o with Some n => S n | None => 1%nat end) d.

(** [d[k]] on a [defaultdict(int)], read only *)
Definition count (k : K) (d : t K nat) : nat :=
  match get eqb k d with Some n => n | None => O end.

(** The loop [for k, x in kxs: d[k].append(x)] from the empty dict. *)
Definition group (kxs : list (K * X)) : t K (list X) :=
  fold_left (fun d kx => append (fst kx) (snd kx) d) kxs [].

(** The loop [for k in ks: d[k] += 1] from the empty dict. *)
Definition tally (ks : list K) : t K nat :=
  fold_left (fun d k => incr k d) ks [].
End DefaultDicts.
End Dict.

(** A [set] built by adding elements one by one: its contents, each once. *)
Section PySet.
Variable A : Type.
Variable eqb : A -> A -> bool.

Definition set_add (x : A) (s : list A) : list A :=
  if existsb (eqb x) s then s else s ++ [x].

Definition set_of (l : list A) : list A :=
  fold_left (fun s x => set_add x s) l [].
End PySet.

(** [sorted(l, key=...)] for keys compared by [ltb]: stable (an element goes
    in front of the elements that follow it and are not smaller). *)
Section Sorted.
Variables A B : Type.
Variable key : A -> B.
Variable ltb : B -> B -> bool.

Fixpoint insert_sorted (x : A) (l : list A) : list A :=
  match l with
  | [] => [x]
  | y :: l' =>
      if ltb (key y) (key x) then y :: insert_sorted x l'
      else x :: y :: l'
  end.

Definition sorted (l : list A) : list A := fold_right insert_sorted [] l.
End Sorted.

(* ================================================================== *)
(** * Domain: entities *)

Module Categoria.

Inductive t : Type :=
| PLANEACION
| CONDUCCION
| EVALUACION_APRENDIZAJE
| COMPONENTE_PERSONAL
| COMPORTAMIENTO
| ENSENANZA_APRENDIZAJE
| EVALUACION
| POSGRADO
| ESTRUCTURA_AULA_VIRTUAL
| COMENTARIOS.

(** The members in definition order. *)
Definition all : list t :=
  [PLANEACION; CONDUCCION; EVALUACION_APRENDIZAJE; COMPONENTE_PERSONAL;
   COMPORTAMIENTO; ENSENANZA_APRENDIZAJE; EVALUACION; POSGRADO;
   ESTRUCTURA_AULA_VIRTUAL; COMENTARIOS].

Definition value (c : t) : string :=
  match c with
  | PLANEACION =>
      Str.latin1 "PLANEACIÓN DEL PROCESO ENSEÑANZA - APRENDIZAJE - EVALUACIÓN"
  | CONDUCCION => Str.latin1 "CONDUCCIÓN DEL PROCESO ENSEÑANZA-APRENDIZAJE"
  | EVALUACION_APRENDIZAJE => Str.latin1 "EVALUACIÓN DEL APRENDIZAJE"
  | COMPONENTE_PERSONAL => "COMPONENTE PERSONAL"
  | COMPORTAMIENTO => "COMPORTAMIENTO"
  | ENSENANZA_APRENDIZAJE => Str.latin1 "ENSEÑANZA-APRENDIZAJE"
  | EVALUACION => Str.latin1 "EVALUACIÓN"
  | POSGRADO => "POSGRADO"
  | ESTRUCTURA_AULA_VIRTUAL => "ESTRUCTURA DE AULA VIRTUAL"
  | COMENTARIOS => "COMENTARIOS"
  end.

Definition descripcion_corta (c : t) : string :=
  match c with
  | PLANEACION => Str.latin1 "Planeación"
  | CONDUCCION => Str.latin1 "Conducción"
  | EVALUACION_APRENDIZAJE => "Eval. Aprendizaje"
  | COMPONENTE_PERSONAL => "Personal"
  | COMPORTAMIENTO => "Comportamiento"
  | ENSENANZA_APRENDIZAJE => Str.latin1 "Enseñanza-Aprendizaje"
  | EVALUACION => Str.latin1 "Evaluación"
  | POSGRADO => "Posgrado"
  | ESTRUCTURA_AULA_VIRTUAL => "Aula Virtual"
  | COMENTARIOS => "Comentarios"
  end.

(** Members are strings: [==] compares the values. *)
Definition eqb (a b : t) : bool := String.eqb (value a) (value b).


End Categoria.

Module Pregunta.

Record t : Type := mk {
  codigo : string;
  categoria : Categoria.t;
  texto : string
}.

(** [__eq__] and [__hash__]: by code only. *)
Definition eqb (p q : t) : bool := String.eqb (codigo p) (codigo q).

Definition pertenece_a_categoria (p : t) (c : Categoria.t) : bool :=
  Categoria.eqb (categoria p) c.

Definition es_comentario (p : t) : bool :=
  Categoria.eqb (categoria p) Categoria.COMENTARIOS.

End Pregunta.

Module Evaluacion.

Record t : Type := mk {
  id : string;
  profesor_documento : string;
  profesor_nombre : string;
  periodo : Periodo.t;
  tipo_formulario : string;
  respuestas : Dict.t Pregunta.t (option Calificacion.t)
}.

(** [__eq__]: by id. *)
Definition eqb (a b : t) : bool := String.eqb (id a) (id b).

Definition agregar_respuesta (e : t) (p : Pregunta.t)
    (cal : option Calificacion.t) : t :=
  mk (id e) (profesor_documento e) (profesor_nombre e) (periodo e)
     (tipo_formulario e) (Dict.set Pregunta.eqb p cal (respuestas e)).

(** The comprehension
    [[float(cal) for pregunta, cal in items if cal is not None and keep(pregunta)]]. *)
Fixpoint calificaciones (keep : Pregunta.t -> bool)
    (items : list (Pregunta.t * option Calificacion.t)) : list Q :=
  match items with
  | [] => []
  | (p, Some cal) :: rest =>
      if keep p then Calificacion.to_float cal :: calificaciones keep rest
      else calificaciones keep rest
  | (_, None) :: rest => calificaciones keep rest
  end.

Definition calcular_promedio_general (e : t) : Q :=
  match calificaciones (fun p => negb (Pregunta.es_comentario p)) (respuestas e) with
  | [] => 0%Q
  | x :: xs => mean x xs
  end.

Definition calcular_promedio_por_categoria (e : t) (c : Categoria.t) : Q :=
  match calificaciones (fun p => Pregunta.pertenece_a_categoria p c) (respuestas e) with
  | [] => 0%Q
  | x :: xs => mean x xs
  end.

(** The contents of the set [categorias_evaluadas()], each category once,
    in the order the questions first show them. The order in which Python
    iterates over the set is not this one: see [orden_set] below. *)
Definition categorias_evaluadas (e : t) : list Categoria.t :=
  set_of Categoria.eqb
    (map Pregunta.categoria
       (filter (fun p => negb (Pregunta.es_comentario p))
          (Dict.keys (respuestas e)))).


End Evaluacion.

Module Profesor.

Record t : Type := mk {
  documento : string;
  nombre_completo : string;
  evaluaciones : list Evaluacion.t
}.

(** [if evaluacion not in self.evaluaciones: self.evaluaciones.append(evaluacion)] *)
Definition agregar_evaluacion (p : t) (e : Evaluacion.t) : t :=
  if existsb (fun e' => Evaluacion.eqb e' e) (evaluaciones p) then p
  else mk (documento p) (nombre_completo p) (evaluaciones p ++ [e]).

Definition total_evaluaciones (p : t) : nat := List.length (evaluaciones p).

End Profesor.

(* ================================================================== *)
(** * Infrastructure: the in-memory repositories (contents) *)

Definition get_or_empty {K A} (eqb : K -> K -> bool) (k : K)
    (d : Dict.t K (list A)) : list A :=
  match Dict.get eqb k d with Some l => l | None => [] end.

Module PandasPreguntaRepository.

Record t : Type := mk {
  _preguntas : list Pregunta.t;
  _by_codigo : Dict.t string Pregunta.t;
  _by_categoria : Dict.t Categoria.t (list Pregunta.t)
}.

Definition _build_categoria_index (preguntas : list Pregunta.t)
  : Dict.t Categoria.t (list Pregunta.t) :=
  Dict.group Categoria.eqb (map (fun p => (Pregunta.categoria p, p)) preguntas).

(** [__init__] *)
Definition init (preguntas : list Pregunta.t) : t :=
  mk preguntas
     (fold_left (fun d p => Dict.set String.eqb (Pregunta.codigo p) p d) preguntas [])
     (_build_categoria_index preguntas).

Definition find_all (r : t) : list Pregunta.t := _preguntas r.
Definition find_by_codigo (r : t) (codigo : string) : option Pregunta.t :=
  Dict.get String.eqb codigo (_by_codigo r).
Definition find_by_categoria (r : t) (c : Categoria.t) : list Pregunta.t :=
  get_or_empty Categoria.eqb c (_by_categoria r).
Definition get_categorias (r : t) : list Categoria.t :=
  Dict.keys (_by_categoria r).

End PandasPreguntaRepository.

Module PandasEvaluacionRepository.

Record t : Type := mk {
  _evaluaciones : list Evaluacion.t;
  _by_id : Dict.t string Evaluacion.t;
  _by_profesor : Dict.t string (list Evaluacion.t);
  _by_periodo : Dict.t Periodo.t (list Evaluacion.t);
  _by_tipo_formulario : Dict.t string (list Evaluacion.t)
}.

Definition _build_profesor_index (evaluaciones : list Evaluacion.t) :=
  Dict.group String.eqb
    (map (fun e => (Evaluacion.profesor_documento e, e)) evaluaciones).

Definition _build_periodo_index (evaluaciones : list Evaluacion.t) :=
  Dict.group Periodo.eqb (map (fun e => (Evaluacion.periodo e, e)) evaluaciones).

Definition _build_tipo_formulario_index (evaluaciones : list Evaluacion.t) :=
  Dict.group String.eqb
    (map (fun e => (Evaluacion.tipo_formulario e, e)) evaluaciones).

(** [__init__] *)
Definition init (evaluaciones : list Evaluacion.t) : t :=
  mk evaluaciones
     (fold_left (fun d e => Dict.set String.eqb (Evaluacion.id e) e d) evaluaciones [])
     (_build_profesor_index evaluaciones)
     (_build_periodo_index evaluaciones)
     (_build_tipo_formulario_index evaluaciones).

Definition find_all (r : t) : list Evaluacion.t := _evaluaciones r.

Definition find_by_id (r : t) (evaluacion_id : string) : option Evaluacion.t :=
  Dict.get String.eqb evaluacion_id (_by_id r).

Definition find_by_profesor (r : t) (documento : string) : list Evaluacion.t :=
  get_or_empty String.eqb documento (_by_profesor r).

Definition find_by_periodo (r : t) (periodo : Periodo.t) : list Evaluacion.t :=
  get_or_empty Periodo.eqb periodo (_by_periodo r).

Definition find_by_profesor_and_periodo (r : t) (documento : string)
    (periodo : Periodo.t) : list Evaluacion.t :=
  filter (fun e => Periodo.eqb (Evaluacion.periodo e) periodo)
    (get_or_empty String.eqb documento (_by_profesor r)).

Definition find_by_tipo_formulario (r : t) (tipo : string) : list Evaluacion.t :=
  get_or_empty String.eqb tipo (_by_tipo_formulario r).

(** The loop of [get_profesores]: create the aggregate at the first
    evaluation of a document, then add the evaluation to it. *)
Definition get_profesores_step (profesores : Dict.t string Profesor.t)
    (e : Evaluacion.t) : Dict.t string Profesor.t :=
  let documento := Evaluacion.profesor_documento e in
  Dict.update String.eqb documento
    (fun o =>
       Profesor.agregar_evaluacion
         match o with
         | Some p => p
         | None => Profesor.mk documento (Evaluacion.profesor_nombre e) []
         end e)
    profesores.

Definition get_profesores (r : t) : list Profesor.t :=
  Dict.values (fold_left get_profesores_step (_evaluaciones r) []).

Definition get_periodos_disponibles (r : t) : list Periodo.t :=
  sorted (fun p => p) Periodo.ltb (Dict.keys (_by_periodo r)).

Definition get_tipos_formulario (r : t) : list string :=
  Dict.keys (_by_tipo_formulario r).

End PandasEvaluacionRepository.

(* ================================================================== *)
(** * Application: DTOs and use cases *)

(** The truth value of an [Optional[str]]: [None] and the empty string are
    false. *)
Definition truthy (o : option string) : bool :=
  match o with
  | Some EmptyString => false
  | Some _ => true
  | None => false
  end.

(** The string of a request's period where the code reads it. *)
Definition texto_de (o : option string) : string :=
  match o with Some s => s | None => EmptyString end.

Definition Qltb (a b : Q) : bool := negb (Qle_bool b a).

Module CalcularPromedioProfesorUseCase.

Record PromedioProfesorRequest : Type := mkRequest {
  documento : string;
  periodo : option string
}.

Record PromedioCategoriaDTO : Type := mkCategoriaDTO {
  categoria : string;
  categoria_corta : string;
  promedio : Q;
  total_evaluaciones : nat
}.

Record PromedioActorDTO : Type := mkActorDTO {
  actor : string;
  actor_promedio : Q;
  actor_total_evaluaciones : nat
}.

Record PromedioProfesorResponse : Type := mkResponse {
  r_documento : string;
  r_nombre_completo : string;
  r_periodo : option string;
  r_promedio_general : Q;
  r_total_evaluaciones : nat;
  r_promedios_por_categoria : list PromedioCategoriaDTO;
  r_promedios_por_actor : list PromedioActorDTO
}.

(** The order in which Python iterates over the set
    [evaluacion.categorias_evaluadas()] is left open: it is a parameter
    [orden_set] of the functions that iterate over it. *)
Definition orden := Evaluacion.t -> list Categoria.t.

Definition _calcular_promedio_general (evaluaciones : list Evaluacion.t) : Q :=
  mean_or_zero (map Evaluacion.calcular_promedio_general evaluaciones).

(** The state of the grouping loops: the lists of means and the counters. *)
Definition grupos (K : Type) : Type := (Dict.t K (list Q) * Dict.t K nat)%type.

Definition anotar {K} (eqb : K -> K -> bool) (k : K) (promedio : Q)
    (st : grupos K) : grupos K :=
  (Dict.append eqb k promedio (fst st), Dict.incr eqb k (snd st)).

(** The two nested loops of [_calcular_por_categoria]. *)
Definition bucle_categoria (orden_set : orden) (evaluaciones : list Evaluacion.t)
  : grupos Categoria.t :=
  fold_left
    (fun st evaluacion =>
       fold_left
         (fun st categoria =>
            if negb (Categoria.eqb categoria Categoria.COMENTARIOS) then
              let promedio :=
                Evaluacion.calcular_promedio_por_categoria evaluacion categoria in
              if Qltb 0 promedio then anotar Categoria.eqb categoria promedio st
              else st
            else st)
         (orden_set evaluacion) st)
    evaluaciones ([], []).

Definition _calcular_por_categoria (orden_set : orden)
    (evaluaciones : list Evaluacion.t) : list PromedioCategoriaDTO :=
  let '(categoria_promedios, categoria_count) :=
    bucle_categoria orden_set evaluaciones in
  let resultados :=
    flat_map
      (fun item =>
         match snd item with
         | [] => []
         | x :: xs =>
             [mkCategoriaDTO (Categoria.value (fst item))
                (Categoria.descripcion_corta (fst item))
                (mean x xs)
                (Dict.count Categoria.eqb (fst item) categoria_count)]
         end)
      categoria_promedios in
  sorted categoria Str.ltb resultados.

Definition bucle_actor (evaluaciones : list Evaluacion.t) : grupos string :=
  fold_left
    (fun st evaluacion =>
       let promedio := Evaluacion.calcular_promedio_general evaluacion in
       if Qltb 0 promedio
       then anotar String.eqb (Evaluacion.tipo_formulario evaluacion) promedio st
       else st)
    evaluaciones ([], []).

Definition _calcular_por_actor (evaluaciones : list Evaluacion.t)
  : list PromedioActorDTO :=
  let '(actor_promedios, actor_count) := bucle_actor evaluaciones in
  let resultados :=
    flat_map
      (fun item =>
         match snd item with
         | [] => []
         | x :: xs =>
             [mkActorDTO (fst item) (mean x xs)
                (Dict.count String.eqb (fst item) actor_count)]
         end)
      actor_promedios in
  sorted actor Str.ltb resultados.

(** Steps 3 to 6 of [execute], on the evaluations that are left. *)
Definition responder (orden_set : orden) (request : PromedioProfesorRequest)
    (evaluaciones : list Evaluacion.t) : result PromedioProfesorResponse :=
  match evaluaciones with
  | [] => Raise IndexError
  | e0 :: _ =>
      Ok (mkResponse (documento request) (Evaluacion.profesor_nombre e0)
            (periodo request)
            (_calcular_promedio_general evaluaciones)
            (List.length evaluaciones)
            (_calcular_por_categoria orden_set evaluaciones)
            (_calcular_por_actor evaluaciones))
  end.

(** Step 2 of [execute]: the period filter. *)
Definition filtrar (request : PromedioProfesorRequest)
    (evaluaciones : list Evaluacion.t) : result (list Evaluacion.t) :=
  if truthy (periodo request) then
    periodo_obj <- Periodo.new (texto_de (periodo request)) ;;
    match filter (fun e => Periodo.eqb (Evaluacion.periodo e) periodo_obj)
            evaluaciones with
    | [] =>
        Raise (ProfesorNotFoundError
                 (documento request ++ Str.latin1 " en período "
                    ++ texto_de (periodo request))%string)
    | evaluaciones' => Ok evaluaciones'
    end
  else Ok evaluaciones.

Definition execute (repo : PandasEvaluacionRepository.t) (orden_set : orden)
    (request : PromedioProfesorRequest) : result PromedioProfesorResponse :=
  match PandasEvaluacionRepository.find_by_profesor repo (documento request) with
  | [] => Raise (ProfesorNotFoundError (documento request))
  | evaluaciones =>
      evaluaciones' <- filtrar request evaluaciones ;;
      responder orden_set request evaluaciones'
  end.

End CalcularPromedioProfesorUseCase.

Module ObtenerPropuestaMejoraUseCase.

Record config : Type := mkConfig {
  default : string;
  keywords : Dict.t string string
}.

(** The table RECOMENDACIONES. *)
Definition RECOMENDACIONES : Dict.t string config :=
  [ (Str.latin1 "PLANEACIÓN DEL PROCESO ENSEÑANZA - APRENDIZAJE - EVALUACIÓN",
     mkConfig
       (Str.latin1 "Revise y actualice la planificación de sus clases, asegurándose de incluir objetivos claros, metodologías apropiadas y criterios de evaluación alineados con las competencias del módulo.")
       [ ("conocimientos actualizados",
          Str.latin1 "Actualice sus conocimientos mediante capacitaciones, lectura de literatura reciente y participación en comunidades académicas de su disciplina.");
         ("programa",
          Str.latin1 "Socialice el programa del módulo desde el inicio del periodo, explicando objetivos, contenidos, metodología y criterios de evaluación.");
         ("plan",
          Str.latin1 "Desarrolle un plan de trabajo detallado que sea coherente con el programa y las necesidades de aprendizaje de los estudiantes.") ]);
    (Str.latin1 "CONDUCCIÓN DEL PROCESO ENSEÑANZA-APRENDIZAJE",
     mkConfig
       (Str.latin1 "Implemente metodologías activas que promuevan la participación estudiantil, el pensamiento crítico y la aplicación práctica del conocimiento.")
       [ ("proyectos de aula",
          Str.latin1 "Diseñe proyectos de aula que conecten la teoría con situaciones reales y promuevan la investigación y creatividad estudiantil.");
         ("recursos",
          Str.latin1 "Incorpore diversos recursos didácticos (TIC, materiales audiovisuales, laboratorios) para enriquecer el proceso de aprendizaje.");
         (Str.latin1 "metodología",
          Str.latin1 "Diversifique las estrategias metodológicas para atender diferentes estilos de aprendizaje y mantener la motivación estudiantil.");
         (Str.latin1 "tecnología",
          Str.latin1 "Integre herramientas tecnológicas (aula virtual, aplicaciones, simuladores) de manera efectiva en sus clases.") ]);
    (Str.latin1 "EVALUACIÓN DEL APRENDIZAJE",
     mkConfig
       (Str.latin1 "Diseñe evaluaciones variadas que midan de forma integral las competencias desarrolladas, proporcionando retroalimentación oportuna y constructiva.")
       [ (Str.latin1 "métodos",
          Str.latin1 "Aplique diferentes métodos de evaluación (pruebas escritas, orales, prácticas, proyectos) según las competencias a valorar.");
         (Str.latin1 "retroalimentación",
          Str.latin1 "Proporcione retroalimentación clara, específica y oportuna que oriente la mejora del aprendizaje estudiantil.");
         ("coherente",
          Str.latin1 "Asegúrese de que las evaluaciones estén alineadas con los objetivos de aprendizaje y las actividades realizadas en clase.");
         ("criterios",
          Str.latin1 "Defina y comunique claramente los criterios de evaluación antes de cada actividad evaluativa.") ]);
    ("COMPONENTE PERSONAL",
     mkConfig
       (Str.latin1 "Fortalezca las relaciones interpersonales en el aula mediante el respeto, la empatía y la comunicación efectiva.")
       [ ("respeto",
          Str.latin1 "Mantenga una actitud de respeto y tolerancia hacia la diversidad de ideas, creencias y características de los estudiantes.");
         ("disciplina",
          Str.latin1 "Establezca normas claras de convivencia y mantenga un ambiente de aprendizaje ordenado y propicio.");
         (Str.latin1 "comunicación",
          Str.latin1 "Desarrolle habilidades de escucha activa y comunicación asertiva para mejorar la interacción con estudiantes.");
         ("puntualidad",
          Str.latin1 "Demuestre responsabilidad y compromiso cumpliendo puntualmente con horarios y compromisos académicos.") ]) ].

Definition RECOMENDACION_GENERICA : string :=
  Str.latin1 "Se recomienda revisar y fortalecer las competencias relacionadas con este aspecto mediante capacitación y reflexión sobre su práctica docente.".

Record RecomendacionMejora : Type := mkRecomendacion {
  codigo_pregunta : string;
  texto_pregunta : string;
  calificacion_promedio : Q;
  recomendacion : string
}.

Record MejoraPorCategoria : Type := mkMejora {
  categoria : string;
  promedio_categoria : Q;
  recomendaciones : list RecomendacionMejora
}.

Record PropuestaMejoraRequest : Type := mkRequest {
  documento : string;
  periodo : option string
}.

Record PropuestaMejoraResponse : Type := mkResponse {
  r_documento : string;
  r_nombre_completo : string;
  r_periodo : option string;
  categorias_a_mejorar : list MejoraPorCategoria
}.

(** The loop [for keyword, recomendacion in items: if keyword in texto_lower:
    return recomendacion]; [None] when it falls through. *)
Fixpoint buscar_keyword (items : list (string * string)) (texto_lower : string)
  : option string :=
  match items with
  | [] => None
  | (keyword, recomendacion) :: rest =>
      if Str.contains keyword texto_lower then Some recomendacion
      else buscar_keyword rest texto_lower
  end.

Definition _obtener_recomendacion (categoria : string) (texto_pregunta : string)
  : string :=
  match Dict.get String.eqb categoria RECOMENDACIONES with
  | None => RECOMENDACION_GENERICA
  | Some config =>
      let texto_lower := Str.lower texto_pregunta in
      match buscar_keyword (keywords config) texto_lower with
      | Some recomendacion => recomendacion
      | None => default config
      end
  end.

(** The nested loops of [_calcular_promedios_por_categoria]. *)
Definition bucle_categorias (evaluaciones : list Evaluacion.t)
  : Dict.t Categoria.t (list Q) :=
  fold_left
    (fun d evaluacion =>
       fold_left
         (fun d item =>
            match snd item with
            | Some calificacion =>
                if negb (Pregunta.es_comentario (fst item))
                then Dict.append Categoria.eqb (Pregunta.categoria (fst item))
                       (Calificacion.valor calificacion) d
                else d
            | None => d
            end)
         (Evaluacion.respuestas evaluacion) d)
    evaluaciones [].

(** [{cat: mean(cals) for cat, cals in items if cals}] *)
Definition _calcular_promedios_por_categoria (evaluaciones : list Evaluacion.t)
  : Dict.t Categoria.t Q :=
  flat_map
    (fun item =>
       match snd item with
       | [] => []
       | x :: xs => [(fst item, statistics_mean x xs)]
       end)
    (bucle_categorias evaluaciones).

(** The nested loops of [_generar_recomendaciones]. *)
Definition bucle_preguntas (categoria : Categoria.t)
    (evaluaciones : list Evaluacion.t) : Dict.t Pregunta.t (list Q) :=
  fold_left
    (fun d evaluacion =>
       fold_left
         (fun d item =>
            if Categoria.eqb (Pregunta.categoria (fst item)) categoria then
              match snd item with
              | Some calificacion =>
                  if negb (Pregunta.es_comentario (fst item))
                  then Dict.append Pregunta.eqb (fst item)
                         (Calificacion.valor calificacion) d
                  else d
              | None => d
              end
            else d)
         (Evaluacion.respuestas evaluacion) d)
    evaluaciones [].

(** The second loop of [_generar_recomendaciones]; [mean] of an empty list
    raises. *)
Fixpoint recomendar (categoria_nombre : string)
    (items : list (Pregunta.t * list Q)) : result (list RecomendacionMejora) :=
  match items with
  | [] => Ok []
  | (pregunta, calificaciones) :: rest =>
      match calificaciones with
      | [] => Raise StatisticsError
      | x :: xs =>
          let promedio := statistics_mean x xs in
          resto <- recomendar categoria_nombre rest ;;
          Ok (if Qltb promedio 4
              then mkRecomendacion (Pregunta.codigo pregunta)
                     (Pregunta.texto pregunta) promedio
                     (_obtener_recomendacion categoria_nombre
                        (Pregunta.texto pregunta)) :: resto
              else resto)
      end
  end.

Definition _generar_recomendaciones (categoria : Categoria.t)
    (evaluaciones : list Evaluacion.t) : result (list RecomendacionMejora) :=
  recomendaciones <-
    recomendar (Categoria.value categoria) (bucle_preguntas categoria evaluaciones) ;;
  Ok (sorted calificacion_promedio Qltb recomendaciones).

(** The loop of [execute] over [categorias_promedios.items()]. *)
Fixpoint mejorar (evaluaciones : list Evaluacion.t)
    (items : list (Categoria.t * Q)) : result (list MejoraPorCategoria) :=
  match items with
  | [] => Ok []
  | (categoria, promedio) :: rest =>
      if Qltb promedio 4 then
        recomendaciones <- _generar_recomendaciones categoria evaluaciones ;;
        resto <- mejorar evaluaciones rest ;;
        Ok (match recomendaciones with
            | [] => resto
            | _ :: _ =>
                mkMejora (Categoria.value categoria) promedio recomendaciones :: resto
            end)
      else mejorar evaluaciones rest
  end.

Definition filtrar (request : PropuestaMejoraRequest)
    (evaluaciones : list Evaluacion.t) : list Evaluacion.t :=
  if truthy (periodo request)
  then filter (fun ev => String.eqb (Periodo.valor (Evaluacion.periodo ev))
                           (texto_de (periodo request))) evaluaciones
  else evaluaciones.

Definition execute (repo : PandasEvaluacionRepository.t)
    (request : PropuestaMejoraRequest) : result PropuestaMejoraResponse :=
  match PandasEvaluacionRepository.find_by_profesor repo (documento request) with
  | [] => Raise (ProfesorNotFoundError (documento request))
  | (e0 :: _) as evaluaciones =>
      let profesor_nombre := Evaluacion.profesor_nombre e0 in
      match filtrar request evaluaciones with
      | [] =>
          Raise (ProfesorNotFoundError
                   (Str.latin1 "No se encontraron evaluaciones para el profesor "
                      ++ documento request)%string)
      | evaluaciones' =>
          categorias <-
            mejorar evaluaciones' (_calcular_promedios_por_categoria evaluaciones') ;;
          Ok (mkResponse (documento request) profesor_nombre (periodo request)
                categorias)
      end
  end.

End ObtenerPropuestaMejoraUseCase.

Module ObtenerDetalleEvaluacionUseCase.

Record RespuestaPreguntaDTO : Type := mkRespuesta {
  codigo_pregunta : string;
  texto_pregunta : string;
  categoria : string;
  calificacion : option Q;
  tipo_formulario : string
}.

Record DetalleEvaluacionRequest : Type := mkRequest {
  documento : string;
  periodo : option string
}.

Record DetalleEvaluacionResponse : Type := mkResponse {
  r_documento : string;
  r_nombre_completo : string;
  r_periodo : option string;
  total_evaluaciones : nat;
  respuestas : list RespuestaPreguntaDTO
}.

Definition filtrar (request : DetalleEvaluacionRequest)
    (evaluaciones : list Evaluacion.t) : list Evaluacion.t :=
  if truthy (periodo request)
  then filter (fun ev => String.eqb (Periodo.valor (Evaluacion.periodo ev))
                           (texto_de (periodo request))) evaluaciones
  else evaluaciones.

Definition execute (repo : PandasEvaluacionRepository.t)
    (request : DetalleEvaluacionRequest) : result DetalleEvaluacionResponse :=
  match PandasEvaluacionRepository.find_by_profesor repo (documento request) with
  | [] => Raise (ProfesorNotFoundError (documento request))
  | (e0 :: _) as evaluaciones =>
      let profesor_nombre := Evaluacion.profesor_nombre e0 in
      match filtrar request evaluaciones with
      | [] =>
          let periodo_msg :=
            if truthy (periodo request)
            then (Str.latin1 " en el período " ++ texto_de (periodo request))%string
            else EmptyString in
          Raise (ProfesorNotFoundError
                   (Str.latin1 "No se encontraron evaluaciones para el profesor "
                      ++ documento request ++ periodo_msg)%string)
      | evaluaciones' =>
          Ok (mkResponse (documento request) profesor_nombre (periodo request)
                (List.length evaluaciones')
                (flat_map
                   (fun evaluacion =>
                      map (fun item =>
                             mkRespuesta (Pregunta.codigo (fst item))
                               (Pregunta.texto (fst item))
                               (Categoria.value (Pregunta.categoria (fst item)))
                               (option_map Calificacion.valor (snd item))
                               (Evaluacion.tipo_formulario evaluacion))
                        (Evaluacion.respuestas evaluacion))
                   evaluaciones'))
      end
  end.

End ObtenerDetalleEvaluacionUseCase.

(* ================================================================== *)
(** * The repositories as objects: list objects in a store

    The queries hand list objects to their callers, who may mutate them.
    Here every Python list is an object of a store, named by its address;
    the repositories hold addresses, and a query allocates what the source
    allocates ([[]], [.copy()], a comprehension). *)

Module Objetos.

Section Store.
Variable A : Type.

Definition store : Type := list (list A).
Definition addr : Type := nat.

(** A new list object. *)
Definition alloc (l : list A) (h : store) : addr * store :=
  (List.length h, h ++ [l]).

(** The contents of a list object ([[]] for an address never allocated). *)
Definition contents (a : addr) (h : store) : list A := nth a h [].

Definition allocated (a : addr) (h : store) : Prop := (a < List.length h)%nat.

(** Any mutation of the list object [a] (append, remove, item or slice
    assignment, clear, sort...) leaves it with some contents [l]. *)
Fixpoint mutate (a : addr) (l : list A) (h : store) : store :=
  match h, a with
  | [], _ => []
  | _ :: h', O => l :: h'
  | x :: h', S a' => x :: mutate a' l h'
  end.

(** [l.copy()] *)
Definition copy (a : addr) (h : store) : addr * store :=
  alloc (contents a h) h.

(** [index.get(k, []).copy()]: the default [[]] is allocated before the
    lookup. *)
Definition get_copy {K} (eqb : K -> K -> bool) (k : K) (index : Dict.t K addr)
    (h : store) : addr * store :=
  let (vacia, h1) := alloc [] h in
  copy (match Dict.get eqb k index with Some a => a | None => vacia end) h1.

(** The index built by a [defaultdict(list)] loop and [dict(index)]: one
    new list object per key. *)
Fixpoint alloc_index {K} (grupos : Dict.t K (list A)) (h : store)
  : Dict.t K addr * store :=
  match grupos with
  | [] => ([], h)
  | (k, l) :: rest =>
      let (a, h1) := alloc l h in
      let (index, h2) := alloc_index rest h1 in
      ((k, a) :: index, h2)
  end.

(** What an index holds, read through the store. *)
Definition read_index {K} (index : Dict.t K addr) (h : store)
  : Dict.t K (list A) :=
  map (fun ka => (fst ka, contents (snd ka) h)) index.

Definition index_allocated {K} (index : Dict.t K addr) (h : store) : Prop :=
  Forall (fun ka => allocated (snd ka) h) index.
End Store.

Module EvaluacionRepository.

Record t : Type := mk {
  _evaluaciones : addr;
  _by_id : Dict.t string Evaluacion.t;
  _by_profesor : Dict.t string addr;
  _by_periodo : Dict.t Periodo.t addr;
  _by_tipo_formulario : Dict.t string addr
}.

(** [PandasEvaluacionRepository(evaluaciones)]: the list given by the
    caller is kept as it is, the index lists are new objects. *)
Definition init (evaluaciones : addr) (h : store Evaluacion.t)
  : t * store Evaluacion.t :=
  let l := contents evaluaciones h in
  let (by_profesor, h1) :=
    alloc_index (PandasEvaluacionRepository._build_profesor_index l) h in
  let (by_periodo, h2) :=
    alloc_index (PandasEvaluacionRepository._build_periodo_index l) h1 in
  let (by_tipo, h3) :=
    alloc_index (PandasEvaluacionRepository._build_tipo_formulario_index l) h2 in
  (mk evaluaciones
      (fold_left (fun d e => Dict.set String.eqb (Evaluacion.id e) e d) l [])
      by_profesor by_periodo by_tipo,
   h3).

(** The queries that return a sequence. *)
Inductive consulta : Type :=
| find_all
| find_by_profesor (documento : string)
| find_by_periodo (periodo : Periodo.t)
| find_by_profesor_and_periodo (documento : string) (periodo : Periodo.t)
| find_by_tipo_formulario (tipo : string).

Definition run (q : consulta) (r : t) (h : store Evaluacion.t)
  : addr * store Evaluacion.t :=
  match q with
  | find_all => copy (_evaluaciones r) h
  | find_by_profesor documento =>
      get_copy String.eqb documento (_by_profesor r) h
  | find_by_periodo periodo =>
      get_copy Periodo.eqb periodo (_by_periodo r) h
  | find_by_profesor_and_periodo documento periodo =>
      let (vacia, h1) := alloc [] h in
      let evaluaciones_profesor :=
        match Dict.get String.eqb documento (_by_profesor r) with
        | Some a => a
        | None => vacia
        end in
      alloc (filter (fun e => Periodo.eqb (Evaluacion.periodo e) periodo)
               (contents evaluaciones_profesor h1)) h1
  | find_by_tipo_formulario tipo =>
      get_copy String.eqb tipo (_by_tipo_formulario r) h
  end.

(** The repository's collections and indexes, read through the store. *)
Definition estado (r : t) (h : store Evaluacion.t)
  : PandasEvaluacionRepository.t :=
  PandasEvaluacionRepository.mk
    (contents (_evaluaciones r) h)
    (_by_id r)
    (read_index (_by_profesor r) h)
    (read_index (_by_periodo r) h)
    (read_index (_by_tipo_formulario r) h).

Definition bien_formado (r : t) (h : store Evaluacion.t) : Prop :=
  allocated (_evaluaciones r) h /\
  index_allocated (_by_profesor r) h /\
  index_allocated (_by_periodo r) h /\
  index_allocated (_by_tipo_formulario r) h.

End EvaluacionRepository.

Module PreguntaRepository.

Record t : Type := mk {
  _preguntas : addr;
  _by_codigo : Dict.t string Pregunta.t;
  _by_categoria : Dict.t Categoria.t addr
}.

Definition init (preguntas : addr) (h : store Pregunta.t)
  : t * store Pregunta.t :=
  let l := contents preguntas h in
  let (by_categoria, h1) :=
    alloc_index (PandasPreguntaRepository._build_categoria_index l) h in
  (mk preguntas
      (fold_left (fun d p => Dict.set String.eqb (Pregunta.codigo p) p d) l [])
      by_categoria,
   h1).

Inductive consulta : Type :=
| find_all
| find_by_categoria (categoria : Categoria.t).

Definition run (q : consulta) (r : t) (h : store Pregunta.t)
  : addr * store Pregunta.t :=
  match q with
  | find_all => copy (_preguntas r) h
  | find_by_categoria categoria =>
      get_copy Categoria.eqb categoria (_by_categoria r) h
  end.

Definition estado (r : t) (h : store Pregunta.t) : PandasPreguntaRepository.t :=
  PandasPreguntaRepository.mk
    (contents (_preguntas r) h)
    (_by_codigo r)
    (read_index (_by_categoria r) h).

Definition bien_formado (r : t) (h : store Pregunta.t) : Prop :=
  allocated (_preguntas r) h /\ index_allocated (_by_categoria r) h.

End PreguntaRepository.

End Objetos.

(* ================================================================== *)
(** * Definitions the properties are stated with *)

(** The strings [Periodo.PATTERN] accepts, spelled out: four digits, a
    dash, 1 or 2, and then the end of the string or one last newline. *)
Definition uno_o_dos (c : ascii) : bool :=
  Ascii.eqb c "1"%char || Ascii.eqb c "2"%char.

Definition forma (s : string) : bool :=
  match s with
  | String d1 (String d2 (String d3 (String d4 (String g (String t r))))) =>
      Str.is_digit d1 && Str.is_digit d2 && Str.is_digit d3 && Str.is_digit d4 &&
      Ascii.eqb g "-"%char && uno_o_dos t && Re.at_end r
  | _ => false
  end.

Definition valor_digito (c : ascii) : Z := Z.of_nat (nat_of_ascii c - 48).

(** Text of ASCII characters only, and the exact shape YYYY-S of a period:
    six ASCII characters, which for a text the pattern accepts are four
    digits 0-9, a dash and 1 or 2, with no newline after them. *)
Definition solo_ascii (s : string) : bool :=
  forallb (fun c => (nat_of_ascii c <? 128)%nat) (list_ascii_of_string s).



(** No two items of the dictionary have the same key. *)
Inductive claves_distintas {K V : Type} (eqb : K -> K -> bool) : Dict.t K V -> Prop :=
| cd_nil : claves_distintas eqb []
| cd_cons k v d :
    Dict.get eqb k d = None -> claves_distintas eqb d ->
    claves_distintas eqb ((k, v) :: d).

(** The values that come with the key [k] in a sequence of pairs, in order,
    and the number of times a key occurs. *)
Definition valores_de {K X : Type} (eqb : K -> K -> bool) (k : K)
    (kxs : list (K * X)) : list X :=
  map snd (filter (fun kx => eqb (fst kx) k) kxs).

Definition veces {K : Type} (eqb : K -> K -> bool) (k : K) (ks : list K) : nat :=
  List.length (filter (fun k' => eqb k' k) ks).

(** Adjacent elements of a sequence sorted by [key]: never descending. *)
Definition no_desciende {A B : Type} (key : A -> B) (ltb : B -> B -> bool)
    (a b : A) : Prop :=
  ltb (key b) (key a) = false.

(** ** The overall average, in the words of the specification *)

(** The ratings of an evaluation that count: not [None], and on a question
    outside the category Comments. *)
Definition calificaciones_validas (e : Evaluacion.t) : list Q :=
  flat_map
    (fun item =>
       match snd item with
       | Some cal =>
           if Pregunta.es_comentario (fst item) then [] else [Calificacion.valor cal]
       | None => []
       end)
    (Evaluacion.respuestas e).

Definition cociente (suma : Q) (n : nat) : Q := (suma / inject_Z (Z.of_nat n))%Q.

(** The mean of an evaluation: 0.0 when no rating counts. *)
Definition promedio_de_evaluacion (e : Evaluacion.t) : Q :=
  match List.length (calificaciones_validas e) with
  | O => 0%Q
  | n => cociente (Qsum (calificaciones_validas e)) n
  end.

(** The mean of the means of the evaluations, every evaluation counted once,
    the ones of mean 0.0 too. *)
Definition promedio_de_promedios (evaluaciones : list Evaluacion.t) : Q :=
  cociente (Qsum (map promedio_de_evaluacion evaluaciones)) (List.length evaluaciones).

(** The evaluations a request is about: the ones of the document and, when
    a period is given (a non-empty string), of that period. *)
Definition evaluaciones_consultadas (evaluaciones : list Evaluacion.t)
    (documento : string) (periodo : option string) : list Evaluacion.t :=
  let del_profesor :=
    filter (fun e => String.eqb (Evaluacion.profesor_documento e) documento)
      evaluaciones in
  if truthy periodo
  then filter (fun e => String.eqb (Periodo.valor (Evaluacion.periodo e))
                          (texto_de periodo)) del_profesor
  else del_profesor.

(** ** The data of tests/unit/test_calcular_promedio_profesor.py *)

Definition pregunta_P364 : Pregunta.t :=
  Pregunta.mk "P364" Categoria.ENSENANZA_APRENDIZAJE "Pregunta de prueba".

Definition eval1 : Evaluacion.t :=
  Evaluacion.agregar_respuesta
    (Evaluacion.mk "1" "123456" (Str.latin1 "Juan Pérez")
       (Periodo.mk "2025-1" eq_refl) "ESTUDIANTE V3" [])
    pregunta_P364 (Some (Calificacion.mk 3 eq_refl)).

Definition eval2 : Evaluacion.t :=
  Evaluacion.agregar_respuesta
    (Evaluacion.mk "2" "123456" (Str.latin1 "Juan Pérez")
       (Periodo.mk "2025-2" eq_refl) "ESTUDIANTE V3" [])
    pregunta_P364 (Some (Calificacion.mk 5 eq_refl)).

(** ** The grouped averages, in the words of the specification *)

Definition no_es_cero (m : Q) : bool := negb (Qeq_bool m 0).

(** The category means of the evaluations that qualify for the category
    [c]: the ones whose mean in the category is not exactly 0.0. *)
Definition promedios_de_categoria (c : Categoria.t)
    (evaluaciones : list Evaluacion.t) : list Q :=
  filter no_es_cero
    (map (fun e => Evaluacion.calcular_promedio_por_categoria e c) evaluaciones).

(** The overall means of the evaluations of the evaluator type [t] whose
    mean is not exactly 0.0. *)
Definition promedios_de_actor (t : string) (evaluaciones : list Evaluacion.t)
  : list Q :=
  filter no_es_cero
    (map Evaluacion.calcular_promedio_general
       (filter (fun e => String.eqb (Evaluacion.tipo_formulario e) t) evaluaciones)).

(** The same in the words of the specification. The mean of an evaluation
    within a category is taken over its answered ratings on the questions
    of the category and is 0.0 when there is none; the evaluation qualifies
    for the category when that mean is not exactly 0.0. *)
Definition calificaciones_respondidas (c : Categoria.t) (e : Evaluacion.t) : list Q :=
  flat_map
    (fun item =>
       match snd item with
       | Some cal =>
           if Categoria.eqb (Pregunta.categoria (fst item)) c
           then [Calificacion.valor cal] else []
       | None => []
       end)
    (Evaluacion.respuestas e).

Definition promedio_en_categoria (c : Categoria.t) (e : Evaluacion.t) : Q :=
  match List.length (calificaciones_respondidas c e) with
  | O => 0%Q
  | n => cociente (Qsum (calificaciones_respondidas c e)) n
  end.

Definition califica_en (c : Categoria.t) (e : Evaluacion.t) : bool :=
  no_es_cero (promedio_en_categoria c e).

(** The means in the category [c] of the evaluations that qualify for it,
    and the overall means of the evaluations of the evaluator type [t]
    whose overall mean is not exactly 0.0. *)
Definition medias_de_categoria (c : Categoria.t) (evaluaciones : list Evaluacion.t)
  : list Q :=
  map (promedio_en_categoria c) (filter (califica_en c) evaluaciones).

Definition medias_de_actor (t : string) (evaluaciones : list Evaluacion.t) : list Q :=
  map promedio_de_evaluacion
    (filter (fun e => String.eqb (Evaluacion.tipo_formulario e) t
                      && no_es_cero (promedio_de_evaluacion e))
       evaluaciones).

(** An iteration order of the sets [categorias_evaluadas()]: every element
    of the set, once. *)
Definition iteracion_de_conjuntos
    (orden_set : CalcularPromedioProfesorUseCase.orden) : Prop :=
  forall e : Evaluacion.t,
    NoDup (orden_set e) /\
    (forall c, In c (orden_set e) <-> In c (Evaluacion.categorias_evaluadas e)).

(** The pairs (key, mean) the grouping loops of the average calculator
    record, in the order they record them. *)
Definition visitas_de_evaluacion (e : Evaluacion.t) (cs : list Categoria.t)
  : list (Categoria.t * Q) :=
  flat_map
    (fun c =>
       if negb (Categoria.eqb c Categoria.COMENTARIOS) then
         if Qltb 0 (Evaluacion.calcular_promedio_por_categoria e c)
         then [(c, Evaluacion.calcular_promedio_por_categoria e c)]
         else []
       else [])
    cs.

Definition visitas_categoria (orden_set : CalcularPromedioProfesorUseCase.orden)
    (evaluaciones : list Evaluacion.t) : list (Categoria.t * Q) :=
  flat_map (fun e => visitas_de_evaluacion e (orden_set e)) evaluaciones.

Definition visitas_actor (evaluaciones : list Evaluacion.t) : list (string * Q) :=
  flat_map
    (fun e =>
       if Qltb 0 (Evaluacion.calcular_promedio_general e)
       then [(Evaluacion.tipo_formulario e, Evaluacion.calcular_promedio_general e)]
       else [])
    evaluaciones.

(** Recording a sequence of pairs in the two dictionaries of a grouping
    loop. *)
Definition anotar_todo {K : Type} (eqb : K -> K -> bool) (kxs : list (K * Q))
    (st : CalcularPromedioProfesorUseCase.grupos K)
  : CalcularPromedioProfesorUseCase.grupos K :=
  (fold_left (fun d kx => Dict.append eqb (fst kx) (snd kx) d) kxs (fst st),
   fold_left (fun d k => Dict.incr eqb k d) (map fst kxs) (snd st)).

(** The last loop of a grouped average: one DTO per key with a non-empty
    list of means. *)
Definition resultados_de {K DTO : Type} (eqb : K -> K -> bool)
    (mk : K -> Q -> nat -> DTO)
    (st : CalcularPromedioProfesorUseCase.grupos K) : list DTO :=
  flat_map
    (fun item =>
       match snd item with
       | [] => []
       | x :: xs => [mk (fst item) (mean x xs) (Dict.count eqb (fst item) (snd st))]
       end)
    (fst st).

(** The evaluation of test_agrupa_por_categoria_correctamente. *)
Definition evaluacion_dos_categorias : Evaluacion.t :=
  Evaluacion.agregar_respuesta
    (Evaluacion.agregar_respuesta
       (Evaluacion.mk "1" "123456" (Str.latin1 "Juan Pérez")
          (Periodo.mk "2025-2" eq_refl) "ESTUDIANTE V3" [])
       (Pregunta.mk "P364" Categoria.ENSENANZA_APRENDIZAJE "Pregunta 1")
       (Some (Calificacion.mk 4 eq_refl)))
    (Pregunta.mk "P376" Categoria.EVALUACION "Pregunta 2")
    (Some (Calificacion.mk 5 eq_refl)).

(** An evaluation with real rating data: at least one answered rating on a
    question outside Comments, or on a question of the category [c]. *)
Definition con_calificaciones (e : Evaluacion.t) : bool :=
  match calificaciones_validas e with [] => false | _ :: _ => true end.

Definition con_calificaciones_en (c : Categoria.t) (e : Evaluacion.t) : bool :=
  match Evaluacion.calificaciones (fun p => Pregunta.pertenece_a_categoria p c)
          (Evaluacion.respuestas e) with
  | [] => false
  | _ :: _ => true
  end.

(** ** The recommendation engine, in the words of the specification *)

(** The flat mean of a list of ratings, as a float: the float nearest to
    sum / count, 0.0 for no rating. *)
Definition promedio_plano (l : list Q) : Q := Float.redondear (mean_or_zero l).

(** 4 - 2^-52, half-way between 4.0 and the float before it. *)
Definition umbral_4 : Q := (4 - (1 # 2) ^ 52)%Q.

(** All the individual answered ratings, over all the evaluations, on the
    questions of the category [c]; on the questions of [c] with the code
    [codigo]; and the questions of [c] that have an answered rating. *)
Definition calificaciones_de_categoria (c : Categoria.t)
    (evaluaciones : list Evaluacion.t) : list Q :=
  flat_map
    (fun e =>
       flat_map
         (fun item =>
            match snd item with
            | Some cal =>
                if Categoria.eqb (Pregunta.categoria (fst item)) c
                then [Calificacion.valor cal] else []
            | None => []
            end)
         (Evaluacion.respuestas e))
    evaluaciones.

Definition calificaciones_de_pregunta (c : Categoria.t) (codigo : string)
    (evaluaciones : list Evaluacion.t) : list Q :=
  flat_map
    (fun e =>
       flat_map
         (fun item =>
            match snd item with
            | Some cal =>
                if Categoria.eqb (Pregunta.categoria (fst item)) c
                   && String.eqb (Pregunta.codigo (fst item)) codigo
                then [Calificacion.valor cal] else []
            | None => []
            end)
         (Evaluacion.respuestas e))
    evaluaciones.

Definition preguntas_calificadas (c : Categoria.t)
    (evaluaciones : list Evaluacion.t) : list Pregunta.t :=
  flat_map
    (fun e =>
       flat_map
         (fun item =>
            match snd item with
            | Some _ =>
                if Categoria.eqb (Pregunta.categoria (fst item)) c
                then [fst item] else []
            | None => []
            end)
         (Evaluacion.respuestas e))
    evaluaciones.

(** [keyword] is a substring of [texto], letter case apart. *)
Definition contiene_sin_distinguir (keyword texto : string) : bool :=
  Str.contains (Str.lower keyword) (Str.lower texto).

(** The text of a recommendation: the entry of the category in the table,
    in it the first keyword, in the order of the table, that the question's
    text contains letter case apart, else the default text of the category;
    the generic text when the category has no entry. *)
Definition recomendacion_segun_tabla (categoria texto : string) : string :=
  match find (fun entrada => String.eqb (fst entrada) categoria)
          ObtenerPropuestaMejoraUseCase.RECOMENDACIONES with
  | None => ObtenerPropuestaMejoraUseCase.RECOMENDACION_GENERICA
  | Some (_, config) =>
      match find (fun kr => contiene_sin_distinguir (fst kr) texto)
              (ObtenerPropuestaMejoraUseCase.keywords config) with
      | Some (_, recomendacion) => recomendacion
      | None => ObtenerPropuestaMejoraUseCase.default config
      end
  end.

(** The pairs the grouping loops of the recommendation engine record. *)
Definition visitas_mejora (evaluaciones : list Evaluacion.t)
  : list (Categoria.t * Q) :=
  flat_map
    (fun e =>
       flat_map
         (fun item =>
            match snd item with
            | Some cal =>
                if negb (Pregunta.es_comentario (fst item))
                then [(Pregunta.categoria (fst item), Calificacion.valor cal)]
                else []
            | None => []
            end)
         (Evaluacion.respuestas e))
    evaluaciones.

Definition visitas_preguntas (c : Categoria.t) (evaluaciones : list Evaluacion.t)
  : list (Pregunta.t * Q) :=
  flat_map
    (fun e =>
       flat_map
         (fun item =>
            if Categoria.eqb (Pregunta.categoria (fst item)) c then
              match snd item with
              | Some cal =>
                  if negb (Pregunta.es_comentario (fst item))
                  then [(fst item, Calificacion.valor cal)]
                  else []
              | None => []
              end
            else [])
         (Evaluacion.respuestas e))
    evaluaciones.

(** A question of the category Planning whose text holds a keyword of the
    table in capitals, rated 3.0; and one rated 4.5. *)
Definition evaluacion_planeacion : Evaluacion.t :=
  Evaluacion.agregar_respuesta
    (Evaluacion.agregar_respuesta
       (Evaluacion.mk "7" "123456" (Str.latin1 "Juan Pérez")
          (Periodo.mk "2025-2" eq_refl) "ESTUDIANTE V3" [])
       (Pregunta.mk "P147" Categoria.PLANEACION
          "El docente socializa el PROGRAMA y el plan de trabajo")
       (Some (Calificacion.mk 3 eq_refl)))
    (Pregunta.mk "P148" Categoria.PLANEACION "El docente llega a tiempo")
    (Some (Calificacion.mk (9 # 2) eq_refl)).

(** The same two questions rated with the floats nearest to 3.9 and
    4.1. *)
Definition float_3_9 : Q := Eval vm_compute in Float.redondear (39 # 10).
Definition float_4_1 : Q := Eval vm_compute in Float.redondear (41 # 10).

Definition evaluacion_limite : Evaluacion.t :=
  Evaluacion.agregar_respuesta
    (Evaluacion.agregar_respuesta
       (Evaluacion.mk "8" "123456" (Str.latin1 "Juan Pérez")
          (Periodo.mk "2025-2" eq_refl) "ESTUDIANTE V3" [])
       (Pregunta.mk "P147" Categoria.PLANEACION
          "El docente socializa el PROGRAMA y el plan de trabajo")
       (Some (Calificacion.mk float_3_9 eq_refl)))
    (Pregunta.mk "P148" Categoria.PLANEACION "El docente llega a tiempo")
    (Some (Calificacion.mk float_4_1 eq_refl)).

(** The recommendation of one group of [_generar_recomendaciones], and the
    recommendations of a category when no mean raises. *)
Definition recomendacion_de_grupo (categoria_nombre : string)
    (item : Pregunta.t * list Q) : list ObtenerPropuestaMejoraUseCase.RecomendacionMejora :=
  if Qltb (promedio_plano (snd item)) 4
  then [ObtenerPropuestaMejoraUseCase.mkRecomendacion
          (Pregunta.codigo (fst item)) (Pregunta.texto (fst item))
          (promedio_plano (snd item))
          (ObtenerPropuestaMejoraUseCase._obtener_recomendacion categoria_nombre
             (Pregunta.texto (fst item)))]
  else [].

Definition recomendaciones_de (c : Categoria.t) (evaluaciones : list Evaluacion.t)
  : list ObtenerPropuestaMejoraUseCase.RecomendacionMejora :=
  sorted ObtenerPropuestaMejoraUseCase.calificacion_promedio Qltb
    (flat_map (recomendacion_de_grupo (Categoria.value c))
       (Dict.group Pregunta.eqb (visitas_preguntas c evaluaciones))).

Definition keywords_en_minusculas
    (config : ObtenerPropuestaMejoraUseCase.config) : bool :=
  forallb (fun kr => String.eqb (Str.lower (fst kr)) (fst kr))
    (ObtenerPropuestaMejoraUseCase.keywords config).

(** ** The queries, on the contents of a repository *)

Definition respuesta_evaluaciones (q : Objetos.EvaluacionRepository.consulta)
    (r : PandasEvaluacionRepository.t) : list Evaluacion.t :=
  match q with
  | Objetos.EvaluacionRepository.find_all => PandasEvaluacionRepository.find_all r
  | Objetos.EvaluacionRepository.find_by_profesor documento =>
      PandasEvaluacionRepository.find_by_profesor r documento
  | Objetos.EvaluacionRepository.find_by_periodo periodo =>
      PandasEvaluacionRepository.find_by_periodo r periodo
  | Objetos.EvaluacionRepository.find_by_profesor_and_periodo documento periodo =>
      PandasEvaluacionRepository.find_by_profesor_and_periodo r documento periodo
  | Objetos.EvaluacionRepository.find_by_tipo_formulario tipo =>
      PandasEvaluacionRepository.find_by_tipo_formulario r tipo
  end.

Definition respuesta_preguntas (q : Objetos.PreguntaRepository.consulta)
    (r : PandasPreguntaRepository.t) : list Pregunta.t :=
  match q with
  | Objetos.PreguntaRepository.find_all => PandasPreguntaRepository.find_all r
  | Objetos.PreguntaRepository.find_by_categoria categoria =>
      PandasPreguntaRepository.find_by_categoria r categoria
  end.

(** What a query does to the store: it only adds objects, and the object
    it returns is one of them. *)
Definition solo_agrega {A : Type} (h : Objetos.store A) (a : Objetos.addr)
    (h1 : Objetos.store A) : Prop :=
  (List.length h <= a < List.length h1)%nat /\ exists nuevos, h1 = h ++ nuevos.

(** ** The aggregates of [get_profesores] *)

(** What the dictionary of [get_profesores] holds once the loop has gone
    through the evaluations [l]: one teacher per document met, named after
    one of the evaluations of the document, with evaluations of the document
    only, no id twice, and every evaluation of the document represented by
    an evaluation with its id. *)
Definition profesores_de (l : list Evaluacion.t) (d : Dict.t string Profesor.t)
  : Prop :=
  claves_distintas String.eqb d /\
  (forall k p,
      In (k, p) d ->
      Profesor.documento p = k /\
      (exists e, In e l /\ Evaluacion.profesor_documento e = k /\
                 Profesor.nombre_completo p = Evaluacion.profesor_nombre e) /\
      NoDup (map Evaluacion.id (Profesor.evaluaciones p)) /\
      (forall e, In e (Profesor.evaluaciones p) ->
                 In e l /\ Evaluacion.profesor_documento e = k) /\
      (forall e, In e l -> Evaluacion.profesor_documento e = k ->
                 exists e', In e' (Profesor.evaluaciones p) /\
                            Evaluacion.id e' = Evaluacion.id e)) /\
  (forall e, In e l -> exists p, In (Evaluacion.profesor_documento e, p) d).


(* ================================================================== *)
(** * More of the domain *)

(** ** Upper case

    [str.upper] can leave the code points below 256 (the micro sign, y with
    diaeresis) and change the length (sharp s becomes SS): its result is
    kept as a sequence of code points. *)

Module Unicode.

Definition of_string (s : string) : list N :=
  map N_of_ascii (list_ascii_of_string s).

Definition upper_char (c : ascii) : list N :=
  let n := N_of_ascii c in
  if Str.in_range 97 122 c || Str.in_range 224 246 c || Str.in_range 248 254 c
  then [(n - 32)%N]
  else if (n =? 181)%N then [924%N]
  else if (n =? 223)%N then [83%N; 83%N]
  else if (n =? 255)%N then [376%N]
  else [n].

Fixpoint upper (s : string) : list N :=
  match s with
  | EmptyString => []
  | String c s' => upper_char c ++ upper s'
  end.

(** [a == b] *)
Fixpoint eqb (a b : list N) : bool :=
  match a, b with
  | [], [] => true
  | x :: a', y :: b' => (x =? y)%N && eqb a' b'
  | _, _ => false
  end.

Fixpoint prefix (k s : list N) : bool :=
  match k, s with
  | [], _ => true
  | x :: k', y :: s' => (x =? y)%N && prefix k' s'
  | _ :: _, [] => false
  end.

(** [k in s] *)
Fixpoint contains (k s : list N) : bool :=
  prefix k s ||
  match s with
  | [] => false
  | _ :: s' => contains k s'
  end.

End Unicode.

(** ** The other methods of the value objects and entities *)

(** [Categoria.from_string]: the members are visited in definition order. *)
Definition Categoria_from_string (valor : string) : result Categoria.t :=
  let valor_normalizado := Unicode.upper (Str.strip valor) in
  match find (fun categoria =>
                Unicode.eqb (Unicode.upper (Categoria.value categoria))
                  valor_normalizado)
          Categoria.all with
  | Some categoria => Ok categoria
  | None => Raise (ValueError (Str.latin1 "Categoría no reconocida: " ++ valor)%string)
  end.

(** [Periodo.es_mismo_anio]; [None] when the property [anio] raises. *)
Definition Periodo_es_mismo_anio (p otro : Periodo.t) : option bool :=
  match Periodo.anio p, Periodo.anio otro with
  | Some a, Some b => Some (a =? b)%Z
  | _, _ => None
  end.

(** [Periodo.__str__] *)
Definition Periodo_str (p : Periodo.t) : string := Periodo.valor p.

(** [Evaluacion.obtener_respuestas_por_categoria]: a dict comprehension
    stores its pairs one by one in a new dictionary. *)
Definition Evaluacion_obtener_respuestas_por_categoria (e : Evaluacion.t)
    (categoria : Categoria.t) : Dict.t Pregunta.t Calificacion.t :=
  fold_left
    (fun d item =>
       match snd item with
       | Some cal =>
           if Pregunta.pertenece_a_categoria (fst item) categoria
           then Dict.set Pregunta.eqb (fst item) cal d
           else d
       | None => d
       end)
    (Evaluacion.respuestas e) [].

(** [Evaluacion.es_autoevaluacion] and [Evaluacion.es_evaluacion_estudiante] *)
Definition Evaluacion_es_autoevaluacion (e : Evaluacion.t) : bool :=
  Unicode.contains (Unicode.of_string (Str.latin1 "AUTOEVALUACIÓN"))
    (Unicode.upper (Evaluacion.tipo_formulario e)).

Definition Evaluacion_es_evaluacion_estudiante (e : Evaluacion.t) : bool :=
  Unicode.contains (Unicode.of_string "ESTUDIANTE")
    (Unicode.upper (Evaluacion.tipo_formulario e)).

(** [Profesor.tiene_evaluaciones] *)
Definition Profesor_tiene_evaluaciones (p : Profesor.t) : bool :=
  (0 <? List.length (Profesor.evaluaciones p))%nat.

(** ** Definitions the further properties are stated with *)

(** The place of a performance level among the five levels. *)
Definition rango_de_nivel (nivel : string) : nat :=
  if String.eqb nivel "Excelente" then 4
  else if String.eqb nivel "Sobresaliente" then 3
  else if String.eqb nivel "Bueno" then 2
  else if String.eqb nivel "Aceptable" then 1
  else 0.

(** The first four characters of a string. *)
Definition cuatro_primeros (s : string) : string := substring 0 4 s.

(** The answered ratings an evaluation holds in a category, and their
    number. *)
Definition calificaciones_en (c : Categoria.t) (e : Evaluacion.t) : list Q :=
  Evaluacion.calificaciones (fun p => Pregunta.pertenece_a_categoria p c)
    (Evaluacion.respuestas e).


(** The answered pairs of an evaluation in a category, in the order of the
    evaluation. *)
Definition respuestas_de_categoria (c : Categoria.t) (e : Evaluacion.t)
  : list (Pregunta.t * Calificacion.t) :=
  flat_map
    (fun item =>
       match snd item with
       | Some cal =>
           if Pregunta.pertenece_a_categoria (fst item) c
           then [(fst item, cal)] else []
       | None => []
       end)
    (Evaluacion.respuestas e).

(* ================================================================== *)
(** * API: response models and routes *)

Module Rutas.

(** What a route answers: the body, or [HTTPException(status_code, detail)].
    The detail is built from [str(e)] of the exception caught, which is
    kept here in its place; a response model whose field constraints fail
    raises pydantic's [ValidationError]. *)
Inductive causa : Type :=
| Excepcion (e : exn)
| ValidationError.

Inductive respuesta (A : Type) : Type :=
| Cuerpo (a : A)
| HTTPException (status_code : nat) (detail : causa).
Arguments Cuerpo {A} a.
Arguments HTTPException {A} status_code detail.

(** [Field(ge=0, le=5)] *)
Definition ge_0_le_5 (x : Q) : bool := Qle_bool 0 x && Qle_bool x 5.

(** The field constraints of the response model of the averages
    (app/api/models/schemas.py); the constraint [ge=0] of the counts holds
    of every natural number. *)
Definition PromedioProfesorResponse_valida
    (result : CalcularPromedioProfesorUseCase.PromedioProfesorResponse) : bool :=
  ge_0_le_5 (CalcularPromedioProfesorUseCase.r_promedio_general result) &&
  forallb (fun cat => ge_0_le_5 (CalcularPromedioProfesorUseCase.promedio cat))
    (CalcularPromedioProfesorUseCase.r_promedios_por_categoria result) &&
  forallb (fun act => ge_0_le_5 (CalcularPromedioProfesorUseCase.actor_promedio act))
    (CalcularPromedioProfesorUseCase.r_promedios_por_actor result).

(** The handlers of the teacher routes:
    [except ProfesorNotFoundError] gives 404, [except Exception] 500. *)
Definition capturar {A : Type} (e : exn) : respuesta A :=
  match e with
  | ProfesorNotFoundError _ => HTTPException 404 (Excepcion e)
  | _ => HTTPException 500 (Excepcion e)
  end.

(** GET /profesores/{documento}/promedios *)
Definition obtener_promedios_profesor (repo : PandasEvaluacionRepository.t)
    (orden_set : CalcularPromedioProfesorUseCase.orden)
    (documento : string) (periodo : option string)
  : respuesta CalcularPromedioProfesorUseCase.PromedioProfesorResponse :=
  match CalcularPromedioProfesorUseCase.execute repo orden_set
          (CalcularPromedioProfesorUseCase.mkRequest documento periodo) with
  | Ok result =>
      if PromedioProfesorResponse_valida result then Cuerpo result
      else HTTPException 500 ValidationError
  | Raise e => capturar e
  end.

(** GET /profesores/{documento}/detalle *)
Definition obtener_detalle_evaluaciones (repo : PandasEvaluacionRepository.t)
    (documento : string) (periodo : option string)
  : respuesta ObtenerDetalleEvaluacionUseCase.DetalleEvaluacionResponse :=
  match ObtenerDetalleEvaluacionUseCase.execute repo
          (ObtenerDetalleEvaluacionUseCase.mkRequest documento periodo) with
  | Ok result => Cuerpo result
  | Raise e => capturar e
  end.

(** GET /profesores/{documento}/mejoras *)
Definition obtener_propuesta_mejora (repo : PandasEvaluacionRepository.t)
    (documento : string) (periodo : option string)
  : respuesta ObtenerPropuestaMejoraUseCase.PropuestaMejoraResponse :=
  match ObtenerPropuestaMejoraUseCase.execute repo
          (ObtenerPropuestaMejoraUseCase.mkRequest documento periodo) with
  | Ok result => Cuerpo result
  | Raise e => capturar e
  end.

Record ProfesorListItem : Type := mkProfesorListItem {
  documento : string;
  nombre_completo : string;
  total_evaluaciones : nat
}.

(** GET /profesores/ *)
Definition listar_profesores (repo : PandasEvaluacionRepository.t)
  : list ProfesorListItem :=
  map (fun p => mkProfesorListItem (Profesor.documento p) (Profesor.nombre_completo p)
                  (Profesor.total_evaluaciones p))
    (PandasEvaluacionRepository.get_profesores repo).

Record PeriodoListItem : Type := mkPeriodoListItem {
  periodo : string;
  periodo_total_evaluaciones : nat
}.

(** GET /estadisticas/periodos *)
Definition listar_periodos (repo : PandasEvaluacionRepository.t)
  : list PeriodoListItem :=
  map (fun periodo =>
         mkPeriodoListItem (Periodo_str periodo)
           (List.length (PandasEvaluacionRepository.find_by_periodo repo periodo)))
    (PandasEvaluacionRepository.get_periodos_disponibles repo).

(** GET /estadisticas/actores: a list of dicts with the keys [actor] and
    [total_evaluaciones]. *)
Definition listar_actores (repo : PandasEvaluacionRepository.t)
  : list (string * nat) :=
  map (fun actor =>
         (actor, List.length (PandasEvaluacionRepository.find_by_tipo_formulario repo actor)))
    (PandasEvaluacionRepository.get_tipos_formulario repo).

End Rutas.

(** The teacher the loop of [get_profesores] builds for a document when
    no id repeats: named after the first evaluation of the document, with
    the evaluations of the document in load order. *)
Definition profesor_de_documento (evaluaciones : list Evaluacion.t)
    (documento : string) : Profesor.t :=
  let suyas :=
    filter (fun e => String.eqb (Evaluacion.profesor_documento e) documento)
      evaluaciones in
  Profesor.mk documento
    (match suyas with e0 :: _ => Evaluacion.profesor_nombre e0 | [] => EmptyString end)
    suyas.

(* ================================================================== *)
(** * Infrastructure: the CSV parsers

    The data frames come from pandas; a row is modelled by what the parser
    reads of it. *)

Module PreguntaCSVParser.

(** A cell of preguntas.csv, read with [dtype=str]: a string, or missing
    (NaN); [str] of a missing cell is the text nan. *)
Definition celda : Type := option string.

Definition str (c : celda) : string :=
  match c with Some s => s | None => "nan" end.

(** A row: its cells by column name. The rows of a data frame have the
    columns of the file, so a file without a column has no row with it. *)
Definition fila : Type := Dict.t string celda.

(** What can stop the making of a question: an exception of the program,
    or the [KeyError] of a column the row does not have. *)
Inductive error : Type :=
| Excepcion (e : exn)
| KeyError (columna : string).

(** [row[columna]] *)
Definition columna (row : fila) (nombre : string) : celda + error :=
  match Dict.get String.eqb nombre row with
  | Some c => inl c
  | None => inr (KeyError nombre)
  end.

Definition _crear_pregunta (row : fila) : Pregunta.t + error :=
  match columna row "IDPREGUNTA" with
  | inr e => inr e
  | inl idpregunta =>
  match columna row "CATEGORIA" with
  | inr e => inr e
  | inl categoria_celda =>
  match columna row "PREGUNTA" with
  | inr e => inr e
  | inl pregunta_celda =>
      let codigo := Str.strip (str idpregunta) in
      let categoria_str := Str.strip (str categoria_celda) in
      let texto := Str.strip (str pregunta_celda) in
      match Categoria_from_string categoria_str with
      | Ok categoria => inl (Pregunta.mk codigo categoria texto)
      | Raise (ValueError _) => inl (Pregunta.mk codigo Categoria.COMENTARIOS texto)
      | Raise e => inr (Excepcion e)
      end
  end end end.

(** The loop of [parse]: a row that raises is skipped. *)
Definition parse (df : list fila) : list Pregunta.t :=
  flat_map
    (fun row =>
       match _crear_pregunta row with
       | inl pregunta => [pregunta]
       | inr _ => []
       end)
    df.

End PreguntaCSVParser.

Module EvaluacionCSVParser.

(** What [_parse_calificacion] can see of a cell: empty ([pd.isna], the
    empty string or [None]), a value [float] turns into the number [q], or a
    value [float] rejects with ValueError or TypeError. *)
Inductive lectura : Type :=
| Vacia
| Numero (q : Q)
| Ilegible.

(** A cell: the text [str] gives for it, and its reading as a rating. *)
Record celda : Type := mkCelda {
  str : string;
  valor : lectura
}.

(** A row: its cells by column name. *)
Definition fila : Type := Dict.t string celda.

(** What can stop the making of an evaluation: an exception of the
    program, or the [KeyError] of a column the row does not have. *)
Inductive error : Type :=
| Excepcion (e : exn)
| KeyError (columna : string).

(** [row[columna]] *)
Definition columna (row : fila) (nombre : string) : celda + error :=
  match Dict.get String.eqb nombre row with
  | Some c => inl c
  | None => inr (KeyError nombre)
  end.

(** [except (ValueError, TypeError)] lets [InvalidCalificacionError]
    through. *)
Definition _parse_calificacion (c : celda) : result (option Calificacion.t) :=
  match valor c with
  | Vacia => Ok None
  | Numero valor_float =>
      match Calificacion.new valor_float with
      | Ok calificacion => Ok (Some calificacion)
      | Raise (ValueError _) => Ok None
      | Raise e => Raise e
      end
  | Ilegible => Ok None
  end.

(** [{p.codigo: p for p in preguntas}] *)
Definition _preguntas_dict (preguntas : list Pregunta.t) : Dict.t string Pregunta.t :=
  fold_left (fun d p => Dict.set String.eqb (Pregunta.codigo p) p d) preguntas [].

(** The loop of [_crear_evaluacion] over the questions of the catalog. *)
Fixpoint procesar_respuestas (row : fila) (items : list (string * Pregunta.t))
    (evaluacion : Evaluacion.t) : Evaluacion.t + error :=
  match items with
  | [] => inl evaluacion
  | (codigo_pregunta, pregunta) :: rest =>
      match Dict.get String.eqb codigo_pregunta row with
      | Some c =>
          match _parse_calificacion c with
          | Ok calificacion =>
              procesar_respuestas row rest
                (Evaluacion.agregar_respuesta evaluacion pregunta calificacion)
          | Raise e => inr (Excepcion e)
          end
      | None => procesar_respuestas row rest evaluacion
      end
  end.

Definition _crear_evaluacion (preguntas : list Pregunta.t) (row : fila)
  : Evaluacion.t + error :=
  match columna row "PEGE_ID" with
  | inr e => inr e
  | inl pege_id =>
  match columna row "DOCUMENTO" with
  | inr e => inr e
  | inl documento =>
  match columna row "NOMBRECOMPLETO" with
  | inr e => inr e
  | inl nombre =>
  match columna row "PERIODO" with
  | inr e => inr e
  | inl periodo_str =>
  match Periodo.new (Str.strip (str periodo_str)) with
  | Raise e => inr (Excepcion e)
  | Ok periodo =>
  match columna row "FORMULARIO" with
  | inr e => inr e
  | inl formulario =>
      procesar_respuestas row (_preguntas_dict preguntas)
        (Evaluacion.mk (str pege_id) (Str.strip (str documento))
           (Str.strip (str nombre)) periodo (Str.strip (str formulario)) [])
  end end end end end end.

(** The loop of [parse]: a row that raises is skipped. *)
Definition parse (preguntas : list Pregunta.t) (df : list fila) : list Evaluacion.t :=
  flat_map
    (fun row =>
       match _crear_evaluacion preguntas row with
       | inl evaluacion => [evaluacion]
       | inr _ => []
       end)
    df.

End EvaluacionCSVParser.

(** ** Definitions the properties of the parsers are stated with *)

(** A row of the catalog with the three columns the question parser reads,
    and the text of a column of a row: the cell stripped of surrounding
    white space. *)
Definition columnas_de_pregunta : list string := ["IDPREGUNTA"; "CATEGORIA"; "PREGUNTA"].

Definition tiene_columnas (row : PreguntaCSVParser.fila) : bool :=
  forallb
    (fun nombre =>
       match Dict.get String.eqb nombre row with Some _ => true | None => false end)
    columnas_de_pregunta.

Definition texto_de_columna (row : PreguntaCSVParser.fila) (nombre : string) : string :=
  match Dict.get String.eqb nombre row with
  | Some c => Str.strip (PreguntaCSVParser.str c)
  | None => EmptyString
  end.

(** A string without white space at either end. *)
Definition sin_espacios_alrededor (s : string) : Prop := Str.strip s = s.

(** A cell holding a number outside the scale. *)
Definition fuera_de_escala (c : EvaluacionCSVParser.celda) : Prop :=
  match EvaluacionCSVParser.valor c with
  | EvaluacionCSVParser.Numero q => Calificacion.in_range q = false
  | _ => False
  end.

(** The rating a cell stands for when it is on the scale. *)
Definition calificacion_de_celda (c : EvaluacionCSVParser.celda)
  : option Calificacion.t :=
  match EvaluacionCSVParser._parse_calificacion c with
  | Ok calificacion => calificacion
  | Raise _ => None
  end.

(* ================================================================== *)
(** * Properties *)

Unset Implicit Arguments.

(** ** Ratings *)

Lemma Calificacion_in_range_spec (v : Q) :
  Calificacion.in_range v = true <-> (1 <= v /\ v <= 5)%Q.
Proof.
  unfold Calificacion.in_range, Calificacion.MIN_VALOR, Calificacion.MAX_VALOR.
  rewrite andb_true_iff, !Qle_bool_iff. tauto.
Qed.

Lemma Calificacion_new_cases (v : Q) :
  (exists H : Calificacion.in_range v = true,
      Calificacion.new v = Ok (Calificacion.mk v H)) \/
  (Calificacion.in_range v = false /\
   Calificacion.new v = Raise (InvalidCalificacionError v)).
Proof.
  assert (G : forall (b : bool) (e : Calificacion.in_range v = b),
             (exists H : Calificacion.in_range v = true,
                 match b as b0 return Calificacion.in_range v = b0 -> result Calificacion.t with
                 | true => fun H => Ok (Calificacion.mk v H)
                 | false => fun _ => Raise (InvalidCalificacionError v)
                 end e = Ok (Calificacion.mk v H)) \/
             (Calificacion.in_range v = false /\
              match b as b0 return Calificacion.in_range v = b0 -> result Calificacion.t with
              | true => fun H => Ok (Calificacion.mk v H)
              | false => fun _ => Raise (InvalidCalificacionError v)
              end e = Raise (InvalidCalificacionError v))).
  { intros [] e; [left; exists e; reflexivity | right; split; [exact e | reflexivity]]. }
  exact (G _ eq_refl).
Qed.

Lemma Calificacion_bounds (c : Calificacion.t) :
  (1 <= Calificacion.valor c /\ Calificacion.valor c <= 5)%Q.
Proof. apply Calificacion_in_range_spec, Calificacion.valor_ok. Qed.

(** C6. [Calificacion(v)] succeeds, with value [v], exactly when
    1.0 <= v <= 5.0, and raises [InvalidCalificacionError(v)] on every other
    value; on every rating [es_aprobatoria()] holds exactly when the value is
    at least 3.0. *)
Theorem Calificacion_construction_and_passing :
  (forall v : Q,
      ((exists c, Calificacion.new v = Ok c /\ Calificacion.valor c = v)
       <-> (1 <= v /\ v <= 5)%Q) /\
      (Calificacion.new v = Raise (InvalidCalificacionError v)
       <-> ~ (1 <= v /\ v <= 5)%Q)) /\
  (forall r : Calificacion.t,
      Calificacion.es_aprobatoria r = true <-> (3 <= Calificacion.valor r)%Q).
Proof.
  split.
  - intros v. rewrite <- Calificacion_in_range_spec.
    destruct (Calificacion_new_cases v) as [[H E] | [H E]]; rewrite E.
    + split; split; try congruence; try discriminate.
      intros _. eexists; split; reflexivity.
    + split; split; try congruence; try discriminate.
      intros [c [Hc _]]; discriminate.
  - intros r. unfold Calificacion.es_aprobatoria. apply Qle_bool_iff.
Qed.

(** ** Periods *)

Ltac paso := cbn [Re.run Re.one flat_map app fst snd Nat.eqb existsb andb].
Lemma PATTERN_forma s : Re.matches Periodo.PATTERN s = forma s.
Proof.
  unfold Re.matches, Periodo.PATTERN, forma, uno_o_dos.
  destruct s as [|d1 [|d2 [|d3 [|d4 [|g [|t r]]]]]]; paso;
    repeat match goal with
    | |- context [Str.is_digit ?c] =>
        destruct (Str.is_digit c); paso; try reflexivity
    end.
  all: repeat match goal with
    | |- context [Ascii.eqb "-"%char ?c] =>
        rewrite (Ascii.eqb_sym "-"%char c); destruct (Ascii.eqb c "-"); paso; try reflexivity
    end.
  all: rewrite ?orb_false_r.
  all: repeat match goal with
    | |- context [(Ascii.eqb ?c "1" || Ascii.eqb ?c "2")] =>
        destruct (Ascii.eqb c "1" || Ascii.eqb c "2"); paso; try reflexivity
    end.
  all: try (destruct (Re.at_end r); reflexivity).
  reflexivity.
Qed.

Lemma digit_range c : Str.is_digit c = true <-> (48 <= nat_of_ascii c <= 57)%nat.
Proof.
  unfold Str.is_digit, Str.in_range. rewrite andb_true_iff, !Nat.leb_le. tauto.
Qed.

Lemma digit_not_dash c : Str.is_digit c = true -> Ascii.eqb c "-"%char = false.
Proof.
  intros H. apply digit_range in H. apply Ascii.eqb_neq. intros ->.
  vm_compute in H. lia.
Qed.

Lemma digit_not_space c : Str.is_digit c = true -> Str.is_space c = false.
Proof.
  intros H. apply digit_range in H. unfold Str.is_space, Str.in_range.
  repeat (apply orb_false_iff; split); try apply andb_false_iff;
    rewrite ?Nat.leb_gt, ?Nat.eqb_neq; lia.
Qed.

Lemma valor_digito_range c : Str.is_digit c = true -> (0 <= valor_digito c <= 9)%Z.
Proof. intros H. apply digit_range in H. unfold valor_digito. lia. Qed.

Lemma valor_digito_inj c d :
  Str.is_digit c = true -> Str.is_digit d = true ->
  valor_digito c = valor_digito d -> c = d.
Proof.
  intros Hc Hd E. apply digit_range in Hc, Hd. unfold valor_digito in E.
  rewrite <- (ascii_nat_embedding c), <- (ascii_nat_embedding d). f_equal. lia.
Qed.

Lemma forma_inv s :
  forma s = true ->
  exists d1 d2 d3 d4 t r,
    s = String d1 (String d2 (String d3 (String d4 (String "-" (String t r))))) /\
    Str.is_digit d1 = true /\ Str.is_digit d2 = true /\
    Str.is_digit d3 = true /\ Str.is_digit d4 = true /\
    (t = "1"%char \/ t = "2"%char) /\ (r = "" \/ r = String Re.newline "").
Proof.
  destruct s as [|d1 [|d2 [|d3 [|d4 [|g [|t r]]]]]]; try discriminate.
  unfold forma, uno_o_dos. rewrite !andb_true_iff, orb_true_iff, !Ascii.eqb_eq.
  intros [[[[[[H1 H2] H3] H4] Hg] Ht] Hr]. subst g.
  exists d1, d2, d3, d4, t, r. repeat split; try assumption.
  destruct r as [|c [|? ?]]; try discriminate; [left; reflexivity|].
  right. apply Ascii.eqb_eq in Hr. subst c. reflexivity.
Qed.

Lemma campos_de_forma d1 d2 d3 d4 t r :
  Str.is_digit d1 = true -> Str.is_digit d2 = true ->
  Str.is_digit d3 = true -> Str.is_digit d4 = true ->
  (t = "1"%char \/ t = "2"%char) -> (r = "" \/ r = String Re.newline "") ->
  let s := String d1 (String d2 (String d3 (String d4 (String "-" (String t r))))) in
  match nth_error (Str.split "-"%char s) 0 with Some w => Str.int w | None => None end =
    Some (1000 * valor_digito d1 + 100 * valor_digito d2
          + 10 * valor_digito d3 + valor_digito d4)%Z /\
  match nth_error (Str.split "-"%char s) 1 with Some w => Str.int w | None => None end =
    Some (valor_digito t) /\ (valor_digito t = 1 \/ valor_digito t = 2)%Z.
Proof.
  intros H1 H2 H3 H4 Ht Hr s.
  assert (E : Str.split "-"%char s =
              [String d1 (String d2 (String d3 (String d4 ""))); String t r]).
  { unfold s. cbn [Str.split].
    rewrite !digit_not_dash by assumption. rewrite Ascii.eqb_refl.
    destruct Ht as [-> | ->], Hr as [-> | ->]; reflexivity. }
  rewrite E. cbn [nth_error]. split; [|split].
  - unfold Str.int, Str.strip. cbn [Str.lstrip]. rewrite (digit_not_space d1 H1).
    cbn [Str.rstrip]. rewrite (digit_not_space d4 H4). cbn [Str.digits_value].
    rewrite H1, H2, H3, H4. unfold valor_digito. f_equal. lia.
  - destruct Ht as [-> | ->], Hr as [-> | ->]; reflexivity.
  - destruct Ht as [-> | ->]; [left | right]; reflexivity.
Qed.

Lemma Periodo_forma (p : Periodo.t) : forma (Periodo.valor p) = true.
Proof. rewrite <- PATTERN_forma. apply Periodo.valor_ok. Qed.

Lemma Periodo_new_cases (s : string) :
  (exists H : Re.matches Periodo.PATTERN s = true,
      Periodo.new s = Ok (Periodo.mk s H)) \/
  (Re.matches Periodo.PATTERN s = false /\
   Periodo.new s = Raise (Periodo.format_error s)).
Proof.
  assert (G : forall (b : bool) (e : Re.matches Periodo.PATTERN s = b),
             (exists H : Re.matches Periodo.PATTERN s = true,
                 match b as b0 return Re.matches Periodo.PATTERN s = b0 -> result Periodo.t with
                 | true => fun H => Ok (Periodo.mk s H)
                 | false => fun _ => Raise (Periodo.format_error s)
                 end e = Ok (Periodo.mk s H)) \/
             (Re.matches Periodo.PATTERN s = false /\
              match b as b0 return Re.matches Periodo.PATTERN s = b0 -> result Periodo.t with
              | true => fun H => Ok (Periodo.mk s H)
              | false => fun _ => Raise (Periodo.format_error s)
              end e = Raise (Periodo.format_error s))).
  { intros [] e; [left; exists e; reflexivity | right; split; [exact e | reflexivity]]. }
  exact (G _ eq_refl).
Qed.







(** ** Dictionaries *)

Section DictFacts.
Variables K V : Type.
Variable eqb : K -> K -> bool.
Hypothesis eqb_refl : forall k, eqb k k = true.
Hypothesis eqb_sym : forall k k', eqb k k' = eqb k' k.
Hypothesis eqb_trans : forall a b c, eqb a b = true -> eqb b c = true -> eqb a c = true.

Lemma eqb_compat a b c : eqb a b = true -> eqb a c = eqb b c.
Proof.
  intros H. destruct (eqb b c) eqn:E.
  - eapply eqb_trans; eassumption.
  - destruct (eqb a c) eqn:E'; [|reflexivity].
    rewrite <- E. symmetry. apply eqb_trans with a; [rewrite eqb_sym|]; assumption.
Qed.


Lemma get_update (k k' : K) (f : option V -> V) (d : Dict.t K V) :
  Dict.get eqb k (Dict.update eqb k' f d) =
  if eqb k' k then Some (f (Dict.get eqb k' d)) else Dict.get eqb k d.
Proof.
  induction d as [|[k0 v0] d IH]; cbn [Dict.update Dict.get].
  - reflexivity.
  - destruct (eqb k0 k') eqn:E0; cbn [Dict.get].
    + rewrite (eqb_compat k0 k' k E0). destruct (eqb k' k); reflexivity.
    + destruct (eqb k0 k) eqn:E1.
      * destruct (eqb k' k) eqn:E2; [|reflexivity].
        exfalso. rewrite (eqb_sym k' k) in E2.
        rewrite (eqb_trans _ _ _ E1 E2) in E0. discriminate.
      * exact IH.
Qed.

Lemma update_claves_distintas k f (d : Dict.t K V) :
  claves_distintas eqb d -> claves_distintas eqb (Dict.update eqb k f d).
Proof.
  induction 1 as [|k0 v0 d Hget Hd IH]; cbn [Dict.update].
  - constructor; [reflexivity | constructor].
  - destruct (eqb k0 k) eqn:E.
    + constructor; assumption.
    + constructor; [|exact IH]. rewrite get_update, eqb_sym, E. exact Hget.
Qed.

Lemma get_In k v (d : Dict.t K V) :
  Dict.get eqb k d = Some v -> exists k', eqb k' k = true /\ In (k', v) d.
Proof.
  induction d as [|[k0 v0] d IH]; cbn [Dict.get]; [discriminate|].
  destruct (eqb k0 k) eqn:E.
  - intros [= ->]. exists k0. split; [exact E | left; reflexivity].
  - intros H. destruct (IH H) as (k' & Hk & Hin). exists k'. split; [exact Hk | right; exact Hin].
Qed.

Lemma get_None_In k (d : Dict.t K V) :
  Dict.get eqb k d = None -> forall k' v, In (k', v) d -> eqb k' k = false.
Proof.
  induction d as [|[k0 v0] d IH]; cbn [Dict.get]; [intros _ ? ? []|].
  destruct (eqb k0 k) eqn:E; [discriminate|].
  intros H k' v [[= <- <-] | Hin]; [exact E | eapply IH; eassumption].
Qed.

Lemma In_get k v (d : Dict.t K V) :
  claves_distintas eqb d -> In (k, v) d -> Dict.get eqb k d = Some v.
Proof.
  induction 1 as [|k0 v0 d Hget Hd IH]; [intros []|].
  intros [[= -> ->] | Hin]; cbn [Dict.get].
  - rewrite eqb_refl. reflexivity.
  - rewrite eqb_sym, (get_None_In _ _ Hget _ _ Hin). apply IH, Hin.
Qed.

(** The keys stored by [update] are the keys that were there, or the new one. *)
Lemma update_keys k f (d : Dict.t K V) k' v :
  In (k', v) (Dict.update eqb k f d) -> k' = k \/ In k' (Dict.keys d).
Proof.
  induction d as [|[k0 v0] d IH]; cbn [Dict.update].
  - intros [[= <- <-] | []]. left; reflexivity.
  - destruct (eqb k0 k).
    + intros [[= <- <-] | Hin]; right; [left; reflexivity | right].
      apply (in_map fst) in Hin. exact Hin.
    + intros [[= <- <-] | Hin]; [right; left; reflexivity|].
      destruct (IH Hin) as [-> | H]; [left; reflexivity | right; right; exact H].
Qed.

Lemma get_compat a b (d : Dict.t K V) :
  eqb a b = true -> Dict.get eqb a d = Dict.get eqb b d.
Proof.
  intros H. induction d as [|[k0 v0] d IH]; cbn [Dict.get]; [reflexivity|].
  rewrite (eqb_sym k0 a), (eqb_sym k0 b), (eqb_compat a b k0 H), IH. reflexivity.
Qed.
End DictFacts.

Section GroupFacts.
Variables K X : Type.
Variable eqb : K -> K -> bool.
Hypothesis eqb_refl : forall k, eqb k k = true.
Hypothesis eqb_sym : forall k k', eqb k k' = eqb k' k.
Hypothesis eqb_trans : forall a b c, eqb a b = true -> eqb b c = true -> eqb a c = true.

Lemma valores_de_compat a b (kxs : list (K * X)) :
  eqb a b = true -> valores_de eqb a kxs = valores_de eqb b kxs.
Proof.
  intros H. unfold valores_de. f_equal. apply filter_ext. intros kx.
  rewrite (eqb_sym _ a), (eqb_sym _ b). apply (eqb_compat _ eqb eqb_sym eqb_trans); assumption.
Qed.

Lemma length_valores_de k (kxs : list (K * X)) :
  List.length (valores_de eqb k kxs) = veces eqb k (map fst kxs).
Proof.
  unfold valores_de, veces. rewrite length_map.
  induction kxs as [|kx kxs IH]; cbn [filter map]; [reflexivity|].
  destruct (eqb (fst kx) k); cbn [List.length]; rewrite IH; reflexivity.
Qed.

Lemma get_fold_append kxs : forall (d : Dict.t K (list X)) k,
  Dict.get eqb k
    (fold_left (fun d kx => Dict.append eqb (fst kx) (snd kx) d) kxs d) =
  match Dict.get eqb k d with
  | Some l => Some (l ++ valores_de eqb k kxs)
  | None => match valores_de eqb k kxs with [] => None | vs => Some vs end
  end.
Proof.
  induction kxs as [|[k0 x0] kxs IH]; intros d k; cbn [fold_left fst snd].
  - unfold valores_de. cbn. destruct (Dict.get eqb k d); [rewrite app_nil_r|]; reflexivity.
  - rewrite IH. unfold Dict.append at 1.
    rewrite (get_update _ _ eqb eqb_sym eqb_trans).
    unfold valores_de. cbn [filter fst].
    destruct (eqb k0 k) eqn:E; cbn [map snd].
    + rewrite (get_compat _ _ eqb eqb_sym eqb_trans k0 k d E).
      destruct (Dict.get eqb k d); [rewrite <- app_assoc|]; reflexivity.
    + reflexivity.
Qed.

Lemma get_group k (kxs : list (K * X)) :
  Dict.get eqb k (Dict.group eqb kxs) =
  match valores_de eqb k kxs with [] => None | vs => Some vs end.
Proof. unfold Dict.group. rewrite get_fold_append. reflexivity. Qed.

Lemma get_fold_incr ks : forall (d : Dict.t K nat) k,
  Dict.get eqb k (fold_left (fun d k' => Dict.incr eqb k' d) ks d) =
  match Dict.get eqb k d with
  | Some n => Some (n + veces eqb k ks)%nat
  | None => match veces eqb k ks with O => None | n => Some n end
  end.
Proof.
  induction ks as [|k0 ks IH]; intros d k; cbn [fold_left].
  - unfold veces. cbn. destruct (Dict.get eqb k d); [rewrite Nat.add_0_r|]; reflexivity.
  - rewrite IH. unfold Dict.incr at 1.
    rewrite (get_update _ _ eqb eqb_sym eqb_trans).
    unfold veces. cbn [filter].
    destruct (eqb k0 k) eqn:E; cbn [List.length].
    + rewrite (get_compat _ _ eqb eqb_sym eqb_trans k0 k d E).
      destruct (Dict.get eqb k d); [f_equal; lia | reflexivity].
    + reflexivity.
Qed.

Lemma count_tally k ks : Dict.count eqb k (Dict.tally eqb ks) = veces eqb k ks.
Proof.
  unfold Dict.count, Dict.tally. rewrite get_fold_incr. cbn [Dict.get].
  destruct (veces eqb k ks); reflexivity.
Qed.

Lemma fold_append_claves_distintas kxs : forall d : Dict.t K (list X),
  claves_distintas eqb d ->
  claves_distintas eqb
    (fold_left (fun d kx => Dict.append eqb (fst kx) (snd kx) d) kxs d).
Proof.
  induction kxs as [|kx kxs IH]; intros d Hd; cbn [fold_left]; [exact Hd|].
  apply IH. apply update_claves_distintas; assumption.
Qed.

Lemma fold_append_keys kxs : forall (d : Dict.t K (list X)) k l,
  In (k, l) (fold_left (fun d kx => Dict.append eqb (fst kx) (snd kx) d) kxs d) ->
  In k (Dict.keys d) \/ In k (map fst kxs).
Proof.
  induction kxs as [|kx kxs IH]; intros d k l; cbn [fold_left map].
  - intros H. left. apply (in_map fst) in H. exact H.
  - intros H. destruct (IH _ _ _ H) as [H' | H']; [|right; right; exact H'].
    apply in_map_iff in H'. destruct H' as [[k' l'] [<- H']].
    destruct (update_keys _ _ eqb _ _ _ _ _ H') as [E | E]; [right; left; symmetry; exact E | left; exact E].
Qed.

(** What the grouping loop leaves in the dictionary: under each key that
    was met, the values met with it, in the order they were met. *)
Lemma group_In k l (kxs : list (K * X)) :
  In (k, l) (Dict.group eqb kxs) ->
  l = valores_de eqb k kxs /\ l <> [] /\ In k (map fst kxs).
Proof.
  intros H.
  assert (G : Dict.get eqb k (Dict.group eqb kxs) = Some l).
  { apply (In_get _ _ eqb eqb_refl eqb_sym); [|exact H].
    apply fold_append_claves_distintas. constructor. }
  rewrite get_group in G.
  destruct (fold_append_keys _ _ _ _ H) as [[] | Hk].
  destruct (valores_de eqb k kxs) eqn:E; [discriminate|]. injection G as <-.
  repeat split; [discriminate | exact Hk].
Qed.

Lemma group_complete k (kxs : list (K * X)) :
  valores_de eqb k kxs <> [] ->
  exists k', eqb k' k = true /\ In (k', valores_de eqb k kxs) (Dict.group eqb kxs).
Proof.
  intros H. apply get_In. rewrite get_group.
  destruct (valores_de eqb k kxs); [contradiction | reflexivity].
Qed.
End GroupFacts.

(** ** Sorting *)

Section SortedFacts.
Variables A B : Type.
Variable key : A -> B.
Variable ltb : B -> B -> bool.

Lemma insert_sorted_perm x l : Permutation (insert_sorted key ltb x l) (x :: l).
Proof.
  induction l as [|y l IH]; cbn [insert_sorted]; [reflexivity|].
  destruct (ltb (key y) (key x)); [|reflexivity].
  rewrite IH. apply perm_swap.
Qed.

Lemma sorted_perm l : Permutation (sorted key ltb l) l.
Proof.
  induction l as [|x l IH]; cbn [sorted fold_right]; [reflexivity|].
  rewrite insert_sorted_perm. constructor. exact IH.
Qed.

Lemma sorted_In l x : In x (sorted key ltb l) <-> In x l.
Proof.
  split; apply Permutation_in; [|symmetry]; apply sorted_perm.
Qed.

Hypothesis ltb_asym : forall a b, ltb a b = true -> ltb b a = false.

Lemma insert_sorted_Sorted x l :
  Sorted (no_desciende key ltb) l -> Sorted (no_desciende key ltb) (insert_sorted key ltb x l).
Proof.
  induction l as [|y l IH]; cbn [insert_sorted]; intros H.
  - repeat constructor.
  - destruct (ltb (key y) (key x)) eqn:E.
    + apply Sorted_inv in H. destruct H as [Hl Hy]. constructor; [apply IH, Hl|].
      destruct l as [|z l]; cbn [insert_sorted].
      * constructor. apply ltb_asym, E.
      * destruct (ltb (key z) (key x)); constructor.
        -- inversion Hy; assumption.
        -- apply ltb_asym, E.
    + constructor; [exact H|]. constructor. exact E.
Qed.

Lemma sorted_Sorted l : Sorted (no_desciende key ltb) (sorted key ltb l).
Proof.
  induction l as [|x l IH]; cbn [sorted fold_right]; [constructor|].
  apply insert_sorted_Sorted, IH.
Qed.

Hypothesis ltb_total : forall a b, ltb a b = false -> ltb b a = false -> a = b.

(** With pairwise distinct keys the result ascends strictly. *)
Lemma sorted_strict l :
  NoDup (map key l) -> Sorted (fun a b => ltb (key a) (key b) = true) (sorted key ltb l).
Proof.
  intros ND.
  assert (ND' : NoDup (map key (sorted key ltb l))).
  { eapply Permutation_NoDup; [|exact ND]. apply Permutation_map. symmetry. apply sorted_perm. }
  pose proof (sorted_Sorted l) as S.
  induction S as [|a l' S IH Hd]; [constructor|].
  cbn [map] in ND'. apply NoDup_cons_iff in ND'. destruct ND' as [Hin ND'].
  constructor; [apply IH, ND'|].
  destruct Hd as [|b l'' Hab]; constructor.
  destruct (ltb (key a) (key b)) eqn:E; [reflexivity|].
  exfalso. apply Hin. left. symmetry. apply ltb_total; assumption.
Qed.
End SortedFacts.

Lemma Str_ltb_asym a b : Str.ltb a b = true -> Str.ltb b a = false.
Proof.
  unfold Str.ltb. rewrite (String.compare_antisym a b).
  destruct (String.compare b a); cbn; congruence.
Qed.

Lemma Str_ltb_total a b : Str.ltb a b = false -> Str.ltb b a = false -> a = b.
Proof.
  unfold Str.ltb. rewrite (String.compare_antisym a b).
  destruct (String.compare b a) eqn:E; cbn; try congruence.
  intros _ _. symmetry. apply String.compare_eq_iff. exact E.
Qed.

(** ** Means *)

Lemma inject_nat_pos (n : nat) : (0 < inject_Z (Z.of_nat (S n)))%Q.
Proof. unfold Qlt. cbn. lia. Qed.

Lemma inject_nat_succ (n : nat) :
  (inject_Z (Z.of_nat (S n)) == inject_Z (Z.of_nat n) + 1)%Q.
Proof. rewrite Nat2Z.inj_succ. unfold Z.succ. rewrite inject_Z_plus. reflexivity. Qed.

Lemma Qsum_bounds (lo hi : Q) (l : list Q) :
  Forall (fun v => lo <= v /\ v <= hi)%Q l ->
  (lo * inject_Z (Z.of_nat (List.length l)) <= Qsum l /\
   Qsum l <= hi * inject_Z (Z.of_nat (List.length l)))%Q.
Proof.
  induction 1 as [|v l [Hlo Hhi] _ [IHlo IHhi]].
  - cbn. change (inject_Z 0) with 0%Q. split; lra.
  - cbn [List.length Qsum fold_right]. fold (Qsum l).
    rewrite inject_nat_succ. split; lra.
Qed.

Lemma mean_bounds (lo hi x : Q) (xs : list Q) :
  Forall (fun v => lo <= v /\ v <= hi)%Q (x :: xs) ->
  (lo <= mean x xs /\ mean x xs <= hi)%Q.
Proof.
  intros H. apply Qsum_bounds in H. destruct H as [Hlo Hhi]. unfold mean.
  pose proof (inject_nat_pos (List.length xs)) as Hpos.
  change (List.length (x :: xs)) with (S (List.length xs)) in *.
  split.
  - apply Qle_shift_div_l; assumption.
  - apply Qle_shift_div_r; assumption.
Qed.

Lemma calificaciones_bounds keep items :
  Forall (fun v => 1 <= v /\ v <= 5)%Q (Evaluacion.calificaciones keep items).
Proof.
  induction items as [|[p [cal|]] items IH]; cbn [Evaluacion.calificaciones].
  - constructor.
  - destruct (keep p); [constructor|]; [apply Calificacion_bounds | exact IH | exact IH].
  - exact IH.
Qed.

Lemma calificaciones_validas_eq (e : Evaluacion.t) :
  Evaluacion.calificaciones (fun p => negb (Pregunta.es_comentario p))
    (Evaluacion.respuestas e) = calificaciones_validas e.
Proof.
  unfold calificaciones_validas.
  induction (Evaluacion.respuestas e) as [|[p [cal|]] items IH];
    cbn [Evaluacion.calificaciones flat_map fst snd]; [reflexivity | | exact IH].
  destruct (Pregunta.es_comentario p); cbn [negb app]; rewrite IH; reflexivity.
Qed.

Lemma promedio_general_eq (e : Evaluacion.t) :
  Evaluacion.calcular_promedio_general e = promedio_de_evaluacion e.
Proof.
  unfold Evaluacion.calcular_promedio_general, promedio_de_evaluacion.
  rewrite calificaciones_validas_eq.
  destruct (calificaciones_validas e); reflexivity.
Qed.

(** ** Floats *)

Lemma inject_Z_succ (k : Z) : (inject_Z (k + 1) == inject_Z k + 1)%Q.
Proof. rewrite inject_Z_plus. reflexivity. Qed.

Lemma inject_Z_le_medio (n k : Z) : (inject_Z n <= inject_Z k + (1 # 2))%Q -> (n <= k)%Z.
Proof.
  intros H. destruct (Z_le_gt_dec n k) as [L | G]; [exact L|]. exfalso.
  assert (B : (inject_Z (k + 1) <= inject_Z n)%Q) by (rewrite <- Zle_Qle; lia).
  rewrite inject_Z_succ in B. lra.
Qed.

(** The nearest integer is at most one half away, and an integer one half
    away is even. *)
Lemma entero_mas_cercano_spec (x : Q) :
  let n := Float.entero_mas_cercano x in
  (inject_Z n - (1 # 2) <= x /\ x <= inject_Z n + (1 # 2))%Q /\
  ((x == inject_Z n + (1 # 2))%Q -> Z.even n = true) /\
  ((x == inject_Z n - (1 # 2))%Q -> Z.even n = true).
Proof.
  unfold Float.entero_mas_cercano.
  pose proof (Qfloor_le x) as Hlo. pose proof (Qlt_floor x) as Hhi.
  rewrite inject_Z_succ in Hhi.
  set (f := Qfloor x) in *.
  destruct (Qcompare (x - inject_Z f) (1 # 2)) eqn:C.
  - apply Qeq_alt in C. destruct (Z.even f) eqn:Ev; cbv zeta.
    + repeat split; try lra. intros _. exact Ev.
    + rewrite inject_Z_succ. repeat split; try lra. intros _.
      rewrite Z.even_add, Ev. reflexivity.
  - apply Qlt_alt in C. cbv zeta. repeat split; try lra.
  - apply Qgt_alt in C. cbv zeta. rewrite inject_Z_succ. repeat split; try lra.
Qed.

Lemma entero_mas_cercano_le (x : Q) (k : Z) :
  (x <= inject_Z k)%Q -> (Float.entero_mas_cercano x <= k)%Z.
Proof.
  intros H. destruct (entero_mas_cercano_spec x) as [[L _] _].
  apply inject_Z_le_medio. lra.
Qed.

Lemma entero_mas_cercano_ge (x : Q) (k : Z) :
  (inject_Z k <= x)%Q -> (k <= Float.entero_mas_cercano x)%Z.
Proof.
  intros H. destruct (entero_mas_cercano_spec x) as [[_ U] _].
  apply inject_Z_le_medio. lra.
Qed.

Lemma entero_mas_cercano_mono (x y : Q) :
  (x <= y)%Q -> (Float.entero_mas_cercano x <= Float.entero_mas_cercano y)%Z.
Proof.
  intros H.
  destruct (entero_mas_cercano_spec x) as ([Lx Ux] & _ & Tx).
  destruct (entero_mas_cercano_spec y) as ([Ly Uy] & Ty & _).
  set (n := Float.entero_mas_cercano x) in *.
  set (m := Float.entero_mas_cercano y) in *.
  assert (B : (n <= m + 1)%Z).
  { apply inject_Z_le_medio. rewrite inject_Z_succ. lra. }
  destruct (Z.eq_dec n (m + 1)) as [E | N]; [|lia]. exfalso.
  assert (En : (inject_Z n == inject_Z m + 1)%Q) by (rewrite E; apply inject_Z_succ).
  assert (Ex : Z.even n = true) by (apply Tx; lra).
  assert (Ey : Z.even m = true) by (apply Ty; lra).
  rewrite E, Z.even_add, Ey in Ex. discriminate Ex.
Qed.

(** Below an even integer [k] the nearest integer stays below [k] up to
    [k - 1/2], the tie excluded. *)
Lemma entero_mas_cercano_par (x : Q) (k : Z) :
  Z.even k = true ->
  (k <= Float.entero_mas_cercano x)%Z <-> (inject_Z k - (1 # 2) <= x)%Q.
Proof.
  intros Ek. destruct (entero_mas_cercano_spec x) as ([L U] & T & _).
  set (n := Float.entero_mas_cercano x) in *. split.
  - intros H. rewrite Zle_Qle in H. lra.
  - intros H.
    assert (B : (k <= n + 1)%Z).
    { apply inject_Z_le_medio. rewrite inject_Z_succ. lra. }
    destruct (Z.eq_dec k (n + 1)) as [E | N]; [|lia]. exfalso.
    assert (Ekn : (inject_Z k == inject_Z n + 1)%Q) by (rewrite E; apply inject_Z_succ).
    assert (En : Z.even n = true) by (apply T; lra).
    rewrite E, Z.even_add, En in Ek. discriminate Ek.
Qed.

Lemma dos_no_cero : ~ (2 == 0)%Q.
Proof. discriminate. Qed.

Lemma pow2_pos (e : Z) : (0 < 2 ^ e)%Q.
Proof. apply Qpower_0_lt. reflexivity. Qed.

Lemma pow2_succ (e : Z) : (2 ^ (e + 1) == 2 * 2 ^ e)%Q.
Proof. rewrite Qpower_plus by exact dos_no_cero. change (2 ^ 1)%Q with 2%Q. ring. Qed.

Lemma pow2_le (a b : Z) : (a <= b)%Z -> (2 ^ a <= 2 ^ b)%Q.
Proof. intros H. apply Qpower_le_compat_l; [exact H | discriminate]. Qed.

Lemma pow2_lt_inv (a b : Z) : (2 ^ a < 2 ^ b)%Q -> (a < b)%Z.
Proof. intros H. apply (Qpower_lt_compat_l_inv 2); [exact H | reflexivity]. Qed.

Lemma pow2_Z (n : Z) : (0 <= n)%Z -> (inject_Z (2 ^ n) == 2 ^ n)%Q.
Proof. intros H. apply (Zpower_Qpower 2 n H). Qed.

(** The exponent of a positive rational: 2^e <= x < 2^(e+1). *)
Lemma exponente_spec (x : Q) :
  (0 < x)%Q ->
  (2 ^ Float.exponente x <= x /\ x < 2 ^ (Float.exponente x + 1))%Q.
Proof.
  intros Hx. unfold Float.exponente.
  destruct x as [n d]. cbn [Qnum Qden].
  assert (Hn : (0 < n)%Z) by (unfold Qlt in Hx; cbn in Hx; lia).
  pose proof (Z.log2_spec n Hn) as [La Ua].
  pose proof (Z.log2_spec (Zpos d) (Pos2Z.is_pos d)) as [Lb Ub].
  unfold Z.succ in Ua, Ub.
  pose proof (Z.log2_nonneg n) as Na. pose proof (Z.log2_nonneg (Zpos d)) as Nb.
  set (a := Z.log2 n) in *. set (b := Z.log2 (Zpos d)) in *.
  assert (X : (n # d == inject_Z n / inject_Z (Zpos d))%Q) by apply Qmake_Qdiv.
  assert (Dpos : (0 < inject_Z (Zpos d))%Q) by reflexivity.
  assert (XD : (inject_Z n == (n # d) * inject_Z (Zpos d))%Q).
  { rewrite X. field. intros E. rewrite E in Dpos. discriminate Dpos. }
  rewrite Zle_Qle, pow2_Z in La, Lb by lia.
  rewrite Zlt_Qlt, pow2_Z in Ua, Ub by lia.
  pose proof (pow2_pos a) as Pa. pose proof (pow2_pos b) as Pb.
  assert (Eab : (2 ^ a == 2 ^ (a - b) * 2 ^ b)%Q).
  { rewrite <- Qpower_plus by exact dos_no_cero. replace (a - b + b)%Z with a by lia.
    reflexivity. }
  pose proof (pow2_pos (a - b)) as Pab.
  assert (Hup : (n # d < 2 ^ (a - b + 1))%Q).
  { rewrite pow2_succ.
    apply (Qmult_lt_r _ _ (2 ^ b) Pb).
    apply Qle_lt_trans with (inject_Z n).
    - rewrite XD. apply Qmult_le_l; [exact Hx | exact Lb].
    - rewrite pow2_succ in Ua. rewrite Eab in Ua. lra. }
  assert (Hlo : (2 ^ (a - b - 1) < n # d)%Q).
  { assert (E1 : (2 ^ (a - b) == 2 * 2 ^ (a - b - 1))%Q).
    { rewrite <- pow2_succ. replace (a - b - 1 + 1)%Z with (a - b)%Z by lia. reflexivity. }
    pose proof (pow2_pos (a - b - 1)) as P1.
    apply (Qmult_lt_r _ _ (2 ^ (b + 1)) (pow2_pos (b + 1))).
    apply Qle_lt_trans with (inject_Z n).
    - rewrite pow2_succ. rewrite Eab, E1 in La. lra.
    - rewrite XD. apply Qmult_lt_l; [exact Hx | exact Ub]. }
  destruct (Qle_bool (2 ^ (a - b)) (n # d)) eqn:C.
  - apply Qle_bool_iff in C. split; assumption.
  - replace (a - b - 1 + 1)%Z with (a - b)%Z by lia. split; [apply Qlt_le_weak, Hlo|].
    apply Qnot_le_lt. intros H. apply Qle_bool_iff in H. congruence.
Qed.

Lemma exponente_unico (x : Q) (e : Z) :
  (2 ^ e <= x)%Q -> (x < 2 ^ (e + 1))%Q -> Float.exponente x = e.
Proof.
  intros L U.
  assert (Hx : (0 < x)%Q) by (pose proof (pow2_pos e); lra).
  destruct (exponente_spec x Hx) as [L' U'].
  assert (A : (e < Float.exponente x + 1)%Z) by (apply pow2_lt_inv; lra).
  assert (B : (Float.exponente x < e + 1)%Z) by (apply pow2_lt_inv; lra).
  lia.
Qed.

Lemma exponente_mono (x y : Q) :
  (0 < x)%Q -> (x <= y)%Q -> (Float.exponente x <= Float.exponente y)%Z.
Proof.
  intros Hx H.
  destruct (exponente_spec x Hx) as [L _].
  destruct (exponente_spec y) as [_ U]; [lra|].
  assert (A : (Float.exponente x < Float.exponente y + 1)%Z) by (apply pow2_lt_inv; lra).
  lia.
Qed.

Lemma ulp_pos (x : Q) : (0 < Float.ulp x)%Q.
Proof. apply pow2_pos. Qed.

Lemma redondear_positivo_eq (x : Q) :
  (Float.redondear_positivo x ==
   inject_Z (Float.entero_mas_cercano (x / Float.ulp x)) * Float.ulp x)%Q.
Proof. apply Qred_correct. Qed.

Lemma pow2_split (k e : Z) :
  (0 <= k)%Z -> (2 ^ (e + k) == inject_Z (2 ^ k) * 2 ^ e)%Q.
Proof.
  intros Hk. rewrite Qpower_plus by exact dos_no_cero. rewrite pow2_Z by exact Hk. ring.
Qed.

Lemma redondear_positivo_nonneg (x : Q) : (0 < x)%Q -> (0 <= Float.redondear_positivo x)%Q.
Proof.
  intros Hx. rewrite redondear_positivo_eq. pose proof (ulp_pos x) as Hu.
  apply Qmult_le_0_compat; [|lra].
  change 0%Q with (inject_Z 0). rewrite <- Zle_Qle. apply entero_mas_cercano_ge.
  change (inject_Z 0) with 0%Q. apply Qle_shift_div_l; [exact Hu | lra].
Qed.

(** A rounded value stays in the closed binade of its argument. *)
Lemma redondear_positivo_sup (x : Q) :
  (0 < x)%Q ->
  (Float.redondear_positivo x <= 2 ^ (Z.max (Float.exponente x) (-1022) + 1))%Q.
Proof.
  intros Hx. rewrite redondear_positivo_eq. unfold Float.ulp.
  destruct (exponente_spec x Hx) as [_ U].
  set (E := Z.max (Float.exponente x) (-1022)).
  set (u := (2 ^ (E - 52))%Q).
  assert (Hu : (0 < u)%Q) by apply pow2_pos.
  assert (S : (2 ^ (E + 1) == inject_Z (2 ^ 53) * u)%Q).
  { unfold u. rewrite <- pow2_split by lia. replace (E - 52 + 53)%Z with (E + 1)%Z by lia.
    reflexivity. }
  assert (B : (x <= 2 ^ (E + 1))%Q).
  { apply Qle_trans with (2 ^ (Float.exponente x + 1))%Q; [lra|]. apply pow2_le. lia. }
  rewrite S. apply Qmult_le_compat_r; [|lra].
  rewrite <- Zle_Qle. apply entero_mas_cercano_le.
  apply Qle_shift_div_r; [exact Hu | lra].
Qed.

Lemma redondear_positivo_inf (x : Q) :
  (0 < x)%Q -> (-1022 <= Float.exponente x)%Z ->
  (2 ^ Float.exponente x <= Float.redondear_positivo x)%Q.
Proof.
  intros Hx He. rewrite redondear_positivo_eq. unfold Float.ulp.
  destruct (exponente_spec x Hx) as [L _].
  rewrite Z.max_l by lia.
  set (e := Float.exponente x) in *.
  set (u := (2 ^ (e - 52))%Q).
  assert (Hu : (0 < u)%Q) by apply pow2_pos.
  assert (S : (2 ^ e == inject_Z (2 ^ 52) * u)%Q).
  { unfold u. rewrite <- pow2_split by lia. replace (e - 52 + 52)%Z with e by lia.
    reflexivity. }
  rewrite S. apply Qmult_le_compat_r; [|lra].
  rewrite <- Zle_Qle. apply entero_mas_cercano_ge.
  apply Qle_shift_div_l; [exact Hu | lra].
Qed.

Lemma redondear_positivo_mono (x y : Q) :
  (0 < x)%Q -> (x <= y)%Q ->
  (Float.redondear_positivo x <= Float.redondear_positivo y)%Q.
Proof.
  intros Hx H. assert (Hy : (0 < y)%Q) by lra.
  pose proof (exponente_mono x y Hx H) as He.
  destruct (Z.eq_dec (Z.max (Float.exponente x) (-1022))
              (Z.max (Float.exponente y) (-1022))) as [E | N].
  - rewrite !redondear_positivo_eq. unfold Float.ulp. rewrite E.
    set (u := (2 ^ (Z.max (Float.exponente y) (-1022) - 52))%Q).
    assert (Hu : (0 < u)%Q) by apply pow2_pos.
    apply Qmult_le_compat_r; [|lra].
    rewrite <- Zle_Qle. apply entero_mas_cercano_mono.
    apply Qmult_le_compat_r; [exact H|]. apply Qlt_le_weak, Qinv_lt_0_compat, Hu.
  - apply Qle_trans with (2 ^ (Z.max (Float.exponente x) (-1022) + 1))%Q;
      [apply redondear_positivo_sup, Hx|].
    apply Qle_trans with (2 ^ Float.exponente y)%Q;
      [apply pow2_le; lia | apply redondear_positivo_inf; [exact Hy | lia]].
Qed.

Lemma redondear_cases (x : Q) :
  ((x < 0)%Q /\ Float.redondear x = (- Float.redondear_positivo (- x))%Q) \/
  ((x == 0)%Q /\ Float.redondear x = 0%Q) \/
  ((0 < x)%Q /\ Float.redondear x = Float.redondear_positivo x).
Proof.
  unfold Float.redondear. destruct (Qcompare x 0) eqn:C.
  - right; left. split; [apply Qeq_alt, C | reflexivity].
  - left. split; [apply Qlt_alt, C | reflexivity].
  - right; right. split; [apply Qgt_alt, C | reflexivity].
Qed.

(** Rounding never swaps two numbers. *)
Lemma redondear_mono (x y : Q) :
  (x <= y)%Q -> (Float.redondear x <= Float.redondear y)%Q.
Proof.
  intros H.
  destruct (redondear_cases x) as [[Hx Ex] | [[Hx Ex] | [Hx Ex]]];
    destruct (redondear_cases y) as [[Hy Ey] | [[Hy Ey] | [Hy Ey]]];
    rewrite Ex, Ey; try lra.
  - assert (B : (Float.redondear_positivo (- y) <= Float.redondear_positivo (- x))%Q)
      by (apply redondear_positivo_mono; lra).
    lra.
  - pose proof (redondear_positivo_nonneg (- x)). lra.
  - pose proof (redondear_positivo_nonneg (- x)).
    pose proof (redondear_positivo_nonneg y Hy). lra.
  - apply redondear_positivo_nonneg, Hy.
  - apply redondear_positivo_mono; assumption.
Qed.

Lemma redondear_comp (x y : Q) : (x == y)%Q -> (Float.redondear x == Float.redondear y)%Q.
Proof.
  intros H. apply Qle_antisym; apply redondear_mono; lra.
Qed.

(** The ratings scale is kept: 1.0 and 5.0 are floats. *)
Lemma redondear_acotado (x : Q) :
  (1 <= x /\ x <= 5)%Q -> (1 <= Float.redondear x /\ Float.redondear x <= 5)%Q.
Proof.
  intros [L U]. split.
  - apply Qle_trans with (Float.redondear 1); [vm_compute; discriminate|].
    apply redondear_mono, L.
  - apply Qle_trans with (Float.redondear 5); [apply redondear_mono, U|].
    vm_compute; discriminate.
Qed.

(** The test [mean < 4.0]: the largest float below 4.0 is 4 - 2^-51, and
    the exact means that round to it or below are the ones below
    4 - 2^-52, the half-way point going to 4.0. *)
Lemma redondear_lt_4 (x : Q) :
  (Float.redondear x < 4)%Q <-> (x < umbral_4)%Q.
Proof.
  assert (T : (umbral_4 == 4 - (1 # 4503599627370496))%Q) by reflexivity.
  destruct (Qlt_le_dec x 2) as [H2 | H2].
  - split; intros _; [rewrite T; lra|].
    apply Qle_lt_trans with (Float.redondear 2);
      [apply redondear_mono; lra | vm_compute; reflexivity].
  - destruct (Qlt_le_dec x 4) as [H4 | H4].
    + assert (He : Float.exponente x = 1%Z) by (apply exponente_unico; [exact H2 | exact H4]).
      destruct (redondear_cases x) as [[Hx _] | [[Hx _] | [_ Ex]]]; try lra.
      rewrite Ex, redondear_positivo_eq. unfold Float.ulp. rewrite He.
      change (2 ^ (Z.max 1 (-1022) - 52))%Q with (1 # 2251799813685248)%Q.
      set (m := (x / (1 # 2251799813685248))%Q).
      assert (Em : (m == x * 2251799813685248)%Q) by (unfold m; field).
      pose proof (entero_mas_cercano_par m 9007199254740992 eq_refl) as P.
      rewrite T. split.
      * intros H. apply Qnot_le_lt. intros G.
        assert (B : (9007199254740992 <= Float.entero_mas_cercano m)%Z).
        { apply P. rewrite Em. change (inject_Z 9007199254740992) with 9007199254740992%Q.
          lra. }
        rewrite Zle_Qle in B.
        change (inject_Z 9007199254740992) with 9007199254740992%Q in B. lra.
      * intros H.
        assert (B : ~ (9007199254740992 <= Float.entero_mas_cercano m)%Z).
        { intros G. apply P in G. rewrite Em in G.
          change (inject_Z 9007199254740992) with 9007199254740992%Q in G. lra. }
        assert (B' : (Float.entero_mas_cercano m <= 9007199254740991)%Z) by lia.
        rewrite Zle_Qle in B'.
        change (inject_Z 9007199254740991) with 9007199254740991%Q in B'. lra.
    + split; intros H; [|rewrite T in H; lra].
      exfalso. apply (Qlt_not_le _ _ H).
      apply Qle_trans with (Float.redondear 4); [vm_compute; discriminate|].
      apply redondear_mono, H4.
Qed.

(** ** The evaluation index *)

Lemma String_eqb_trans (a b c : string) :
  String.eqb a b = true -> String.eqb b c = true -> String.eqb a c = true.
Proof. rewrite !String.eqb_eq. congruence. Qed.

Lemma valores_de_map {K A : Type} (eqb : K -> K -> bool) (f : A -> K) (k : K)
    (l : list A) :
  valores_de eqb k (map (fun a => (f a, a)) l) = filter (fun a => eqb (f a) k) l.
Proof.
  unfold valores_de. induction l as [|a l IH]; cbn [map filter fst]; [reflexivity|].
  destruct (eqb (f a) k); cbn [map snd]; rewrite IH; reflexivity.
Qed.

Lemma get_or_empty_group {K A : Type} (eqb : K -> K -> bool) (f : A -> K) :
  (forall k k', eqb k k' = eqb k' k) ->
  (forall a b c, eqb a b = true -> eqb b c = true -> eqb a c = true) ->
  forall (k : K) (l : list A),
    get_or_empty eqb k (Dict.group eqb (map (fun a => (f a, a)) l)) =
    filter (fun a => eqb (f a) k) l.
Proof.
  intros Hsym Htrans k l. unfold get_or_empty.
  rewrite (get_group _ _ eqb Hsym Htrans), valores_de_map.
  destruct (filter (fun a => eqb (f a) k) l); reflexivity.
Qed.

(** The index by document answers with the evaluations of the document, in
    the order of the load. *)
Lemma find_by_profesor_init (evaluaciones : list Evaluacion.t) (documento : string) :
  PandasEvaluacionRepository.find_by_profesor
    (PandasEvaluacionRepository.init evaluaciones) documento =
  filter (fun e => String.eqb (Evaluacion.profesor_documento e) documento) evaluaciones.
Proof.
  apply (get_or_empty_group String.eqb Evaluacion.profesor_documento
           String.eqb_sym String_eqb_trans).
Qed.

(** ** The average calculator *)

Section Promedios.
Import CalcularPromedioProfesorUseCase.

Lemma filter_Periodo_eqb (p : Periodo.t) (l : list Evaluacion.t) :
  filter (fun e => Periodo.eqb (Evaluacion.periodo e) p) l =
  filter (fun e => String.eqb (Periodo.valor (Evaluacion.periodo e)) (Periodo.valor p)) l.
Proof. reflexivity. Qed.

(** No evaluation has a period that is not well formed. *)
Lemma filter_periodo_mal_formado (s : string) (l : list Evaluacion.t) :
  Re.matches Periodo.PATTERN s = false ->
  filter (fun e => String.eqb (Periodo.valor (Evaluacion.periodo e)) s) l = [].
Proof.
  intros H. induction l as [|e l IH]; cbn [filter]; [reflexivity|].
  destruct (String.eqb_spec (Periodo.valor (Evaluacion.periodo e)) s) as [E | _];
    [|exact IH].
  rewrite <- E, (Periodo.valor_ok (Evaluacion.periodo e)) in H. discriminate.
Qed.

(** [execute], case by case. *)
Lemma execute_cases (evaluaciones : list Evaluacion.t) (orden_set : orden)
    (request : PromedioProfesorRequest) :
  let del_profesor :=
    filter (fun e => String.eqb (Evaluacion.profesor_documento e) (documento request))
      evaluaciones in
  let consultadas :=
    evaluaciones_consultadas evaluaciones (documento request) (periodo request) in
  execute (PandasEvaluacionRepository.init evaluaciones) orden_set request =
  match del_profesor with
  | [] => Raise (ProfesorNotFoundError (documento request))
  | _ :: _ =>
      if truthy (periodo request) then
        if Re.matches Periodo.PATTERN (texto_de (periodo request)) then
          match consultadas with
          | [] =>
              Raise (ProfesorNotFoundError
                       (documento request ++ Str.latin1 " en período "
                          ++ texto_de (periodo request))%string)
          | _ :: _ => responder orden_set request consultadas
          end
        else Raise (Periodo.format_error (texto_de (periodo request)))
      else responder orden_set request consultadas
  end.
Proof.
  intros del_profesor consultadas. unfold execute.
  rewrite find_by_profesor_init. fold del_profesor.
  unfold consultadas, evaluaciones_consultadas. fold del_profesor.
  destruct del_profesor as [|e0 rest]; [reflexivity|].
  unfold filtrar. destruct (truthy (periodo request)); [|reflexivity].
  destruct (Periodo_new_cases (texto_de (periodo request))) as [[H E] | [H E]];
    rewrite E; cbn [bind]; [|rewrite H; reflexivity].
  rewrite filter_Periodo_eqb. cbn [Periodo.valor]. clear E.
  destruct (filter _ (e0 :: rest)); rewrite H; reflexivity.
Qed.

Lemma responder_Ok (orden_set : orden) (request : PromedioProfesorRequest)
    (evaluaciones : list Evaluacion.t) (response : PromedioProfesorResponse) :
  responder orden_set request evaluaciones = Ok response ->
  evaluaciones <> [] /\
  r_total_evaluaciones response = List.length evaluaciones /\
  r_promedio_general response = _calcular_promedio_general evaluaciones /\
  r_promedios_por_categoria response = _calcular_por_categoria orden_set evaluaciones /\
  r_promedios_por_actor response = _calcular_por_actor evaluaciones.
Proof.
  destruct evaluaciones as [|e0 rest]; cbn [responder]; [discriminate|].
  intros [= <-]. repeat split. discriminate.
Qed.

Lemma execute_Ok (evaluaciones : list Evaluacion.t) (orden_set : orden)
    (request : PromedioProfesorRequest) (response : PromedioProfesorResponse) :
  execute (PandasEvaluacionRepository.init evaluaciones) orden_set request = Ok response ->
  responder orden_set request
    (evaluaciones_consultadas evaluaciones (documento request) (periodo request))
  = Ok response.
Proof.
  rewrite execute_cases.
  destruct (filter _ evaluaciones); [discriminate|].
  destruct (truthy (periodo request)); [|trivial].
  destruct (Re.matches Periodo.PATTERN (texto_de (periodo request))); [|discriminate].
  destruct (evaluaciones_consultadas _ _ _); [discriminate | trivial].
Qed.

Lemma promedio_general_promedio_de_promedios (evaluaciones : list Evaluacion.t) :
  (_calcular_promedio_general evaluaciones == promedio_de_promedios evaluaciones)%Q.
Proof.
  unfold _calcular_promedio_general, promedio_de_promedios.
  rewrite (map_ext _ _ promedio_general_eq).
  destruct evaluaciones as [|e0 rest]; [reflexivity|].
  cbn [map mean_or_zero]. unfold mean, cociente.
  cbn [List.length]. rewrite length_map. reflexivity.
Qed.

(** C1. On the evaluations a request is about (the ones of the document,
    after the period filter), which are not empty when [execute] answers,
    the overall average is the mean of the means of the evaluations and
    [total_evaluaciones] their number; the mean of an evaluation is taken
    over its ratings that are not [None] on questions outside Comments and
    is 0.0 when there is none, such an evaluation still counting in the
    outer mean. On the two evaluations of the test (3.0 in 2025-1, 5.0 in
    2025-2) the average is 4.0 without a filter, and 5.0 over one
    evaluation for the period 2025-2. *)
Theorem promedio_general_es_promedio_de_promedios :
  (forall (evaluaciones : list Evaluacion.t) (orden_set : orden)
          (request : PromedioProfesorRequest) (response : PromedioProfesorResponse),
      execute (PandasEvaluacionRepository.init evaluaciones) orden_set request
        = Ok response ->
      let consultadas :=
        evaluaciones_consultadas evaluaciones (documento request) (periodo request) in
      consultadas <> [] /\
      r_total_evaluaciones response = List.length consultadas /\
      (r_promedio_general response == promedio_de_promedios consultadas)%Q) /\
  (forall (e0 : Evaluacion.t) (rest : list Evaluacion.t),
      (_calcular_promedio_general (e0 :: rest) ==
       Qsum (map Evaluacion.calcular_promedio_general (e0 :: rest))
       / inject_Z (Z.of_nat (List.length (e0 :: rest))))%Q) /\
  (forall e : Evaluacion.t,
      Evaluacion.calcular_promedio_general e = promedio_de_evaluacion e /\
      (calificaciones_validas e = [] ->
       (Evaluacion.calcular_promedio_general e == 0)%Q)) /\
  (exists response,
      execute (PandasEvaluacionRepository.init [eval1; eval2])
        Evaluacion.categorias_evaluadas (mkRequest "123456" None) = Ok response /\
      (r_promedio_general response == 4)%Q /\
      r_total_evaluaciones response = 2%nat) /\
  (exists response,
      execute (PandasEvaluacionRepository.init [eval1; eval2])
        Evaluacion.categorias_evaluadas (mkRequest "123456" (Some "2025-2"))
        = Ok response /\
      (r_promedio_general response == 5)%Q /\
      r_total_evaluaciones response = 1%nat).
Proof.
  split; [|split; [|split; [|split]]].
  - intros evaluaciones orden_set request response H consultadas.
    apply execute_Ok, responder_Ok in H. fold consultadas in H.
    destruct H as (Hne & Htotal & Hprom & _). repeat split; try assumption.
    rewrite Hprom. apply promedio_general_promedio_de_promedios.
  - intros e0 rest. unfold _calcular_promedio_general. cbn [map mean_or_zero].
    unfold mean. cbn [List.length]. rewrite length_map. reflexivity.
  - intros e. split; [apply promedio_general_eq|].
    intros H. rewrite promedio_general_eq. unfold promedio_de_evaluacion.
    rewrite H. reflexivity.
  - eexists. split; [vm_compute; reflexivity|]. split; reflexivity.
  - eexists. split; [vm_compute; reflexivity|]. split; reflexivity.
Qed.

(** *** The grouping loops *)

Lemma anotar_todo_app {K : Type} (eqb : K -> K -> bool) (a b : list (K * Q))
    (st : grupos K) :
  anotar_todo eqb (a ++ b) st = anotar_todo eqb b (anotar_todo eqb a st).
Proof.
  unfold anotar_todo. cbn [fst snd]. rewrite map_app, !fold_left_app. reflexivity.
Qed.

Lemma bucle_actor_visitas (evaluaciones : list Evaluacion.t) :
  bucle_actor evaluaciones =
  (Dict.group String.eqb (visitas_actor evaluaciones),
   Dict.tally String.eqb (map fst (visitas_actor evaluaciones))).
Proof.
  unfold bucle_actor, Dict.group, Dict.tally.
  change (fold_left _ (visitas_actor evaluaciones) [],
          fold_left _ (map fst (visitas_actor evaluaciones)) [])
    with (anotar_todo String.eqb (visitas_actor evaluaciones) ([], [])).
  generalize (@nil (string * list Q), @nil (string * nat)).
  induction evaluaciones as [|e l IH]; intros st; cbn [fold_left].
  - destruct st; reflexivity.
  - rewrite IH. unfold visitas_actor. cbn [flat_map]. rewrite anotar_todo_app.
    destruct (Qltb 0 (Evaluacion.calcular_promedio_general e)); destruct st; reflexivity.
Qed.

Lemma bucle_categoria_visitas (orden_set : orden) (evaluaciones : list Evaluacion.t) :
  bucle_categoria orden_set evaluaciones =
  (Dict.group Categoria.eqb (visitas_categoria orden_set evaluaciones),
   Dict.tally Categoria.eqb (map fst (visitas_categoria orden_set evaluaciones))).
Proof.
  unfold bucle_categoria, Dict.group, Dict.tally.
  change (fold_left _ (visitas_categoria orden_set evaluaciones) [],
          fold_left _ (map fst (visitas_categoria orden_set evaluaciones)) [])
    with (anotar_todo Categoria.eqb (visitas_categoria orden_set evaluaciones) ([], [])).
  generalize (@nil (Categoria.t * list Q), @nil (Categoria.t * nat)).
  induction evaluaciones as [|e l IH]; intros st; cbn [fold_left].
  - destruct st; reflexivity.
  - rewrite IH. unfold visitas_categoria. cbn [flat_map]. rewrite anotar_todo_app.
    f_equal. clear IH. generalize (orden_set e) as cs. intros cs. revert st.
    induction cs as [|c cs IHc]; intros st; cbn [fold_left].
    + destruct st; reflexivity.
    + rewrite IHc. unfold visitas_de_evaluacion. cbn [flat_map].
      rewrite anotar_todo_app. f_equal.
      destruct (negb (Categoria.eqb c Categoria.COMENTARIOS)); [|destruct st; reflexivity].
      destruct (Qltb 0 (Evaluacion.calcular_promedio_por_categoria e c));
        destruct st; reflexivity.
Qed.

(** *** Means are 0.0 or at least 1.0 *)

Lemma Categoria_eqb_eq (a b : Categoria.t) : Categoria.eqb a b = true <-> a = b.
Proof.
  destruct a, b; vm_compute; split; intros H; try reflexivity; discriminate H.
Qed.

Lemma Categoria_eqb_refl (a : Categoria.t) : Categoria.eqb a a = true.
Proof. apply Categoria_eqb_eq. reflexivity. Qed.

Lemma Categoria_eqb_sym (a b : Categoria.t) : Categoria.eqb a b = Categoria.eqb b a.
Proof. unfold Categoria.eqb. apply String.eqb_sym. Qed.

Lemma Categoria_eqb_trans (a b c : Categoria.t) :
  Categoria.eqb a b = true -> Categoria.eqb b c = true -> Categoria.eqb a c = true.
Proof. rewrite !Categoria_eqb_eq. congruence. Qed.

Lemma mean_or_zero_cases (l : list Q) :
  Forall (fun v => 1 <= v /\ v <= 5)%Q l ->
  (l = [] /\ mean_or_zero l = 0%Q) \/
  (l <> [] /\ (1 <= mean_or_zero l /\ mean_or_zero l <= 5)%Q).
Proof.
  intros H. destruct l as [|x xs]; [left; split; reflexivity|].
  right. split; [discriminate|]. apply mean_bounds, H.
Qed.

Lemma Qltb_lt (a b : Q) : Qltb a b = true <-> (a < b)%Q.
Proof.
  unfold Qltb. rewrite negb_true_iff. split.
  - intros H. apply Qnot_le_lt. intros G. apply Qle_bool_iff in G. congruence.
  - intros H. apply not_true_is_false. intros G. apply Qle_bool_iff in G.
    apply (Qlt_not_le _ _ H G).
Qed.

Lemma Qltb_no_es_cero (m : Q) : (m = 0 \/ 1 <= m)%Q -> Qltb 0 m = no_es_cero m.
Proof.
  intros [-> | H]; [reflexivity|].
  assert (G : Qltb 0 m = true) by (apply Qltb_lt; lra).
  rewrite G. symmetry. unfold no_es_cero. apply negb_true_iff.
  apply not_true_is_false. intros E. apply Qeq_bool_iff in E. lra.
Qed.

Lemma promedio_general_cases (e : Evaluacion.t) :
  (calificaciones_validas e = [] /\ Evaluacion.calcular_promedio_general e = 0%Q) \/
  (calificaciones_validas e <> [] /\
   (1 <= Evaluacion.calcular_promedio_general e /\
    Evaluacion.calcular_promedio_general e <= 5)%Q).
Proof.
  rewrite <- calificaciones_validas_eq.
  apply (mean_or_zero_cases _ (calificaciones_bounds _ _)).
Qed.

Lemma promedio_por_categoria_cases (e : Evaluacion.t) (c : Categoria.t) :
  let l := Evaluacion.calificaciones (fun p => Pregunta.pertenece_a_categoria p c)
             (Evaluacion.respuestas e) in
  (l = [] /\ Evaluacion.calcular_promedio_por_categoria e c = 0%Q) \/
  (l <> [] /\
   (1 <= Evaluacion.calcular_promedio_por_categoria e c /\
    Evaluacion.calcular_promedio_por_categoria e c <= 5)%Q).
Proof. apply (mean_or_zero_cases _ (calificaciones_bounds _ _)). Qed.

Lemma Qltb_promedio_general (e : Evaluacion.t) :
  Qltb 0 (Evaluacion.calcular_promedio_general e) =
  no_es_cero (Evaluacion.calcular_promedio_general e).
Proof.
  apply Qltb_no_es_cero. destruct (promedio_general_cases e) as [[_ H] | [_ [H _]]]; auto.
Qed.

Lemma Qltb_promedio_por_categoria (e : Evaluacion.t) (c : Categoria.t) :
  Qltb 0 (Evaluacion.calcular_promedio_por_categoria e c) =
  no_es_cero (Evaluacion.calcular_promedio_por_categoria e c).
Proof.
  apply Qltb_no_es_cero.
  destruct (promedio_por_categoria_cases e c) as [[_ H] | [_ [H _]]]; auto.
Qed.


(** *** What the loops record under a key *)

Lemma valores_de_app {K X : Type} (eqb : K -> K -> bool) (k : K)
    (a b : list (K * X)) :
  valores_de eqb k (a ++ b) = valores_de eqb k a ++ valores_de eqb k b.
Proof. unfold valores_de. rewrite filter_app, map_app. reflexivity. Qed.

Lemma valores_visitas_actor (t : string) (evaluaciones : list Evaluacion.t) :
  valores_de String.eqb t (visitas_actor evaluaciones) =
  promedios_de_actor t evaluaciones.
Proof.
  unfold visitas_actor, promedios_de_actor.
  induction evaluaciones as [|e l IH]; [reflexivity|].
  cbn [flat_map filter]. rewrite valores_de_app, IH, Qltb_promedio_general.
  destruct (String.eqb (Evaluacion.tipo_formulario e) t) eqn:E; cbn [map filter].
  - destruct (no_es_cero (Evaluacion.calcular_promedio_general e));
      unfold valores_de; cbn [filter fst]; rewrite ?E; reflexivity.
  - destruct (no_es_cero (Evaluacion.calcular_promedio_general e));
      unfold valores_de; cbn [filter fst]; rewrite ?E; reflexivity.
Qed.

Lemma set_add_In (x y : Categoria.t) (s : list Categoria.t) :
  In y (set_add Categoria.eqb x s) <-> In y s \/ y = x.
Proof.
  unfold set_add. destruct (existsb (Categoria.eqb x) s) eqn:E.
  - split; [auto|]. intros [H | ->]; [exact H|].
    apply existsb_exists in E. destruct E as (z & Hz & Ez).
    apply Categoria_eqb_eq in Ez. subst z. exact Hz.
  - rewrite in_app_iff. cbn. intuition congruence.
Qed.

Lemma set_of_In (l : list Categoria.t) (y : Categoria.t) :
  In y (set_of Categoria.eqb l) <-> In y l.
Proof.
  unfold set_of.
  assert (G : forall s, In y (fold_left (fun s x => set_add Categoria.eqb x s) l s)
                        <-> In y s \/ In y l).
  { induction l as [|x l IH]; intros s; cbn [fold_left].
    - cbn. tauto.
    - rewrite IH, set_add_In. cbn. intuition congruence. }
  rewrite G. cbn. tauto.
Qed.

(** A category with an answered question belongs to [categorias_evaluadas()]. *)
Lemma categoria_con_calificaciones (c : Categoria.t)
    (items : list (Pregunta.t * option Calificacion.t)) :
  c <> Categoria.COMENTARIOS ->
  Evaluacion.calificaciones (fun p => Pregunta.pertenece_a_categoria p c) items <> [] ->
  In c (map Pregunta.categoria
          (filter (fun p => negb (Pregunta.es_comentario p)) (Dict.keys items))).
Proof.
  intros Hc. unfold Dict.keys.
  induction items as [|[p cal] items IH]; cbn [Evaluacion.calificaciones map filter fst];
    [congruence|].
  assert (G : Evaluacion.calificaciones (fun p => Pregunta.pertenece_a_categoria p c) items <> [] ->
              In c (map Pregunta.categoria
                      (if negb (Pregunta.es_comentario p)
                       then p :: filter (fun p => negb (Pregunta.es_comentario p)) (map fst items)
                       else filter (fun p => negb (Pregunta.es_comentario p)) (map fst items)))).
  { intros H. destruct (negb (Pregunta.es_comentario p)); [right|]; apply IH, H. }
  destruct cal as [cal|]; [|exact G].
  unfold Pregunta.pertenece_a_categoria at 1.
  destruct (Categoria.eqb (Pregunta.categoria p) c) eqn:E; [|exact G].
  intros _. apply Categoria_eqb_eq in E. unfold Pregunta.es_comentario. rewrite E.
  destruct (Categoria.eqb c Categoria.COMENTARIOS) eqn:E'.
  - apply Categoria_eqb_eq in E'. contradiction.
  - left. exact E.
Qed.


Lemma valores_visitas_de_evaluacion (e : Evaluacion.t) (c : Categoria.t)
    (cs : list Categoria.t) :
  NoDup cs ->
  valores_de Categoria.eqb c (visitas_de_evaluacion e cs) =
  if existsb (Categoria.eqb c) cs
     && negb (Categoria.eqb c Categoria.COMENTARIOS)
     && Qltb 0 (Evaluacion.calcular_promedio_por_categoria e c)
  then [Evaluacion.calcular_promedio_por_categoria e c]
  else [].
Proof.
  induction 1 as [|c' cs Hnotin ND IH]; [reflexivity|].
  unfold visitas_de_evaluacion. cbn [flat_map existsb].
  fold (visitas_de_evaluacion e cs). rewrite valores_de_app, IH.
  rewrite (Categoria_eqb_sym c c').
  destruct (Categoria.eqb c' c) eqn:E; cbn [orb andb].
  - apply Categoria_eqb_eq in E. subst c'.
    assert (G : existsb (Categoria.eqb c) cs = false).
    { apply not_true_is_false. intros G. apply existsb_exists in G.
      destruct G as (z & Hz & Ez). apply Categoria_eqb_eq in Ez. subst z. contradiction. }
    rewrite G. cbn [andb]. rewrite app_nil_r.
    destruct (negb (Categoria.eqb c Categoria.COMENTARIOS)); [|reflexivity].
    destruct (Qltb 0 (Evaluacion.calcular_promedio_por_categoria e c)); [|reflexivity].
    unfold valores_de. cbn [filter fst]. rewrite Categoria_eqb_refl. reflexivity.
  - assert (G : forall l, valores_de Categoria.eqb c
                (if negb (Categoria.eqb c' Categoria.COMENTARIOS)
                 then if Qltb 0 (Evaluacion.calcular_promedio_por_categoria e c')
                      then [(c', Evaluacion.calcular_promedio_por_categoria e c')]
                      else []
                 else []) ++ l = l).
    { intros l. destruct (negb (Categoria.eqb c' Categoria.COMENTARIOS)); [|reflexivity].
      destruct (Qltb 0 (Evaluacion.calcular_promedio_por_categoria e c')); [|reflexivity].
      unfold valores_de. cbn [filter fst]. rewrite E. reflexivity. }
    apply G.
Qed.

Lemma valores_visitas_categoria (orden_set : orden) (c : Categoria.t)
    (evaluaciones : list Evaluacion.t) :
  iteracion_de_conjuntos orden_set ->
  valores_de Categoria.eqb c (visitas_categoria orden_set evaluaciones) =
  if Categoria.eqb c Categoria.COMENTARIOS then []
  else promedios_de_categoria c evaluaciones.
Proof.
  intros Hord. unfold visitas_categoria, promedios_de_categoria.
  induction evaluaciones as [|e l IH];
    [destruct (Categoria.eqb c Categoria.COMENTARIOS); reflexivity|].
  cbn [flat_map map filter]. rewrite valores_de_app, IH.
  destruct (Hord e) as [ND Hin].
  rewrite (valores_visitas_de_evaluacion e c (orden_set e) ND).
  destruct (Categoria.eqb c Categoria.COMENTARIOS) eqn:Ec;
    [rewrite andb_false_r; reflexivity|].
  cbn [negb]. rewrite andb_true_r. rewrite <- Qltb_promedio_por_categoria.
  destruct (existsb (Categoria.eqb c) (orden_set e)) eqn:Ex; cbn [andb].
  - destruct (Qltb 0 (Evaluacion.calcular_promedio_por_categoria e c)); reflexivity.
  - assert (G : Evaluacion.calcular_promedio_por_categoria e c = 0%Q).
    { destruct (promedio_por_categoria_cases e c) as [[_ H] | [H _]]; [exact H|].
      exfalso. apply (categoria_con_calificaciones c) in H.
      - apply set_of_In, Hin in H.
        assert (Ex' : existsb (Categoria.eqb c) (orden_set e) = true).
        { apply existsb_exists. exists c. split; [exact H | apply Categoria_eqb_refl]. }
        congruence.
      - intros ->. discriminate Ec. }
    rewrite G. reflexivity.
Qed.


(** *** The DTOs of a grouped average *)

Section Resultados.
Variables K DTO : Type.
Variable eqb : K -> K -> bool.
Variable mk : K -> Q -> nat -> DTO.
Hypothesis eqb_eq : forall a b, eqb a b = true <-> a = b.

Lemma eqb_eq_refl (k : K) : eqb k k = true.
Proof. apply eqb_eq. reflexivity. Qed.

Lemma eqb_eq_sym (a b : K) : eqb a b = eqb b a.
Proof.
  destruct (eqb a b) eqn:E, (eqb b a) eqn:E'; try reflexivity.
  - apply eqb_eq in E. subst. rewrite eqb_eq_refl in E'. discriminate.
  - apply eqb_eq in E'. subst. rewrite eqb_eq_refl in E. discriminate.
Qed.

Lemma eqb_eq_trans (a b c : K) : eqb a b = true -> eqb b c = true -> eqb a c = true.
Proof. rewrite !eqb_eq. congruence. Qed.

Lemma resultados_In (visitas : list (K * Q)) (dto : DTO) :
  In dto (resultados_de eqb mk
            (Dict.group eqb visitas, Dict.tally eqb (map fst visitas))) <->
  exists k : K,
    valores_de eqb k visitas <> [] /\
    dto = mk k (mean_or_zero (valores_de eqb k visitas))
             (List.length (valores_de eqb k visitas)).
Proof.
  unfold resultados_de. cbn [fst snd]. rewrite in_flat_map. split.
  - intros [[k l] [Hin Hdto]]. cbn [fst snd] in Hdto.
    apply (group_In _ _ eqb eqb_eq_refl eqb_eq_sym eqb_eq_trans) in Hin.
    destruct Hin as (-> & Hne & _). exists k. split; [exact Hne|].
    rewrite (count_tally _ eqb eqb_eq_sym eqb_eq_trans) in Hdto.
    rewrite <- (length_valores_de _ Q eqb k visitas) in Hdto.
    destruct (valores_de eqb k visitas) as [|x xs]; [contradiction|].
    destruct Hdto as [<- | []]. reflexivity.
  - intros [k [Hne ->]].
    destruct (group_complete _ _ eqb eqb_eq_sym eqb_eq_trans k visitas Hne)
      as (k' & Ek & Hin).
    apply eqb_eq in Ek. subst k'. exists (k, valores_de eqb k visitas).
    split; [exact Hin|]. cbn [fst snd].
    rewrite (count_tally _ eqb eqb_eq_sym eqb_eq_trans).
    rewrite <- (length_valores_de _ Q eqb k visitas).
    destruct (valores_de eqb k visitas) as [|x xs]; [contradiction|].
    left. reflexivity.
Qed.

Variable B : Type.
Variable clave : DTO -> B.
Variable g : K -> B.
Hypothesis clave_mk : forall k m n, clave (mk k m n) = g k.
Hypothesis g_inj : forall a b, g a = g b -> a = b.

Lemma claves_distintas_NoDup {V : Type} (d : Dict.t K V) :
  claves_distintas eqb d -> NoDup (Dict.keys d).
Proof.
  induction 1 as [|k v d Hget Hd IH]; cbn; constructor; [|exact IH].
  intros Hin. apply in_map_iff in Hin. destruct Hin as [[k' v'] [E Hin]].
  cbn in E. subst k'.
  pose proof (get_None_In _ _ eqb k d Hget k v' Hin) as F.
  rewrite eqb_eq_refl in F. discriminate.
Qed.

Lemma resultados_claves (st : CalcularPromedioProfesorUseCase.grupos K) :
  NoDup (Dict.keys (fst st)) -> NoDup (map clave (resultados_de eqb mk st)).
Proof.
  unfold resultados_de. destruct st as [d counts]. cbn [fst snd].
  induction d as [|[k l] d IH]; cbn [Dict.keys map flat_map fst snd];
    intros ND; [constructor|].
  apply NoDup_cons_iff in ND. destruct ND as [Hnotin ND].
  destruct l as [|x xs]; cbn [app map]; [apply IH, ND|].
  constructor; [|apply IH, ND].
  rewrite clave_mk. intros Hin. apply in_map_iff in Hin.
  destruct Hin as (dto & E & Hin). apply in_flat_map in Hin.
  destruct Hin as ([k' l'] & Hin & Hdto). cbn [fst snd] in Hdto.
  destruct l' as [|x' xs']; [contradiction|]. destruct Hdto as [<- | []].
  rewrite clave_mk in E. apply g_inj in E. subst k'.
  apply Hnotin. apply (in_map fst) in Hin. exact Hin.
Qed.
End Resultados.


Lemma set_of_NoDup (l : list Categoria.t) : NoDup (set_of Categoria.eqb l).
Proof.
  unfold set_of.
  assert (G : forall s, NoDup s ->
                        NoDup (fold_left (fun s x => set_add Categoria.eqb x s) l s)).
  { induction l as [|x l IH]; intros s Hs; cbn [fold_left]; [exact Hs|].
    apply IH. unfold set_add. destruct (existsb (Categoria.eqb x) s) eqn:E; [exact Hs|].
    apply NoDup_app; [exact Hs | repeat constructor; intros [] |].
    intros y Hy [-> | []].
    assert (E' : existsb (Categoria.eqb y) s = true).
    { apply existsb_exists. exists y. split; [exact Hy | apply Categoria_eqb_refl]. }
    congruence. }
  apply G. constructor.
Qed.

(** The order of first appearance is one iteration order of the sets. *)
Lemma categorias_evaluadas_iteracion :
  iteracion_de_conjuntos Evaluacion.categorias_evaluadas.
Proof.
  intros e. split; [apply set_of_NoDup | tauto].
Qed.

Lemma Categoria_value_inj (a b : Categoria.t) :
  Categoria.value a = Categoria.value b -> a = b.
Proof. intros H. apply Categoria_eqb_eq. unfold Categoria.eqb. rewrite H. apply String.eqb_refl. Qed.

Lemma _calcular_por_categoria_resultados (orden_set : orden)
    (evaluaciones : list Evaluacion.t) :
  _calcular_por_categoria orden_set evaluaciones =
  sorted categoria Str.ltb
    (resultados_de Categoria.eqb
       (fun c m n => mkCategoriaDTO (Categoria.value c) (Categoria.descripcion_corta c) m n)
       (bucle_categoria orden_set evaluaciones)).
Proof.
  unfold _calcular_por_categoria, resultados_de.
  destruct (bucle_categoria orden_set evaluaciones). reflexivity.
Qed.

Lemma _calcular_por_actor_resultados (evaluaciones : list Evaluacion.t) :
  _calcular_por_actor evaluaciones =
  sorted actor Str.ltb
    (resultados_de String.eqb mkActorDTO (bucle_actor evaluaciones)).
Proof.
  unfold _calcular_por_actor, resultados_de.
  destruct (bucle_actor evaluaciones). reflexivity.
Qed.


Lemma group_NoDup_keys {X : Type} (K : Type) (eqb : K -> K -> bool) :
  (forall a b, eqb a b = true <-> a = b) ->
  forall kxs : list (K * X), NoDup (Dict.keys (Dict.group eqb kxs)).
Proof.
  intros eqb_eq kxs. apply (claves_distintas_NoDup K eqb eqb_eq).
  apply (fold_append_claves_distintas _ _ eqb (eqb_eq_sym K eqb eqb_eq)
           (eqb_eq_trans K eqb eqb_eq)).
  constructor.
Qed.

(** The results of the two grouped averages, through the means the loops
    record. *)
Lemma resultados_de_los_grupos :
  forall (orden_set : orden) (evaluaciones : list Evaluacion.t),
    iteracion_de_conjuntos orden_set ->
    (forall dto : PromedioCategoriaDTO,
        In dto (_calcular_por_categoria orden_set evaluaciones) <->
        exists c : Categoria.t,
          c <> Categoria.COMENTARIOS /\
          promedios_de_categoria c evaluaciones <> [] /\
          dto = mkCategoriaDTO (Categoria.value c) (Categoria.descripcion_corta c)
                  (mean_or_zero (promedios_de_categoria c evaluaciones))
                  (List.length (promedios_de_categoria c evaluaciones))) /\
    Sorted (fun a b => Str.ltb (categoria a) (categoria b) = true)
      (_calcular_por_categoria orden_set evaluaciones) /\
    (forall dto : PromedioActorDTO,
        In dto (_calcular_por_actor evaluaciones) <->
        exists t : string,
          promedios_de_actor t evaluaciones <> [] /\
          dto = mkActorDTO t (mean_or_zero (promedios_de_actor t evaluaciones))
                  (List.length (promedios_de_actor t evaluaciones))) /\
    Sorted (fun a b => Str.ltb (actor a) (actor b) = true)
      (_calcular_por_actor evaluaciones).
Proof.
  intros orden_set evaluaciones Hord.
  rewrite _calcular_por_categoria_resultados, _calcular_por_actor_resultados.
  rewrite bucle_categoria_visitas, bucle_actor_visitas.
  split; [|split; [|split]].
  - intros dto. rewrite sorted_In, (resultados_In _ _ Categoria.eqb _ Categoria_eqb_eq).
    split.
    + intros [c [Hne ->]]. rewrite (valores_visitas_categoria _ _ _ Hord) in *.
      exists c. destruct (Categoria.eqb c Categoria.COMENTARIOS) eqn:E; [contradiction|].
      repeat split; [intros ->; discriminate E | exact Hne].
    + intros [c (Hc & Hne & ->)]. exists c.
      rewrite (valores_visitas_categoria _ _ _ Hord).
      destruct (Categoria.eqb c Categoria.COMENTARIOS) eqn:E;
        [apply Categoria_eqb_eq in E; contradiction|].
      split; [exact Hne | reflexivity].
  - apply (sorted_strict _ _ categoria Str.ltb Str_ltb_asym Str_ltb_total).
    apply (resultados_claves _ _ Categoria.eqb _ _ categoria Categoria.value).
    + reflexivity.
    + apply Categoria_value_inj.
    + apply (group_NoDup_keys _ Categoria.eqb Categoria_eqb_eq).
  - intros dto. rewrite sorted_In, (resultados_In _ _ String.eqb _ String.eqb_eq).
    split.
    + intros [t [Hne ->]]. rewrite valores_visitas_actor in *. exists t. split; trivial.
    + intros [t [Hne ->]]. exists t. rewrite valores_visitas_actor. split; trivial.
  - apply (sorted_strict _ _ actor Str.ltb Str_ltb_asym Str_ltb_total).
    apply (resultados_claves _ _ String.eqb _ _ actor (fun t => t)).
    + reflexivity.
    + trivial.
    + apply (group_NoDup_keys _ String.eqb String.eqb_eq).
Qed.

(** *** The exclusions drop the evaluations without rating data, and no other *)

Lemma no_es_cero_promedio_general (e : Evaluacion.t) :
  no_es_cero (Evaluacion.calcular_promedio_general e) = con_calificaciones e.
Proof.
  rewrite <- Qltb_promedio_general. unfold con_calificaciones.
  destruct (promedio_general_cases e) as [[H E] | [H [E _]]].
  - rewrite H, E. reflexivity.
  - destruct (calificaciones_validas e); [contradiction|]. apply Qltb_lt. lra.
Qed.

Lemma no_es_cero_promedio_por_categoria (e : Evaluacion.t) (c : Categoria.t) :
  no_es_cero (Evaluacion.calcular_promedio_por_categoria e c) = con_calificaciones_en c e.
Proof.
  rewrite <- Qltb_promedio_por_categoria. unfold con_calificaciones_en.
  destruct (promedio_por_categoria_cases e c) as [[H E] | [H [E _]]].
  - rewrite H, E. reflexivity.
  - destruct (Evaluacion.calificaciones _ _); [contradiction|]. apply Qltb_lt. lra.
Qed.

Lemma filter_map_swap {A B : Type} (p : B -> bool) (f : A -> B) (l : list A) :
  filter p (map f l) = map f (filter (fun a => p (f a)) l).
Proof.
  induction l as [|a l IH]; cbn [map filter]; [reflexivity|].
  destruct (p (f a)); cbn [map]; rewrite IH; reflexivity.
Qed.

Lemma promedios_de_actor_con_calificaciones (t : string) (evaluaciones : list Evaluacion.t) :
  promedios_de_actor t evaluaciones =
  map Evaluacion.calcular_promedio_general
    (filter (fun e => String.eqb (Evaluacion.tipo_formulario e) t && con_calificaciones e)
       evaluaciones).
Proof.
  unfold promedios_de_actor. rewrite filter_map_swap. f_equal.
  induction evaluaciones as [|e l IH]; cbn [filter]; [reflexivity|].
  destruct (String.eqb (Evaluacion.tipo_formulario e) t); cbn [filter andb];
    rewrite ?no_es_cero_promedio_general, IH; reflexivity.
Qed.

Lemma promedios_de_categoria_con_calificaciones (c : Categoria.t)
    (evaluaciones : list Evaluacion.t) :
  promedios_de_categoria c evaluaciones =
  map (fun e => Evaluacion.calcular_promedio_por_categoria e c)
    (filter (con_calificaciones_en c) evaluaciones).
Proof.
  unfold promedios_de_categoria. rewrite filter_map_swap. f_equal.
  apply filter_ext. intros e. apply no_es_cero_promedio_por_categoria.
Qed.


(** The means of the code are the means of the specification. *)
Lemma calificaciones_respondidas_eq (c : Categoria.t) (e : Evaluacion.t) :
  Evaluacion.calificaciones (fun p => Pregunta.pertenece_a_categoria p c)
    (Evaluacion.respuestas e) = calificaciones_respondidas c e.
Proof.
  unfold calificaciones_respondidas.
  induction (Evaluacion.respuestas e) as [|[p [cal|]] items IH];
    cbn [Evaluacion.calificaciones flat_map fst snd]; [reflexivity | | exact IH].
  unfold Pregunta.pertenece_a_categoria at 1.
  destruct (Categoria.eqb (Pregunta.categoria p) c); cbn [app]; rewrite IH; reflexivity.
Qed.

Lemma promedio_por_categoria_eq (e : Evaluacion.t) (c : Categoria.t) :
  Evaluacion.calcular_promedio_por_categoria e c = promedio_en_categoria c e.
Proof.
  unfold Evaluacion.calcular_promedio_por_categoria, promedio_en_categoria.
  rewrite calificaciones_respondidas_eq.
  destruct (calificaciones_respondidas c e); reflexivity.
Qed.

Lemma promedios_de_categoria_medias (c : Categoria.t) (evaluaciones : list Evaluacion.t) :
  promedios_de_categoria c evaluaciones = medias_de_categoria c evaluaciones.
Proof.
  unfold promedios_de_categoria, medias_de_categoria, califica_en.
  induction evaluaciones as [|e l IH]; cbn [map filter]; [reflexivity|].
  rewrite promedio_por_categoria_eq, IH.
  destruct (no_es_cero (promedio_en_categoria c e)); reflexivity.
Qed.

Lemma promedios_de_actor_medias (t : string) (evaluaciones : list Evaluacion.t) :
  promedios_de_actor t evaluaciones = medias_de_actor t evaluaciones.
Proof.
  unfold promedios_de_actor, medias_de_actor.
  induction evaluaciones as [|e l IH]; cbn [map filter]; [reflexivity|].
  destruct (String.eqb (Evaluacion.tipo_formulario e) t); cbn [map filter andb];
    [|exact IH].
  rewrite promedio_general_eq, IH.
  destruct (no_es_cero (promedio_de_evaluacion e)); reflexivity.
Qed.

Lemma mean_or_zero_cociente (l : list Q) :
  l <> [] -> mean_or_zero l = cociente (Qsum l) (List.length l).
Proof. destruct l as [|x xs]; [contradiction | reflexivity]. Qed.

(** C2. Whatever the order in which the sets of categories are iterated:
    the per-category results are, for each category other than Comments
    with at least one qualifying evaluation, its label, its short label,
    the mean (sum / count) of the qualifying evaluations' means in the
    category and the number of qualifying evaluations; the mean of an
    evaluation in a category is the sum / count of its answered ratings on
    the questions of the category, 0.0 when it has none, and the evaluation
    qualifies when that mean is not exactly 0.0. The results ascend strictly
    by full label. The per-evaluator-type results are, for each type with
    at least one evaluation of overall mean other than 0.0, the mean of
    those overall means and their number, ascending strictly by label. On
    the evaluation of the test (4.0 in one category, 5.0 in another) the
    categories get 4.0 and 5.0 over one evaluation each; with the
    evaluation rated 3.0 added, the first category gets 3.5 over two; the
    two evaluations of one evaluator type rated 3.0 and 5.0 give that type
    4.0 over two. *)
Theorem promedios_por_categoria_y_por_actor :
  (forall (orden_set : orden) (evaluaciones : list Evaluacion.t),
      iteracion_de_conjuntos orden_set ->
      (forall dto : PromedioCategoriaDTO,
          In dto (_calcular_por_categoria orden_set evaluaciones) <->
          exists c : Categoria.t,
            c <> Categoria.COMENTARIOS /\
            medias_de_categoria c evaluaciones <> [] /\
            dto = mkCategoriaDTO (Categoria.value c) (Categoria.descripcion_corta c)
                    (cociente (Qsum (medias_de_categoria c evaluaciones))
                       (List.length (medias_de_categoria c evaluaciones)))
                    (List.length (medias_de_categoria c evaluaciones))) /\
      Sorted (fun a b => Str.ltb (categoria a) (categoria b) = true)
        (_calcular_por_categoria orden_set evaluaciones) /\
      (forall dto : PromedioActorDTO,
          In dto (_calcular_por_actor evaluaciones) <->
          exists t : string,
            medias_de_actor t evaluaciones <> [] /\
            dto = mkActorDTO t
                    (cociente (Qsum (medias_de_actor t evaluaciones))
                       (List.length (medias_de_actor t evaluaciones)))
                    (List.length (medias_de_actor t evaluaciones))) /\
      Sorted (fun a b => Str.ltb (actor a) (actor b) = true)
        (_calcular_por_actor evaluaciones)) /\
  (forall (c : Categoria.t) (e : Evaluacion.t),
      Evaluacion.calcular_promedio_por_categoria e c = promedio_en_categoria c e /\
      Evaluacion.calcular_promedio_general e = promedio_de_evaluacion e /\
      (calificaciones_respondidas c e = [] -> (promedio_en_categoria c e == 0)%Q) /\
      (calificaciones_respondidas c e <> [] ->
       (promedio_en_categoria c e
        * inject_Z (Z.of_nat (List.length (calificaciones_respondidas c e)))
        == Qsum (calificaciones_respondidas c e))%Q /\
       califica_en c e = true)) /\
  (map (fun d => (categoria d, categoria_corta d, total_evaluaciones d))
     (_calcular_por_categoria Evaluacion.categorias_evaluadas [evaluacion_dos_categorias]) =
   [(Categoria.value Categoria.ENSENANZA_APRENDIZAJE,
     Categoria.descripcion_corta Categoria.ENSENANZA_APRENDIZAJE, 1%nat);
    (Categoria.value Categoria.EVALUACION,
     Categoria.descripcion_corta Categoria.EVALUACION, 1%nat)] /\
   Forall2 (fun d m => (promedio d == m)%Q)
     (_calcular_por_categoria Evaluacion.categorias_evaluadas [evaluacion_dos_categorias])
     [4%Q; 5%Q]) /\
  (map (fun d => (categoria d, total_evaluaciones d))
     (_calcular_por_categoria Evaluacion.categorias_evaluadas
        [eval1; evaluacion_dos_categorias]) =
   [(Categoria.value Categoria.ENSENANZA_APRENDIZAJE, 2%nat);
    (Categoria.value Categoria.EVALUACION, 1%nat)] /\
   Forall2 (fun d m => (promedio d == m)%Q)
     (_calcular_por_categoria Evaluacion.categorias_evaluadas
        [eval1; evaluacion_dos_categorias])
     [(7 # 2)%Q; 5%Q]) /\
  (map (fun d => (actor d, actor_total_evaluaciones d))
     (_calcular_por_actor [eval1; eval2]) = [("ESTUDIANTE V3"%string, 2%nat)] /\
   Forall2 (fun d m => (actor_promedio d == m)%Q)
     (_calcular_por_actor [eval1; eval2]) [4%Q]).
Proof.
  split; [|split; [|split; [|split]]].
  - intros orden_set evaluaciones Hord.
    destruct (resultados_de_los_grupos orden_set evaluaciones Hord)
      as (Hcat & Scat & Hact & Sact).
    split; [|split; [exact Scat|split; [|exact Sact]]].
    + intros dto. rewrite Hcat. split; intros [c (Hc & Hne & ->)]; exists c.
      * rewrite promedios_de_categoria_medias in *.
        rewrite (mean_or_zero_cociente _ Hne). repeat split; assumption.
      * rewrite promedios_de_categoria_medias.
        rewrite (mean_or_zero_cociente _ Hne). repeat split; assumption.
    + intros dto. rewrite Hact. split; intros [t (Hne & ->)]; exists t.
      * rewrite promedios_de_actor_medias in *.
        rewrite (mean_or_zero_cociente _ Hne). split; [assumption | reflexivity].
      * rewrite promedios_de_actor_medias.
        rewrite (mean_or_zero_cociente _ Hne). split; [assumption | reflexivity].
  - intros c e. split; [apply promedio_por_categoria_eq|].
    split; [apply promedio_general_eq|]. split.
    + intros E. unfold promedio_en_categoria. rewrite E. reflexivity.
    + intros Hne.
      assert (M : (promedio_en_categoria c e
                   * inject_Z (Z.of_nat (List.length (calificaciones_respondidas c e)))
                   == Qsum (calificaciones_respondidas c e))%Q).
      { unfold promedio_en_categoria, cociente.
        destruct (calificaciones_respondidas c e) as [|x xs]; [contradiction|].
        cbn [List.length]. field.
        pose proof (inject_nat_pos (List.length xs)) as P. intros Z0.
        rewrite Z0 in P. apply (Qlt_irrefl _ P). }
      split; [exact M|].
      unfold califica_en. rewrite <- promedio_por_categoria_eq.
      rewrite no_es_cero_promedio_por_categoria. unfold con_calificaciones_en.
      rewrite calificaciones_respondidas_eq.
      destruct (calificaciones_respondidas c e); [contradiction | reflexivity].
  - split; [vm_compute; reflexivity|]. repeat constructor.
  - split; [vm_compute; reflexivity|]. repeat constructor.
  - split; [vm_compute; reflexivity|]. repeat constructor.
Qed.

(** The two evaluations of the witness hold 3.0 and 4.0 in the first
    category: the category is reported with the mean of the two means over
    two evaluations. *)
Lemma promedios_por_categoria_y_por_actor_witness :
  iteracion_de_conjuntos Evaluacion.categorias_evaluadas /\
  medias_de_categoria Categoria.ENSENANZA_APRENDIZAJE [eval1; evaluacion_dos_categorias]
    = [cociente (Qsum [3%Q]) 1; cociente (Qsum [4%Q]) 1] /\
  In (mkCategoriaDTO (Categoria.value Categoria.ENSENANZA_APRENDIZAJE)
        (Categoria.descripcion_corta Categoria.ENSENANZA_APRENDIZAJE)
        (cociente (Qsum [cociente (Qsum [3%Q]) 1; cociente (Qsum [4%Q]) 1]) 2) 2)
     (_calcular_por_categoria Evaluacion.categorias_evaluadas
        [eval1; evaluacion_dos_categorias]).
Proof.
  split; [exact categorias_evaluadas_iteracion|]. split; [reflexivity|].
  apply (proj1 (proj1 promedios_por_categoria_y_por_actor
                  Evaluacion.categorias_evaluadas [eval1; evaluacion_dos_categorias]
                  categorias_evaluadas_iteracion)).
  exists Categoria.ENSENANZA_APRENDIZAJE.
  split; [discriminate|]. split; [discriminate | reflexivity].
Defined.


(** C10. The overall mean of an evaluation and its mean in a category are
    exactly 0.0 when the evaluation has no answered rating that counts, and
    at least 1.0 (at most 5.0) otherwise; no mean lies strictly between 0
    and 1. So the guards [promedio > 0] of the grouping loops let through
    exactly the evaluations with rating data: what the loops record under an
    evaluator type, or under a category other than Comments, are the means
    of all the evaluations (of that type) with an answered rating that
    counts (in that category), and the counters are their numbers. *)
Theorem promedios_cero_o_al_menos_uno :
  (forall e : Evaluacion.t,
      (con_calificaciones e = false /\ Evaluacion.calcular_promedio_general e = 0%Q) \/
      (con_calificaciones e = true /\
       (1 <= Evaluacion.calcular_promedio_general e /\
        Evaluacion.calcular_promedio_general e <= 5)%Q)) /\
  (forall (e : Evaluacion.t) (c : Categoria.t),
      (con_calificaciones_en c e = false /\
       Evaluacion.calcular_promedio_por_categoria e c = 0%Q) \/
      (con_calificaciones_en c e = true /\
       (1 <= Evaluacion.calcular_promedio_por_categoria e c /\
        Evaluacion.calcular_promedio_por_categoria e c <= 5)%Q)) /\
  (forall (e : Evaluacion.t) (c : Categoria.t),
      ~ (0 < Evaluacion.calcular_promedio_general e /\
         Evaluacion.calcular_promedio_general e < 1)%Q /\
      ~ (0 < Evaluacion.calcular_promedio_por_categoria e c /\
         Evaluacion.calcular_promedio_por_categoria e c < 1)%Q) /\
  (forall (e : Evaluacion.t) (c : Categoria.t),
      Qltb 0 (Evaluacion.calcular_promedio_general e) = con_calificaciones e /\
      Qltb 0 (Evaluacion.calcular_promedio_por_categoria e c) = con_calificaciones_en c e) /\
  (forall (evaluaciones : list Evaluacion.t) (t : string),
      let con_datos :=
        filter (fun e => String.eqb (Evaluacion.tipo_formulario e) t && con_calificaciones e)
          evaluaciones in
      get_or_empty String.eqb t (fst (bucle_actor evaluaciones)) =
        map Evaluacion.calcular_promedio_general con_datos /\
      Dict.count String.eqb t (snd (bucle_actor evaluaciones)) = List.length con_datos) /\
  (forall (orden_set : orden) (evaluaciones : list Evaluacion.t) (c : Categoria.t),
      iteracion_de_conjuntos orden_set ->
      c <> Categoria.COMENTARIOS ->
      let con_datos := filter (con_calificaciones_en c) evaluaciones in
      get_or_empty Categoria.eqb c (fst (bucle_categoria orden_set evaluaciones)) =
        map (fun e => Evaluacion.calcular_promedio_por_categoria e c) con_datos /\
      Dict.count Categoria.eqb c (snd (bucle_categoria orden_set evaluaciones)) =
        List.length con_datos).
Proof.
  assert (general : forall e : Evaluacion.t,
             (con_calificaciones e = false /\ Evaluacion.calcular_promedio_general e = 0%Q) \/
             (con_calificaciones e = true /\
              (1 <= Evaluacion.calcular_promedio_general e /\
               Evaluacion.calcular_promedio_general e <= 5)%Q)).
  { intros e. unfold con_calificaciones.
    destruct (promedio_general_cases e) as [[H E] | [H E]].
    - left. rewrite H. split; [reflexivity | exact E].
    - right. destruct (calificaciones_validas e); [contradiction|]. split; [reflexivity | exact E]. }
  assert (categoria : forall (e : Evaluacion.t) (c : Categoria.t),
             (con_calificaciones_en c e = false /\
              Evaluacion.calcular_promedio_por_categoria e c = 0%Q) \/
             (con_calificaciones_en c e = true /\
              (1 <= Evaluacion.calcular_promedio_por_categoria e c /\
               Evaluacion.calcular_promedio_por_categoria e c <= 5)%Q)).
  { intros e c. unfold con_calificaciones_en.
    destruct (promedio_por_categoria_cases e c) as [[H E] | [H E]].
    - left. rewrite H. split; [reflexivity | exact E].
    - right. destruct (Evaluacion.calificaciones _ _); [contradiction|].
      split; [reflexivity | exact E]. }
  split; [exact general|]. split; [exact categoria|]. split; [|split; [|split]].
  - intros e c. split.
    + destruct (general e) as [[_ E] | [_ E]]; [rewrite E|]; lra.
    + destruct (categoria e c) as [[_ E] | [_ E]]; [rewrite E|]; lra.
  - intros e c. split.
    + rewrite Qltb_promedio_general. apply no_es_cero_promedio_general.
    + rewrite Qltb_promedio_por_categoria. apply no_es_cero_promedio_por_categoria.
  - intros evaluaciones t con_datos. rewrite bucle_actor_visitas. cbn [fst snd].
    unfold get_or_empty.
    rewrite (get_group _ _ String.eqb String.eqb_sym String_eqb_trans).
    rewrite (count_tally _ String.eqb String.eqb_sym String_eqb_trans).
    rewrite <- (length_valores_de _ Q String.eqb).
    rewrite valores_visitas_actor, promedios_de_actor_con_calificaciones.
    fold con_datos. rewrite length_map.
    destruct (map Evaluacion.calcular_promedio_general con_datos); split; reflexivity.
  - intros orden_set evaluaciones c Hord Hc con_datos.
    rewrite bucle_categoria_visitas. cbn [fst snd]. unfold get_or_empty.
    rewrite (get_group _ _ Categoria.eqb Categoria_eqb_sym Categoria_eqb_trans).
    rewrite (count_tally _ Categoria.eqb Categoria_eqb_sym Categoria_eqb_trans).
    rewrite <- (length_valores_de _ Q Categoria.eqb).
    rewrite (valores_visitas_categoria _ _ _ Hord).
    destruct (Categoria.eqb c Categoria.COMENTARIOS) eqn:E;
      [apply Categoria_eqb_eq in E; contradiction|].
    rewrite promedios_de_categoria_con_calificaciones. fold con_datos.
    rewrite length_map.
    destruct (map (fun e => Evaluacion.calcular_promedio_por_categoria e c) con_datos);
      split; reflexivity.
Qed.

End Promedios.

(** ** The recommendation engine *)

Section Mejoras.
Import ObtenerPropuestaMejoraUseCase.

(** *** The grouping loops *)

Lemma fold_left_anidado {K X A B : Type} (eqb : K -> K -> bool)
    (g : A -> list B) (f : B -> list (K * X))
    (paso : Dict.t K (list X) -> B -> Dict.t K (list X)) :
  (forall d b,
      paso d b = fold_left (fun d kx => Dict.append eqb (fst kx) (snd kx) d) (f b) d) ->
  forall (l : list A) (d : Dict.t K (list X)),
    fold_left (fun d a => fold_left paso (g a) d) l d =
    fold_left (fun d kx => Dict.append eqb (fst kx) (snd kx) d)
      (flat_map (fun a => flat_map f (g a)) l) d.
Proof.
  intros Hpaso l. induction l as [|a l IH]; intros d; cbn [fold_left flat_map];
    [reflexivity|].
  rewrite fold_left_app, IH. f_equal.
  generalize (g a) as bs. intros bs. revert d.
  induction bs as [|b bs IHb]; intros d; cbn [fold_left flat_map]; [reflexivity|].
  rewrite fold_left_app, IHb, Hpaso. reflexivity.
Qed.

Lemma bucle_categorias_visitas (evaluaciones : list Evaluacion.t) :
  bucle_categorias evaluaciones = Dict.group Categoria.eqb (visitas_mejora evaluaciones).
Proof.
  unfold bucle_categorias, Dict.group, visitas_mejora.
  apply (fold_left_anidado Categoria.eqb Evaluacion.respuestas
           (fun item =>
              match snd item with
              | Some cal =>
                  if negb (Pregunta.es_comentario (fst item))
                  then [(Pregunta.categoria (fst item), Calificacion.valor cal)]
                  else []
              | None => []
              end)).
  intros d [p [cal|]]; cbn [fst snd]; [|reflexivity].
  destruct (negb (Pregunta.es_comentario p)); reflexivity.
Qed.

Lemma bucle_preguntas_visitas (c : Categoria.t) (evaluaciones : list Evaluacion.t) :
  bucle_preguntas c evaluaciones =
  Dict.group Pregunta.eqb (visitas_preguntas c evaluaciones).
Proof.
  unfold bucle_preguntas, Dict.group, visitas_preguntas.
  apply (fold_left_anidado Pregunta.eqb Evaluacion.respuestas
           (fun item =>
              if Categoria.eqb (Pregunta.categoria (fst item)) c then
                match snd item with
                | Some cal =>
                    if negb (Pregunta.es_comentario (fst item))
                    then [(fst item, Calificacion.valor cal)]
                    else []
                | None => []
                end
              else [])).
  intros d [p [cal|]]; cbn [fst snd];
    destruct (Categoria.eqb (Pregunta.categoria p) c); try reflexivity.
  destruct (negb (Pregunta.es_comentario p)); reflexivity.
Qed.

Lemma valores_de_flat_map {K X A : Type} (eqb : K -> K -> bool) (k : K)
    (f : A -> list (K * X)) (l : list A) :
  valores_de eqb k (flat_map f l) = flat_map (fun a => valores_de eqb k (f a)) l.
Proof.
  induction l as [|a l IH]; cbn [flat_map]; [reflexivity|].
  rewrite valores_de_app, IH. reflexivity.
Qed.

Lemma es_comentario_categoria (p : Pregunta.t) (c : Categoria.t) :
  Categoria.eqb (Pregunta.categoria p) c = true ->
  Pregunta.es_comentario p = Categoria.eqb c Categoria.COMENTARIOS.
Proof.
  intros H. apply Categoria_eqb_eq in H. subst c. reflexivity.
Qed.

Lemma valores_visitas_mejora (c : Categoria.t) (evaluaciones : list Evaluacion.t) :
  valores_de Categoria.eqb c (visitas_mejora evaluaciones) =
  if Categoria.eqb c Categoria.COMENTARIOS then []
  else calificaciones_de_categoria c evaluaciones.
Proof.
  unfold visitas_mejora, calificaciones_de_categoria.
  rewrite valores_de_flat_map.
  induction evaluaciones as [|e l IH]; cbn [flat_map];
    [destruct (Categoria.eqb c Categoria.COMENTARIOS); reflexivity|].
  rewrite IH, valores_de_flat_map.
  assert (G : flat_map
                (fun item : Pregunta.t * option Calificacion.t =>
                   valores_de Categoria.eqb c
                     match snd item with
                     | Some cal =>
                         if negb (Pregunta.es_comentario (fst item))
                         then [(Pregunta.categoria (fst item), Calificacion.valor cal)]
                         else []
                     | None => []
                     end)
                (Evaluacion.respuestas e) =
              if Categoria.eqb c Categoria.COMENTARIOS then []
              else flat_map
                     (fun item : Pregunta.t * option Calificacion.t =>
                        match snd item with
                        | Some cal =>
                            if Categoria.eqb (Pregunta.categoria (fst item)) c
                            then [Calificacion.valor cal] else []
                        | None => []
                        end)
                     (Evaluacion.respuestas e)).
  { induction (Evaluacion.respuestas e) as [|[p [cal|]] items IHi]; cbn [flat_map fst snd].
    - destruct (Categoria.eqb c Categoria.COMENTARIOS); reflexivity.
    - rewrite IHi. destruct (Categoria.eqb (Pregunta.categoria p) c) eqn:E.
      + rewrite (es_comentario_categoria p c E).
        destruct (Categoria.eqb c Categoria.COMENTARIOS); [reflexivity|].
        cbn [negb]. unfold valores_de. cbn [filter fst]. rewrite E. reflexivity.
      + assert (N : valores_de Categoria.eqb c
                      (if negb (Pregunta.es_comentario p)
                       then [(Pregunta.categoria p, Calificacion.valor cal)] else []) = []).
        { destruct (negb (Pregunta.es_comentario p)); [|reflexivity].
          unfold valores_de. cbn [filter fst]. rewrite E. reflexivity. }
        rewrite N. destruct (Categoria.eqb c Categoria.COMENTARIOS); reflexivity.
    - rewrite IHi. destruct (Categoria.eqb c Categoria.COMENTARIOS); reflexivity. }
  rewrite G. destruct (Categoria.eqb c Categoria.COMENTARIOS); reflexivity.
Qed.


Lemma Pregunta_eqb_refl (p : Pregunta.t) : Pregunta.eqb p p = true.
Proof. apply String.eqb_refl. Qed.

Lemma Pregunta_eqb_sym (p q : Pregunta.t) : Pregunta.eqb p q = Pregunta.eqb q p.
Proof. apply String.eqb_sym. Qed.

Lemma Pregunta_eqb_trans (p q r : Pregunta.t) :
  Pregunta.eqb p q = true -> Pregunta.eqb q r = true -> Pregunta.eqb p r = true.
Proof. apply String_eqb_trans. Qed.

Lemma visitas_preguntas_keys (c : Categoria.t) (evaluaciones : list Evaluacion.t) :
  Categoria.eqb c Categoria.COMENTARIOS = false ->
  map fst (visitas_preguntas c evaluaciones) = preguntas_calificadas c evaluaciones.
Proof.
  intros Hc. unfold visitas_preguntas, preguntas_calificadas.
  induction evaluaciones as [|e l IH]; cbn [flat_map map]; [reflexivity|].
  rewrite map_app, IH. f_equal.
  induction (Evaluacion.respuestas e) as [|[p [cal|]] items IHi];
    cbn [flat_map map fst snd]; [reflexivity | |].
  - rewrite map_app, IHi. f_equal.
    destruct (Categoria.eqb (Pregunta.categoria p) c) eqn:E; [|reflexivity].
    rewrite (es_comentario_categoria p c E), Hc. reflexivity.
  - rewrite map_app, IHi.
    destruct (Categoria.eqb (Pregunta.categoria p) c); reflexivity.
Qed.

Lemma valores_visitas_preguntas (c : Categoria.t) (p : Pregunta.t)
    (evaluaciones : list Evaluacion.t) :
  Categoria.eqb c Categoria.COMENTARIOS = false ->
  valores_de Pregunta.eqb p (visitas_preguntas c evaluaciones) =
  calificaciones_de_pregunta c (Pregunta.codigo p) evaluaciones.
Proof.
  intros Hc. unfold visitas_preguntas, calificaciones_de_pregunta.
  rewrite valores_de_flat_map.
  induction evaluaciones as [|e l IH]; cbn [flat_map]; [reflexivity|].
  rewrite IH, valores_de_flat_map. f_equal.
  induction (Evaluacion.respuestas e) as [|[q [cal|]] items IHi];
    cbn [flat_map fst snd]; [reflexivity | |].
  - rewrite IHi. f_equal.
    destruct (Categoria.eqb (Pregunta.categoria q) c) eqn:E; cbn [andb]; [|reflexivity].
    rewrite (es_comentario_categoria q c E), Hc. cbn [negb].
    unfold valores_de, Pregunta.eqb. cbn [filter fst].
    destruct (String.eqb (Pregunta.codigo q) (Pregunta.codigo p)); reflexivity.
  - rewrite IHi. destruct (Categoria.eqb (Pregunta.categoria q) c); reflexivity.
Qed.

Lemma visitas_preguntas_comentarios (evaluaciones : list Evaluacion.t) :
  visitas_preguntas Categoria.COMENTARIOS evaluaciones = [].
Proof.
  unfold visitas_preguntas.
  induction evaluaciones as [|e l IH]; cbn [flat_map]; [reflexivity|].
  rewrite IH, app_nil_r.
  induction (Evaluacion.respuestas e) as [|[q [cal|]] items IHi];
    cbn [flat_map fst snd]; [reflexivity | |]; rewrite IHi, app_nil_r.
  - fold (Pregunta.es_comentario q). destruct (Pregunta.es_comentario q); reflexivity.
  - destruct (Categoria.eqb (Pregunta.categoria q) Categoria.COMENTARIOS); reflexivity.
Qed.

(** No mean of [_generar_recomendaciones] raises: the lists of a
    [defaultdict] filled by [append] are not empty. *)
Lemma recomendar_Ok (categoria_nombre : string) (items : list (Pregunta.t * list Q)) :
  (forall p l, In (p, l) items -> l <> []) ->
  recomendar categoria_nombre items =
  Ok (flat_map (recomendacion_de_grupo categoria_nombre) items).
Proof.
  induction items as [|[p l] items IH]; intros H; cbn [recomendar flat_map];
    [reflexivity|].
  destruct l as [|x xs]; [exfalso; apply (H p []); [left|]; reflexivity|].
  rewrite IH by (intros p' l' Hin; apply (H p' l'); right; exact Hin).
  cbn [bind]. unfold recomendacion_de_grupo. cbn [fst snd].
  change (promedio_plano (x :: xs)) with (statistics_mean x xs).
  destruct (Qltb (statistics_mean x xs) 4); reflexivity.
Qed.

Lemma _generar_recomendaciones_Ok (c : Categoria.t) (evaluaciones : list Evaluacion.t) :
  _generar_recomendaciones c evaluaciones = Ok (recomendaciones_de c evaluaciones).
Proof.
  unfold _generar_recomendaciones, recomendaciones_de.
  rewrite bucle_preguntas_visitas, recomendar_Ok; [reflexivity|].
  intros p l Hin.
  apply (group_In _ _ Pregunta.eqb Pregunta_eqb_refl Pregunta_eqb_sym Pregunta_eqb_trans) in Hin.
  tauto.
Qed.


(** *** The text of a recommendation *)

Lemma Dict_get_find {K V : Type} (eqb : K -> K -> bool) (k : K) (d : Dict.t K V) :
  Dict.get eqb k d = option_map snd (find (fun kv => eqb (fst kv) k) d).
Proof.
  induction d as [|[k' v] d IH]; cbn [Dict.get find fst]; [reflexivity|].
  destruct (eqb k' k); [reflexivity | exact IH].
Qed.

(** Every keyword of the table is written in lower case. *)
Lemma RECOMENDACIONES_en_minusculas :
  forallb (fun entrada => keywords_en_minusculas (snd entrada)) RECOMENDACIONES = true.
Proof. vm_compute. reflexivity. Qed.

Lemma buscar_keyword_find (items : list (string * string)) (texto : string) :
  forallb (fun kr => String.eqb (Str.lower (fst kr)) (fst kr)) items = true ->
  buscar_keyword items (Str.lower texto) =
  option_map snd (find (fun kr => contiene_sin_distinguir (fst kr) texto) items).
Proof.
  induction items as [|[k r] items IH]; cbn [forallb buscar_keyword find fst];
    [reflexivity|].
  rewrite andb_true_iff, String.eqb_eq. intros [Hk Hrest].
  unfold contiene_sin_distinguir at 1. rewrite Hk.
  destruct (Str.contains k (Str.lower texto)); [reflexivity | exact (IH Hrest)].
Qed.

Lemma _obtener_recomendacion_segun_tabla (categoria texto : string) :
  _obtener_recomendacion categoria texto = recomendacion_segun_tabla categoria texto.
Proof.
  unfold _obtener_recomendacion, recomendacion_segun_tabla.
  rewrite Dict_get_find.
  destruct (find (fun kv => String.eqb (fst kv) categoria) RECOMENDACIONES)
    as [[k cfg]|] eqn:E; cbn [option_map snd]; [|reflexivity].
  apply find_some in E. destruct E as [Hin _].
  pose proof RECOMENDACIONES_en_minusculas as H.
  rewrite forallb_forall in H. specialize (H _ Hin). cbn [snd] in H.
  rewrite (buscar_keyword_find _ _ H).
  destruct (find _ (keywords cfg)) as [[k' r]|]; reflexivity.
Qed.


(** *** The recommendations of a category *)

Lemma Qltb_asym (a b : Q) : Qltb a b = true -> Qltb b a = false.
Proof.
  rewrite Qltb_lt. intros H. apply not_true_is_false. rewrite Qltb_lt. lra.
Qed.

Lemma In_valores_de {K X : Type} (eqb : K -> K -> bool) (k : K) (kxs : list (K * X)) :
  (forall k, eqb k k = true) ->
  In k (map fst kxs) -> valores_de eqb k kxs <> [].
Proof.
  intros Hrefl Hin. apply in_map_iff in Hin. destruct Hin as [[k' x] [E Hin]].
  cbn in E. subst k'. unfold valores_de.
  assert (G : In x (map snd (filter (fun kx => eqb (fst kx) k) kxs))).
  { apply in_map_iff. exists (k, x). split; [reflexivity|].
    apply filter_In. split; [exact Hin | apply Hrefl]. }
  intros E. rewrite E in G. exact G.
Qed.

Lemma recomendaciones_codigos (categoria_nombre : string)
    (d : Dict.t Pregunta.t (list Q)) :
  claves_distintas Pregunta.eqb d ->
  NoDup (map codigo_pregunta (flat_map (recomendacion_de_grupo categoria_nombre) d)).
Proof.
  induction 1 as [|p l d Hget Hd IH]; cbn [flat_map]; [constructor|].
  unfold recomendacion_de_grupo at 1. cbn [fst snd].
  destruct (Qltb (promedio_plano l) 4); cbn [app map]; [|exact IH].
  constructor; [|exact IH]. cbn [codigo_pregunta].
  intros Hin. apply in_map_iff in Hin. destruct Hin as (r & E & Hin).
  apply in_flat_map in Hin. destruct Hin as ([q l'] & Hin & Hr).
  unfold recomendacion_de_grupo in Hr. cbn [fst snd] in Hr.
  destruct (Qltb (promedio_plano l') 4); [|contradiction].
  destruct Hr as [<- | []]. cbn [codigo_pregunta] in E.
  pose proof (get_None_In _ _ Pregunta.eqb p d Hget q l' Hin) as F.
  unfold Pregunta.eqb in F. rewrite E, String.eqb_refl in F. discriminate.
Qed.


Lemma recomendaciones_de_spec (c : Categoria.t) (evaluaciones : list Evaluacion.t) :
  Categoria.eqb c Categoria.COMENTARIOS = false ->
  Sorted (no_desciende calificacion_promedio Qltb) (recomendaciones_de c evaluaciones) /\
  NoDup (map codigo_pregunta (recomendaciones_de c evaluaciones)) /\
  (forall r : RecomendacionMejora,
      In r (recomendaciones_de c evaluaciones) ->
      exists p : Pregunta.t,
        In p (preguntas_calificadas c evaluaciones) /\
        (promedio_plano (calificaciones_de_pregunta c (Pregunta.codigo p) evaluaciones) < 4)%Q /\
        r = mkRecomendacion (Pregunta.codigo p) (Pregunta.texto p)
              (promedio_plano (calificaciones_de_pregunta c (Pregunta.codigo p) evaluaciones))
              (recomendacion_segun_tabla (Categoria.value c) (Pregunta.texto p))) /\
  (forall p : Pregunta.t,
      In p (preguntas_calificadas c evaluaciones) ->
      (promedio_plano (calificaciones_de_pregunta c (Pregunta.codigo p) evaluaciones) < 4)%Q ->
      exists r : RecomendacionMejora,
        In r (recomendaciones_de c evaluaciones) /\
        codigo_pregunta r = Pregunta.codigo p /\
        calificacion_promedio r =
          promedio_plano (calificaciones_de_pregunta c (Pregunta.codigo p) evaluaciones)).
Proof.
  intros Hc. unfold recomendaciones_de.
  split; [apply (sorted_Sorted _ _ calificacion_promedio Qltb Qltb_asym)|].
  split.
  { eapply Permutation_NoDup.
    - apply Permutation_map. symmetry. apply sorted_perm.
    - apply recomendaciones_codigos.
      apply (fold_append_claves_distintas _ _ Pregunta.eqb Pregunta_eqb_sym Pregunta_eqb_trans).
      constructor. }
  split.
  - intros r Hr. apply sorted_In, in_flat_map in Hr.
    destruct Hr as ([p l] & Hin & Hr).
    apply (group_In _ _ Pregunta.eqb Pregunta_eqb_refl Pregunta_eqb_sym Pregunta_eqb_trans)
      in Hin.
    destruct Hin as (-> & _ & Hkey).
    rewrite (visitas_preguntas_keys c evaluaciones Hc) in Hkey.
    rewrite (valores_visitas_preguntas c p evaluaciones Hc) in Hr.
    unfold recomendacion_de_grupo in Hr. cbn [fst snd] in Hr.
    destruct (Qltb _ 4) eqn:E; [|contradiction]. destruct Hr as [<- | []].
    exists p. split; [exact Hkey|]. split; [apply Qltb_lt, E|].
    rewrite _obtener_recomendacion_segun_tabla. reflexivity.
  - intros p Hp Hlt.
    rewrite <- (visitas_preguntas_keys c evaluaciones Hc) in Hp.
    apply (In_valores_de Pregunta.eqb p _ Pregunta_eqb_refl) in Hp.
    destruct (group_complete _ _ Pregunta.eqb Pregunta_eqb_sym Pregunta_eqb_trans p _ Hp)
      as (p' & Ep & Hin).
    rewrite (valores_visitas_preguntas c p evaluaciones Hc) in Hin.
    eexists. split.
    + apply sorted_In, in_flat_map.
      exists (p', calificaciones_de_pregunta c (Pregunta.codigo p) evaluaciones).
      split; [exact Hin|].
      unfold recomendacion_de_grupo. cbn [fst snd].
      apply Qltb_lt in Hlt. rewrite Hlt. left. reflexivity.
    + cbn [codigo_pregunta calificacion_promedio]. split; [|reflexivity].
      apply String.eqb_eq. exact Ep.
Qed.

(** *** The loop over the categories *)

Lemma mejorar_Ok (evaluaciones : list Evaluacion.t) (items : list (Categoria.t * Q)) :
  mejorar evaluaciones items =
  Ok (flat_map
        (fun item =>
           if Qltb (snd item) 4 then
             match recomendaciones_de (fst item) evaluaciones with
             | [] => []
             | _ :: _ =>
                 [mkMejora (Categoria.value (fst item)) (snd item)
                    (recomendaciones_de (fst item) evaluaciones)]
             end
           else [])
        items).
Proof.
  induction items as [|[c m] items IH]; cbn [mejorar flat_map fst snd]; [reflexivity|].
  rewrite IH. destruct (Qltb m 4); [|reflexivity].
  rewrite _generar_recomendaciones_Ok. cbn [bind].
  destruct (recomendaciones_de c evaluaciones); reflexivity.
Qed.

Lemma _calcular_promedios_por_categoria_In (evaluaciones : list Evaluacion.t)
    (c : Categoria.t) (m : Q) :
  In (c, m) (_calcular_promedios_por_categoria evaluaciones) <->
  Categoria.eqb c Categoria.COMENTARIOS = false /\
  calificaciones_de_categoria c evaluaciones <> [] /\
  m = promedio_plano (calificaciones_de_categoria c evaluaciones).
Proof.
  unfold _calcular_promedios_por_categoria. rewrite bucle_categorias_visitas.
  rewrite in_flat_map. split.
  - intros [[c' l] [Hin Hm]].
    apply (group_In _ _ Categoria.eqb Categoria_eqb_refl Categoria_eqb_sym
             Categoria_eqb_trans) in Hin.
    destruct Hin as (-> & Hne & _). cbn [fst snd] in Hm.
    rewrite valores_visitas_mejora in *.
    destruct (Categoria.eqb c' Categoria.COMENTARIOS) eqn:E; [contradiction|].
    destruct (calificaciones_de_categoria c' evaluaciones) as [|x xs] eqn:El;
      [contradiction|].
    destruct Hm as [[= <- <-] | []]. rewrite E, El.
    repeat split. discriminate.
  - intros (Hc & Hne & ->).
    assert (Hv : valores_de Categoria.eqb c (visitas_mejora evaluaciones) <> []).
    { rewrite valores_visitas_mejora, Hc. exact Hne. }
    destruct (group_complete _ _ Categoria.eqb Categoria_eqb_sym Categoria_eqb_trans
                c _ Hv) as (c' & Ec & Hin).
    apply Categoria_eqb_eq in Ec. subst c'.
    rewrite valores_visitas_mejora, Hc in Hin.
    exists (c, calificaciones_de_categoria c evaluaciones). split; [exact Hin|].
    cbn [fst snd].
    destruct (calificaciones_de_categoria c evaluaciones) as [|x xs]; [contradiction|].
    left. reflexivity.
Qed.


(** [execute], case by case. *)
Lemma execute_mejora_cases (evaluaciones : list Evaluacion.t)
    (request : PropuestaMejoraRequest) :
  let del_profesor :=
    filter (fun e => String.eqb (Evaluacion.profesor_documento e) (documento request))
      evaluaciones in
  let consultadas :=
    evaluaciones_consultadas evaluaciones (documento request) (periodo request) in
  execute (PandasEvaluacionRepository.init evaluaciones) request =
  match del_profesor with
  | [] => Raise (ProfesorNotFoundError (documento request))
  | e0 :: _ =>
      match consultadas with
      | [] =>
          Raise (ProfesorNotFoundError
                   (Str.latin1 "No se encontraron evaluaciones para el profesor "
                      ++ documento request)%string)
      | _ :: _ =>
          Ok (mkResponse (documento request) (Evaluacion.profesor_nombre e0)
                (periodo request)
                (flat_map
                   (fun item =>
                      if Qltb (snd item) 4 then
                        match recomendaciones_de (fst item) consultadas with
                        | [] => []
                        | _ :: _ =>
                            [mkMejora (Categoria.value (fst item)) (snd item)
                               (recomendaciones_de (fst item) consultadas)]
                        end
                      else [])
                   (_calcular_promedios_por_categoria consultadas)))
      end
  end.
Proof.
  intros del_profesor consultadas. unfold execute.
  rewrite find_by_profesor_init. fold del_profesor.
  destruct del_profesor as [|e0 rest] eqn:E; [reflexivity|].
  assert (G : filtrar request (e0 :: rest) = consultadas).
  { unfold consultadas, evaluaciones_consultadas, filtrar. fold del_profesor.
    rewrite E. reflexivity. }
  rewrite G. destruct consultadas as [|e1 rest1]; [reflexivity|].
  rewrite mejorar_Ok. reflexivity.
Qed.


(** C3. When the recommendation engine answers, the evaluations it works
    on (of the document, after the period filter) are not empty, and:
    the categories to improve are exactly the categories other than
    Comments whose flat mean, over all the individual answered ratings of
    all the evaluations, is strictly below 4.0 and that end with at least
    one recommendation, each with its label, that mean and its
    recommendations; the recommendations of a category never descend in
    mean rating, hold one recommendation per question code, and are exactly
    the questions of the category whose flat mean over all the evaluations
    is strictly below 4.0, each with the text the table gives: the entry of
    the category, in it the first keyword in table order contained in the
    question's text letter case apart, else the default of the category,
    else, without an entry, the generic text. A flat mean is the float
    [statistics.mean] returns, the float nearest to sum / count: it is
    strictly below 4.0 exactly when sum / count is below 4 - 2^-52. *)
Theorem propuesta_de_mejora :
  forall (evaluaciones : list Evaluacion.t) (request : PropuestaMejoraRequest)
         (response : PropuestaMejoraResponse),
    execute (PandasEvaluacionRepository.init evaluaciones) request = Ok response ->
    let consultadas :=
      evaluaciones_consultadas evaluaciones (documento request) (periodo request) in
    consultadas <> [] /\
    (forall m : MejoraPorCategoria,
        In m (categorias_a_mejorar response) <->
        exists c : Categoria.t,
          c <> Categoria.COMENTARIOS /\
          calificaciones_de_categoria c consultadas <> [] /\
          (promedio_plano (calificaciones_de_categoria c consultadas) < 4)%Q /\
          recomendaciones_de c consultadas <> [] /\
          m = mkMejora (Categoria.value c)
                (promedio_plano (calificaciones_de_categoria c consultadas))
                (recomendaciones_de c consultadas)) /\
    (forall c : Categoria.t,
        c <> Categoria.COMENTARIOS ->
        _generar_recomendaciones c consultadas = Ok (recomendaciones_de c consultadas) /\
        Sorted (no_desciende calificacion_promedio Qltb) (recomendaciones_de c consultadas) /\
        NoDup (map codigo_pregunta (recomendaciones_de c consultadas)) /\
        (forall r : RecomendacionMejora,
            In r (recomendaciones_de c consultadas) ->
            exists p : Pregunta.t,
              In p (preguntas_calificadas c consultadas) /\
              (promedio_plano (calificaciones_de_pregunta c (Pregunta.codigo p) consultadas)
               < 4)%Q /\
              r = mkRecomendacion (Pregunta.codigo p) (Pregunta.texto p)
                    (promedio_plano
                       (calificaciones_de_pregunta c (Pregunta.codigo p) consultadas))
                    (recomendacion_segun_tabla (Categoria.value c) (Pregunta.texto p))) /\
        (forall p : Pregunta.t,
            In p (preguntas_calificadas c consultadas) ->
            (promedio_plano (calificaciones_de_pregunta c (Pregunta.codigo p) consultadas)
             < 4)%Q ->
            exists r : RecomendacionMejora,
              In r (recomendaciones_de c consultadas) /\
              codigo_pregunta r = Pregunta.codigo p /\
              calificacion_promedio r =
                promedio_plano
                  (calificaciones_de_pregunta c (Pregunta.codigo p) consultadas))) /\
    (forall categoria texto : string,
        _obtener_recomendacion categoria texto =
        recomendacion_segun_tabla categoria texto) /\
    (forall l : list Q,
        promedio_plano l = Float.redondear (mean_or_zero l) /\
        ((promedio_plano l < 4)%Q <-> (mean_or_zero l < umbral_4)%Q)).
Proof.
  intros evaluaciones request response H consultadas.
  rewrite execute_mejora_cases in H. fold consultadas in H.
  destruct (filter _ evaluaciones) as [|e0 rest]; [discriminate|].
  destruct consultadas as [|e1 rest1] eqn:Econs; [discriminate|].
  injection H as <-. cbn [categorias_a_mejorar].
  split; [discriminate|]. split; [|split; [|split]].
  - intros m. rewrite in_flat_map. split.
    + intros [[c prom] [Hin Hm]]. cbn [fst snd] in Hm.
      apply _calcular_promedios_por_categoria_In in Hin. destruct Hin as (Hc & Hne & ->).
      destruct (Qltb _ 4) eqn:E; [|contradiction].
      destruct (recomendaciones_de c (e1 :: rest1)) as [|r recs] eqn:Er; [contradiction|].
      destruct Hm as [<- | []]. exists c.
      split; [intros ->; discriminate Hc|]. split; [exact Hne|].
      split; [apply Qltb_lt, E|]. rewrite Er. split; [discriminate | reflexivity].
    + intros [c (Hc & Hne & Hlt & Hrecs & ->)].
      exists (c, promedio_plano (calificaciones_de_categoria c (e1 :: rest1))).
      split.
      * apply _calcular_promedios_por_categoria_In. split; [|split; trivial].
        apply not_true_is_false. intros E. apply Categoria_eqb_eq in E. contradiction.
      * cbn [fst snd]. apply Qltb_lt in Hlt. rewrite Hlt.
        destruct (recomendaciones_de c (e1 :: rest1)); [contradiction | left; reflexivity].
  - intros c Hc. split; [apply _generar_recomendaciones_Ok|].
    apply recomendaciones_de_spec.
    apply not_true_is_false. intros E. apply Categoria_eqb_eq in E. contradiction.
  - apply _obtener_recomendacion_segun_tabla.
  - intros l. split; [reflexivity | apply redondear_lt_4].
Qed.

Lemma propuesta_de_mejora_witness :
  exists response : PropuestaMejoraResponse,
    execute (PandasEvaluacionRepository.init [evaluacion_planeacion])
      (mkRequest "123456" None) = Ok response /\
    evaluaciones_consultadas [evaluacion_planeacion] "123456" None <> [] /\
    In (mkMejora (Categoria.value Categoria.PLANEACION)
          (promedio_plano
             (calificaciones_de_categoria Categoria.PLANEACION [evaluacion_planeacion]))
          (recomendaciones_de Categoria.PLANEACION [evaluacion_planeacion]))
       (categorias_a_mejorar response).
Proof.
  destruct (execute (PandasEvaluacionRepository.init [evaluacion_planeacion])
              (mkRequest "123456" None)) as [response|e] eqn:E;
    [|exfalso; vm_compute in E; discriminate E].
  exists response. split; [reflexivity|].
  destruct (propuesta_de_mejora [evaluacion_planeacion] (mkRequest "123456" None)
              response E) as (Hne & Hcat & _).
  split; [exact Hne|]. apply Hcat. exists Categoria.PLANEACION.
  split; [discriminate|]. split; [vm_compute; discriminate|].
  split; [vm_compute; reflexivity|]. split; [vm_compute; discriminate | reflexivity].
Defined.

(** On that evaluation: the category Planning has the flat mean 3.75, its
    question P147 (3.0) gets the text of the keyword "programa", which comes
    in the table before "plan", and its question P148 (4.5) gets none. *)
Example propuesta_planeacion :
  exists response : PropuestaMejoraResponse,
    execute (PandasEvaluacionRepository.init [evaluacion_planeacion])
      (mkRequest "123456" None) = Ok response /\
    map (fun m => (categoria m, promedio_categoria m,
                   map (fun r => (codigo_pregunta r, calificacion_promedio r,
                                  recomendacion r))
                     (recomendaciones m)))
      (categorias_a_mejorar response) =
    [(Categoria.value Categoria.PLANEACION, 15 # 4,
      [("P147", 3%Q,
        Str.latin1 "Socialice el programa del módulo desde el inicio del periodo, explicando objetivos, contenidos, metodología y criterios de evaluación.")])].
Proof.
  eexists. split; vm_compute; reflexivity.
Qed.

(** The floats 3.9 and 4.1 on two questions of Planning: sum / count is
    4 - 2^-52, below 4, and [statistics.mean] returns the float 4.0, which
    is not below 4.0: no category is reported, although the first question
    has the mean 3.9. *)
Example propuesta_en_el_limite :
  (mean_or_zero (calificaciones_de_categoria Categoria.PLANEACION [evaluacion_limite])
   == umbral_4)%Q /\
  (promedio_plano (calificaciones_de_categoria Categoria.PLANEACION [evaluacion_limite])
   == 4)%Q /\
  (promedio_plano
     (calificaciones_de_pregunta Categoria.PLANEACION "P147" [evaluacion_limite]) < 4)%Q /\
  exists response : PropuestaMejoraResponse,
    execute (PandasEvaluacionRepository.init [evaluacion_limite])
      (mkRequest "123456" None) = Ok response /\
    categorias_a_mejorar response = [].
Proof.
  split; [vm_compute; reflexivity|]. split; [vm_compute; reflexivity|].
  split; [vm_compute; reflexivity|].
  eexists. split; vm_compute; reflexivity.
Qed.

End Mejoras.

(** ** Errors of the use cases *)

Lemma length_append (a b : string) :
  String.length (a ++ b)%string = (String.length a + String.length b)%nat.
Proof. induction a as [|c a IH]; cbn; [reflexivity | rewrite IH; reflexivity]. Qed.

Lemma append_neq_l (a b : string) : b <> EmptyString -> (a ++ b)%string <> a.
Proof.
  intros Hb E. apply (f_equal String.length) in E. rewrite length_append in E.
  destruct b; [contradiction | cbn in E; lia].
Qed.

Lemma append_neq_r (a b : string) : a <> EmptyString -> (a ++ b)%string <> b.
Proof.
  intros Ha E. apply (f_equal String.length) in E. rewrite length_append in E.
  destruct a; [contradiction | cbn in E; lia].
Qed.

Lemma consultadas_del_profesor (evaluaciones : list Evaluacion.t) (documento : string)
    (periodo : option string) :
  filter (fun e => String.eqb (Evaluacion.profesor_documento e) documento) evaluaciones = [] ->
  evaluaciones_consultadas evaluaciones documento periodo = [].
Proof.
  intros H. unfold evaluaciones_consultadas. rewrite H.
  destruct (truthy periodo); reflexivity.
Qed.

Lemma consultadas_sin_periodo (evaluaciones : list Evaluacion.t) (documento : string)
    (periodo : option string) :
  truthy periodo = false ->
  evaluaciones_consultadas evaluaciones documento periodo =
  filter (fun e => String.eqb (Evaluacion.profesor_documento e) documento) evaluaciones.
Proof. intros H. unfold evaluaciones_consultadas. rewrite H. reflexivity. Qed.

Lemma consultadas_periodo_mal_formado (evaluaciones : list Evaluacion.t)
    (documento : string) (periodo : option string) :
  truthy periodo = true ->
  Re.matches Periodo.PATTERN (texto_de periodo) = false ->
  evaluaciones_consultadas evaluaciones documento periodo = [].
Proof.
  intros Ht Hm. unfold evaluaciones_consultadas. rewrite Ht.
  apply filter_periodo_mal_formado, Hm.
Qed.

(** [execute] of the detail use case, case by case. *)
Lemma execute_detalle_cases (evaluaciones : list Evaluacion.t)
    (request : ObtenerDetalleEvaluacionUseCase.DetalleEvaluacionRequest) :
  let documento := ObtenerDetalleEvaluacionUseCase.documento request in
  let periodo := ObtenerDetalleEvaluacionUseCase.periodo request in
  let del_profesor :=
    filter (fun e => String.eqb (Evaluacion.profesor_documento e) documento)
      evaluaciones in
  let consultadas := evaluaciones_consultadas evaluaciones documento periodo in
  match del_profesor with
  | [] =>
      ObtenerDetalleEvaluacionUseCase.execute
        (PandasEvaluacionRepository.init evaluaciones) request =
      Raise (ProfesorNotFoundError documento)
  | _ :: _ =>
      match consultadas with
      | [] =>
          ObtenerDetalleEvaluacionUseCase.execute
            (PandasEvaluacionRepository.init evaluaciones) request =
          Raise (ProfesorNotFoundError
                   (Str.latin1 "No se encontraron evaluaciones para el profesor "
                      ++ documento
                      ++ (if truthy periodo
                          then Str.latin1 " en el período " ++ texto_de periodo
                          else EmptyString))%string)
      | _ :: _ =>
          exists response,
            ObtenerDetalleEvaluacionUseCase.execute
              (PandasEvaluacionRepository.init evaluaciones) request = Ok response /\
            ObtenerDetalleEvaluacionUseCase.total_evaluaciones response =
              List.length consultadas
      end
  end.
Proof.
  intros documento periodo del_profesor consultadas.
  unfold ObtenerDetalleEvaluacionUseCase.execute.
  rewrite find_by_profesor_init. fold documento. fold del_profesor.
  destruct del_profesor as [|e0 rest] eqn:E; [reflexivity|].
  assert (G : ObtenerDetalleEvaluacionUseCase.filtrar request (e0 :: rest) = consultadas).
  { unfold consultadas, evaluaciones_consultadas, ObtenerDetalleEvaluacionUseCase.filtrar.
    fold documento periodo del_profesor. rewrite E. reflexivity. }
  rewrite G. destruct consultadas as [|e1 rest1]; [reflexivity|].
  eexists. split; reflexivity.
Qed.

Lemma truthy_Some (s : string) : s <> EmptyString -> truthy (Some s) = true.
Proof. destruct s; [contradiction | reflexivity]. Qed.

(** C9, as the code has it. For a document with at least one evaluation
    and a period string that is not empty and does not match the pattern of
    a period: the average calculator raises the format error of [Periodo];
    no evaluation has that string as its period, and the recommendation and
    the detail use cases raise [ProfesorNotFoundError]. *)
Theorem periodo_mal_formado_errores :
  forall (evaluaciones : list Evaluacion.t)
         (orden_set : CalcularPromedioProfesorUseCase.orden)
         (documento s : string),
    filter (fun e => String.eqb (Evaluacion.profesor_documento e) documento)
      evaluaciones <> [] ->
    s <> EmptyString ->
    Re.matches Periodo.PATTERN s = false ->
    CalcularPromedioProfesorUseCase.execute
      (PandasEvaluacionRepository.init evaluaciones) orden_set
      (CalcularPromedioProfesorUseCase.mkRequest documento (Some s))
    = Raise (Periodo.format_error s) /\
    filter (fun e => String.eqb (Periodo.valor (Evaluacion.periodo e)) s) evaluaciones = [] /\
    ObtenerPropuestaMejoraUseCase.execute
      (PandasEvaluacionRepository.init evaluaciones)
      (ObtenerPropuestaMejoraUseCase.mkRequest documento (Some s))
    = Raise (ProfesorNotFoundError
               (Str.latin1 "No se encontraron evaluaciones para el profesor "
                  ++ documento)%string) /\
    ObtenerDetalleEvaluacionUseCase.execute
      (PandasEvaluacionRepository.init evaluaciones)
      (ObtenerDetalleEvaluacionUseCase.mkRequest documento (Some s))
    = Raise (ProfesorNotFoundError
               (Str.latin1 "No se encontraron evaluaciones para el profesor "
                  ++ documento ++ Str.latin1 " en el período " ++ s)%string).
Proof.
  intros evaluaciones orden_set documento s Hdoc Hs Hm.
  pose proof (truthy_Some s Hs) as Ht.
  pose proof (consultadas_periodo_mal_formado evaluaciones documento (Some s) Ht Hm) as Hc.
  split; [|split; [|split]].
  - rewrite execute_cases.
    cbn [CalcularPromedioProfesorUseCase.documento CalcularPromedioProfesorUseCase.periodo].
    destruct (filter _ evaluaciones); [contradiction|].
    rewrite Ht. cbn [texto_de]. rewrite Hm. reflexivity.
  - apply filter_periodo_mal_formado, Hm.
  - rewrite execute_mejora_cases.
    cbn [ObtenerPropuestaMejoraUseCase.documento ObtenerPropuestaMejoraUseCase.periodo].
    destruct (filter _ evaluaciones); [contradiction|]. rewrite Hc. reflexivity.
  - pose proof (execute_detalle_cases evaluaciones
                  (ObtenerDetalleEvaluacionUseCase.mkRequest documento (Some s))) as H.
    cbn [ObtenerDetalleEvaluacionUseCase.documento ObtenerDetalleEvaluacionUseCase.periodo]
      in H.
    cbv zeta in H. destruct (filter _ evaluaciones); [contradiction|].
    rewrite Hc, Ht in H. exact H.
Qed.

Lemma periodo_mal_formado_errores_witness :
  CalcularPromedioProfesorUseCase.execute
    (PandasEvaluacionRepository.init [eval1; eval2]) Evaluacion.categorias_evaluadas
    (CalcularPromedioProfesorUseCase.mkRequest "123456" (Some "2025-3"))
  = Raise (Periodo.format_error "2025-3").
Proof.
  refine (proj1 (periodo_mal_formado_errores [eval1; eval2]
                   Evaluacion.categorias_evaluadas "123456" "2025-3" _ _ _)).
  - vm_compute. discriminate.
  - discriminate.
  - vm_compute. reflexivity.
Defined.

(** The empty string does not match the pattern either, but a request with
    it is a request without a period: the three use cases answer. *)
Lemma periodo_vacio_sin_error :
  Re.matches Periodo.PATTERN EmptyString = false /\
  filter (fun e => String.eqb (Evaluacion.profesor_documento e) "123456")
    [eval1; eval2] <> [] /\
  (exists response,
      CalcularPromedioProfesorUseCase.execute
        (PandasEvaluacionRepository.init [eval1; eval2]) Evaluacion.categorias_evaluadas
        (CalcularPromedioProfesorUseCase.mkRequest "123456" (Some EmptyString))
      = Ok response) /\
  (exists response,
      ObtenerPropuestaMejoraUseCase.execute
        (PandasEvaluacionRepository.init [eval1; eval2])
        (ObtenerPropuestaMejoraUseCase.mkRequest "123456" (Some EmptyString))
      = Ok response) /\
  (exists response,
      ObtenerDetalleEvaluacionUseCase.execute
        (PandasEvaluacionRepository.init [eval1; eval2])
        (ObtenerDetalleEvaluacionUseCase.mkRequest "123456" (Some EmptyString))
      = Ok response).
Proof.
  split; [reflexivity|]. split; [vm_compute; discriminate|].
  split; [|split]; eexists; vm_compute; reflexivity.
Qed.

(** C4, as the code has it. With an empty period string counting as no
    period: the average calculator raises [ProfesorNotFoundError] exactly
    when the document has no evaluation, or a period that matches the
    pattern is given and no evaluation of the document has it; with a
    period that does not match it raises the format error instead; the
    recommendation engine raises [ProfesorNotFoundError] exactly when the
    document has no evaluation or a period is given and no evaluation of the
    document has it. The error for a document without evaluations holds the
    document id; the error for a period without evaluations is another one,
    built from the document id and, in the average calculator, the period.
    In every other case the call returns a result. *)
Theorem profesor_no_encontrado :
  forall (evaluaciones : list Evaluacion.t)
         (orden_set : CalcularPromedioProfesorUseCase.orden)
         (documento : string) (periodo : option string),
    let del_profesor :=
      filter (fun e => String.eqb (Evaluacion.profesor_documento e) documento)
        evaluaciones in
    let consultadas := evaluaciones_consultadas evaluaciones documento periodo in
    let bien_formado := Re.matches Periodo.PATTERN (texto_de periodo) in
    let promedio :=
      CalcularPromedioProfesorUseCase.execute
        (PandasEvaluacionRepository.init evaluaciones) orden_set
        (CalcularPromedioProfesorUseCase.mkRequest documento periodo) in
    let mejora :=
      ObtenerPropuestaMejoraUseCase.execute
        (PandasEvaluacionRepository.init evaluaciones)
        (ObtenerPropuestaMejoraUseCase.mkRequest documento periodo) in
    let en_periodo :=
      (documento ++ Str.latin1 " en período " ++ texto_de periodo)%string in
    let sin_evaluaciones :=
      (Str.latin1 "No se encontraron evaluaciones para el profesor " ++ documento)%string in
    ((exists d, promedio = Raise (ProfesorNotFoundError d)) <->
     del_profesor = [] \/ (bien_formado = true /\ consultadas = [])) /\
    ((exists d, mejora = Raise (ProfesorNotFoundError d)) <-> consultadas = []) /\
    (del_profesor = [] ->
     promedio = Raise (ProfesorNotFoundError documento) /\
     mejora = Raise (ProfesorNotFoundError documento)) /\
    (del_profesor <> [] -> consultadas = [] ->
     truthy periodo = true /\
     mejora = Raise (ProfesorNotFoundError sin_evaluaciones) /\
     (bien_formado = true -> promedio = Raise (ProfesorNotFoundError en_periodo)) /\
     (bien_formado = false ->
      promedio = Raise (Periodo.format_error (texto_de periodo)))) /\
    (consultadas <> [] ->
     (exists response, mejora = Ok response) /\
     (truthy periodo = true -> bien_formado = true) /\
     (exists response, promedio = Ok response)) /\
    en_periodo <> documento /\ sin_evaluaciones <> documento.
Proof.
  intros evaluaciones orden_set documento periodo.
  intros del_profesor consultadas bien_formado promedio mejora en_periodo sin_evaluaciones.
  assert (Hp : promedio =
               match del_profesor with
               | [] => Raise (ProfesorNotFoundError documento)
               | _ :: _ =>
                   if truthy periodo then
                     if bien_formado then
                       match consultadas with
                       | [] => Raise (ProfesorNotFoundError en_periodo)
                       | _ :: _ =>
                           CalcularPromedioProfesorUseCase.responder orden_set
                             (CalcularPromedioProfesorUseCase.mkRequest documento periodo)
                             consultadas
                       end
                     else Raise (Periodo.format_error (texto_de periodo))
                   else CalcularPromedioProfesorUseCase.responder orden_set
                          (CalcularPromedioProfesorUseCase.mkRequest documento periodo)
                          consultadas
               end) by apply execute_cases.
  pose proof (execute_mejora_cases evaluaciones
                (ObtenerPropuestaMejoraUseCase.mkRequest documento periodo)) as Hm.
  cbv zeta in Hm.
  cbn [ObtenerPropuestaMejoraUseCase.documento ObtenerPropuestaMejoraUseCase.periodo] in Hm.
  fold del_profesor consultadas mejora sin_evaluaciones in Hm.
  pose proof (consultadas_del_profesor evaluaciones documento periodo) as Hvacio.
  pose proof (consultadas_sin_periodo evaluaciones documento periodo) as Hsin.
  pose proof (consultadas_periodo_mal_formado evaluaciones documento periodo) as Hmal.
  fold del_profesor consultadas in Hvacio, Hsin. fold consultadas bien_formado in Hmal.
  clearbody promedio mejora.
  assert (Hen : en_periodo <> documento).
  { apply append_neq_l. vm_compute. discriminate. }
  assert (Hno : sin_evaluaciones <> documento).
  { apply append_neq_r. vm_compute. discriminate. }
  clearbody en_periodo sin_evaluaciones bien_formado consultadas del_profesor.
  destruct del_profesor as [|e0 rest].
  - rewrite (Hvacio eq_refl) in *. subst promedio mejora.
    repeat split; eauto; try congruence; try discriminate.
  - destruct (truthy periodo) eqn:Et.
    + destruct bien_formado eqn:Eb.
      * destruct consultadas as [|e1 rest1]; subst promedio mejora.
        -- repeat split; eauto; try congruence; try discriminate.
        -- cbn [CalcularPromedioProfesorUseCase.responder].
           repeat split; eauto; try congruence; try discriminate.
           ++ intros [d H]; discriminate.
           ++ intros [H | [_ H]]; discriminate.
           ++ intros [d H]; discriminate.
      * rewrite (Hmal eq_refl eq_refl) in *. subst promedio mejora.
        repeat split; eauto; try congruence; try discriminate.
        -- intros [d H]; discriminate.
        -- intros [H | [H _]]; discriminate.
    + rewrite (Hsin eq_refl) in *. subst promedio mejora.
      cbn [CalcularPromedioProfesorUseCase.responder].
      repeat split; eauto; try congruence; try discriminate.
      * intros [d H]; discriminate.
      * intros [H | [_ H]]; discriminate.
      * intros [d H]; discriminate.
Qed.

(** A period is given, no evaluation of the document matches it, and the
    average calculator raises the format error, not
    [ProfesorNotFoundError]; and the error of the recommendation engine for
    a period without evaluations does not hold the period. *)
Lemma periodo_mal_formado_no_es_profesor_no_encontrado :
  evaluaciones_consultadas [eval1; eval2] "123456" (Some "2025-3") = [] /\
  CalcularPromedioProfesorUseCase.execute
    (PandasEvaluacionRepository.init [eval1; eval2]) Evaluacion.categorias_evaluadas
    (CalcularPromedioProfesorUseCase.mkRequest "123456" (Some "2025-3"))
  = Raise (Periodo.format_error "2025-3") /\
  ~ (exists d,
        CalcularPromedioProfesorUseCase.execute
          (PandasEvaluacionRepository.init [eval1; eval2]) Evaluacion.categorias_evaluadas
          (CalcularPromedioProfesorUseCase.mkRequest "123456" (Some "2025-3"))
        = Raise (ProfesorNotFoundError d)) /\
  (exists d,
      ObtenerPropuestaMejoraUseCase.execute
        (PandasEvaluacionRepository.init [eval1; eval2])
        (ObtenerPropuestaMejoraUseCase.mkRequest "123456" (Some "2024-1"))
      = Raise (ProfesorNotFoundError d) /\
      Str.contains "2024-1" (ProfesorNotFoundError_message d) = false).
Proof.
  split; [reflexivity|]. split; [vm_compute; reflexivity|]. split.
  - intros [d H]. vm_compute in H. discriminate H.
  - eexists. split; vm_compute; reflexivity.
Qed.

(** ** The repositories as objects *)

Section StoreFacts.
Import Objetos.
Variable A : Type.

Lemma contents_app (a : addr) (h nuevos : store A) :
  allocated a h -> contents a (h ++ nuevos) = contents a h.
Proof. intros H. unfold contents. apply app_nth1. exact H. Qed.

Lemma contents_alloc (l : list A) (h : store A) :
  contents (fst (alloc l h)) (snd (alloc l h)) = l.
Proof.
  unfold alloc, contents. cbn [fst snd].
  rewrite app_nth2, Nat.sub_diag by lia. reflexivity.
Qed.

Lemma length_mutate (a : addr) (l : list A) (h : store A) :
  List.length (mutate a l h) = List.length h.
Proof.
  revert a. induction h as [|x h IH]; intros a; [destruct a; reflexivity|].
  destruct a; cbn [mutate List.length]; [reflexivity | rewrite IH; reflexivity].
Qed.

Lemma contents_mutate_ne (a b : addr) (l : list A) (h : store A) :
  a <> b -> contents b (mutate a l h) = contents b h.
Proof.
  unfold contents. revert a b. induction h as [|x h IH]; intros a b Hne;
    [destruct a; reflexivity|].
  destruct a, b; cbn [mutate nth]; try reflexivity; [contradiction|].
  apply IH. congruence.
Qed.

Lemma contents_mutate_eq (a : addr) (l : list A) (h : store A) :
  allocated a h -> contents a (mutate a l h) = l.
Proof.
  unfold contents, allocated. revert a. induction h as [|x h IH]; intros a Ha;
    [cbn in Ha; lia|].
  destruct a; cbn [mutate nth]; [reflexivity|]. apply IH. cbn in Ha. lia.
Qed.

Lemma get_read_index {K : Type} (eqb : K -> K -> bool) (k : K)
    (index : Dict.t K addr) (h : store A) :
  Dict.get eqb k (read_index index h) =
  option_map (fun a => contents a h) (Dict.get eqb k index).
Proof.
  induction index as [|[k' a] index IH]; cbn [read_index map Dict.get fst snd];
    [reflexivity|].
  destruct (eqb k' k); [reflexivity | exact IH].
Qed.

Lemma get_allocated {K : Type} (eqb : K -> K -> bool) (k : K)
    (index : Dict.t K addr) (h : store A) (a : addr) :
  index_allocated index h -> Dict.get eqb k index = Some a -> allocated a h.
Proof.
  intros Hall Hget. apply get_In in Hget. destruct Hget as (k' & _ & Hin).
  unfold index_allocated in Hall. rewrite Forall_forall in Hall.
  exact (Hall _ Hin).
Qed.

Lemma read_index_app {K : Type} (index : Dict.t K addr) (h nuevos : store A) :
  index_allocated index h -> read_index index (h ++ nuevos) = read_index index h.
Proof.
  intros Hall. unfold read_index. apply map_ext_in. intros [k a] Hin.
  cbn [fst snd]. f_equal. apply contents_app.
  unfold index_allocated in Hall. rewrite Forall_forall in Hall. exact (Hall _ Hin).
Qed.

Lemma read_index_mutate {K : Type} (index : Dict.t K addr) (h : store A)
    (a : addr) (l : list A) (n : nat) :
  Forall (fun ka => (snd ka < n)%nat) index -> (n <= a)%nat ->
  read_index index (mutate a l h) = read_index index h.
Proof.
  intros Hall Ha. unfold read_index. apply map_ext_in. intros [k b] Hin.
  cbn [fst snd]. f_equal. apply contents_mutate_ne.
  rewrite Forall_forall in Hall. specialize (Hall _ Hin). cbn in Hall. lia.
Qed.

Lemma index_allocated_mono {K : Type} (index : Dict.t K addr) (h h' : store A) :
  (List.length h <= List.length h')%nat ->
  index_allocated index h -> index_allocated index h'.
Proof.
  intros Hle. unfold index_allocated, allocated. apply Forall_impl. intros; lia.
Qed.
End StoreFacts.

Section CopyFacts.
Import Objetos.
Variable A : Type.

Lemma copy_spec (a : addr) (h : store A) :
  allocated a h ->
  solo_agrega h (fst (copy a h)) (snd (copy a h)) /\
  contents (fst (copy a h)) (snd (copy a h)) = contents a h.
Proof.
  intros Ha. unfold copy. split; [|apply contents_alloc].
  unfold solo_agrega, alloc. cbn [fst snd]. rewrite length_app. cbn [List.length].
  split; [lia|]. eexists. reflexivity.
Qed.

Lemma get_copy_spec {K : Type} (eqb : K -> K -> bool) (k : K)
    (index : Dict.t K addr) (h : store A) :
  index_allocated index h ->
  solo_agrega h (fst (get_copy eqb k index h)) (snd (get_copy eqb k index h)) /\
  contents (fst (get_copy eqb k index h)) (snd (get_copy eqb k index h)) =
    get_or_empty eqb k (read_index index h).
Proof.
  intros Hall. unfold get_copy, get_or_empty. cbn [alloc].
  rewrite get_read_index. unfold copy. split.
  - unfold solo_agrega, alloc. cbn [fst snd]. rewrite !length_app. cbn [List.length].
    split; [lia|]. eexists. rewrite <- app_assoc. reflexivity.
  - rewrite contents_alloc.
    destruct (Dict.get eqb k index) as [a|] eqn:E; cbn [option_map].
    + apply contents_app. exact (get_allocated A eqb k index h a Hall E).
    + unfold contents. rewrite app_nth2, Nat.sub_diag by lia. reflexivity.
Qed.

Lemma solo_agrega_length (h h1 : store A) (a : addr) :
  solo_agrega h a h1 -> (List.length h <= List.length h1)%nat.
Proof. intros [H _]. lia. Qed.
End CopyFacts.

Section EvaluacionRepositoryFacts.
Import Objetos Objetos.EvaluacionRepository.

Lemma run_spec (q : consulta) (r : t) (h : store Evaluacion.t) :
  bien_formado r h ->
  solo_agrega h (fst (run q r h)) (snd (run q r h)) /\
  contents (fst (run q r h)) (snd (run q r h)) =
    respuesta_evaluaciones q (estado r h).
Proof.
  intros (Hall & Hprof & Hper & Htipo). destruct q; cbn [run respuesta_evaluaciones].
  - apply copy_spec, Hall.
  - apply (get_copy_spec _ String.eqb), Hprof.
  - apply (get_copy_spec _ Periodo.eqb), Hper.
  - cbn [alloc]. split.
    + unfold solo_agrega, alloc. cbn [fst snd]. rewrite !length_app. cbn [List.length].
      split; [lia|]. eexists. rewrite <- app_assoc. reflexivity.
    + rewrite contents_alloc.
      unfold PandasEvaluacionRepository.find_by_profesor_and_periodo, get_or_empty.
      cbn [estado PandasEvaluacionRepository._by_profesor].
      rewrite get_read_index. f_equal.
      destruct (Dict.get String.eqb documento (_by_profesor r)) as [a|] eqn:E;
        cbn [option_map].
      * apply contents_app. exact (get_allocated _ String.eqb _ _ h a Hprof E).
      * unfold contents. rewrite app_nth2, Nat.sub_diag by lia. reflexivity.
  - apply (get_copy_spec _ String.eqb), Htipo.
Qed.

Lemma estado_agrega (r : t) (h h1 : store Evaluacion.t) (a : addr) :
  bien_formado r h -> solo_agrega h a h1 -> estado r h1 = estado r h.
Proof.
  intros (Hall & Hprof & Hper & Htipo) [_ [nuevos ->]]. unfold estado.
  rewrite contents_app, !read_index_app by assumption. reflexivity.
Qed.

Lemma estado_mutate (r : t) (h h1 : store Evaluacion.t) (a : addr)
    (l : list Evaluacion.t) :
  bien_formado r h -> solo_agrega h a h1 ->
  estado r (mutate a l h1) = estado r h /\ bien_formado r (mutate a l h1).
Proof.
  intros Hbf Hsa. rewrite <- (estado_agrega r h h1 a Hbf Hsa).
  destruct Hbf as (Hall & Hprof & Hper & Htipo). destruct Hsa as [Ha _].
  split.
  - unfold estado.
    rewrite contents_mutate_ne by (unfold allocated in Hall; lia).
    rewrite !(read_index_mutate _ _ _ a l (List.length h)) by (assumption || lia).
    reflexivity.
  - unfold bien_formado, allocated. rewrite !length_mutate.
    split; [unfold allocated in Hall; lia|].
    repeat split; eapply index_allocated_mono; try eassumption;
      rewrite length_mutate; lia.
Qed.
End EvaluacionRepositoryFacts.

Section PreguntaRepositoryFacts.
Import Objetos Objetos.PreguntaRepository.

Lemma run_preguntas_spec (q : consulta) (r : t) (h : store Pregunta.t) :
  bien_formado r h ->
  solo_agrega h (fst (run q r h)) (snd (run q r h)) /\
  contents (fst (run q r h)) (snd (run q r h)) =
    respuesta_preguntas q (estado r h).
Proof.
  intros (Hall & Hcat). destruct q; cbn [run respuesta_preguntas].
  - apply copy_spec, Hall.
  - apply (get_copy_spec _ Categoria.eqb), Hcat.
Qed.

Lemma estado_preguntas_mutate (r : t) (h h1 : store Pregunta.t) (a : addr)
    (l : list Pregunta.t) :
  bien_formado r h -> solo_agrega h a h1 ->
  estado r h1 = estado r h /\
  estado r (mutate a l h1) = estado r h /\ bien_formado r (mutate a l h1).
Proof.
  intros (Hall & Hcat) [Ha [nuevos ->]].
  assert (E : estado r (h ++ nuevos) = estado r h).
  { unfold estado. rewrite contents_app, read_index_app by assumption. reflexivity. }
  split; [exact E|]. rewrite <- E. split.
  - unfold estado.
    rewrite contents_mutate_ne by (unfold allocated in Hall; lia).
    rewrite (read_index_mutate _ _ _ a l (List.length h)) by (assumption || lia).
    reflexivity.
  - unfold bien_formado, allocated. rewrite length_mutate.
    split; [unfold allocated in Hall; lia|].
    eapply index_allocated_mono; [|eassumption]. rewrite length_mutate. lia.
Qed.
End PreguntaRepositoryFacts.

(** C8. Every query of the two repositories that returns a sequence
    returns a list object that did not exist before the call; whatever the
    caller then does to that object, the collections and indexes of the
    repository read as before, and the same query asked again returns the
    contents the first call returned. *)
Theorem consultas_devuelven_copias :
  forall (r : Objetos.EvaluacionRepository.t) (h : Objetos.store Evaluacion.t)
         (q : Objetos.EvaluacionRepository.consulta) (l : list Evaluacion.t)
         (rp : Objetos.PreguntaRepository.t) (hp : Objetos.store Pregunta.t)
         (qp : Objetos.PreguntaRepository.consulta) (lp : list Pregunta.t),
    Objetos.EvaluacionRepository.bien_formado r h ->
    Objetos.PreguntaRepository.bien_formado rp hp ->
    (let a := fst (Objetos.EvaluacionRepository.run q r h) in
     let h1 := snd (Objetos.EvaluacionRepository.run q r h) in
     let h2 := Objetos.mutate a l h1 in
     ~ Objetos.allocated a h /\
     Objetos.contents a h1 =
       respuesta_evaluaciones q (Objetos.EvaluacionRepository.estado r h) /\
     Objetos.contents a h2 = l /\
     Objetos.EvaluacionRepository.estado r h2 = Objetos.EvaluacionRepository.estado r h /\
     Objetos.contents (fst (Objetos.EvaluacionRepository.run q r h2))
       (snd (Objetos.EvaluacionRepository.run q r h2)) = Objetos.contents a h1) /\
    (let a := fst (Objetos.PreguntaRepository.run qp rp hp) in
     let h1 := snd (Objetos.PreguntaRepository.run qp rp hp) in
     let h2 := Objetos.mutate a lp h1 in
     ~ Objetos.allocated a hp /\
     Objetos.contents a h1 =
       respuesta_preguntas qp (Objetos.PreguntaRepository.estado rp hp) /\
     Objetos.contents a h2 = lp /\
     Objetos.PreguntaRepository.estado rp h2 = Objetos.PreguntaRepository.estado rp hp /\
     Objetos.contents (fst (Objetos.PreguntaRepository.run qp rp h2))
       (snd (Objetos.PreguntaRepository.run qp rp h2)) = Objetos.contents a h1).
Proof.
  intros r h q l rp hp qp lp Hbf Hbfp. split.
  - intros a h1 h2.
    destruct (run_spec q r h Hbf) as [Hsa Hc]. fold a h1 in Hsa, Hc.
    destruct (estado_mutate r h h1 a l Hbf Hsa) as [He Hbf2]. fold h2 in He, Hbf2.
    split; [unfold Objetos.allocated; destruct Hsa; lia|].
    split; [exact Hc|].
    split; [apply contents_mutate_eq; unfold Objetos.allocated; destruct Hsa; lia|].
    split; [exact He|].
    destruct (run_spec q r h2 Hbf2) as [_ Hc2]. rewrite Hc2, He, Hc. reflexivity.
  - intros a h1 h2.
    destruct (run_preguntas_spec qp rp hp Hbfp) as [Hsa Hc]. fold a h1 in Hsa, Hc.
    destruct (estado_preguntas_mutate rp hp h1 a lp Hbfp Hsa) as (_ & He & Hbf2).
    fold h2 in He, Hbf2.
    split; [unfold Objetos.allocated; destruct Hsa; lia|].
    split; [exact Hc|].
    split; [apply contents_mutate_eq; unfold Objetos.allocated; destruct Hsa; lia|].
    split; [exact He|].
    destruct (run_preguntas_spec qp rp h2 Hbf2) as [_ Hc2]. rewrite Hc2, He, Hc. reflexivity.
Qed.

(** *** Construction *)

Section InitFacts.
Import Objetos.

Lemma alloc_index_spec {A K : Type} (grupos : Dict.t K (list A)) :
  forall h : store A,
    snd (alloc_index grupos h) = h ++ map snd grupos /\
    Forall (fun ka => (snd ka < List.length (h ++ map snd grupos))%nat)
      (fst (alloc_index grupos h)) /\
    forall nuevos,
      read_index (fst (alloc_index grupos h)) (h ++ map snd grupos ++ nuevos) = grupos.
Proof.
  induction grupos as [|[k l] grupos IH]; intros h; cbn [alloc_index map snd fst].
  - rewrite app_nil_r. repeat split. constructor.
  - cbn [alloc]. specialize (IH (h ++ [l])).
    destruct (alloc_index grupos (h ++ [l])) as [index h2]. cbn [fst snd] in *.
    destruct IH as (E & Hall & Hread). rewrite <- app_assoc in E, Hall. cbn [app] in E, Hall.
    split; [exact E|]. split.
    + constructor; [|exact Hall]. cbn [snd]. rewrite length_app. cbn [List.length]. lia.
    + intros nuevos. cbn [read_index map fst snd]. f_equal.
      * f_equal. unfold contents. rewrite app_nth2, Nat.sub_diag by lia. reflexivity.
      * specialize (Hread nuevos). rewrite <- app_assoc in Hread. exact Hread.
Qed.

Lemma Forall_lt_mono {K : Type} (index : Dict.t K addr) (n m : nat) :
  (n <= m)%nat ->
  Forall (fun ka => (snd ka < n)%nat) index -> Forall (fun ka => (snd ka < m)%nat) index.
Proof. intros Hle. apply Forall_impl. intros; lia. Qed.

(** A repository built on a list object of the store is well formed, and
    its collections and indexes read as [__init__] builds them. *)
Lemma EvaluacionRepository_init_spec (evaluaciones : addr) (h : store Evaluacion.t) :
  allocated evaluaciones h ->
  EvaluacionRepository.bien_formado
    (fst (EvaluacionRepository.init evaluaciones h))
    (snd (EvaluacionRepository.init evaluaciones h)) /\
  EvaluacionRepository.estado
    (fst (EvaluacionRepository.init evaluaciones h))
    (snd (EvaluacionRepository.init evaluaciones h)) =
  PandasEvaluacionRepository.init (contents evaluaciones h).
Proof.
  intros Ha. unfold EvaluacionRepository.init.
  set (l := contents evaluaciones h).
  pose proof (alloc_index_spec (PandasEvaluacionRepository._build_profesor_index l) h)
    as (E1 & A1 & R1).
  destruct (alloc_index (PandasEvaluacionRepository._build_profesor_index l) h)
    as [i1 h1]. cbn [fst snd] in E1, A1, R1. subst h1.
  set (g1 := map snd (PandasEvaluacionRepository._build_profesor_index l)) in *.
  pose proof (alloc_index_spec (PandasEvaluacionRepository._build_periodo_index l)
                (h ++ g1)) as (E2 & A2 & R2).
  destruct (alloc_index (PandasEvaluacionRepository._build_periodo_index l) (h ++ g1))
    as [i2 h2]. cbn [fst snd] in E2, A2, R2. subst h2.
  set (g2 := map snd (PandasEvaluacionRepository._build_periodo_index l)) in *.
  pose proof (alloc_index_spec (PandasEvaluacionRepository._build_tipo_formulario_index l)
                ((h ++ g1) ++ g2)) as (E3 & A3 & R3).
  destruct (alloc_index (PandasEvaluacionRepository._build_tipo_formulario_index l)
              ((h ++ g1) ++ g2)) as [i3 h3]. cbn [fst snd] in E3, A3, R3. subst h3.
  set (g3 := map snd (PandasEvaluacionRepository._build_tipo_formulario_index l)) in *.
  cbn [fst snd]. split.
  - unfold EvaluacionRepository.bien_formado, index_allocated, allocated.
    cbn [EvaluacionRepository._evaluaciones EvaluacionRepository._by_profesor
         EvaluacionRepository._by_periodo EvaluacionRepository._by_tipo_formulario].
    unfold allocated in Ha. rewrite !length_app in *.
    split; [lia|]. split; [|split].
    + eapply Forall_lt_mono; [|exact A1]. lia.
    + eapply Forall_lt_mono; [|exact A2]. lia.
    + exact A3.
  - unfold EvaluacionRepository.estado, PandasEvaluacionRepository.init.
    cbn [EvaluacionRepository._evaluaciones EvaluacionRepository._by_profesor
         EvaluacionRepository._by_periodo EvaluacionRepository._by_tipo_formulario
         EvaluacionRepository._by_id].
    f_equal.
    + rewrite <- !app_assoc. apply contents_app, Ha.
    + rewrite <- !app_assoc. apply R1.
    + specialize (R2 g3). rewrite app_assoc in R2. exact R2.
    + specialize (R3 []). rewrite app_nil_r in R3. exact R3.
Qed.

Lemma PreguntaRepository_init_spec (preguntas : addr) (h : store Pregunta.t) :
  allocated preguntas h ->
  PreguntaRepository.bien_formado
    (fst (PreguntaRepository.init preguntas h))
    (snd (PreguntaRepository.init preguntas h)) /\
  PreguntaRepository.estado
    (fst (PreguntaRepository.init preguntas h))
    (snd (PreguntaRepository.init preguntas h)) =
  PandasPreguntaRepository.init (contents preguntas h).
Proof.
  intros Ha. unfold PreguntaRepository.init.
  set (l := contents preguntas h).
  pose proof (alloc_index_spec (PandasPreguntaRepository._build_categoria_index l) h)
    as (E1 & A1 & R1).
  destruct (alloc_index (PandasPreguntaRepository._build_categoria_index l) h)
    as [i1 h1]. cbn [fst snd] in E1, A1, R1. subst h1. cbn [fst snd]. split.
  - unfold PreguntaRepository.bien_formado, index_allocated, allocated.
    cbn [PreguntaRepository._preguntas PreguntaRepository._by_categoria].
    unfold allocated in Ha. rewrite length_app in *. split; [lia | exact A1].
  - unfold PreguntaRepository.estado, PandasPreguntaRepository.init.
    cbn [PreguntaRepository._preguntas PreguntaRepository._by_categoria
         PreguntaRepository._by_codigo].
    f_equal.
    + apply contents_app, Ha.
    + specialize (R1 []). rewrite app_nil_r in R1. exact R1.
Qed.
End InitFacts.

Lemma consultas_devuelven_copias_witness :
  let rh := Objetos.EvaluacionRepository.init 0%nat [[eval1; eval2]] in
  let rph := Objetos.PreguntaRepository.init 0%nat [[pregunta_P364]] in
  let q := Objetos.EvaluacionRepository.find_by_profesor "123456" in
  let a := fst (Objetos.EvaluacionRepository.run q (fst rh) (snd rh)) in
  let h1 := snd (Objetos.EvaluacionRepository.run q (fst rh) (snd rh)) in
  Objetos.EvaluacionRepository.bien_formado (fst rh) (snd rh) /\
  Objetos.PreguntaRepository.bien_formado (fst rph) (snd rph) /\
  Objetos.contents a h1 = [eval1; eval2] /\
  Objetos.EvaluacionRepository.estado (fst rh) (Objetos.mutate a [] h1) =
    Objetos.EvaluacionRepository.estado (fst rh) (snd rh).
Proof.
  intros rh rph q a h1.
  assert (H1 : Objetos.EvaluacionRepository.bien_formado (fst rh) (snd rh)).
  { apply EvaluacionRepository_init_spec. unfold Objetos.allocated. cbn. lia. }
  assert (H2 : Objetos.PreguntaRepository.bien_formado (fst rph) (snd rph)).
  { apply PreguntaRepository_init_spec. unfold Objetos.allocated. cbn. lia. }
  split; [exact H1|]. split; [exact H2|]. split; [vm_compute; reflexivity|].
  exact (proj1 (proj2 (proj2 (proj2 (proj1
           (consultas_devuelven_copias (fst rh) (snd rh) q [] (fst rph) (snd rph)
              Objetos.PreguntaRepository.find_all [] H1 H2)))))).
Defined.

(** ** The order of the load *)


Section SortedUnique.
Variable A : Type.
Variable ltb : A -> A -> bool.
Hypothesis ltb_asym : forall a b, ltb a b = true -> ltb b a = false.
Hypothesis ltb_trans : forall a b c, ltb a b = true -> ltb b c = true -> ltb a c = true.


End SortedUnique.

Lemma Periodo_eq (p q : Periodo.t) : Periodo.valor p = Periodo.valor q -> p = q.
Proof.
  destruct p as [v Hv], q as [w Hw]. cbn. intros ->. f_equal.
  apply Eqdep_dec.UIP_dec. apply Bool.bool_dec.
Qed.

Lemma Periodo_eqb_eq (p q : Periodo.t) : Periodo.eqb p q = true <-> p = q.
Proof.
  unfold Periodo.eqb. rewrite String.eqb_eq. split; [apply Periodo_eq | congruence].
Qed.



Lemma group_keys_In {K X : Type} (eqb : K -> K -> bool) :
  (forall a b, eqb a b = true <-> a = b) ->
  forall (kxs : list (K * X)) (k : K),
    In k (Dict.keys (Dict.group eqb kxs)) <-> In k (map fst kxs).
Proof.
  intros eqb_eq kxs k.
  pose proof (eqb_eq_refl K eqb eqb_eq) as Hrefl.
  pose proof (eqb_eq_sym K eqb eqb_eq) as Hsym.
  pose proof (eqb_eq_trans K eqb eqb_eq) as Htrans.
  unfold Dict.keys. split.
  - intros H. apply in_map_iff in H. destruct H as [[k' l] [E H]]. cbn in E. subst k'.
    apply (group_In _ _ eqb Hrefl Hsym Htrans) in H. tauto.
  - intros H. apply (In_valores_de eqb k kxs Hrefl) in H.
    destruct (group_complete _ _ eqb Hsym Htrans k kxs H) as (k' & Ek & Hin).
    apply eqb_eq in Ek. subst k'. apply (in_map fst) in Hin. exact Hin.
Qed.


Lemma find_by_periodo_init (evaluaciones : list Evaluacion.t) (periodo : Periodo.t) :
  PandasEvaluacionRepository.find_by_periodo
    (PandasEvaluacionRepository.init evaluaciones) periodo =
  filter (fun e => Periodo.eqb (Evaluacion.periodo e) periodo) evaluaciones.
Proof.
  apply (get_or_empty_group Periodo.eqb Evaluacion.periodo).
  - intros p q. apply String.eqb_sym.
  - intros p q r. apply String_eqb_trans.
Qed.


(** *** The index by id *)





(** *** The teachers *)

Section UpdateFacts.
Variables K V : Type.
Variable eqb : K -> K -> bool.
Hypothesis eqb_eq : forall a b, eqb a b = true <-> a = b.

Lemma update_In (k0 : K) (f : option V -> V) (d : Dict.t K V) (k : K) (v : V) :
  claves_distintas eqb d ->
  In (k, v) (Dict.update eqb k0 f d) ->
  (k <> k0 /\ In (k, v) d) \/ (k = k0 /\ v = f (Dict.get eqb k0 d)).
Proof.
  induction 1 as [|k1 v1 d Hget Hd IH]; cbn [Dict.update Dict.get].
  - intros [[= <- <-] | []]. right. split; reflexivity.
  - destruct (eqb k1 k0) eqn:E.
    + apply eqb_eq in E. subst k1.
      intros [[= <- <-] | Hin]; [right; split; reflexivity|].
      left. split; [|right; exact Hin]. intros ->.
      pose proof (get_None_In _ _ eqb k0 d Hget k0 v Hin) as F.
      rewrite (eqb_eq_refl K eqb eqb_eq) in F. discriminate.
    + intros [[= <- <-] | Hin].
      * left. split; [|left; reflexivity]. intros ->.
        rewrite (eqb_eq_refl K eqb eqb_eq) in E. discriminate.
      * destruct (IH Hin) as [[Hne Hin'] | [-> ->]]; [left | right]; auto.
        split; [exact Hne | right; exact Hin'].
Qed.

Lemma In_update_other (k0 : K) (f : option V -> V) (d : Dict.t K V) (k : K) (v : V) :
  k <> k0 -> In (k, v) d -> In (k, v) (Dict.update eqb k0 f d).
Proof.
  intros Hne. induction d as [|[k1 v1] d IH]; cbn [Dict.update]; [intros []|].
  destruct (eqb k1 k0) eqn:E.
  - apply eqb_eq in E. subst k1. intros [[= <- <-] | Hin]; [contradiction | right; exact Hin].
  - intros [H | Hin]; [left; exact H | right; apply IH, Hin].
Qed.

Lemma In_update_same (k0 : K) (f : option V -> V) (d : Dict.t K V) :
  In (k0, f (Dict.get eqb k0 d)) (Dict.update eqb k0 f d).
Proof.
  induction d as [|[k1 v1] d IH]; cbn [Dict.update Dict.get]; [left; reflexivity|].
  destruct (eqb k1 k0) eqn:E.
  - apply eqb_eq in E. subst k1. left. reflexivity.
  - right. exact IH.
Qed.
End UpdateFacts.

Lemma agregar_evaluacion_spec (p : Profesor.t) (e : Evaluacion.t) :
  Profesor.documento (Profesor.agregar_evaluacion p e) = Profesor.documento p /\
  Profesor.nombre_completo (Profesor.agregar_evaluacion p e) = Profesor.nombre_completo p /\
  (NoDup (map Evaluacion.id (Profesor.evaluaciones p)) ->
   NoDup (map Evaluacion.id (Profesor.evaluaciones (Profesor.agregar_evaluacion p e)))) /\
  (forall x, In x (Profesor.evaluaciones (Profesor.agregar_evaluacion p e)) ->
             In x (Profesor.evaluaciones p) \/ x = e) /\
  (forall x, In x (Profesor.evaluaciones p) ->
             In x (Profesor.evaluaciones (Profesor.agregar_evaluacion p e))) /\
  (exists e', In e' (Profesor.evaluaciones (Profesor.agregar_evaluacion p e)) /\
              Evaluacion.id e' = Evaluacion.id e).
Proof.
  unfold Profesor.agregar_evaluacion.
  destruct (existsb (fun e' => Evaluacion.eqb e' e) (Profesor.evaluaciones p)) eqn:E.
  - repeat split; auto.
    apply existsb_exists in E. destruct E as (e' & Hin & Hid).
    exists e'. split; [exact Hin | apply String.eqb_eq, Hid].
  - cbn [Profesor.documento Profesor.nombre_completo Profesor.evaluaciones].
    repeat split.
    + intros ND. rewrite map_app. apply NoDup_app; [exact ND | repeat constructor; intros [] |].
      intros i Hi [<- | []]. apply in_map_iff in Hi. destruct Hi as (e' & Hid & Hin).
      assert (E' : existsb (fun e' => Evaluacion.eqb e' e) (Profesor.evaluaciones p) = true).
      { apply existsb_exists. exists e'. split; [exact Hin | apply String.eqb_eq, Hid]. }
      congruence.
    + intros x Hx. apply in_app_iff in Hx. destruct Hx as [Hx | [<- | []]]; auto.
    + intros x Hx. apply in_app_iff. left. exact Hx.
    + exists e. split; [apply in_app_iff; right; left|]; reflexivity.
Qed.

Lemma profesores_de_step (l : list Evaluacion.t) (d : Dict.t string Profesor.t)
    (e : Evaluacion.t) :
  profesores_de l d ->
  profesores_de (l ++ [e]) (PandasEvaluacionRepository.get_profesores_step d e).
Proof.
  intros (Hcd & Hitems & Hcover). unfold PandasEvaluacionRepository.get_profesores_step.
  set (k0 := Evaluacion.profesor_documento e).
  set (f := fun o : option Profesor.t =>
              Profesor.agregar_evaluacion
                match o with
                | Some p => p
                | None => Profesor.mk k0 (Evaluacion.profesor_nombre e) []
                end e).
  split; [|split].
  - apply update_claves_distintas; [apply String.eqb_sym | apply String_eqb_trans | exact Hcd].
  - intros k p Hin.
    apply (update_In _ _ String.eqb String.eqb_eq) in Hin; [|exact Hcd].
    destruct Hin as [[Hne Hin] | [-> ->]].
    + destruct (Hitems k p Hin) as (Hdoc & (e1 & He1 & Hk1 & Hn1) & Hnd & Hsub & Hcov).
      split; [exact Hdoc|]. split.
      { exists e1. split; [apply in_app_iff; left; exact He1 | split; assumption]. }
      split; [exact Hnd|]. split.
      { intros x Hx. destruct (Hsub x Hx) as [H1 H2].
        split; [apply in_app_iff; left; exact H1 | exact H2]. }
      intros x Hx Hkx. apply in_app_iff in Hx. destruct Hx as [Hx | [<- | []]].
      * apply Hcov; assumption.
      * exfalso. apply Hne. symmetry. exact Hkx.
    + unfold f.
      destruct (Dict.get String.eqb k0 d) as [p1|] eqn:Eget.
      * apply get_In in Eget. destruct Eget as (k' & Ek & Hin1).
        apply String.eqb_eq in Ek. subst k'.
        destruct (Hitems k0 p1 Hin1) as (Hdoc & (e1 & He1 & Hk1 & Hn1) & Hnd & Hsub & Hcov).
        destruct (agregar_evaluacion_spec p1 e) as (A1 & A2 & A3 & A4 & A5 & A6).
        split; [congruence|]. split.
        { exists e1. split; [apply in_app_iff; left; exact He1|]. split; congruence. }
        split; [apply A3, Hnd|]. split.
        { intros x Hx. destruct (A4 x Hx) as [Hx' | ->].
          - destruct (Hsub x Hx') as [H1 H2].
            split; [apply in_app_iff; left; exact H1 | exact H2].
          - split; [apply in_app_iff; right; left|]; reflexivity. }
        intros x Hx Hkx. apply in_app_iff in Hx. destruct Hx as [Hx | [<- | []]].
        -- destruct (Hcov x Hx Hkx) as (x' & Hx' & Hid). exists x'. split; [apply A5, Hx' | exact Hid].
        -- exact A6.
      * destruct (agregar_evaluacion_spec
                    (Profesor.mk k0 (Evaluacion.profesor_nombre e) []) e)
          as (A1 & A2 & A3 & A4 & A5 & A6).
        cbn [Profesor.documento Profesor.nombre_completo Profesor.evaluaciones] in *.
        split; [exact A1|]. split.
        { exists e. split; [apply in_app_iff; right; left; reflexivity|].
          split; [reflexivity | exact A2]. }
        split; [apply A3; constructor|]. split.
        { intros x Hx. destruct (A4 x Hx) as [[] | ->].
          split; [apply in_app_iff; right; left|]; reflexivity. }
        intros x Hx Hkx. apply in_app_iff in Hx. destruct Hx as [Hx | [<- | []]];
          [|exact A6].
        exfalso. destruct (Hcover x Hx) as [p Hp]. rewrite Hkx in Hp.
        apply (In_get _ _ String.eqb String.eqb_refl String.eqb_sym) in Hp; [|exact Hcd].
        congruence.
  - intros x Hx.
    destruct (String.eqb_spec (Evaluacion.profesor_documento x) k0) as [E | N].
    + rewrite E. eexists. apply In_update_same. apply String.eqb_eq.
    + apply in_app_iff in Hx. destruct Hx as [Hx | [<- | []]]; [|contradiction].
      destruct (Hcover x Hx) as [p Hp]. exists p.
      apply In_update_other; [apply String.eqb_eq | exact N | exact Hp].
Qed.

Lemma profesores_de_fold (l : list Evaluacion.t) :
  forall (l0 : list Evaluacion.t) (d : Dict.t string Profesor.t),
    profesores_de l0 d ->
    profesores_de (l0 ++ l)
      (fold_left PandasEvaluacionRepository.get_profesores_step l d).
Proof.
  induction l as [|e l IH]; intros l0 d H; cbn [fold_left].
  - rewrite app_nil_r. exact H.
  - change (e :: l) with ([e] ++ l). rewrite app_assoc.
    apply IH, profesores_de_step, H.
Qed.

Lemma profesores_de_init (l : list Evaluacion.t) :
  profesores_de l (fold_left PandasEvaluacionRepository.get_profesores_step l []).
Proof.
  apply (profesores_de_fold l [] []). split; [constructor|].
  split; [intros k p [] | intros e []].
Qed.



Lemma periodos_de_init (l : list Evaluacion.t) (p : Periodo.t) :
  In p (PandasEvaluacionRepository.get_periodos_disponibles
          (PandasEvaluacionRepository.init l)) <->
  In p (map Evaluacion.periodo l).
Proof.
  unfold PandasEvaluacionRepository.get_periodos_disponibles.
  cbn [PandasEvaluacionRepository.init PandasEvaluacionRepository._by_periodo].
  unfold PandasEvaluacionRepository._build_periodo_index.
  rewrite sorted_In, (group_keys_In Periodo.eqb Periodo_eqb_eq), map_map. reflexivity.
Qed.

Lemma get_profesores_spec (l : list Evaluacion.t) :
  let ps := PandasEvaluacionRepository.get_profesores (PandasEvaluacionRepository.init l) in
  NoDup (map Profesor.documento ps) /\
  (forall p, In p ps ->
     (exists e, In e l /\ Evaluacion.profesor_documento e = Profesor.documento p /\
                Profesor.nombre_completo p = Evaluacion.profesor_nombre e) /\
     NoDup (map Evaluacion.id (Profesor.evaluaciones p)) /\
     (forall e, In e (Profesor.evaluaciones p) ->
                In e l /\ Evaluacion.profesor_documento e = Profesor.documento p) /\
     (forall e, In e l -> Evaluacion.profesor_documento e = Profesor.documento p ->
                exists e', In e' (Profesor.evaluaciones p) /\
                           Evaluacion.id e' = Evaluacion.id e)) /\
  (forall e, In e l -> exists p, In p ps /\ Profesor.documento p = Evaluacion.profesor_documento e).
Proof.
  intros ps. unfold ps, PandasEvaluacionRepository.get_profesores.
  cbn [PandasEvaluacionRepository.init PandasEvaluacionRepository._evaluaciones].
  destruct (profesores_de_init l) as (Hcd & Hitems & Hcover).
  set (d := fold_left PandasEvaluacionRepository.get_profesores_step l []) in *.
  split; [|split].
  - assert (E : map Profesor.documento (Dict.values d) = Dict.keys d).
    { unfold Dict.values, Dict.keys. rewrite map_map. apply map_ext_in.
      intros [k p] Hin. cbn [fst snd]. apply (Hitems k p Hin). }
    rewrite E. apply (claves_distintas_NoDup _ String.eqb String.eqb_eq), Hcd.
  - intros p Hp. unfold Dict.values in Hp. apply in_map_iff in Hp.
    destruct Hp as ([k p'] & E & Hin). cbn [snd] in E. subst p'.
    destruct (Hitems k p Hin) as (Hdoc & Hname & Hnd & Hsub & Hcov).
    rewrite Hdoc. split; [exact Hname|]. split; [exact Hnd|]. split; [exact Hsub | exact Hcov].
  - intros e He. destruct (Hcover e He) as [p Hp]. exists p. split.
    + unfold Dict.values. apply in_map_iff. exists (Evaluacion.profesor_documento e, p).
      split; [reflexivity | exact Hp].
    + apply (Hitems _ p Hp).
Qed.

Section OrdenDeCarga.
Import PandasEvaluacionRepository.


End OrdenDeCarga.



(** ** Checks of the string model on the literals of the source *)

Example lower_EVALUACION :
  Str.lower (Categoria.value Categoria.EVALUACION) = Str.latin1 "evaluación".
Proof. reflexivity. Qed.

Example contains_metodologia :
  Str.contains (Str.latin1 "metodología")
    (Str.lower (Str.latin1 "Utiliza una METODOLOGÍA adecuada")) = true.
Proof. reflexivity. Qed.

Example labels_in_order :
  Str.ltb (Categoria.value Categoria.ENSENANZA_APRENDIZAJE)
    (Categoria.value Categoria.EVALUACION) = true /\
  Str.ltb (Categoria.value Categoria.EVALUACION)
    (Categoria.value Categoria.EVALUACION_APRENDIZAJE) = true.
Proof. split; reflexivity. Qed.


(** The rounding on numbers whose floats are known: 0.1, 3.9, 1/3 and
    -1/3; integers and halves are floats; half the smallest float goes to
    0.0 and the smallest float, 2^-1074, to itself. *)
Example redondear_ejemplos :
  Float.redondear (1 # 10) = (3602879701896397 # 36028797018963968)%Q /\
  Float.redondear (39 # 10) = (8782019273372467 # 2251799813685248)%Q /\
  Float.redondear (1 # 3) = (6004799503160661 # 18014398509481984)%Q /\
  Float.redondear (- (1 # 3)) = (- (6004799503160661 # 18014398509481984))%Q /\
  Float.redondear 4 = 4%Q /\ Float.redondear (9 # 2) = (9 # 2)%Q /\
  (Float.redondear ((1 # 2) ^ 1075) == 0)%Q /\
  (Float.redondear ((1 # 2) ^ 1074) == (1 # 2) ^ 1074)%Q /\
  (Float.redondear umbral_4 == 4)%Q /\
  (Float.redondear (4 - (1 # 2) ^ 51) == 4 - (1 # 2) ^ 51)%Q.
Proof. repeat split; vm_compute; reflexivity. Qed.

Example Periodo_rechazados :
  Periodo.new "2025-3" = Raise (Periodo.format_error "2025-3") /\
  Periodo.new "25-1" = Raise (Periodo.format_error "25-1") /\
  Periodo.new "2025-1 " = Raise (Periodo.format_error "2025-1 ") /\
  Periodo.new EmptyString = Raise (Periodo.format_error EmptyString).
Proof. repeat split; vm_compute; reflexivity. Qed.

(* ================================================================== *)
(** * Further properties of the domain *)

(** ** Performance levels *)

Lemma Qle_bool_false (a b : Q) : Qle_bool a b = false <-> (b < a)%Q.
Proof.
  split; intros H.
  - apply Qnot_le_lt. intros K. apply Qle_bool_iff in K. congruence.
  - destruct (Qle_bool a b) eqn:E; [|reflexivity].
    apply Qle_bool_iff in E. exfalso. apply (Qlt_not_le _ _ H E).
Qed.

(** X1. [nivel_desempeno] cuts the scale into five bands at 3.0, 3.5, 4.0
    and 4.5, the lower bound of a band belonging to it; the level never goes
    down when the value goes up; [es_excelente] is the top band and
    [es_aprobatoria] every band but the lowest, so an excellent rating is a
    passing one. *)
Theorem nivel_desempeno_bandas :
  (forall r : Calificacion.t,
      let v := Calificacion.valor r in
      (Calificacion.nivel_desempeno r = "Excelente" <-> (9 # 2 <= v)%Q) /\
      (Calificacion.nivel_desempeno r = "Sobresaliente" <-> (4 <= v /\ v < 9 # 2)%Q) /\
      (Calificacion.nivel_desempeno r = "Bueno" <-> (7 # 2 <= v /\ v < 4)%Q) /\
      (Calificacion.nivel_desempeno r = "Aceptable" <-> (3 <= v /\ v < 7 # 2)%Q) /\
      (Calificacion.nivel_desempeno r = "Insuficiente" <-> (v < 3)%Q)) /\
  (forall r : Calificacion.t,
      (Calificacion.es_excelente r = true <->
       Calificacion.nivel_desempeno r = "Excelente") /\
      (Calificacion.es_aprobatoria r = false <->
       Calificacion.nivel_desempeno r = "Insuficiente") /\
      (Calificacion.es_excelente r = true -> Calificacion.es_aprobatoria r = true)) /\
  (forall r r' : Calificacion.t,
      (Calificacion.valor r <= Calificacion.valor r')%Q ->
      (rango_de_nivel (Calificacion.nivel_desempeno r) <=
       rango_de_nivel (Calificacion.nivel_desempeno r'))%nat).
Proof.
  assert (B : forall r : Calificacion.t,
             let v := Calificacion.valor r in
             (Calificacion.nivel_desempeno r = "Excelente" <-> (9 # 2 <= v)%Q) /\
             (Calificacion.nivel_desempeno r = "Sobresaliente" <-> (4 <= v /\ v < 9 # 2)%Q) /\
             (Calificacion.nivel_desempeno r = "Bueno" <-> (7 # 2 <= v /\ v < 4)%Q) /\
             (Calificacion.nivel_desempeno r = "Aceptable" <-> (3 <= v /\ v < 7 # 2)%Q) /\
             (Calificacion.nivel_desempeno r = "Insuficiente" <-> (v < 3)%Q)).
  { intros r v. unfold Calificacion.nivel_desempeno. fold v.
    destruct (Qle_bool (9 # 2) v) eqn:E1;
      [apply Qle_bool_iff in E1 | apply Qle_bool_false in E1].
    { repeat split; intros; try discriminate; try reflexivity; try lra. }
    destruct (Qle_bool 4 v) eqn:E2;
      [apply Qle_bool_iff in E2 | apply Qle_bool_false in E2].
    { repeat split; intros; try discriminate; try reflexivity; try lra. }
    destruct (Qle_bool (7 # 2) v) eqn:E3;
      [apply Qle_bool_iff in E3 | apply Qle_bool_false in E3].
    { repeat split; intros; try discriminate; try reflexivity; try lra. }
    destruct (Qle_bool 3 v) eqn:E4;
      [apply Qle_bool_iff in E4 | apply Qle_bool_false in E4].
    { repeat split; intros; try discriminate; try reflexivity; try lra. }
    repeat split; intros; try discriminate; try reflexivity; try lra. }
  split; [exact B|]. split.
  - intros r. destruct (B r) as (B1 & _ & _ & _ & B5).
    unfold Calificacion.es_excelente, Calificacion.es_aprobatoria.
    split; [|split].
    + rewrite B1. apply Qle_bool_iff.
    + rewrite B5. apply Qle_bool_false.
    + intros H. apply Qle_bool_iff in H. apply Qle_bool_iff. lra.
  - intros r r' Hle.
    unfold Calificacion.nivel_desempeno.
    destruct (Qle_bool (9 # 2) (Calificacion.valor r)) eqn:E1;
      [apply Qle_bool_iff in E1 | apply Qle_bool_false in E1];
    destruct (Qle_bool 4 (Calificacion.valor r)) eqn:E2;
      [apply Qle_bool_iff in E2 | apply Qle_bool_false in E2 |
       apply Qle_bool_iff in E2 | apply Qle_bool_false in E2];
    destruct (Qle_bool (7 # 2) (Calificacion.valor r)) eqn:E3;
      try (apply Qle_bool_iff in E3); try (apply Qle_bool_false in E3);
    destruct (Qle_bool 3 (Calificacion.valor r)) eqn:E4;
      try (apply Qle_bool_iff in E4); try (apply Qle_bool_false in E4);
    destruct (Qle_bool (9 # 2) (Calificacion.valor r')) eqn:F1;
      try (apply Qle_bool_iff in F1); try (apply Qle_bool_false in F1);
    destruct (Qle_bool 4 (Calificacion.valor r')) eqn:F2;
      try (apply Qle_bool_iff in F2); try (apply Qle_bool_false in F2);
    destruct (Qle_bool (7 # 2) (Calificacion.valor r')) eqn:F3;
      try (apply Qle_bool_iff in F3); try (apply Qle_bool_false in F3);
    destruct (Qle_bool 3 (Calificacion.valor r')) eqn:F4;
      try (apply Qle_bool_iff in F4); try (apply Qle_bool_false in F4);
    try (exfalso; lra); vm_compute; lia.
Qed.

(** ** Periods *)

Lemma Some_inj {A : Type} (a b : A) : Some a = Some b -> a = b.
Proof. congruence. Qed.

Lemma Periodo_anio_digitos (p : Periodo.t) :
  exists d1 d2 d3 d4 t r,
    Periodo.valor p =
      String d1 (String d2 (String d3 (String d4 (String "-" (String t r))))) /\
    Str.is_digit d1 = true /\ Str.is_digit d2 = true /\
    Str.is_digit d3 = true /\ Str.is_digit d4 = true /\
    Periodo.anio p =
      Some (1000 * valor_digito d1 + 100 * valor_digito d2
            + 10 * valor_digito d3 + valor_digito d4)%Z /\
    Periodo.semestre p = Some (valor_digito t) /\
    (valor_digito t = 1 \/ valor_digito t = 2)%Z.
Proof.
  destruct (forma_inv _ (Periodo_forma p))
    as (d1 & d2 & d3 & d4 & t & r & Hs & H1 & H2 & H3 & H4 & Ht & Hr).
  exists d1, d2, d3, d4, t, r.
  destruct (campos_de_forma d1 d2 d3 d4 t r H1 H2 H3 H4 Ht Hr) as (Ha & Hx & Hv).
  unfold Periodo.anio, Periodo.semestre, Periodo.campo. rewrite Hs.
  repeat split; assumption.
Qed.

(** X2. A period prints as the string it was built from, and building a
    period from that string gives the same period back. [es_mismo_anio]
    never raises; it is reflexive and symmetric, it holds when the two
    strings start with the same four characters, and for periods written in
    ASCII (digits 0-9) only then. Of two periods of the same year the
    earlier one is semester 1 and the later one semester 2; of two periods
    of different years one is earlier than the other. *)
Theorem Periodo_str_y_mismo_anio :
  (forall p : Periodo.t, Periodo.new (Periodo_str p) = Ok p) /\
  (forall p q : Periodo.t,
      exists b : bool,
        Periodo_es_mismo_anio p q = Some b /\
        (cuatro_primeros (Periodo.valor p) = cuatro_primeros (Periodo.valor q) ->
         b = true) /\
        (solo_ascii (Periodo.valor p) = true -> solo_ascii (Periodo.valor q) = true ->
         b = true ->
         cuatro_primeros (Periodo.valor p) = cuatro_primeros (Periodo.valor q))) /\
  (forall p : Periodo.t, Periodo_es_mismo_anio p p = Some true) /\
  (forall p q : Periodo.t, Periodo_es_mismo_anio p q = Periodo_es_mismo_anio q p) /\
  (forall p q : Periodo.t,
      Periodo_es_mismo_anio p q = Some true -> Periodo.lt p q = Some true ->
      Periodo.semestre p = Some 1%Z /\ Periodo.semestre q = Some 2%Z) /\
  (forall p q : Periodo.t,
      Periodo_es_mismo_anio p q = Some false ->
      Periodo.lt p q = Some true \/ Periodo.lt q p = Some true).
Proof.
  split; [|split; [|split; [|split; [|split]]]].
  - intros p. unfold Periodo_str.
    destruct (Periodo_new_cases (Periodo.valor p)) as [[H E] | [H _]].
    + rewrite E. f_equal. apply Periodo_eq. reflexivity.
    + rewrite (Periodo.valor_ok p) in H. discriminate.
  - intros p q.
    destruct (Periodo_anio_digitos p)
      as (d1 & d2 & d3 & d4 & t & r & Hs & H1 & H2 & H3 & H4 & Ha & _).
    destruct (Periodo_anio_digitos q)
      as (e1 & e2 & e3 & e4 & t' & r' & Hs' & K1 & K2 & K3 & K4 & Ha' & _).
    unfold Periodo_es_mismo_anio. rewrite Ha, Ha'.
    eexists. split; [reflexivity|].
    rewrite Hs, Hs'. unfold cuatro_primeros. cbn [substring].
    pose proof (valor_digito_range _ H1). pose proof (valor_digito_range _ H2).
    pose proof (valor_digito_range _ H3). pose proof (valor_digito_range _ H4).
    pose proof (valor_digito_range _ K1). pose proof (valor_digito_range _ K2).
    pose proof (valor_digito_range _ K3). pose proof (valor_digito_range _ K4).
    rewrite Z.eqb_eq. split; [|intros _ _].
    + intros E. injection E as -> -> -> ->. reflexivity.
    + intros E.
      assert (valor_digito d1 = valor_digito e1) by lia.
      assert (valor_digito d2 = valor_digito e2) by lia.
      assert (valor_digito d3 = valor_digito e3) by lia.
      assert (valor_digito d4 = valor_digito e4) by lia.
      rewrite (valor_digito_inj d1 e1), (valor_digito_inj d2 e2),
        (valor_digito_inj d3 e3), (valor_digito_inj d4 e4) by assumption.
      reflexivity.
  - intros p.
    destruct (Periodo_anio_digitos p)
      as (d1 & d2 & d3 & d4 & t & r & _ & _ & _ & _ & _ & Ha & _).
    unfold Periodo_es_mismo_anio. rewrite Ha, Z.eqb_refl. reflexivity.
  - intros p q.
    destruct (Periodo_anio_digitos p)
      as (d1 & d2 & d3 & d4 & t & r & _ & _ & _ & _ & _ & Ha & _).
    destruct (Periodo_anio_digitos q)
      as (e1 & e2 & e3 & e4 & t' & r' & _ & _ & _ & _ & _ & Ha' & _).
    unfold Periodo_es_mismo_anio. rewrite Ha, Ha', Z.eqb_sym. reflexivity.
  - intros p q.
    destruct (Periodo_anio_digitos p)
      as (d1 & d2 & d3 & d4 & t & r & _ & _ & _ & _ & _ & Ha & Hx & Hv).
    destruct (Periodo_anio_digitos q)
      as (e1 & e2 & e3 & e4 & t' & r' & _ & _ & _ & _ & _ & Ha' & Hx' & Hv').
    unfold Periodo_es_mismo_anio, Periodo.lt. rewrite Ha, Ha', Hx, Hx'.
    intros E L. apply Some_inj in E. rewrite E in L. cbn [negb] in L.
    apply Some_inj in L. apply Z.ltb_lt in L.
    split; f_equal; lia.
  - intros p q.
    destruct (Periodo_anio_digitos p)
      as (d1 & d2 & d3 & d4 & t & r & _ & _ & _ & _ & _ & Ha & _).
    destruct (Periodo_anio_digitos q)
      as (e1 & e2 & e3 & e4 & t' & r' & _ & _ & _ & _ & _ & Ha' & _).
    unfold Periodo_es_mismo_anio, Periodo.lt. rewrite Ha, Ha'.
    intros E. apply Some_inj in E.
    rewrite E. rewrite Z.eqb_sym in E. rewrite E.
    cbn [negb]. apply Z.eqb_neq in E.
    match goal with
    | |- Some (?a <? ?b)%Z = _ \/ Some (?b <? ?a)%Z = _ =>
        destruct (Z.ltb_spec a b); [left; reflexivity|];
        destruct (Z.ltb_spec b a); [right; reflexivity|]; lia
    end.
Qed.

(** ** Categories from their labels *)

Lemma Unicode_eqb_eq (a b : list N) : Unicode.eqb a b = true <-> a = b.
Proof.
  revert b. induction a as [|x a IH]; intros [|y b]; cbn [Unicode.eqb];
    try (split; [discriminate | discriminate]); [tauto|].
  rewrite andb_true_iff, N.eqb_eq, IH. split.
  - intros [-> ->]. reflexivity.
  - intros E. injection E as -> ->. split; reflexivity.
Qed.

Lemma upper_char_lower_char (c : ascii) :
  Unicode.upper_char (Str.lower_char c) = Unicode.upper_char c.
Proof. destruct c as [[] [] [] [] [] [] [] []]; reflexivity. Qed.

Lemma upper_lower (s : string) : Unicode.upper (Str.lower s) = Unicode.upper s.
Proof.
  induction s as [|c s IH]; [reflexivity|].
  cbn [Str.lower Unicode.upper]. rewrite upper_char_lower_char, IH. reflexivity.
Qed.

Lemma is_space_lower_char (c : ascii) : Str.is_space (Str.lower_char c) = Str.is_space c.
Proof. destruct c as [[] [] [] [] [] [] [] []]; reflexivity. Qed.

Lemma lstrip_lower (s : string) : Str.lstrip (Str.lower s) = Str.lower (Str.lstrip s).
Proof.
  induction s as [|c s IH]; [reflexivity|].
  cbn [Str.lower Str.lstrip]. rewrite is_space_lower_char.
  destruct (Str.is_space c); [exact IH | reflexivity].
Qed.

Lemma rstrip_lower (s : string) : Str.rstrip (Str.lower s) = Str.lower (Str.rstrip s).
Proof.
  induction s as [|c s IH]; [reflexivity|].
  cbn [Str.lower Str.rstrip]. rewrite IH, is_space_lower_char.
  destruct (Str.rstrip s); cbn [Str.lower].
  - destruct (Str.is_space c); reflexivity.
  - reflexivity.
Qed.

Lemma strip_lower (s : string) : Str.strip (Str.lower s) = Str.lower (Str.strip s).
Proof. unfold Str.strip. rewrite lstrip_lower, rstrip_lower. reflexivity. Qed.

Lemma upper_value_inj (a b : Categoria.t) :
  Unicode.upper (Categoria.value a) = Unicode.upper (Categoria.value b) -> a = b.
Proof.
  destruct a, b; intros H; try reflexivity; vm_compute in H; discriminate H.
Qed.

Lemma In_Categoria_all (c : Categoria.t) : In c Categoria.all.
Proof. destruct c; cbn; tauto. Qed.

Lemma Categoria_from_string_Ok (s : string) (c : Categoria.t) :
  Categoria_from_string s = Ok c <->
  Unicode.upper (Str.strip s) = Unicode.upper (Categoria.value c).
Proof.
  unfold Categoria_from_string.
  destruct (find _ Categoria.all) as [c'|] eqn:F.
  - apply find_some in F. destruct F as [_ F]. apply Unicode_eqb_eq in F.
    split.
    + intros E. assert (c' = c) by congruence. subst c'. symmetry. exact F.
    + intros E. rewrite E in F. apply upper_value_inj in F. subst c'. reflexivity.
  - split; [discriminate|]. intros E.
    pose proof (find_none _ _ F c (In_Categoria_all c)) as K. cbv beta in K.
    rewrite E in K.
    assert (T : Unicode.eqb (Unicode.upper (Categoria.value c))
                  (Unicode.upper (Categoria.value c)) = true)
      by (apply Unicode_eqb_eq; reflexivity).
    congruence.
Qed.

(** X3. [Categoria.from_string] gives the category whose label, in upper
    case, is the given text stripped of surrounding white space and put in
    upper case, and raises [ValueError] with the given text when there is
    none. Every label resolves to its own category, also written in lower
    case; the letter case of the text never matters. *)
Theorem Categoria_from_string_spec :
  (forall (s : string) (c : Categoria.t),
      Categoria_from_string s = Ok c <->
      Unicode.upper (Str.strip s) = Unicode.upper (Categoria.value c)) /\
  (forall s : string,
      Categoria_from_string s =
        Raise (ValueError (Str.latin1 "Categoría no reconocida: " ++ s)%string) <->
      (forall c : Categoria.t,
          Unicode.upper (Str.strip s) <> Unicode.upper (Categoria.value c))) /\
  (forall c : Categoria.t,
      Categoria_from_string (Categoria.value c) = Ok c /\
      Categoria_from_string (Str.lower (Categoria.value c)) = Ok c) /\
  (forall (s : string) (c : Categoria.t),
      Categoria_from_string (Str.lower s) = Ok c <-> Categoria_from_string s = Ok c) /\
  (forall c c' : Categoria.t, Categoria.value c = Categoria.value c' -> c = c').
Proof.
  split; [exact Categoria_from_string_Ok|].
  split; [|split; [|split]].
  - intros s. split.
    + intros E c K. apply Categoria_from_string_Ok in K. congruence.
    + intros K. unfold Categoria_from_string.
      destruct (find _ Categoria.all) as [c'|] eqn:F; [|reflexivity].
      apply find_some in F. destruct F as [_ F]. apply Unicode_eqb_eq in F.
      exfalso. apply (K c'). symmetry. exact F.
  - intros c. split; destruct c; vm_compute; reflexivity.
  - intros s c. rewrite !Categoria_from_string_Ok, strip_lower, upper_lower.
    reflexivity.
  - intros c c' E. apply upper_value_inj. rewrite E. reflexivity.
Qed.

(** ** Answers of an evaluation *)

Section SetFacts.
Variables K V : Type.
Variable eqb : K -> K -> bool.
Hypothesis eqb_refl : forall k, eqb k k = true.

Lemma update_keys_eq (k : K) (f : option V -> V) (d : Dict.t K V) :
  Dict.keys (Dict.update eqb k f d) =
  if Dict.mem eqb k d then Dict.keys d else Dict.keys d ++ [k].
Proof.
  unfold Dict.mem, Dict.keys.
  induction d as [|[k0 v0] d IH]; cbn [Dict.update Dict.get map fst app].
  - reflexivity.
  - destruct (eqb k0 k); cbn [map fst].
    + reflexivity.
    + rewrite IH. destruct (Dict.get eqb k d); reflexivity.
Qed.

Lemma set_set (k : K) (v1 v2 : V) (d : Dict.t K V) :
  Dict.set eqb k v2 (Dict.set eqb k v1 d) = Dict.set eqb k v2 d.
Proof.
  unfold Dict.set.
  induction d as [|[k0 v0] d IH]; cbn [Dict.update].
  - rewrite eqb_refl. reflexivity.
  - destruct (eqb k0 k) eqn:E; cbn [Dict.update]; rewrite E.
    + reflexivity.
    + rewrite IH. reflexivity.
Qed.

Lemma update_absent (k : K) (f : option V -> V) (d : Dict.t K V) :
  (forall k' v, In (k', v) d -> eqb k' k = false) ->
  Dict.update eqb k f d = d ++ [(k, f None)].
Proof.
  induction d as [|[k0 v0] d IH]; intros H; cbn [Dict.update app].
  - reflexivity.
  - rewrite (H k0 v0 (or_introl eq_refl)), IH; [reflexivity|].
    intros k' v Hin. apply (H k' v). right. exact Hin.
Qed.
End SetFacts.

(** X4. [agregar_respuesta] stores the rating under the question: reading
    the question back gives the rating, the other questions keep theirs, and
    no question gets two entries. A question not yet answered goes to the
    end; for a question already answered (same code) the entry keeps its
    place and its first question object, and only the last rating stays. The
    other fields of the evaluation are untouched. *)
Theorem agregar_respuesta_spec :
  forall (e : Evaluacion.t) (p : Pregunta.t) (cal : option Calificacion.t),
    let e' := Evaluacion.agregar_respuesta e p cal in
    Dict.get Pregunta.eqb p (Evaluacion.respuestas e') = Some cal /\
    (forall q : Pregunta.t,
        Pregunta.eqb p q = false ->
        Dict.get Pregunta.eqb q (Evaluacion.respuestas e') =
        Dict.get Pregunta.eqb q (Evaluacion.respuestas e)) /\
    Dict.keys (Evaluacion.respuestas e') =
      (if Dict.mem Pregunta.eqb p (Evaluacion.respuestas e)
       then Dict.keys (Evaluacion.respuestas e)
       else Dict.keys (Evaluacion.respuestas e) ++ [p]) /\
    (claves_distintas Pregunta.eqb (Evaluacion.respuestas e) ->
     claves_distintas Pregunta.eqb (Evaluacion.respuestas e')) /\
    (forall cal0 : option Calificacion.t,
        Evaluacion.agregar_respuesta (Evaluacion.agregar_respuesta e p cal0) p cal = e') /\
    (Evaluacion.id e', Evaluacion.profesor_documento e', Evaluacion.profesor_nombre e',
     Evaluacion.periodo e', Evaluacion.tipo_formulario e') =
    (Evaluacion.id e, Evaluacion.profesor_documento e, Evaluacion.profesor_nombre e,
     Evaluacion.periodo e, Evaluacion.tipo_formulario e).
Proof.
  intros e p cal e'. subst e'. unfold Evaluacion.agregar_respuesta.
  cbn [Evaluacion.respuestas Evaluacion.id Evaluacion.profesor_documento
       Evaluacion.profesor_nombre Evaluacion.periodo Evaluacion.tipo_formulario].
  split; [|split; [|split; [|split; [|split]]]].
  - unfold Dict.set.
    rewrite (get_update _ _ Pregunta.eqb Pregunta_eqb_sym Pregunta_eqb_trans).
    rewrite Pregunta_eqb_refl. reflexivity.
  - intros q Hq. unfold Dict.set.
    rewrite (get_update _ _ Pregunta.eqb Pregunta_eqb_sym Pregunta_eqb_trans).
    rewrite Hq. reflexivity.
  - apply update_keys_eq.
  - intros Hcd. unfold Dict.set.
    apply update_claves_distintas;
      [apply Pregunta_eqb_sym | apply Pregunta_eqb_trans | exact Hcd].
  - intros cal0. f_equal. apply set_set. apply Pregunta_eqb_refl.
  - reflexivity.
Qed.

Lemma obtener_respuestas_fold (c : Categoria.t)
    (items : list (Pregunta.t * option Calificacion.t)) :
  forall d : Dict.t Pregunta.t Calificacion.t,
    claves_distintas Pregunta.eqb items ->
    (forall k v, In (k, v) d -> Dict.get Pregunta.eqb k items = None) ->
    fold_left
      (fun d item =>
         match snd item with
         | Some cal =>
             if Pregunta.pertenece_a_categoria (fst item) c
             then Dict.set Pregunta.eqb (fst item) cal d
             else d
         | None => d
         end)
      items d =
    d ++ flat_map
           (fun item =>
              match snd item with
              | Some cal =>
                  if Pregunta.pertenece_a_categoria (fst item) c
                  then [(fst item, cal)] else []
              | None => []
              end)
           items.
Proof.
  induction items as [|[p o] items IH]; intros d Hcd Hd; cbn [fold_left flat_map].
  - rewrite app_nil_r. reflexivity.
  - inversion Hcd as [|k v d0 Hget Hcd' E]; subst.
    assert (Hd' : forall k v, In (k, v) d -> Dict.get Pregunta.eqb k items = None).
    { intros k v Hin. specialize (Hd k v Hin). cbn [Dict.get] in Hd.
      destruct (Pregunta.eqb p k); [discriminate | exact Hd]. }
    cbn [fst snd]. destruct o as [cal|]; [|cbn [app]; apply IH; assumption].
    destruct (Pregunta.pertenece_a_categoria p c); [|cbn [app]; apply IH; assumption].
    unfold Dict.set. rewrite update_absent.
    + rewrite IH; [rewrite <- app_assoc; reflexivity | exact Hcd' |].
      intros k v Hin. apply in_app_or in Hin. destruct Hin as [Hin | [E | []]].
      * apply (Hd' k v Hin).
      * injection E as <- <-. exact Hget.
    + intros k v Hin. specialize (Hd k v Hin). cbn [Dict.get] in Hd.
      rewrite Pregunta_eqb_sym. destruct (Pregunta.eqb p k); [discriminate | reflexivity].
Qed.

Lemma calificaciones_respuestas_de_categoria (c : Categoria.t) (e : Evaluacion.t) :
  map Calificacion.to_float (Dict.values (respuestas_de_categoria c e)) =
  calificaciones_en c e.
Proof.
  unfold respuestas_de_categoria, calificaciones_en, Dict.values.
  induction (Evaluacion.respuestas e) as [|[p o] items IH];
    cbn [flat_map Evaluacion.calificaciones fst snd]; [reflexivity|].
  destruct o as [cal|]; [|exact IH].
  destruct (Pregunta.pertenece_a_categoria p c); cbn [app map snd]; [|exact IH].
  rewrite IH. reflexivity.
Qed.

Lemma respuestas_de_categoria_In (c : Categoria.t) (e : Evaluacion.t)
    (p : Pregunta.t) (cal : Calificacion.t) :
  In (p, cal) (respuestas_de_categoria c e) <->
  In (p, Some cal) (Evaluacion.respuestas e) /\ Pregunta.categoria p = c.
Proof.
  unfold respuestas_de_categoria. rewrite in_flat_map. split.
  - intros ([q o] & Hin & H). cbn [fst snd] in H.
    destruct o as [cal'|]; [|destruct H].
    unfold Pregunta.pertenece_a_categoria in H.
    destruct (Categoria.eqb (Pregunta.categoria q) c) eqn:E; [|destruct H].
    destruct H as [H | []]. injection H as -> ->.
    split; [exact Hin | apply Categoria_eqb_eq; exact E].
  - intros [Hin Hc]. exists (p, Some cal). split; [exact Hin|].
    cbn [fst snd]. unfold Pregunta.pertenece_a_categoria.
    rewrite (proj2 (Categoria_eqb_eq _ _) Hc). left. reflexivity.
Qed.

Lemma respuestas_de_categoria_claves (c : Categoria.t)
    (items : list (Pregunta.t * option Calificacion.t)) :
  claves_distintas Pregunta.eqb items ->
  claves_distintas Pregunta.eqb
    (flat_map
       (fun item =>
          match snd item with
          | Some cal =>
              if Pregunta.pertenece_a_categoria (fst item) c
              then [(fst item, cal)] else []
          | None => []
          end)
       items).
Proof.
  induction 1 as [|p o items Hget Hcd IH]; cbn [flat_map fst snd]; [constructor|].
  destruct o as [cal|]; [|exact IH].
  destruct (Pregunta.pertenece_a_categoria p c); [|exact IH].
  cbn [app]. constructor; [|exact IH].
  destruct (Dict.get Pregunta.eqb p (flat_map _ items)) as [v|] eqn:G; [|reflexivity].
  exfalso. apply get_In in G. destruct G as (k' & Ek & Hin).
  apply in_flat_map in Hin. destruct Hin as ([q o'] & Hin & H).
  cbn [fst snd] in H. destruct o' as [cal'|]; [|destruct H].
  destruct (Pregunta.pertenece_a_categoria q c); [|destruct H].
  destruct H as [H | []]. injection H as -> ->.
  pose proof (get_None_In _ _ Pregunta.eqb p items Hget k' (Some v) Hin) as F.
  congruence.
Qed.

(** X5. In an evaluation holding one entry per question,
    [obtener_respuestas_por_categoria] gives the answered entries of the
    category, in the order of the evaluation and one per question: a pair is
    in the result exactly when the evaluation holds it with a rating and the
    question is of the category. The ratings of the result are the ones
    [calcular_promedio_por_categoria] averages. *)
Theorem obtener_respuestas_por_categoria_spec :
  forall (e : Evaluacion.t) (c : Categoria.t),
    claves_distintas Pregunta.eqb (Evaluacion.respuestas e) ->
    let respuestas := Evaluacion_obtener_respuestas_por_categoria e c in
    respuestas = respuestas_de_categoria c e /\
    (forall (p : Pregunta.t) (cal : Calificacion.t),
        In (p, cal) respuestas <->
        In (p, Some cal) (Evaluacion.respuestas e) /\ Pregunta.categoria p = c) /\
    claves_distintas Pregunta.eqb respuestas /\
    map Calificacion.to_float (Dict.values respuestas) = calificaciones_en c e /\
    Evaluacion.calcular_promedio_por_categoria e c =
      mean_or_zero (map Calificacion.to_float (Dict.values respuestas)).
Proof.
  intros e c Hcd respuestas.
  assert (E : respuestas = respuestas_de_categoria c e).
  { subst respuestas. unfold Evaluacion_obtener_respuestas_por_categoria.
    rewrite (obtener_respuestas_fold c _ [] Hcd); [reflexivity|].
    intros k v []. }
  rewrite E. split; [reflexivity|]. split; [|split; [|split]].
  - intros p cal. apply respuestas_de_categoria_In.
  - apply respuestas_de_categoria_claves. exact Hcd.
  - apply calificaciones_respuestas_de_categoria.
  - rewrite calificaciones_respuestas_de_categoria. reflexivity.
Qed.

Lemma obtener_respuestas_por_categoria_spec_witness :
  claves_distintas Pregunta.eqb (Evaluacion.respuestas evaluacion_dos_categorias) /\
  Evaluacion_obtener_respuestas_por_categoria evaluacion_dos_categorias
    Categoria.EVALUACION =
  [(Pregunta.mk "P376" Categoria.EVALUACION "Pregunta 2", Calificacion.mk 5 eq_refl)].
Proof.
  assert (H : claves_distintas Pregunta.eqb
                (Evaluacion.respuestas evaluacion_dos_categorias)).
  { repeat (constructor; [reflexivity|]). constructor. }
  split; [exact H|].
  rewrite (proj1 (obtener_respuestas_por_categoria_spec
                    evaluacion_dos_categorias Categoria.EVALUACION H)).
  reflexivity.
Defined.

(** X6. [categorias_evaluadas] holds each category once and never the
    category Comments: a category is in the set exactly when it is not
    Comments and the evaluation has an entry, answered or not, for one of
    its questions. A category with an answered rating is in the set, so a
    category outside it has the mean 0.0 unless it is Comments. *)
Theorem categorias_evaluadas_spec :
  forall e : Evaluacion.t,
    NoDup (Evaluacion.categorias_evaluadas e) /\
    ~ In Categoria.COMENTARIOS (Evaluacion.categorias_evaluadas e) /\
    (forall c : Categoria.t,
        In c (Evaluacion.categorias_evaluadas e) <->
        c <> Categoria.COMENTARIOS /\
        exists p : Pregunta.t,
          In p (Dict.keys (Evaluacion.respuestas e)) /\ Pregunta.categoria p = c) /\
    (forall c : Categoria.t,
        c <> Categoria.COMENTARIOS ->
        ~ In c (Evaluacion.categorias_evaluadas e) ->
        Evaluacion.calcular_promedio_por_categoria e c = 0%Q).
Proof.
  intros e.
  assert (M : forall c : Categoria.t,
             In c (Evaluacion.categorias_evaluadas e) <->
             c <> Categoria.COMENTARIOS /\
             exists p : Pregunta.t,
               In p (Dict.keys (Evaluacion.respuestas e)) /\ Pregunta.categoria p = c).
  { intros c. unfold Evaluacion.categorias_evaluadas.
    rewrite set_of_In, in_map_iff. split.
    - intros (p & Hc & Hin). apply filter_In in Hin. destruct Hin as [Hin Hp].
      split; [|exists p; split; assumption].
      intros ->. unfold Pregunta.es_comentario in Hp.
      rewrite (proj2 (Categoria_eqb_eq _ _) Hc) in Hp. discriminate.
    - intros (Hc & p & Hin & Hp). exists p. split; [exact Hp|].
      apply filter_In. split; [exact Hin|].
      unfold Pregunta.es_comentario.
      destruct (Categoria.eqb (Pregunta.categoria p) Categoria.COMENTARIOS) eqn:E;
        [|reflexivity].
      apply Categoria_eqb_eq in E. congruence. }
  split; [apply set_of_NoDup|]. split; [|split; [exact M|]].
  - intros H. apply M in H. destruct H as [H _]. apply H. reflexivity.
  - intros c Hc Hnot.
    destruct (promedio_por_categoria_cases e c) as [[_ H] | [H _]]; [exact H|].
    exfalso. apply Hnot. unfold Evaluacion.categorias_evaluadas.
    apply set_of_In. apply categoria_con_calificaciones; assumption.
Qed.

(** ** The overall mean of an evaluation and its category means *)

Lemma mean_or_zero_mul (l : list Q) :
  (mean_or_zero l * inject_Z (Z.of_nat (List.length l)) == Qsum l)%Q.
Proof.
  destruct l as [|x xs].
  - cbn. reflexivity.
  - unfold mean_or_zero, mean.
    pose proof (inject_nat_pos (List.length xs)) as Hpos.
    change (List.length (x :: xs)) with (S (List.length xs)).
    field. intros H. rewrite H in Hpos. apply (Qlt_irrefl 0). exact Hpos.
Qed.









(** ** The evaluations of a teacher *)

Lemma existsb_mismo_id (e e2 : Evaluacion.t) (l : list Evaluacion.t) :
  Evaluacion.id e2 = Evaluacion.id e ->
  existsb (fun e' => Evaluacion.eqb e' e2) l = existsb (fun e' => Evaluacion.eqb e' e) l.
Proof.
  intros H. induction l as [|x l IH]; [reflexivity|].
  cbn [existsb]. rewrite IH. unfold Evaluacion.eqb. rewrite H. reflexivity.
Qed.

(** X8. [agregar_evaluacion] adds the evaluation at the end unless the
    teacher already has an evaluation with its id, so the list grows by one
    or stays as it is, and ids stay distinct. Once added, an evaluation with
    the same id is never added again, whatever its contents: adding twice is
    adding once. After the call the teacher has evaluations; document and
    name are untouched. *)
Theorem Profesor_agregar_evaluacion_spec :
  forall (p : Profesor.t) (e : Evaluacion.t),
    let p' := Profesor.agregar_evaluacion p e in
    let presente :=
      existsb (fun e' => Evaluacion.eqb e' e) (Profesor.evaluaciones p) in
    Profesor.evaluaciones p' =
      (if presente then Profesor.evaluaciones p else Profesor.evaluaciones p ++ [e]) /\
    Profesor.total_evaluaciones p' =
      (if presente then Profesor.total_evaluaciones p
       else S (Profesor.total_evaluaciones p)) /\
    (presente = true <->
     exists e', In e' (Profesor.evaluaciones p) /\ Evaluacion.id e' = Evaluacion.id e) /\
    (forall e2 : Evaluacion.t,
        Evaluacion.id e2 = Evaluacion.id e -> Profesor.agregar_evaluacion p' e2 = p') /\
    (NoDup (map Evaluacion.id (Profesor.evaluaciones p)) ->
     NoDup (map Evaluacion.id (Profesor.evaluaciones p'))) /\
    Profesor_tiene_evaluaciones p' = true /\
    Profesor.documento p' = Profesor.documento p /\
    Profesor.nombre_completo p' = Profesor.nombre_completo p.
Proof.
  intros p e p' presente.
  assert (P : presente = true <->
              exists e', In e' (Profesor.evaluaciones p) /\
                         Evaluacion.id e' = Evaluacion.id e).
  { subst presente. rewrite existsb_exists. unfold Evaluacion.eqb.
    split; intros (e' & Hin & H); exists e'; (split; [exact Hin|]);
      apply String.eqb_eq; exact H. }
  assert (E : Profesor.evaluaciones p' =
              if presente then Profesor.evaluaciones p
              else Profesor.evaluaciones p ++ [e]).
  { subst p' presente. unfold Profesor.agregar_evaluacion.
    destruct (existsb _ (Profesor.evaluaciones p)); reflexivity. }
  assert (Q : existsb (fun e' => Evaluacion.eqb e' e) (Profesor.evaluaciones p') = true).
  { rewrite E. subst presente.
    destruct (existsb (fun e' => Evaluacion.eqb e' e) (Profesor.evaluaciones p)) eqn:Ep;
      [exact Ep|].
    rewrite existsb_app. cbn [existsb]. unfold Evaluacion.eqb at 2.
    rewrite String.eqb_refl, orb_true_r. reflexivity. }
  assert (D : Profesor.documento p' = Profesor.documento p /\
              Profesor.nombre_completo p' = Profesor.nombre_completo p).
  { subst p'. unfold Profesor.agregar_evaluacion.
    destruct (existsb _ (Profesor.evaluaciones p)); split; reflexivity. }
  clearbody presente.
  split; [exact E|]. split; [|split; [exact P|split; [|split; [|split; [|exact D]]]]].
  - unfold Profesor.total_evaluaciones. rewrite E.
    destruct presente; [reflexivity|].
    rewrite length_app. cbn [List.length]. lia.
  - intros e2 H2. unfold Profesor.agregar_evaluacion at 1.
    rewrite (existsb_mismo_id e e2 _ H2), Q. reflexivity.
  - intros Hnd. rewrite E. destruct presente; [exact Hnd|].
    rewrite map_app. cbn [map].
    apply NoDup_app; [exact Hnd | repeat constructor; intros [] |].
    intros i Hi [<- | []]. apply in_map_iff in Hi. destruct Hi as (e' & H & Hin).
    assert (T : false = true); [|discriminate T].
    apply P. exists e'. split; assumption.
  - unfold Profesor_tiene_evaluaciones. rewrite E.
    destruct presente.
    + destruct (proj1 P eq_refl) as (e' & Hin & _).
      destruct (Profesor.evaluaciones p); [destruct Hin | reflexivity].
    + rewrite length_app. cbn [List.length]. apply Nat.ltb_lt. lia.
Qed.

(** ** The kind of evaluator, from the form type *)

Lemma Unicode_prefix_In (k s : list N) :
  Unicode.prefix k s = true -> forall x, In x k -> In x s.
Proof.
  revert s. induction k as [|y k IH]; intros s H x Hx; [destruct Hx|].
  destruct s as [|z s]; cbn [Unicode.prefix] in H; [discriminate|].
  apply andb_true_iff in H. destruct H as [E H]. apply N.eqb_eq in E. subst z.
  destruct Hx as [<- | Hx]; [left; reflexivity | right; apply (IH s H x Hx)].
Qed.

Lemma Unicode_contains_In (k s : list N) :
  Unicode.contains k s = true -> forall x, In x k -> In x s.
Proof.
  induction s as [|z s IH]; cbn [Unicode.contains]; intros H x Hx.
  - rewrite orb_false_r in H. apply (Unicode_prefix_In k [] H x Hx).
  - apply orb_true_iff in H. destruct H as [H | H].
    + apply (Unicode_prefix_In k _ H x Hx).
    + right. apply (IH H x Hx).
Qed.

Lemma In_upper (x : N) (t : string) :
  In x (Unicode.upper t) ->
  exists c, In c (list_ascii_of_string t) /\ In x (Unicode.upper_char c).
Proof.
  induction t as [|c t IH]; cbn [Unicode.upper list_ascii_of_string]; [intros []|].
  intros H. apply in_app_or in H. destruct H as [H | H].
  - exists c. split; [left; reflexivity | exact H].
  - destruct (IH H) as (c' & Hin & Hx). exists c'. split; [right; exact Hin | exact Hx].
Qed.

Lemma upper_char_O_acentuada (c : ascii) :
  In 211%N (Unicode.upper_char c) ->
  nat_of_ascii c = 211%nat \/ nat_of_ascii c = 243%nat.
Proof.
  destruct c as [[] [] [] [] [] [] [] []]; intros H;
    first [left; reflexivity | right; reflexivity
          | exfalso; vm_compute in H; intuition discriminate].
Qed.

(** X9. [es_autoevaluacion] and [es_evaluacion_estudiante] do not depend on
    the letter case of the form type: they answer the same for a form type
    and for the form type in lower case. The accent is part of the key
    word: a form type without the letter O with acute accent (capital or
    small) is never a self-evaluation. The two kinds do not exclude each
    other. *)
Theorem tipo_de_evaluador :
  (forall (i d n : string) (p : Periodo.t) (t : string)
          (r : Dict.t Pregunta.t (option Calificacion.t)),
      Evaluacion_es_autoevaluacion (Evaluacion.mk i d n p (Str.lower t) r) =
        Evaluacion_es_autoevaluacion (Evaluacion.mk i d n p t r) /\
      Evaluacion_es_evaluacion_estudiante (Evaluacion.mk i d n p (Str.lower t) r) =
        Evaluacion_es_evaluacion_estudiante (Evaluacion.mk i d n p t r)) /\
  (forall e : Evaluacion.t,
      Evaluacion_es_autoevaluacion e = true ->
      exists c : ascii,
        In c (list_ascii_of_string (Evaluacion.tipo_formulario e)) /\
        (nat_of_ascii c = 211%nat \/ nat_of_ascii c = 243%nat)) /\
  (exists e : Evaluacion.t,
      Evaluacion_es_autoevaluacion e = true /\
      Evaluacion_es_evaluacion_estudiante e = true).
Proof.
  split; [|split].
  - intros i d n p t r.
    unfold Evaluacion_es_autoevaluacion, Evaluacion_es_evaluacion_estudiante.
    cbn [Evaluacion.tipo_formulario]. rewrite upper_lower. split; reflexivity.
  - intros e H. unfold Evaluacion_es_autoevaluacion in H.
    assert (K : In 211%N (Unicode.of_string (Str.latin1 "AUTOEVALUACIÓN"))).
    { vm_compute. repeat (first [left; reflexivity | right]). }
    pose proof (Unicode_contains_In _ _ H _ K) as U.
    apply In_upper in U. destruct U as (c & Hin & Hc).
    exists c. split; [exact Hin | apply upper_char_O_acentuada; exact Hc].
  - exists (Evaluacion.mk "1" "1" "1" (Periodo.mk "2025-1" eq_refl)
              (Str.latin1 "Autoevaluación del estudiante") []).
    split; vm_compute; reflexivity.
Qed.

(* ================================================================== *)
(** * Further properties of the repositories *)

(** ** Lookups by identifier *)

Lemma get_fold_set_clave {A : Type} (clave : A -> string) (l : list A) :
  forall (d : Dict.t string A) (i : string),
    Dict.get String.eqb i
      (fold_left (fun d a => Dict.set String.eqb (clave a) a d) l d) =
    match find (fun a => String.eqb (clave a) i) (rev l) with
    | Some a => Some a
    | None => Dict.get String.eqb i d
    end.
Proof.
  induction l as [|x l IH]; intros d i; cbn [fold_left rev]; [reflexivity|].
  rewrite IH. unfold Dict.set.
  rewrite (get_update _ _ String.eqb String.eqb_sym String_eqb_trans).
  assert (F : forall l1 : list A,
             find (fun a => String.eqb (clave a) i) (l1 ++ [x]) =
             match find (fun a => String.eqb (clave a) i) l1 with
             | Some a => Some a
             | None => if String.eqb (clave x) i then Some x else None
             end).
  { induction l1 as [|y l1 IH1]; cbn [app find]; [reflexivity|].
    destruct (String.eqb (clave y) i); [reflexivity | exact IH1]. }
  rewrite F. destruct (find _ (rev l)); [reflexivity|].
  destruct (String.eqb (clave x) i); reflexivity.
Qed.

Lemma find_rev_unico {A : Type} (clave : A -> string) (l : list A) (x : A) :
  NoDup (map clave l) -> In x l ->
  find (fun a => String.eqb (clave a) (clave x)) (rev l) = Some x.
Proof.
  intros Hnd Hin.
  assert (Hnd' : NoDup (map clave (rev l))).
  { rewrite map_rev. apply NoDup_rev. exact Hnd. }
  apply in_rev in Hin. revert Hnd' Hin. generalize (rev l) as ys. clear Hnd.
  induction ys as [|y ys IH]; intros Hnd Hin; [destruct Hin|].
  cbn [find]. cbn [map] in Hnd. inversion Hnd as [|k ks Hk Hnd']; subst.
  destruct Hin as [-> | Hin].
  - rewrite String.eqb_refl. reflexivity.
  - destruct (String.eqb (clave y) (clave x)) eqn:E; [|apply IH; assumption].
    apply String.eqb_eq in E. exfalso. apply Hk. rewrite E.
    apply in_map. exact Hin.
Qed.

Lemma find_clave_spec {A : Type} (clave : A -> string) (l : list A) (i : string) :
  (find (fun a => String.eqb (clave a) i) (rev l) = None <->
   forall a, In a l -> clave a <> i) /\
  (forall a, find (fun a => String.eqb (clave a) i) (rev l) = Some a ->
             In a l /\ clave a = i).
Proof.
  split.
  - split.
    + intros H a Hin E. apply in_rev in Hin.
      pose proof (find_none _ _ H a Hin) as F. cbv beta in F.
      rewrite E, String.eqb_refl in F. discriminate.
    + intros H. destruct (find _ (rev l)) as [a|] eqn:F; [|reflexivity].
      apply find_some in F. destruct F as [Hin E].
      apply String.eqb_eq in E. apply in_rev in Hin. destruct (H a Hin E).
  - intros a F. apply find_some in F. destruct F as [Hin E].
    apply String.eqb_eq in E. apply in_rev in Hin. split; assumption.
Qed.

(** X10. The question repository keeps the list it was given, and
    [find_by_codigo] answers with the last question of that list carrying
    the code: a question of the list with that code when there is one,
    nothing exactly when no question carries it. When the codes of the list
    are distinct, every question of the list is found under its code. *)
Theorem find_by_codigo_spec :
  forall (preguntas : list Pregunta.t) (codigo : string),
    let r := PandasPreguntaRepository.init preguntas in
    PandasPreguntaRepository.find_all r = preguntas /\
    PandasPreguntaRepository.find_by_codigo r codigo =
      find (fun p => String.eqb (Pregunta.codigo p) codigo) (rev preguntas) /\
    (PandasPreguntaRepository.find_by_codigo r codigo = None <->
     forall p, In p preguntas -> Pregunta.codigo p <> codigo) /\
    (forall p, PandasPreguntaRepository.find_by_codigo r codigo = Some p ->
               In p preguntas /\ Pregunta.codigo p = codigo) /\
    (NoDup (map Pregunta.codigo preguntas) ->
     forall p, In p preguntas ->
               PandasPreguntaRepository.find_by_codigo r (Pregunta.codigo p) = Some p).
Proof.
  intros preguntas codigo r.
  assert (E : forall i,
             PandasPreguntaRepository.find_by_codigo r i =
             find (fun p => String.eqb (Pregunta.codigo p) i) (rev preguntas)).
  { intros i. subst r.
    unfold PandasPreguntaRepository.find_by_codigo, PandasPreguntaRepository.init.
    cbn [PandasPreguntaRepository._by_codigo].
    rewrite (get_fold_set_clave Pregunta.codigo). cbn [Dict.get].
    destruct (find _ (rev preguntas)); reflexivity. }
  split; [reflexivity|]. split; [apply E|].
  rewrite E. destruct (find_clave_spec Pregunta.codigo preguntas codigo) as [F1 F2].
  split; [exact F1|]. split; [exact F2|].
  intros Hnd p Hin. rewrite E. apply find_rev_unico; assumption.
Qed.

(** X11. [find_by_id] answers with the last evaluation of the loaded list
    carrying the id: an evaluation of the list with that id when there is
    one, nothing exactly when no evaluation carries it. When the ids of the
    list are distinct, every evaluation of the list is found under its
    id. *)
Theorem find_by_id_spec :
  forall (evaluaciones : list Evaluacion.t) (evaluacion_id : string),
    let r := PandasEvaluacionRepository.init evaluaciones in
    PandasEvaluacionRepository.find_all r = evaluaciones /\
    PandasEvaluacionRepository.find_by_id r evaluacion_id =
      find (fun e => String.eqb (Evaluacion.id e) evaluacion_id) (rev evaluaciones) /\
    (PandasEvaluacionRepository.find_by_id r evaluacion_id = None <->
     forall e, In e evaluaciones -> Evaluacion.id e <> evaluacion_id) /\
    (forall e, PandasEvaluacionRepository.find_by_id r evaluacion_id = Some e ->
               In e evaluaciones /\ Evaluacion.id e = evaluacion_id) /\
    (NoDup (map Evaluacion.id evaluaciones) ->
     forall e, In e evaluaciones ->
               PandasEvaluacionRepository.find_by_id r (Evaluacion.id e) = Some e).
Proof.
  intros evaluaciones evaluacion_id r.
  assert (E : forall i,
             PandasEvaluacionRepository.find_by_id r i =
             find (fun e => String.eqb (Evaluacion.id e) i) (rev evaluaciones)).
  { intros i. subst r.
    unfold PandasEvaluacionRepository.find_by_id, PandasEvaluacionRepository.init.
    cbn [PandasEvaluacionRepository._by_id].
    rewrite (get_fold_set_clave Evaluacion.id). cbn [Dict.get].
    destruct (find _ (rev evaluaciones)); reflexivity. }
  split; [reflexivity|]. split; [apply E|].
  rewrite E. destruct (find_clave_spec Evaluacion.id evaluaciones evaluacion_id) as [F1 F2].
  split; [exact F1|]. split; [exact F2|].
  intros Hnd e Hin. rewrite E. apply find_rev_unico; assumption.
Qed.

(** ** The indexes partition what was loaded *)

Section Particion.
Variables K A : Type.
Variable eqb : K -> K -> bool.
Hypothesis eqb_eq : forall a b, eqb a b = true <-> a = b.

Lemma append_flat (k : K) (x : A) (d : Dict.t K (list A)) :
  Permutation (flat_map snd (Dict.append eqb k x d)) (flat_map snd d ++ [x]).
Proof.
  unfold Dict.append.
  induction d as [|[k0 l0] d IH]; cbn [Dict.update flat_map snd app].
  - reflexivity.
  - destruct (eqb k0 k); cbn [flat_map snd].
    + rewrite <- !app_assoc. apply Permutation_app_head. apply Permutation_app_comm.
    + rewrite <- app_assoc. apply Permutation_app_head. exact IH.
Qed.

Lemma fold_append_flat (kxs : list (K * A)) :
  forall d : Dict.t K (list A),
    Permutation
      (flat_map snd (fold_left (fun d kx => Dict.append eqb (fst kx) (snd kx) d) kxs d))
      (flat_map snd d ++ map snd kxs).
Proof.
  induction kxs as [|[k x] kxs IH]; intros d; cbn [fold_left map fst snd].
  - rewrite app_nil_r. reflexivity.
  - rewrite IH, append_flat, <- app_assoc. reflexivity.
Qed.

Lemma get_or_empty_keys (d : Dict.t K (list A)) :
  claves_distintas eqb d ->
  map (fun k => get_or_empty eqb k d) (Dict.keys d) = map snd d.
Proof.
  induction 1 as [|k v d Hget Hcd IH]; [reflexivity|].
  cbn [Dict.keys map fst snd]. f_equal.
  - unfold get_or_empty. cbn [Dict.get]. rewrite (eqb_eq_refl K eqb eqb_eq). reflexivity.
  - rewrite <- IH. apply map_ext_in. intros k' Hin.
    unfold get_or_empty. cbn [Dict.get].
    destruct (eqb k k') eqn:E; [|reflexivity].
    apply eqb_eq in E. subst k'. exfalso.
    unfold Dict.keys in Hin. apply in_map_iff in Hin. destruct Hin as ([k1 v1] & E1 & Hin).
    cbn [fst] in E1. subst k1.
    pose proof (get_None_In _ _ eqb k d Hget k v1 Hin) as F.
    rewrite (eqb_eq_refl K eqb eqb_eq) in F. discriminate.
Qed.

Lemma indice_particion (f : A -> K) (l : list A) :
  let indice := Dict.group eqb (map (fun a => (f a, a)) l) in
  Permutation (flat_map (fun k => get_or_empty eqb k indice) (Dict.keys indice)) l /\
  NoDup (Dict.keys indice) /\
  (forall k, In k (Dict.keys indice) <-> exists a, In a l /\ f a = k) /\
  (forall k, get_or_empty eqb k indice = filter (fun a => eqb (f a) k) l) /\
  (forall k, get_or_empty eqb k indice = [] <-> ~ In k (Dict.keys indice)).
Proof.
  intros indice.
  assert (Hcd : claves_distintas eqb indice).
  { apply fold_append_claves_distintas;
      [apply (eqb_eq_sym K eqb eqb_eq) | apply (eqb_eq_trans K eqb eqb_eq) | constructor]. }
  assert (Hk : forall k, In k (Dict.keys indice) <-> exists a, In a l /\ f a = k).
  { intros k. subst indice. rewrite (group_keys_In eqb eqb_eq), map_map. cbn [fst].
    rewrite in_map_iff. split; intros (a & H1 & H2); exists a; tauto. }
  assert (Hf : forall k, get_or_empty eqb k indice = filter (fun a => eqb (f a) k) l).
  { intros k. apply get_or_empty_group;
      [apply (eqb_eq_sym K eqb eqb_eq) | apply (eqb_eq_trans K eqb eqb_eq)]. }
  split; [|split; [|split; [exact Hk | split; [exact Hf|]]]].
  - rewrite flat_map_concat_map, (get_or_empty_keys indice Hcd), <- flat_map_concat_map.
    subst indice. unfold Dict.group. rewrite fold_append_flat. cbn [flat_map app].
    rewrite map_map. cbn [snd]. rewrite map_id. reflexivity.
  - apply (claves_distintas_NoDup K eqb eqb_eq). exact Hcd.
  - intros k. rewrite Hk, Hf. split.
    + intros E (a & Hin & Ha).
      assert (T : In a (filter (fun a => eqb (f a) k) l)).
      { apply filter_In. split; [exact Hin | apply eqb_eq; exact Ha]. }
      rewrite E in T. destruct T.
    + intros H. destruct (filter (fun a => eqb (f a) k) l) as [|a r] eqn:E; [reflexivity|].
      exfalso. apply H. exists a.
      assert (T : In a (filter (fun a => eqb (f a) k) l)) by (rewrite E; left; reflexivity).
      apply filter_In in T. destruct T as [Hin Ha]. split; [exact Hin | apply eqb_eq; exact Ha].
Qed.
End Particion.

(** X12. The category index of the question repository partitions the
    catalog: [find_by_categoria] gives the questions of the category in
    catalog order, [get_categorias] lists each category that has a question
    once, the lists of the listed categories taken together are the catalog
    up to order, and a category not listed gets the empty list. *)
Theorem indice_de_categorias :
  forall preguntas : list Pregunta.t,
    let r := PandasPreguntaRepository.init preguntas in
    (forall c : Categoria.t,
        PandasPreguntaRepository.find_by_categoria r c =
        filter (fun p => Categoria.eqb (Pregunta.categoria p) c) preguntas) /\
    NoDup (PandasPreguntaRepository.get_categorias r) /\
    (forall c : Categoria.t,
        In c (PandasPreguntaRepository.get_categorias r) <->
        exists p, In p preguntas /\ Pregunta.categoria p = c) /\
    Permutation
      (flat_map (PandasPreguntaRepository.find_by_categoria r)
         (PandasPreguntaRepository.get_categorias r))
      preguntas /\
    (forall c : Categoria.t,
        PandasPreguntaRepository.find_by_categoria r c = [] <->
        ~ In c (PandasPreguntaRepository.get_categorias r)).
Proof.
  intros preguntas r.
  destruct (indice_particion _ _ Categoria.eqb Categoria_eqb_eq Pregunta.categoria preguntas)
    as (P1 & P2 & P3 & P4 & P5).
  split; [exact P4|]. split; [exact P2|]. split; [exact P3|]. split; [exact P1 | exact P5].
Qed.

(** X13. [find_by_profesor_and_periodo] gives, in load order, the loaded
    evaluations of the document and of the period: the evaluations that are
    both in [find_by_profesor] and in [find_by_periodo], which is also
    [find_by_periodo] filtered by the document. It is the selection the
    use cases make themselves for a request with that period. *)
Theorem find_by_profesor_and_periodo_spec :
  forall (evaluaciones : list Evaluacion.t) (documento : string) (periodo : Periodo.t),
    let r := PandasEvaluacionRepository.init evaluaciones in
    let resultado :=
      PandasEvaluacionRepository.find_by_profesor_and_periodo r documento periodo in
    resultado =
      filter (fun e => String.eqb (Evaluacion.profesor_documento e) documento
                       && Periodo.eqb (Evaluacion.periodo e) periodo) evaluaciones /\
    resultado =
      filter (fun e => String.eqb (Evaluacion.profesor_documento e) documento)
        (PandasEvaluacionRepository.find_by_periodo r periodo) /\
    (forall e, In e resultado <->
               In e (PandasEvaluacionRepository.find_by_profesor r documento) /\
               In e (PandasEvaluacionRepository.find_by_periodo r periodo)) /\
    resultado = evaluaciones_consultadas evaluaciones documento (Some (Periodo.valor periodo)).
Proof.
  intros evaluaciones documento periodo r resultado.
  assert (E : resultado =
              filter (fun e => Periodo.eqb (Evaluacion.periodo e) periodo)
                (filter (fun e => String.eqb (Evaluacion.profesor_documento e) documento)
                   evaluaciones)).
  { subst resultado r. unfold PandasEvaluacionRepository.find_by_profesor_and_periodo.
    rewrite <- find_by_profesor_init. reflexivity. }
  assert (F : forall (f g : Evaluacion.t -> bool) (l : list Evaluacion.t),
             filter g (filter f l) = filter (fun e => f e && g e) l).
  { intros f g l. induction l as [|x l IH]; [reflexivity|].
    cbn [filter]. destruct (f x); cbn [filter andb]; [|exact IH].
    destruct (g x); rewrite IH; reflexivity. }
  split; [|split; [|split]].
  - rewrite E. apply F.
  - rewrite E. subst r. rewrite find_by_periodo_init, !F.
    apply filter_ext. intros e. apply andb_comm.
  - intros e. subst r. rewrite E, find_by_profesor_init, find_by_periodo_init.
    rewrite !filter_In. tauto.
  - rewrite E. unfold evaluaciones_consultadas.
    assert (T : truthy (Some (Periodo.valor periodo)) = true).
    { apply truthy_Some. intros H.
      pose proof (Periodo_forma periodo) as K. rewrite H in K. discriminate K. }
    rewrite T. cbn [texto_de]. apply filter_Periodo_eqb.
Qed.

Lemma length_flat_map_sum {A B : Type} (f : A -> list B) (l : list A) :
  List.length (flat_map f l) = list_sum (map (fun a => List.length (f a)) l).
Proof.
  induction l as [|a l IH]; [reflexivity|].
  cbn [flat_map map]. change (list_sum (?x :: ?r)) with (x + list_sum r)%nat.
  rewrite length_app, IH. reflexivity.
Qed.

Lemma list_sum_Permutation (l l' : list nat) :
  Permutation l l' -> list_sum l = list_sum l'.
Proof.
  induction 1 as [|x l l' _ IH|x y l|l l' l'' _ IH1 _ IH2].
  - reflexivity.
  - change (list_sum (?a :: ?r)) with (a + list_sum r)%nat. rewrite IH. reflexivity.
  - change (list_sum (?a :: ?b :: ?r)) with (a + (b + list_sum r))%nat. lia.
  - rewrite IH1. exact IH2.
Qed.

(** X14. The form-type index partitions the loaded evaluations:
    [get_tipos_formulario] lists each form type that has an evaluation
    once, the lists [find_by_tipo_formulario] gives for the listed types are
    together the loaded evaluations up to order, and a type not listed gets
    the empty list. So the route of the evaluator types lists each type
    once with a count of at least 1, and the counts add up to the number of
    loaded evaluations. *)
Theorem tipos_de_formulario_y_actores :
  forall evaluaciones : list Evaluacion.t,
    let r := PandasEvaluacionRepository.init evaluaciones in
    NoDup (PandasEvaluacionRepository.get_tipos_formulario r) /\
    (forall t : string,
        In t (PandasEvaluacionRepository.get_tipos_formulario r) <->
        exists e, In e evaluaciones /\ Evaluacion.tipo_formulario e = t) /\
    Permutation
      (flat_map (PandasEvaluacionRepository.find_by_tipo_formulario r)
         (PandasEvaluacionRepository.get_tipos_formulario r))
      evaluaciones /\
    (forall t : string,
        PandasEvaluacionRepository.find_by_tipo_formulario r t = [] <->
        ~ In t (PandasEvaluacionRepository.get_tipos_formulario r)) /\
    map fst (Rutas.listar_actores r) = PandasEvaluacionRepository.get_tipos_formulario r /\
    (forall item, In item (Rutas.listar_actores r) -> (1 <= snd item)%nat) /\
    list_sum (map snd (Rutas.listar_actores r)) = List.length evaluaciones.
Proof.
  intros evaluaciones r.
  destruct (indice_particion _ _ String.eqb String.eqb_eq Evaluacion.tipo_formulario
              evaluaciones) as (P1 & P2 & P3 & P4 & P5).
  split; [exact P2|]. split; [exact P3|]. split; [exact P1|]. split; [exact P5|].
  unfold Rutas.listar_actores. split; [|split].
  - rewrite map_map. cbn [fst]. apply map_id.
  - intros item Hin. apply in_map_iff in Hin. destruct Hin as (t & <- & Hin).
    cbn [snd].
    destruct (PandasEvaluacionRepository.find_by_tipo_formulario r t) eqn:E;
      [|cbn [List.length]; lia].
    exfalso. apply (proj1 (P5 t)); assumption.
  - rewrite map_map. cbn [snd].
    rewrite <- (length_flat_map_sum (PandasEvaluacionRepository.find_by_tipo_formulario r)).
    apply Permutation_length. exact P1.
Qed.

(** X15. The route of the periods lists, in the order of
    [get_periodos_disponibles], each period that has a loaded evaluation
    once, with the number of loaded evaluations of the period: every count
    is at least 1 and the counts add up to the number of loaded
    evaluations. *)
Theorem periodos_y_estadisticas :
  forall evaluaciones : list Evaluacion.t,
    let r := PandasEvaluacionRepository.init evaluaciones in
    map Rutas.periodo (Rutas.listar_periodos r) =
      map Periodo.valor (PandasEvaluacionRepository.get_periodos_disponibles r) /\
    NoDup (map Rutas.periodo (Rutas.listar_periodos r)) /\
    (forall s : string,
        In s (map Rutas.periodo (Rutas.listar_periodos r)) <->
        exists e, In e evaluaciones /\ Periodo.valor (Evaluacion.periodo e) = s) /\
    (forall item, In item (Rutas.listar_periodos r) ->
        (1 <= Rutas.periodo_total_evaluaciones item)%nat /\
        Rutas.periodo_total_evaluaciones item =
          List.length
            (filter (fun e => String.eqb (Periodo.valor (Evaluacion.periodo e))
                                (Rutas.periodo item)) evaluaciones)) /\
    list_sum (map Rutas.periodo_total_evaluaciones (Rutas.listar_periodos r)) =
      List.length evaluaciones.
Proof.
  intros evaluaciones r.
  destruct (indice_particion _ _ Periodo.eqb Periodo_eqb_eq Evaluacion.periodo
              evaluaciones) as (P1 & P2 & P3 & P4 & P5).
  fold (PandasEvaluacionRepository._build_periodo_index evaluaciones) in P1, P2, P3, P4, P5.
  assert (Hperm : Permutation (PandasEvaluacionRepository.get_periodos_disponibles r)
                    (Dict.keys (PandasEvaluacionRepository._build_periodo_index evaluaciones))).
  { apply sorted_perm. }
  assert (E1 : map Rutas.periodo (Rutas.listar_periodos r) =
               map Periodo.valor (PandasEvaluacionRepository.get_periodos_disponibles r)).
  { unfold Rutas.listar_periodos. rewrite map_map. reflexivity. }
  split; [exact E1|]. split; [|split; [|split]].
  - rewrite E1.
    assert (Hnd : NoDup (PandasEvaluacionRepository.get_periodos_disponibles r)).
    { apply (Permutation_NoDup (Permutation_sym Hperm)). exact P2. }
    revert Hnd. generalize (PandasEvaluacionRepository.get_periodos_disponibles r) as ps.
    induction ps as [|p ps IH]; intros Hnd; [constructor|].
    inversion Hnd as [|x xs Hx Hnd']; subst. cbn [map]. constructor; [|apply IH; exact Hnd'].
    intros Hin. apply in_map_iff in Hin. destruct Hin as (q & Hq & Hin).
    apply Periodo_eq in Hq. subst q. apply Hx. exact Hin.
  - intros s. rewrite E1, in_map_iff. split.
    + intros (p & <- & Hin). apply (Permutation_in _ Hperm) in Hin.
      apply P3 in Hin. destruct Hin as (e & Hin & <-). exists e. split; [exact Hin | reflexivity].
    + intros (e & Hin & <-). exists (Evaluacion.periodo e). split; [reflexivity|].
      apply (Permutation_in _ (Permutation_sym Hperm)). apply P3. exists e. split; [exact Hin | reflexivity].
  - intros item Hin. unfold Rutas.listar_periodos in Hin.
    apply in_map_iff in Hin. destruct Hin as (p & <- & Hin).
    cbn [Rutas.periodo Rutas.periodo_total_evaluaciones]. unfold Periodo_str.
    split.
    + apply (Permutation_in _ Hperm) in Hin.
      destruct (PandasEvaluacionRepository.find_by_periodo r p) eqn:E;
        [|cbn [List.length]; lia].
      exfalso. apply (proj1 (P5 p)); assumption.
    + subst r. rewrite find_by_periodo_init, filter_Periodo_eqb. reflexivity.
  - unfold Rutas.listar_periodos. rewrite map_map.
    cbn [Rutas.periodo_total_evaluaciones].
    rewrite (list_sum_Permutation _
               (map (fun p => List.length (PandasEvaluacionRepository.find_by_periodo r p))
                  (Dict.keys (PandasEvaluacionRepository._build_periodo_index evaluaciones)))).
    + rewrite <- (length_flat_map_sum (PandasEvaluacionRepository.find_by_periodo r)).
      apply Permutation_length. exact P1.
    + apply Permutation_map. exact Hperm.
Qed.

(** ** The teachers of [get_profesores], when no id repeats *)

Section UpdateKeyed.
Variables K V : Type.
Variable eqb : K -> K -> bool.
Hypothesis eqb_eq : forall a b, eqb a b = true <-> a = b.

Lemma update_map_keys (g : K -> V) (k : K) (f : option V -> V) (ks : list K) :
  NoDup ks ->
  Dict.update eqb k f (map (fun k' => (k', g k')) ks) =
  if existsb (fun k' => eqb k' k) ks
  then map (fun k' => (k', if eqb k' k then f (Some (g k')) else g k')) ks
  else map (fun k' => (k', g k')) ks ++ [(k, f None)].
Proof.
  induction 1 as [|k0 ks Hk0 Hnd IH]; cbn [map Dict.update existsb app]; [reflexivity|].
  destruct (eqb k0 k) eqn:E; cbn [orb].
  - f_equal. apply map_ext_in. intros k' Hin.
    destruct (eqb k' k) eqn:E'; [|reflexivity].
    apply eqb_eq in E, E'. exfalso. apply Hk0. congruence.
  - rewrite IH. destruct (existsb (fun k' => eqb k' k) ks); reflexivity.
Qed.
End UpdateKeyed.

Lemma mem_keys {K V : Type} (eqb : K -> K -> bool) (k : K) (d : Dict.t K V) :
  Dict.mem eqb k d = existsb (fun k' => eqb k' k) (Dict.keys d).
Proof.
  unfold Dict.mem, Dict.keys. induction d as [|[k0 v0] d IH]; [reflexivity|].
  cbn [Dict.get map fst existsb]. destruct (eqb k0 k); [reflexivity | exact IH].
Qed.

Lemma profesor_de_documento_otro (l : list Evaluacion.t) (e : Evaluacion.t) (k : string) :
  String.eqb k (Evaluacion.profesor_documento e) = false ->
  profesor_de_documento (l ++ [e]) k = profesor_de_documento l k.
Proof.
  intros H. unfold profesor_de_documento. rewrite filter_app. cbn [filter].
  rewrite String.eqb_sym, H, app_nil_r. reflexivity.
Qed.

Lemma profesor_de_documento_mismo (l : list Evaluacion.t) (e : Evaluacion.t) :
  ~ In (Evaluacion.id e) (map Evaluacion.id l) ->
  Profesor.agregar_evaluacion
    (match filter (fun x => String.eqb (Evaluacion.profesor_documento x)
                              (Evaluacion.profesor_documento e)) l with
     | [] => Profesor.mk (Evaluacion.profesor_documento e) (Evaluacion.profesor_nombre e) []
     | _ :: _ => profesor_de_documento l (Evaluacion.profesor_documento e)
     end) e =
  profesor_de_documento (l ++ [e]) (Evaluacion.profesor_documento e).
Proof.
  intros Hid. unfold profesor_de_documento at 2. rewrite filter_app. cbn [filter].
  rewrite String.eqb_refl.
  assert (Hno : forall l' : list Evaluacion.t,
             (forall x, In x l' -> In x l) ->
             existsb (fun e' => Evaluacion.eqb e' e) l' = false).
  { intros l' Hsub. destruct (existsb _ l') eqn:E; [|reflexivity].
    apply existsb_exists in E. destruct E as (x & Hin & E).
    apply String.eqb_eq in E. exfalso. apply Hid. rewrite <- E.
    apply in_map. apply Hsub. exact Hin. }
  destruct (filter _ l) as [|e0 suyas] eqn:F.
  - unfold Profesor.agregar_evaluacion. cbn [Profesor.evaluaciones existsb app].
    reflexivity.
  - unfold Profesor.agregar_evaluacion, profesor_de_documento. rewrite F.
    cbn [Profesor.evaluaciones Profesor.documento Profesor.nombre_completo].
    rewrite Hno; [reflexivity|].
    intros x Hin. rewrite <- F in Hin. apply filter_In in Hin. apply Hin.
Qed.

Lemma get_profesores_fold (l : list Evaluacion.t) :
  NoDup (map Evaluacion.id l) ->
  fold_left PandasEvaluacionRepository.get_profesores_step l [] =
  map (fun k => (k, profesor_de_documento l k))
    (Dict.keys (PandasEvaluacionRepository._build_profesor_index l)).
Proof.
  induction l as [|e l IH] using rev_ind; intros Hnd; [reflexivity|].
  rewrite map_app in Hnd. cbn [map] in Hnd.
  assert (Hnd' : NoDup (map Evaluacion.id l)).
  { apply NoDup_app_remove_r in Hnd. exact Hnd. }
  assert (Hid : ~ In (Evaluacion.id e) (map Evaluacion.id l)).
  { apply NoDup_remove_2 in Hnd. rewrite app_nil_r in Hnd. exact Hnd. }
  specialize (IH Hnd').
  destruct (indice_particion _ _ String.eqb String.eqb_eq Evaluacion.profesor_documento l)
    as (_ & P2 & P3 & P4 & P5).
  fold (PandasEvaluacionRepository._build_profesor_index l) in P2, P3, P4, P5.
  rewrite fold_left_app. cbn [fold_left]. rewrite IH.
  unfold PandasEvaluacionRepository._build_profesor_index at 2.
  rewrite map_app. cbn [map]. unfold Dict.group. rewrite fold_left_app.
  cbn [fold_left fst snd].
  fold (Dict.group String.eqb
          (map (fun e0 => (Evaluacion.profesor_documento e0, e0)) l)).
  fold (PandasEvaluacionRepository._build_profesor_index l).
  unfold Dict.append. rewrite (update_keys_eq _ _ String.eqb).
  unfold PandasEvaluacionRepository.get_profesores_step.
  rewrite (update_map_keys _ _ String.eqb String.eqb_eq _ _ _ _ P2).
  set (indice := PandasEvaluacionRepository._build_profesor_index l) in *.
  rewrite mem_keys.
  pose proof (profesor_de_documento_mismo l e Hid) as Hmismo.
  set (d := Evaluacion.profesor_documento e) in *.
  destruct (existsb (fun k' => String.eqb k' d) (Dict.keys indice)) eqn:Ex.
  - apply map_ext_in. intros k Hin. f_equal.
    destruct (String.eqb k d) eqn:Ek.
    + apply String.eqb_eq in Ek. subst k. rewrite <- Hmismo.
      destruct (filter (fun x => String.eqb (Evaluacion.profesor_documento x) d) l) eqn:F;
        [|reflexivity].
      exfalso. apply (proj1 (P5 d)); [|exact Hin]. rewrite P4. exact F.
    + symmetry. apply profesor_de_documento_otro. exact Ek.
  - rewrite map_app. cbn [map]. f_equal.
    + apply map_ext_in. intros k Hin. f_equal. symmetry.
      apply profesor_de_documento_otro. fold d.
      destruct (String.eqb k d) eqn:Ek; [|reflexivity].
      assert (T : existsb (fun k' => String.eqb k' d) (Dict.keys indice) = true)
        by (apply existsb_exists; exists k; split; assumption).
      congruence.
    + f_equal. f_equal. rewrite <- Hmismo.
      destruct (filter (fun x => String.eqb (Evaluacion.profesor_documento x) d) l)
        as [|e0 suyas] eqn:F; [reflexivity|].
      exfalso.
      assert (Hin : In d (Dict.keys indice)).
      { apply P3. exists e0.
        assert (T : In e0 (filter (fun x => String.eqb (Evaluacion.profesor_documento x) d) l))
          by (rewrite F; left; reflexivity).
        apply filter_In in T. destruct T as [T1 T2]. apply String.eqb_eq in T2.
        split; assumption. }
      assert (T : existsb (fun k' => String.eqb k' d) (Dict.keys indice) = true)
        by (apply existsb_exists; exists d; split; [exact Hin | apply String.eqb_refl]).
      congruence.
Qed.

(** X16. When no id repeats among the loaded evaluations, [get_profesores]
    gives one teacher per document, in the order the documents first show
    up in the load: the teacher is named after the first loaded evaluation
    of the document and carries the evaluations [find_by_profesor] gives
    for the document, in the same order, at least one. The route listing
    the teachers then shows each document once, and its counts add up to
    the number of loaded evaluations. *)
Theorem get_profesores_por_documento :
  forall evaluaciones : list Evaluacion.t,
    NoDup (map Evaluacion.id evaluaciones) ->
    let r := PandasEvaluacionRepository.init evaluaciones in
    PandasEvaluacionRepository.get_profesores r =
      map (profesor_de_documento evaluaciones)
        (Dict.keys (PandasEvaluacionRepository._by_profesor r)) /\
    (forall p : Profesor.t,
        In p (PandasEvaluacionRepository.get_profesores r) ->
        Profesor.evaluaciones p =
          PandasEvaluacionRepository.find_by_profesor r (Profesor.documento p) /\
        Profesor_tiene_evaluaciones p = true /\
        exists e0 resto,
          Profesor.evaluaciones p = e0 :: resto /\
          Profesor.nombre_completo p = Evaluacion.profesor_nombre e0) /\
    map Rutas.documento (Rutas.listar_profesores r) =
      Dict.keys (PandasEvaluacionRepository._by_profesor r) /\
    NoDup (map Rutas.documento (Rutas.listar_profesores r)) /\
    list_sum (map Rutas.total_evaluaciones (Rutas.listar_profesores r)) =
      List.length evaluaciones.
Proof.
  intros evaluaciones Hnd r.
  destruct (indice_particion _ _ String.eqb String.eqb_eq Evaluacion.profesor_documento
              evaluaciones) as (P1 & P2 & P3 & P4 & P5).
  fold (PandasEvaluacionRepository._build_profesor_index evaluaciones) in P1, P2, P3, P4, P5.
  assert (E : PandasEvaluacionRepository.get_profesores r =
              map (profesor_de_documento evaluaciones)
                (Dict.keys (PandasEvaluacionRepository._build_profesor_index evaluaciones))).
  { subst r. unfold PandasEvaluacionRepository.get_profesores, PandasEvaluacionRepository.init.
    cbn [PandasEvaluacionRepository._evaluaciones].
    rewrite (get_profesores_fold evaluaciones Hnd). unfold Dict.values.
    rewrite map_map. reflexivity. }
  assert (D : map Rutas.documento (Rutas.listar_profesores r) =
              Dict.keys (PandasEvaluacionRepository._build_profesor_index evaluaciones)).
  { unfold Rutas.listar_profesores. rewrite E, !map_map.
    cbn [Rutas.documento]. unfold profesor_de_documento.
    cbn [Profesor.documento]. apply map_id. }
  split; [exact E|]. split; [|split; [exact D | split]].
  - intros p Hin. rewrite E in Hin. apply in_map_iff in Hin.
    destruct Hin as (k & <- & Hin).
    unfold profesor_de_documento at 1 2 3.
    cbn [Profesor.evaluaciones Profesor.documento]. subst r.
    rewrite find_by_profesor_init.
    unfold Profesor_tiene_evaluaciones, profesor_de_documento.
    cbn [Profesor.evaluaciones Profesor.nombre_completo].
    destruct (filter (fun e => String.eqb (Evaluacion.profesor_documento e) k) evaluaciones)
      as [|e0 resto] eqn:F.
    + exfalso. apply (proj1 (P5 k)); [|exact Hin]. rewrite P4. exact F.
    + split; [reflexivity|]. split; [reflexivity|].
      exists e0, resto. split; reflexivity.
  - rewrite D. exact P2.
  - unfold Rutas.listar_profesores. rewrite E, !map_map.
    cbn [Rutas.total_evaluaciones]. unfold Profesor.total_evaluaciones, profesor_de_documento.
    cbn [Profesor.evaluaciones].
    rewrite <- (Permutation_length P1), length_flat_map_sum.
    f_equal. apply map_ext. intros k. rewrite P4. reflexivity.
Qed.

Lemma get_profesores_por_documento_witness :
  NoDup (map Evaluacion.id [eval1; eval2]) /\
  PandasEvaluacionRepository.get_profesores (PandasEvaluacionRepository.init [eval1; eval2]) =
  [Profesor.mk "123456" (Str.latin1 "Juan Pérez") [eval1; eval2]].
Proof.
  assert (H : NoDup (map Evaluacion.id [eval1; eval2])).
  { cbn. repeat (constructor; [cbn; intuition discriminate|]). constructor. }
  split; [exact H|].
  rewrite (proj1 (get_profesores_por_documento [eval1; eval2] H)).
  vm_compute. reflexivity.
Defined.

(** ** The list a repository is built on *)

Section ListaCompartida.
Import Objetos.

Lemma alloc_index_desde {A K : Type} (grupos : Dict.t K (list A)) :
  forall h : store A,
    Forall (fun ka => (List.length h <= snd ka)%nat) (fst (alloc_index grupos h)).
Proof.
  induction grupos as [|[k l] grupos IH]; intros h; cbn [alloc_index fst].
  - constructor.
  - cbn [alloc]. specialize (IH (h ++ [l])).
    destruct (alloc_index grupos (h ++ [l])) as [index h2]. cbn [fst snd] in *.
    constructor; [cbn [snd]; lia|].
    revert IH. apply Forall_impl. intros ka. rewrite length_app. cbn [List.length]. lia.
Qed.

Lemma read_index_mutate_bajo {A K : Type} (index : Dict.t K addr) (h : store A)
    (a : addr) (l : list A) (n : nat) :
  Forall (fun ka => (n <= snd ka)%nat) index -> (a < n)%nat ->
  read_index index (mutate a l h) = read_index index h.
Proof.
  intros Hall Ha. unfold read_index. apply map_ext_in. intros [k b] Hin.
  cbn [fst snd]. f_equal. apply contents_mutate_ne.
  rewrite Forall_forall in Hall. specialize (Hall _ Hin). cbn in Hall. lia.
Qed.

Lemma Forall_le_mono {K : Type} (index : Dict.t K addr) (n m : nat) :
  (n <= m)%nat ->
  Forall (fun ka => (m <= snd ka)%nat) index -> Forall (fun ka => (n <= snd ka)%nat) index.
Proof. intros Hle. apply Forall_impl. intros; lia. Qed.

Lemma init_indices_desde (evaluaciones : addr) (h : store Evaluacion.t) :
  let r := fst (EvaluacionRepository.init evaluaciones h) in
  EvaluacionRepository._evaluaciones r = evaluaciones /\
  Forall (fun ka => (List.length h <= snd ka)%nat) (EvaluacionRepository._by_profesor r) /\
  Forall (fun ka => (List.length h <= snd ka)%nat) (EvaluacionRepository._by_periodo r) /\
  Forall (fun ka => (List.length h <= snd ka)%nat)
    (EvaluacionRepository._by_tipo_formulario r).
Proof.
  unfold EvaluacionRepository.init.
  set (l := contents evaluaciones h).
  pose proof (alloc_index_desde (PandasEvaluacionRepository._build_profesor_index l) h) as D1.
  pose proof (alloc_index_spec (PandasEvaluacionRepository._build_profesor_index l) h)
    as (E1 & _ & _).
  destruct (alloc_index (PandasEvaluacionRepository._build_profesor_index l) h)
    as [i1 h1]. cbn [fst snd] in D1, E1.
  pose proof (alloc_index_desde (PandasEvaluacionRepository._build_periodo_index l) h1) as D2.
  pose proof (alloc_index_spec (PandasEvaluacionRepository._build_periodo_index l) h1)
    as (E2 & _ & _).
  destruct (alloc_index (PandasEvaluacionRepository._build_periodo_index l) h1)
    as [i2 h2]. cbn [fst snd] in D2, E2.
  pose proof (alloc_index_desde (PandasEvaluacionRepository._build_tipo_formulario_index l) h2)
    as D3.
  destruct (alloc_index (PandasEvaluacionRepository._build_tipo_formulario_index l) h2)
    as [i3 h3]. cbn [fst snd] in D3.
  cbn [fst EvaluacionRepository._evaluaciones EvaluacionRepository._by_profesor
       EvaluacionRepository._by_periodo EvaluacionRepository._by_tipo_formulario].
  split; [reflexivity|]. split; [exact D1|]. split.
  - eapply Forall_le_mono; [|exact D2]. rewrite E1, length_app. lia.
  - eapply Forall_le_mono; [|exact D3]. rewrite E2, E1, !length_app. lia.
Qed.
End ListaCompartida.

(** X17. The evaluation repository keeps the list object it is built on and
    copies it into none of its collections: when that list is changed
    afterwards, [find_all] answers with the new contents, while the lookup
    by id and the three indexes still answer from the contents the list had
    at construction. *)
Theorem lista_cargada_compartida :
  forall (evaluaciones : Objetos.addr) (h : Objetos.store Evaluacion.t)
         (nueva : list Evaluacion.t),
    Objetos.allocated evaluaciones h ->
    let r := fst (Objetos.EvaluacionRepository.init evaluaciones h) in
    let h1 := snd (Objetos.EvaluacionRepository.init evaluaciones h) in
    let h2 := Objetos.mutate evaluaciones nueva h1 in
    let construido := PandasEvaluacionRepository.init (Objetos.contents evaluaciones h) in
    Objetos.EvaluacionRepository.estado r h1 = construido /\
    Objetos.EvaluacionRepository.estado r h2 =
      PandasEvaluacionRepository.mk nueva
        (PandasEvaluacionRepository._by_id construido)
        (PandasEvaluacionRepository._by_profesor construido)
        (PandasEvaluacionRepository._by_periodo construido)
        (PandasEvaluacionRepository._by_tipo_formulario construido) /\
    Objetos.EvaluacionRepository.bien_formado r h2 /\
    Objetos.contents
      (fst (Objetos.EvaluacionRepository.run Objetos.EvaluacionRepository.find_all r h2))
      (snd (Objetos.EvaluacionRepository.run Objetos.EvaluacionRepository.find_all r h2))
    = nueva /\
    (forall documento : string,
        Objetos.contents
          (fst (Objetos.EvaluacionRepository.run
                  (Objetos.EvaluacionRepository.find_by_profesor documento) r h2))
          (snd (Objetos.EvaluacionRepository.run
                  (Objetos.EvaluacionRepository.find_by_profesor documento) r h2))
        = filter (fun e => String.eqb (Evaluacion.profesor_documento e) documento)
            (Objetos.contents evaluaciones h)).
Proof.
  intros evaluaciones h nueva Ha r h1 h2 construido.
  destruct (EvaluacionRepository_init_spec evaluaciones h Ha) as [Hbf Hest].
  fold r h1 in Hbf, Hest. fold construido in Hest.
  destruct (init_indices_desde evaluaciones h) as (Er & D1 & D2 & D3). fold r in Er, D1, D2, D3.
  assert (Hbf2 : Objetos.EvaluacionRepository.bien_formado r h2).
  { destruct Hbf as (B0 & B1 & B2 & B3).
    unfold Objetos.EvaluacionRepository.bien_formado, Objetos.index_allocated,
      Objetos.allocated in *.
    subst h2. rewrite length_mutate. repeat split; assumption. }
  assert (Hest2 : Objetos.EvaluacionRepository.estado r h2 =
                  PandasEvaluacionRepository.mk nueva
                    (PandasEvaluacionRepository._by_id construido)
                    (PandasEvaluacionRepository._by_profesor construido)
                    (PandasEvaluacionRepository._by_periodo construido)
                    (PandasEvaluacionRepository._by_tipo_formulario construido)).
  { rewrite <- Hest. unfold Objetos.EvaluacionRepository.estado.
    cbn [PandasEvaluacionRepository._by_id PandasEvaluacionRepository._by_profesor
         PandasEvaluacionRepository._by_periodo
         PandasEvaluacionRepository._by_tipo_formulario].
    subst h2. rewrite Er.
    rewrite (read_index_mutate_bajo _ _ _ _ _ D1 Ha),
      (read_index_mutate_bajo _ _ _ _ _ D2 Ha),
      (read_index_mutate_bajo _ _ _ _ _ D3 Ha).
    f_equal. apply contents_mutate_eq.
    destruct Hbf as (B0 & _). rewrite Er in B0. exact B0. }
  split; [exact Hest|]. split; [exact Hest2|]. split; [exact Hbf2|]. split.
  - rewrite (proj2 (run_spec Objetos.EvaluacionRepository.find_all r h2 Hbf2)).
    rewrite Hest2. reflexivity.
  - intros documento.
    rewrite (proj2 (run_spec (Objetos.EvaluacionRepository.find_by_profesor documento)
                      r h2 Hbf2)).
    rewrite Hest2. cbn [respuesta_evaluaciones].
    unfold PandasEvaluacionRepository.find_by_profesor.
    cbn [PandasEvaluacionRepository._by_profesor].
    apply (find_by_profesor_init (Objetos.contents evaluaciones h) documento).
Qed.

Lemma lista_cargada_compartida_witness :
  Objetos.allocated 0%nat [[eval1; eval2]] /\
  PandasEvaluacionRepository.find_all
    (Objetos.EvaluacionRepository.estado
       (fst (Objetos.EvaluacionRepository.init 0%nat [[eval1; eval2]]))
       (Objetos.mutate 0%nat []
          (snd (Objetos.EvaluacionRepository.init 0%nat [[eval1; eval2]])))) = [].
Proof.
  assert (H : Objetos.allocated 0%nat [[eval1; eval2]]) by (cbv; lia).
  split; [exact H|].
  rewrite (proj1 (proj2 (lista_cargada_compartida 0%nat [[eval1; eval2]] [] H))).
  reflexivity.
Defined.

(* ================================================================== *)
(** * Further properties of the use cases and of the routes *)

(** ** The averages stay on the scale *)

Lemma Forall_valores_de {K : Type} (eqb : K -> K -> bool) (P : Q -> Prop) (k : K)
    (kxs : list (K * Q)) :
  Forall (fun kx => P (snd kx)) kxs -> Forall P (valores_de eqb k kxs).
Proof.
  intros H. unfold valores_de. induction H as [|kx kxs Hkx _ IH]; [constructor|].
  cbn [filter]. destruct (eqb (fst kx) k); [|exact IH].
  cbn [map]. constructor; assumption.
Qed.

Lemma visitas_categoria_acotadas (orden_set : CalcularPromedioProfesorUseCase.orden)
    (evaluaciones : list Evaluacion.t) :
  Forall (fun kx => (1 <= snd kx /\ snd kx <= 5)%Q)
    (visitas_categoria orden_set evaluaciones).
Proof.
  apply Forall_forall. intros [c m] Hin. cbn [snd].
  unfold visitas_categoria in Hin. apply in_flat_map in Hin.
  destruct Hin as (e & _ & Hin). unfold visitas_de_evaluacion in Hin.
  apply in_flat_map in Hin. destruct Hin as (c' & _ & Hin).
  destruct (negb (Categoria.eqb c' Categoria.COMENTARIOS)); [|destruct Hin].
  destruct (Qltb 0 (Evaluacion.calcular_promedio_por_categoria e c')) eqn:E;
    [|destruct Hin].
  destruct Hin as [Hin | []]. injection Hin as <- <-.
  destruct (promedio_por_categoria_cases e c') as [[_ H] | [_ H]]; [|exact H].
  rewrite H in E. discriminate E.
Qed.

Lemma visitas_actor_acotadas (evaluaciones : list Evaluacion.t) :
  Forall (fun kx => (1 <= snd kx /\ snd kx <= 5)%Q) (visitas_actor evaluaciones).
Proof.
  apply Forall_forall. intros [t m] Hin. cbn [snd].
  unfold visitas_actor in Hin. apply in_flat_map in Hin.
  destruct Hin as (e & _ & Hin).
  destruct (Qltb 0 (Evaluacion.calcular_promedio_general e)) eqn:E; [|destruct Hin].
  destruct Hin as [Hin | []]. injection Hin as <- <-.
  destruct (promedio_general_cases e) as [[_ H] | [_ H]]; [|exact H].
  rewrite H in E. discriminate E.
Qed.

Lemma promedio_general_acotado (evaluaciones : list Evaluacion.t) :
  (0 <= CalcularPromedioProfesorUseCase._calcular_promedio_general evaluaciones /\
   CalcularPromedioProfesorUseCase._calcular_promedio_general evaluaciones <= 5)%Q.
Proof.
  unfold CalcularPromedioProfesorUseCase._calcular_promedio_general.
  destruct evaluaciones as [|e0 resto]; [cbn; split; [apply Qle_refl | discriminate]|].
  cbn [map mean_or_zero]. apply mean_bounds.
  apply Forall_forall. intros m Hin.
  change (In m (map Evaluacion.calcular_promedio_general (e0 :: resto))) in Hin.
  apply in_map_iff in Hin. destruct Hin as (e & <- & _).
  destruct (promedio_general_cases e) as [[_ H] | [_ [H1 H2]]].
  - rewrite H. split; [apply Qle_refl | discriminate].
  - split; [|exact H2]. apply Qle_trans with 1%Q; [discriminate | exact H1].
Qed.

Lemma por_categoria_In (orden_set : CalcularPromedioProfesorUseCase.orden)
    (evaluaciones : list Evaluacion.t)
    (dto : CalcularPromedioProfesorUseCase.PromedioCategoriaDTO) :
  In dto (CalcularPromedioProfesorUseCase._calcular_por_categoria orden_set evaluaciones) ->
  exists c : Categoria.t,
    let valores :=
      valores_de Categoria.eqb c (visitas_categoria orden_set evaluaciones) in
    valores <> [] /\
    CalcularPromedioProfesorUseCase.promedio dto = mean_or_zero valores /\
    CalcularPromedioProfesorUseCase.total_evaluaciones dto = List.length valores.
Proof.
  rewrite _calcular_por_categoria_resultados, sorted_In, bucle_categoria_visitas.
  rewrite (resultados_In _ _ Categoria.eqb _ Categoria_eqb_eq).
  intros (c & Hne & ->). exists c. cbv zeta. split; [exact Hne|]. split; reflexivity.
Qed.

Lemma por_actor_In (evaluaciones : list Evaluacion.t)
    (dto : CalcularPromedioProfesorUseCase.PromedioActorDTO) :
  In dto (CalcularPromedioProfesorUseCase._calcular_por_actor evaluaciones) ->
  exists t : string,
    let valores := valores_de String.eqb t (visitas_actor evaluaciones) in
    valores <> [] /\
    CalcularPromedioProfesorUseCase.actor dto = t /\
    CalcularPromedioProfesorUseCase.actor_promedio dto = mean_or_zero valores /\
    CalcularPromedioProfesorUseCase.actor_total_evaluaciones dto = List.length valores.
Proof.
  rewrite _calcular_por_actor_resultados, sorted_In, bucle_actor_visitas.
  rewrite (resultados_In _ _ String.eqb _ String.eqb_eq).
  intros (t & Hne & ->). exists t. cbv zeta. split; [exact Hne|]. repeat split; reflexivity.
Qed.

Lemma mean_or_zero_acotado (l : list Q) :
  Forall (fun v => 1 <= v /\ v <= 5)%Q l -> l <> [] ->
  (1 <= mean_or_zero l /\ mean_or_zero l <= 5)%Q.
Proof.
  intros H Hne. destruct (mean_or_zero_cases l H) as [[E _] | [_ B]];
    [contradiction | exact B].
Qed.

Section Cuentas.
Variables K DTO : Type.
Variable eqb : K -> K -> bool.
Variable mk : K -> Q -> nat -> DTO.
Variable cuenta : DTO -> nat.
Hypothesis eqb_eq : forall a b, eqb a b = true <-> a = b.
Hypothesis cuenta_mk : forall k m n, cuenta (mk k m n) = n.

Lemma resultados_cuentas (visitas : list (K * Q)) :
  list_sum
    (map cuenta
       (resultados_de eqb mk (Dict.group eqb visitas, Dict.tally eqb (map fst visitas)))) =
  List.length visitas.
Proof.
  unfold resultados_de. cbn [fst snd].
  assert (G : forall g : list (K * list Q),
             (forall k l, In (k, l) g ->
                Dict.count eqb k (Dict.tally eqb (map fst visitas)) = List.length l) ->
             list_sum
               (map cuenta
                  (flat_map
                     (fun item =>
                        match snd item with
                        | [] => []
                        | x :: xs =>
                            [mk (fst item) (mean x xs)
                               (Dict.count eqb (fst item)
                                  (Dict.tally eqb (map fst visitas)))]
                        end) g)) =
             List.length (flat_map snd g)).
  { induction g as [|[k l] g IH]; intros H; [reflexivity|].
    cbn [flat_map fst snd]. rewrite map_app, length_app.
    rewrite <- IH by (intros k' l' Hin; apply H; right; exact Hin).
    destruct l as [|x xs]; [reflexivity|].
    cbn [map app]. change (list_sum (?a :: ?r)) with (a + list_sum r)%nat.
    rewrite cuenta_mk, (H k (x :: xs) (or_introl eq_refl)). reflexivity. }
  rewrite G.
  - unfold Dict.group.
    rewrite (Permutation_length (fold_append_flat _ _ eqb visitas [])).
    cbn [flat_map app]. apply length_map.
  - intros k l Hin.
    apply (group_In _ _ eqb (eqb_eq_refl K eqb eqb_eq) (eqb_eq_sym K eqb eqb_eq)
             (eqb_eq_trans K eqb eqb_eq)) in Hin.
    destruct Hin as (-> & _ & _).
    rewrite (count_tally _ eqb (eqb_eq_sym K eqb eqb_eq) (eqb_eq_trans K eqb eqb_eq)).
    symmetry. apply length_valores_de.
Qed.
End Cuentas.

Lemma length_visitas_actor (evaluaciones : list Evaluacion.t) :
  List.length (visitas_actor evaluaciones) =
  List.length (filter con_calificaciones evaluaciones).
Proof.
  unfold visitas_actor. induction evaluaciones as [|e l IH]; [reflexivity|].
  cbn [flat_map filter]. rewrite length_app, IH.
  rewrite Qltb_promedio_general, no_es_cero_promedio_general.
  destruct (con_calificaciones e); reflexivity.
Qed.

(** X18. Whatever the evaluations, the overall average of the average
    calculator lies between 0 and 5, and every category or evaluator-type
    entry it reports has an average between 1 and 5 and a count between 1
    and the number of evaluations. The counts of the evaluator types add up
    to the number of evaluations that have rating data. *)
Theorem promedios_acotados :
  forall (orden_set : CalcularPromedioProfesorUseCase.orden)
         (evaluaciones : list Evaluacion.t),
    iteracion_de_conjuntos orden_set ->
    (0 <= CalcularPromedioProfesorUseCase._calcular_promedio_general evaluaciones /\
     CalcularPromedioProfesorUseCase._calcular_promedio_general evaluaciones <= 5)%Q /\
    (forall dto,
        In dto (CalcularPromedioProfesorUseCase._calcular_por_categoria orden_set
                  evaluaciones) ->
        (1 <= CalcularPromedioProfesorUseCase.promedio dto /\
         CalcularPromedioProfesorUseCase.promedio dto <= 5)%Q /\
        (1 <= CalcularPromedioProfesorUseCase.total_evaluaciones dto
         <= List.length evaluaciones)%nat) /\
    (forall dto,
        In dto (CalcularPromedioProfesorUseCase._calcular_por_actor evaluaciones) ->
        (1 <= CalcularPromedioProfesorUseCase.actor_promedio dto /\
         CalcularPromedioProfesorUseCase.actor_promedio dto <= 5)%Q /\
        (1 <= CalcularPromedioProfesorUseCase.actor_total_evaluaciones dto
         <= List.length evaluaciones)%nat) /\
    list_sum (map CalcularPromedioProfesorUseCase.actor_total_evaluaciones
                (CalcularPromedioProfesorUseCase._calcular_por_actor evaluaciones)) =
      List.length (filter con_calificaciones evaluaciones).
Proof.
  intros orden_set evaluaciones Hit.
  split; [apply promedio_general_acotado|]. split; [|split].
  - intros dto Hin. apply por_categoria_In in Hin.
    destruct Hin as (c & Hne & -> & ->). split.
    + apply mean_or_zero_acotado; [|exact Hne].
      apply Forall_valores_de, visitas_categoria_acotadas.
    + split.
      * destruct (valores_de Categoria.eqb c (visitas_categoria orden_set evaluaciones));
          [contradiction | cbn [List.length]; lia].
      * rewrite (valores_visitas_categoria orden_set c evaluaciones Hit).
        destruct (Categoria.eqb c Categoria.COMENTARIOS); [cbn [List.length]; lia|].
        unfold promedios_de_categoria.
        eapply Nat.le_trans; [apply filter_length_le|]. rewrite length_map. lia.
  - intros dto Hin. apply por_actor_In in Hin.
    destruct Hin as (t & Hne & _ & -> & ->). split.
    + apply mean_or_zero_acotado; [|exact Hne].
      apply Forall_valores_de, visitas_actor_acotadas.
    + split.
      * destruct (valores_de String.eqb t (visitas_actor evaluaciones));
          [contradiction | cbn [List.length]; lia].
      * rewrite valores_visitas_actor. unfold promedios_de_actor.
        eapply Nat.le_trans; [apply filter_length_le|]. rewrite length_map.
        apply filter_length_le.
  - rewrite _calcular_por_actor_resultados, bucle_actor_visitas.
    rewrite (list_sum_Permutation _
               (map CalcularPromedioProfesorUseCase.actor_total_evaluaciones
                  (resultados_de String.eqb CalcularPromedioProfesorUseCase.mkActorDTO
                     (Dict.group String.eqb (visitas_actor evaluaciones),
                      Dict.tally String.eqb (map fst (visitas_actor evaluaciones)))))).
    + rewrite (resultados_cuentas _ _ String.eqb _ _ String.eqb_eq);
        [apply length_visitas_actor | reflexivity].
    + apply Permutation_map. apply sorted_perm.
Qed.

Lemma promedios_acotados_witness :
  iteracion_de_conjuntos Evaluacion.categorias_evaluadas /\
  (CalcularPromedioProfesorUseCase._calcular_promedio_general [eval1; eval2] <= 5)%Q.
Proof.
  split; [exact categorias_evaluadas_iteracion|].
  exact (proj2 (proj1 (promedios_acotados Evaluacion.categorias_evaluadas [eval1; eval2]
                         categorias_evaluadas_iteracion))).
Defined.

(** ** The answers of the teacher routes *)

Lemma ge_0_le_5_spec (x : Q) : (0 <= x /\ x <= 5)%Q -> Rutas.ge_0_le_5 x = true.
Proof.
  intros [H1 H2]. unfold Rutas.ge_0_le_5.
  rewrite (proj2 (Qle_bool_iff 0 x) H1), (proj2 (Qle_bool_iff x 5) H2). reflexivity.
Qed.

Lemma responder_valida (orden_set : CalcularPromedioProfesorUseCase.orden)
    (request : CalcularPromedioProfesorUseCase.PromedioProfesorRequest)
    (evaluaciones : list Evaluacion.t)
    (result : CalcularPromedioProfesorUseCase.PromedioProfesorResponse) :
  CalcularPromedioProfesorUseCase.responder orden_set request evaluaciones = Ok result ->
  Rutas.PromedioProfesorResponse_valida result = true.
Proof.
  intros H. apply responder_Ok in H. destruct H as (_ & _ & E1 & E2 & E3).
  unfold Rutas.PromedioProfesorResponse_valida. rewrite E1, E2, E3.
  rewrite (ge_0_le_5_spec _ (promedio_general_acotado evaluaciones)). cbn [andb].
  apply andb_true_iff. split; apply forallb_forall; intros dto Hin; apply ge_0_le_5_spec.
  - apply por_categoria_In in Hin. destruct Hin as (c & Hne & -> & _).
    destruct (mean_or_zero_acotado _
                (Forall_valores_de Categoria.eqb _ c _
                   (visitas_categoria_acotadas orden_set evaluaciones)) Hne) as [B1 B2].
    split; [|exact B2]. apply Qle_trans with 1%Q; [discriminate | exact B1].
  - apply por_actor_In in Hin. destruct Hin as (t & Hne & _ & -> & _).
    destruct (mean_or_zero_acotado _
                (Forall_valores_de String.eqb _ t _ (visitas_actor_acotadas evaluaciones))
                Hne) as [B1 B2].
    split; [|exact B2]. apply Qle_trans with 1%Q; [discriminate | exact B1].
Qed.

Lemma responder_no_vacia (orden_set : CalcularPromedioProfesorUseCase.orden)
    (request : CalcularPromedioProfesorUseCase.PromedioProfesorRequest)
    (evaluaciones : list Evaluacion.t) :
  evaluaciones <> [] ->
  exists result,
    CalcularPromedioProfesorUseCase.responder orden_set request evaluaciones = Ok result.
Proof.
  intros H. destruct evaluaciones as [|e0 resto]; [contradiction|].
  eexists. reflexivity.
Qed.

(** X19. What the three teacher routes answer for a document and an
    optional period. The averages route answers with a body when there are
    evaluations to report on and the period, if given, is well formed; with
    404 when the document is unknown or a well-formed period selects
    nothing; and with 500 exactly when the document is known and the period
    is given and malformed. Its response model never rejects a result of
    the use case. The detail route and the improvement route never answer
    500: they answer with a body when there are evaluations to report on
    and with 404 otherwise, a malformed period included. *)
Theorem rutas_de_profesor :
  forall (evaluaciones : list Evaluacion.t)
         (orden_set : CalcularPromedioProfesorUseCase.orden)
         (documento : string) (periodo : option string),
    let repo := PandasEvaluacionRepository.init evaluaciones in
    let del_profesor :=
      filter (fun e => String.eqb (Evaluacion.profesor_documento e) documento)
        evaluaciones in
    let consultadas := evaluaciones_consultadas evaluaciones documento periodo in
    let bien_formado := Re.matches Periodo.PATTERN (texto_de periodo) in
    match Rutas.obtener_promedios_profesor repo orden_set documento periodo with
    | Rutas.Cuerpo result =>
        consultadas <> [] /\ (truthy periodo = true -> bien_formado = true) /\
        CalcularPromedioProfesorUseCase.execute repo orden_set
          (CalcularPromedioProfesorUseCase.mkRequest documento periodo) = Ok result
    | Rutas.HTTPException status_code detail =>
        (status_code = 404%nat /\
         (del_profesor = [] \/ (bien_formado = true /\ consultadas = [])) /\
         exists d, detail = Rutas.Excepcion (ProfesorNotFoundError d)) \/
        (status_code = 500%nat /\
         del_profesor <> [] /\ truthy periodo = true /\ bien_formado = false /\
         detail = Rutas.Excepcion (Periodo.format_error (texto_de periodo)))
    end /\
    match Rutas.obtener_detalle_evaluaciones repo documento periodo with
    | Rutas.Cuerpo result =>
        consultadas <> [] /\
        ObtenerDetalleEvaluacionUseCase.total_evaluaciones result = List.length consultadas
    | Rutas.HTTPException status_code detail =>
        status_code = 404%nat /\ consultadas = [] /\
        exists d, detail = Rutas.Excepcion (ProfesorNotFoundError d)
    end /\
    match Rutas.obtener_propuesta_mejora repo documento periodo with
    | Rutas.Cuerpo result => consultadas <> []
    | Rutas.HTTPException status_code detail =>
        status_code = 404%nat /\ consultadas = [] /\
        exists d, detail = Rutas.Excepcion (ProfesorNotFoundError d)
    end.
Proof.
  intros evaluaciones orden_set documento periodo repo del_profesor consultadas bien_formado.
  split; [|split].
  - unfold Rutas.obtener_promedios_profesor. subst repo.
    pose proof (execute_cases evaluaciones orden_set
                  (CalcularPromedioProfesorUseCase.mkRequest documento periodo)) as E.
    cbv zeta in E.
    cbn [CalcularPromedioProfesorUseCase.documento CalcularPromedioProfesorUseCase.periodo] in E.
    fold del_profesor consultadas bien_formado in E.
    assert (R : forall evs,
               evs <> [] ->
               CalcularPromedioProfesorUseCase.execute
                 (PandasEvaluacionRepository.init evaluaciones) orden_set
                 (CalcularPromedioProfesorUseCase.mkRequest documento periodo) =
               CalcularPromedioProfesorUseCase.responder orden_set
                 (CalcularPromedioProfesorUseCase.mkRequest documento periodo) evs ->
               exists result,
                 CalcularPromedioProfesorUseCase.execute
                   (PandasEvaluacionRepository.init evaluaciones) orden_set
                   (CalcularPromedioProfesorUseCase.mkRequest documento periodo) = Ok result /\
                 Rutas.PromedioProfesorResponse_valida result = true).
    { intros evs Hne Heq.
      destruct (responder_no_vacia orden_set
                  (CalcularPromedioProfesorUseCase.mkRequest documento periodo) evs Hne)
        as (result & Hr).
      exists result. split; [rewrite Heq; exact Hr | exact (responder_valida _ _ _ _ Hr)]. }
    destruct del_profesor as [|e0 resto] eqn:Edel.
    + rewrite E. cbn [Rutas.capturar]. left.
      split; [reflexivity|]. split; [left; reflexivity | eexists; reflexivity].
    + destruct (truthy periodo) eqn:Et.
      * destruct bien_formado eqn:Ebf.
        -- destruct consultadas as [|c0 cs] eqn:Econs.
           ++ rewrite E. cbn [Rutas.capturar]. left.
              split; [reflexivity|]. split; [right; split; reflexivity | eexists; reflexivity].
           ++ destruct (R (c0 :: cs)) as (result & Hr & Hv); [discriminate | exact E |].
              rewrite Hr, Hv. split; [discriminate|]. split; [reflexivity | reflexivity].
        -- rewrite E. unfold Periodo.format_error. cbn [Rutas.capturar]. right.
           split; [reflexivity|]. split; [discriminate|]. repeat split; reflexivity.
      * assert (Ec : consultadas = e0 :: resto).
        { subst consultadas. rewrite consultadas_sin_periodo by exact Et. exact Edel. }
        rewrite Ec in E.
        destruct (R (e0 :: resto)) as (result & Hr & Hv); [discriminate | exact E |].
        rewrite Hr, Hv. rewrite Ec. split; [discriminate|]. split; [discriminate | reflexivity].
  - unfold Rutas.obtener_detalle_evaluaciones. subst repo.
    pose proof (execute_detalle_cases evaluaciones
                  (ObtenerDetalleEvaluacionUseCase.mkRequest documento periodo)) as E.
    cbv zeta in E.
    cbn [ObtenerDetalleEvaluacionUseCase.documento ObtenerDetalleEvaluacionUseCase.periodo] in E.
    fold del_profesor consultadas in E.
    destruct del_profesor as [|e0 resto] eqn:Edel.
    + rewrite E. cbn [Rutas.capturar].
      split; [reflexivity|]. split; [|eexists; reflexivity].
      apply consultadas_del_profesor. exact Edel.
    + destruct consultadas as [|c0 cs] eqn:Econs.
      * rewrite E. cbn [Rutas.capturar].
        split; [reflexivity|]. split; [reflexivity | eexists; reflexivity].
      * destruct E as (result & Hr & Ht). rewrite Hr. split; [discriminate | exact Ht].
  - unfold Rutas.obtener_propuesta_mejora. subst repo.
    pose proof (execute_mejora_cases evaluaciones
                  (ObtenerPropuestaMejoraUseCase.mkRequest documento periodo)) as E.
    cbv zeta in E.
    cbn [ObtenerPropuestaMejoraUseCase.documento ObtenerPropuestaMejoraUseCase.periodo] in E.
    fold del_profesor consultadas in E.
    destruct del_profesor as [|e0 resto] eqn:Edel.
    + rewrite E. cbn [Rutas.capturar].
      split; [reflexivity|]. split; [|eexists; reflexivity].
      apply consultadas_del_profesor. exact Edel.
    + destruct consultadas as [|c0 cs] eqn:Econs.
      * rewrite E. cbn [Rutas.capturar].
        split; [reflexivity|]. split; [reflexivity | eexists; reflexivity].
      * rewrite E. discriminate.
Qed.

(** ** The detail of the answers *)

Lemma execute_detalle_Ok (evaluaciones : list Evaluacion.t)
    (request : ObtenerDetalleEvaluacionUseCase.DetalleEvaluacionRequest)
    (response : ObtenerDetalleEvaluacionUseCase.DetalleEvaluacionResponse) :
  ObtenerDetalleEvaluacionUseCase.execute
    (PandasEvaluacionRepository.init evaluaciones) request = Ok response ->
  let documento := ObtenerDetalleEvaluacionUseCase.documento request in
  let periodo := ObtenerDetalleEvaluacionUseCase.periodo request in
  let consultadas := evaluaciones_consultadas evaluaciones documento periodo in
  exists e0 resto,
    filter (fun e => String.eqb (Evaluacion.profesor_documento e) documento)
      evaluaciones = e0 :: resto /\
    consultadas <> [] /\
    response =
      ObtenerDetalleEvaluacionUseCase.mkResponse documento
        (Evaluacion.profesor_nombre e0) periodo (List.length consultadas)
        (flat_map
           (fun evaluacion =>
              map (fun item =>
                     ObtenerDetalleEvaluacionUseCase.mkRespuesta
                       (Pregunta.codigo (fst item)) (Pregunta.texto (fst item))
                       (Categoria.value (Pregunta.categoria (fst item)))
                       (option_map Calificacion.valor (snd item))
                       (Evaluacion.tipo_formulario evaluacion))
                (Evaluacion.respuestas evaluacion))
           consultadas).
Proof.
  intros H documento periodo consultadas.
  unfold ObtenerDetalleEvaluacionUseCase.execute in H.
  rewrite find_by_profesor_init in H. fold documento in H.
  destruct (filter (fun e => String.eqb (Evaluacion.profesor_documento e) documento)
              evaluaciones) as [|e0 resto] eqn:E; [discriminate H|].
  assert (G : ObtenerDetalleEvaluacionUseCase.filtrar request (e0 :: resto) = consultadas).
  { unfold consultadas, evaluaciones_consultadas, ObtenerDetalleEvaluacionUseCase.filtrar.
    fold documento periodo. rewrite E. reflexivity. }
  rewrite G in H. exists e0, resto. split; [reflexivity|].
  destruct consultadas as [|e1 resto1]; [discriminate H|].
  split; [discriminate|]. injection H as <-. reflexivity.
Qed.

(** X20. When the detail use case answers, it echoes the document and the
    period of the request, names the teacher after the first loaded
    evaluation of the document (whatever the period asked for), counts the
    evaluations the request is about, and lists one entry per answer of
    these evaluations, unanswered ones and Comments questions included: an
    entry is listed exactly when one of the evaluations holds the answer.
    A rating listed lies between 1 and 5. *)
Theorem detalle_de_respuestas :
  forall (evaluaciones : list Evaluacion.t)
         (request : ObtenerDetalleEvaluacionUseCase.DetalleEvaluacionRequest)
         (response : ObtenerDetalleEvaluacionUseCase.DetalleEvaluacionResponse),
    ObtenerDetalleEvaluacionUseCase.execute
      (PandasEvaluacionRepository.init evaluaciones) request = Ok response ->
    let documento := ObtenerDetalleEvaluacionUseCase.documento request in
    let periodo := ObtenerDetalleEvaluacionUseCase.periodo request in
    let consultadas := evaluaciones_consultadas evaluaciones documento periodo in
    ObtenerDetalleEvaluacionUseCase.r_documento response = documento /\
    ObtenerDetalleEvaluacionUseCase.r_periodo response = periodo /\
    (exists e0 resto,
        filter (fun e => String.eqb (Evaluacion.profesor_documento e) documento)
          evaluaciones = e0 :: resto /\
        ObtenerDetalleEvaluacionUseCase.r_nombre_completo response =
          Evaluacion.profesor_nombre e0) /\
    consultadas <> [] /\
    ObtenerDetalleEvaluacionUseCase.total_evaluaciones response =
      List.length consultadas /\
    List.length (ObtenerDetalleEvaluacionUseCase.respuestas response) =
      list_sum (map (fun e => List.length (Evaluacion.respuestas e)) consultadas) /\
    (forall dto : ObtenerDetalleEvaluacionUseCase.RespuestaPreguntaDTO,
        In dto (ObtenerDetalleEvaluacionUseCase.respuestas response) <->
        exists e p cal,
          In e consultadas /\ In (p, cal) (Evaluacion.respuestas e) /\
          dto = ObtenerDetalleEvaluacionUseCase.mkRespuesta
                  (Pregunta.codigo p) (Pregunta.texto p)
                  (Categoria.value (Pregunta.categoria p))
                  (option_map Calificacion.valor cal)
                  (Evaluacion.tipo_formulario e)) /\
    (forall (dto : ObtenerDetalleEvaluacionUseCase.RespuestaPreguntaDTO) (v : Q),
        In dto (ObtenerDetalleEvaluacionUseCase.respuestas response) ->
        ObtenerDetalleEvaluacionUseCase.calificacion dto = Some v ->
        (1 <= v /\ v <= 5)%Q).
Proof.
  intros evaluaciones request response H documento periodo consultadas.
  destruct (execute_detalle_Ok evaluaciones request response H)
    as (e0 & resto & Edel & Hne & ->).
  fold documento periodo consultadas.
  cbn [ObtenerDetalleEvaluacionUseCase.r_documento ObtenerDetalleEvaluacionUseCase.r_periodo
       ObtenerDetalleEvaluacionUseCase.r_nombre_completo
       ObtenerDetalleEvaluacionUseCase.total_evaluaciones
       ObtenerDetalleEvaluacionUseCase.respuestas].
  assert (M : forall dto : ObtenerDetalleEvaluacionUseCase.RespuestaPreguntaDTO,
             In dto
               (flat_map
                  (fun evaluacion =>
                     map (fun item =>
                            ObtenerDetalleEvaluacionUseCase.mkRespuesta
                              (Pregunta.codigo (fst item)) (Pregunta.texto (fst item))
                              (Categoria.value (Pregunta.categoria (fst item)))
                              (option_map Calificacion.valor (snd item))
                              (Evaluacion.tipo_formulario evaluacion))
                       (Evaluacion.respuestas evaluacion))
                  consultadas) <->
             exists e p cal,
               In e consultadas /\ In (p, cal) (Evaluacion.respuestas e) /\
               dto = ObtenerDetalleEvaluacionUseCase.mkRespuesta
                       (Pregunta.codigo p) (Pregunta.texto p)
                       (Categoria.value (Pregunta.categoria p))
                       (option_map Calificacion.valor cal)
                       (Evaluacion.tipo_formulario e)).
  { intros dto. rewrite in_flat_map. split.
    - intros (e & He & Hin). apply in_map_iff in Hin. destruct Hin as ([p cal] & <- & Hin).
      exists e, p, cal. split; [exact He|]. split; [exact Hin | reflexivity].
    - intros (e & p & cal & He & Hin & ->). exists e. split; [exact He|].
      apply in_map_iff. exists (p, cal). split; [reflexivity | exact Hin]. }
  split; [reflexivity|]. split; [reflexivity|].
  split; [exists e0, resto; split; [exact Edel | reflexivity]|].
  split; [exact Hne|]. split; [reflexivity|]. split; [|split; [exact M|]].
  - rewrite length_flat_map_sum. f_equal. apply map_ext. intros e. apply length_map.
  - intros dto v Hin Hv. apply M in Hin. destruct Hin as (e & p & cal & _ & _ & ->).
    cbn [ObtenerDetalleEvaluacionUseCase.calificacion] in Hv.
    destruct cal as [cal|]; [|discriminate Hv].
    cbn [option_map] in Hv. apply Some_inj in Hv. rewrite <- Hv.
    apply Calificacion_bounds.
Qed.

Lemma detalle_de_respuestas_witness :
  exists response,
    ObtenerDetalleEvaluacionUseCase.execute
      (PandasEvaluacionRepository.init [eval1; eval2])
      (ObtenerDetalleEvaluacionUseCase.mkRequest "123456" None) = Ok response /\
    ObtenerDetalleEvaluacionUseCase.total_evaluaciones response = 2%nat.
Proof.
  eexists. split; [reflexivity|].
  exact (proj1 (proj2 (proj2 (proj2 (proj2
           (detalle_de_respuestas [eval1; eval2]
              (ObtenerDetalleEvaluacionUseCase.mkRequest "123456" None) _ eq_refl)))))).
Defined.

(** ** No category below 4.0 goes without a recommendation *)

Lemma Qsum_app (a b : list Q) : (Qsum (a ++ b) == Qsum a + Qsum b)%Q.
Proof.
  induction a as [|x a IH]; cbn [app].
  - cbn. ring.
  - change (Qsum (x :: ?l)) with (x + Qsum l)%Q. rewrite IH. ring.
Qed.

Lemma Qsum_Permutation (l l' : list Q) : Permutation l l' -> (Qsum l == Qsum l')%Q.
Proof.
  induction 1 as [|x l l' _ IH|x y l|l l' l'' _ IH1 _ IH2].
  - reflexivity.
  - change (Qsum (x :: ?r)) with (x + Qsum r)%Q. rewrite IH. reflexivity.
  - change (Qsum (?a :: ?b :: ?r)) with (a + (b + Qsum r))%Q. ring.
  - rewrite IH1. exact IH2.
Qed.

Lemma inject_nat_add (n m : nat) :
  (inject_Z (Z.of_nat (n + m)) == inject_Z (Z.of_nat n) + inject_Z (Z.of_nat m))%Q.
Proof. rewrite Nat2Z.inj_add, inject_Z_plus. reflexivity. Qed.

Lemma mean_or_zero_lt (M : Q) (l : list Q) :
  l <> [] -> (M < mean_or_zero l)%Q ->
  (M * inject_Z (Z.of_nat (List.length l)) < Qsum l)%Q.
Proof.
  intros Hne H. rewrite <- (mean_or_zero_mul l).
  apply Qmult_lt_compat_r; [|exact H].
  destruct l as [|x xs]; [contradiction|]. apply inject_nat_pos.
Qed.

Lemma suma_de_grupos_altos (M : Q) (g : list (list Q)) :
  g <> [] ->
  (forall l, In l g -> l <> [] /\ (M < mean_or_zero l)%Q) ->
  (M * inject_Z (Z.of_nat (List.length (List.concat g))) < Qsum (List.concat g))%Q.
Proof.
  induction g as [|l g IH]; intros Hne H; [contradiction|].
  cbn [List.concat]. destruct (H l (or_introl eq_refl)) as [Hl Hm].
  pose proof (mean_or_zero_lt M l Hl Hm) as B.
  destruct g as [|l2 g].
  - cbn [List.concat]. rewrite app_nil_r. exact B.
  - assert (B2 : (M * inject_Z (Z.of_nat (List.length (List.concat (l2 :: g))))
                  < Qsum (List.concat (l2 :: g)))%Q).
    { apply IH; [discriminate|]. intros l' Hin. apply H. right. exact Hin. }
    rewrite length_app, inject_nat_add, Qsum_app. lra.
Qed.

Lemma existe_grupo_bajo (g : list (list Q)) :
  g <> [] -> (forall l, In l g -> l <> []) ->
  exists l, In l g /\ (mean_or_zero l <= mean_or_zero (List.concat g))%Q.
Proof.
  intros Hne Hl. set (M := mean_or_zero (List.concat g)).
  assert (D : (forall l, In l g -> (M < mean_or_zero l)%Q) \/
              (exists l, In l g /\ (mean_or_zero l <= M)%Q)).
  { clear Hne Hl. generalize M. clear M. intros M.
    induction g as [|l g IH]; [left; intros l []|].
    destruct (Qlt_le_dec M (mean_or_zero l)) as [Hlt | Hle].
    - destruct IH as [IH | (l' & Hin & Hle)].
      + left. intros l' [<- | Hin]; [exact Hlt | apply IH; exact Hin].
      + right. exists l'. split; [right; exact Hin | exact Hle].
    - right. exists l. split; [left; reflexivity | exact Hle]. }
  destruct D as [D | D]; [|exact D].
  exfalso.
  pose proof (suma_de_grupos_altos M g Hne
                (fun l Hin => conj (Hl l Hin) (D l Hin))) as B.
  unfold M in B. rewrite (mean_or_zero_mul (List.concat g)) in B.
  apply (Qlt_irrefl _ B).
Qed.

Lemma mean_or_zero_Permutation (l l' : list Q) :
  Permutation l l' -> (mean_or_zero l == mean_or_zero l')%Q.
Proof.
  intros H. pose proof (Qsum_Permutation _ _ H) as S.
  pose proof (Permutation_length H) as L.
  destruct l as [|x xs], l' as [|y ys]; try discriminate L; [reflexivity|].
  unfold mean_or_zero, mean. rewrite S, L. reflexivity.
Qed.

Lemma valores_visitas_preguntas_todos (c : Categoria.t) (evaluaciones : list Evaluacion.t) :
  Categoria.eqb c Categoria.COMENTARIOS = false ->
  map snd (visitas_preguntas c evaluaciones) = calificaciones_de_categoria c evaluaciones.
Proof.
  intros Hc. unfold visitas_preguntas, calificaciones_de_categoria.
  induction evaluaciones as [|e l IH]; cbn [flat_map map]; [reflexivity|].
  rewrite map_app, IH. f_equal.
  induction (Evaluacion.respuestas e) as [|[p [cal|]] items IHi];
    cbn [flat_map map fst snd]; [reflexivity | |].
  - rewrite map_app, IHi. f_equal.
    destruct (Categoria.eqb (Pregunta.categoria p) c) eqn:E; [|reflexivity].
    rewrite (es_comentario_categoria p c E), Hc. reflexivity.
  - rewrite map_app, IHi.
    destruct (Categoria.eqb (Pregunta.categoria p) c); reflexivity.
Qed.

Lemma visitas_preguntas_acotadas (c : Categoria.t) (evaluaciones : list Evaluacion.t) :
  Forall (fun kx => (1 <= snd kx /\ snd kx <= 5)%Q) (visitas_preguntas c evaluaciones).
Proof.
  apply Forall_forall. intros [p v] Hin. cbn [snd].
  unfold visitas_preguntas in Hin. apply in_flat_map in Hin.
  destruct Hin as (e & _ & Hin). apply in_flat_map in Hin.
  destruct Hin as ([q o] & _ & Hin). cbn [fst snd] in Hin.
  destruct (Categoria.eqb (Pregunta.categoria q) c); [|destruct Hin].
  destruct o as [cal|]; [|destruct Hin].
  destruct (negb (Pregunta.es_comentario q)); [|destruct Hin].
  destruct Hin as [Hin | []]. injection Hin as <- <-. apply Calificacion_bounds.
Qed.

Lemma calificaciones_de_categoria_acotadas (c : Categoria.t)
    (evaluaciones : list Evaluacion.t) :
  Forall (fun v => 1 <= v /\ v <= 5)%Q (calificaciones_de_categoria c evaluaciones).
Proof.
  apply Forall_forall. intros v Hin.
  unfold calificaciones_de_categoria in Hin. apply in_flat_map in Hin.
  destruct Hin as (e & _ & Hin). apply in_flat_map in Hin.
  destruct Hin as ([q o] & _ & Hin). cbn [fst snd] in Hin.
  destruct o as [cal|]; [|destruct Hin].
  destruct (Categoria.eqb (Pregunta.categoria q) c); [|destruct Hin].
  destruct Hin as [<- | []]. apply Calificacion_bounds.
Qed.

(** The float mean keeps the bounds and the order of the exact mean, and
    is below 4.0 exactly when the exact mean is below 4 - 2^-52. *)
Lemma promedio_plano_acotado (l : list Q) :
  Forall (fun v => 1 <= v /\ v <= 5)%Q l -> l <> [] ->
  (1 <= promedio_plano l /\ promedio_plano l <= 5)%Q.
Proof.
  intros H Hne. apply redondear_acotado, mean_or_zero_acotado; assumption.
Qed.

Lemma promedio_plano_lt_4 (l : list Q) :
  (promedio_plano l < 4)%Q <-> (mean_or_zero l < umbral_4)%Q.
Proof. apply redondear_lt_4. Qed.

Lemma promedio_plano_mono (l l' : list Q) :
  (mean_or_zero l <= mean_or_zero l')%Q -> (promedio_plano l <= promedio_plano l')%Q.
Proof. apply redondear_mono. Qed.

(** The recommendations of a category: each comes from a question whose
    mean is at least 1 and below 4, and when the category itself is below
    4 one of them is not above the mean of the category. *)
Lemma recomendaciones_de_acotadas (c : Categoria.t) (evaluaciones : list Evaluacion.t) :
  forall r,
    In r (recomendaciones_de c evaluaciones) ->
    (1 <= ObtenerPropuestaMejoraUseCase.calificacion_promedio r /\
     ObtenerPropuestaMejoraUseCase.calificacion_promedio r < 4)%Q.
Proof.
  intros r Hin. unfold recomendaciones_de in Hin. apply sorted_In in Hin.
  apply in_flat_map in Hin. destruct Hin as ([p l] & Hin & Hr).
  apply (group_In _ _ Pregunta.eqb Pregunta_eqb_refl Pregunta_eqb_sym Pregunta_eqb_trans)
    in Hin.
  destruct Hin as (El & Hne & _).
  unfold recomendacion_de_grupo in Hr. cbn [fst snd] in Hr.
  destruct (Qltb (promedio_plano l) 4) eqn:E; [|destruct Hr].
  destruct Hr as [<- | []]. cbn [ObtenerPropuestaMejoraUseCase.calificacion_promedio].
  apply Qltb_lt in E. split; [|exact E].
  apply promedio_plano_acotado; [|exact Hne]. rewrite El.
  apply Forall_valores_de, visitas_preguntas_acotadas.
Qed.

Lemma recomendaciones_de_categoria_baja (c : Categoria.t)
    (evaluaciones : list Evaluacion.t) :
  Categoria.eqb c Categoria.COMENTARIOS = false ->
  calificaciones_de_categoria c evaluaciones <> [] ->
  (promedio_plano (calificaciones_de_categoria c evaluaciones) < 4)%Q ->
  exists r,
    In r (recomendaciones_de c evaluaciones) /\
    (ObtenerPropuestaMejoraUseCase.calificacion_promedio r <=
     promedio_plano (calificaciones_de_categoria c evaluaciones))%Q.
Proof.
  intros Hc Hne Hlt.
  set (visitas := visitas_preguntas c evaluaciones).
  set (grupos := Dict.group Pregunta.eqb visitas).
  assert (P : Permutation (List.concat (map snd grupos))
                (calificaciones_de_categoria c evaluaciones)).
  { rewrite <- flat_map_concat_map. subst grupos. unfold Dict.group.
    rewrite (fold_append_flat _ _ Pregunta.eqb visitas []). cbn [flat_map app].
    subst visitas. rewrite valores_visitas_preguntas_todos by exact Hc. reflexivity. }
  destruct (existe_grupo_bajo (map snd grupos)) as (l & Hin & Hle).
  - intros E. rewrite E in P. cbn [List.concat] in P.
    apply Permutation_nil in P. contradiction.
  - intros l Hin. apply in_map_iff in Hin. destruct Hin as ([p l'] & <- & Hin).
    apply (group_In _ _ Pregunta.eqb Pregunta_eqb_refl Pregunta_eqb_sym Pregunta_eqb_trans)
      in Hin. cbn [snd]. tauto.
  - rewrite (mean_or_zero_Permutation _ _ P) in Hle.
    apply promedio_plano_mono in Hle.
    apply in_map_iff in Hin. destruct Hin as ([p l'] & E & Hin). cbn [snd] in E. subst l'.
    assert (L4 : Qltb (promedio_plano l) 4 = true).
    { apply Qltb_lt. eapply Qle_lt_trans; [exact Hle | exact Hlt]. }
    exists (ObtenerPropuestaMejoraUseCase.mkRecomendacion
              (Pregunta.codigo p) (Pregunta.texto p) (promedio_plano l)
              (ObtenerPropuestaMejoraUseCase._obtener_recomendacion (Categoria.value c)
                 (Pregunta.texto p))).
    split; [|exact Hle].
    unfold recomendaciones_de. apply sorted_In. apply in_flat_map.
    exists (p, l). split; [exact Hin|].
    unfold recomendacion_de_grupo. cbn [fst snd]. rewrite L4. left. reflexivity.
Qed.

Lemma NoDup_flat_map_uno {A B C : Type} (f : A -> list B) (ka : A -> C) (kb : B -> C)
    (l : list A) :
  NoDup (map ka l) ->
  (forall a b, In b (f a) -> kb b = ka a) ->
  (forall a, (List.length (f a) <= 1)%nat) ->
  NoDup (map kb (flat_map f l)).
Proof.
  intros Hnd Hk Hlen. induction l as [|a l IH]; [constructor|].
  cbn [map] in Hnd. inversion Hnd as [|x xs Hx Hnd']; subst.
  cbn [flat_map]. rewrite map_app. specialize (IH Hnd').
  pose proof (Hlen a) as La. pose proof (Hk a) as Ka.
  destruct (f a) as [|b [|b2 rest]]; cbn [map app]; [exact IH | | cbn in La; lia].
  constructor; [|exact IH].
  intros Hin. apply in_map_iff in Hin. destruct Hin as (b' & E & Hin).
  apply in_flat_map in Hin. destruct Hin as (a' & Ha' & Hb').
  apply Hx. rewrite <- (Ka b (or_introl eq_refl)), <- E, (Hk a' b' Hb').
  apply in_map. exact Ha'.
Qed.

Lemma NoDup_promedios_por_categoria (evaluaciones : list Evaluacion.t) :
  NoDup (map fst (ObtenerPropuestaMejoraUseCase._calcular_promedios_por_categoria
                    evaluaciones)).
Proof.
  unfold ObtenerPropuestaMejoraUseCase._calcular_promedios_por_categoria.
  apply (NoDup_flat_map_uno _ fst fst).
  - rewrite bucle_categorias_visitas.
    apply (group_NoDup_keys _ Categoria.eqb Categoria_eqb_eq).
  - intros [k l] b Hin. cbn [fst snd] in *. destruct l; [destruct Hin|].
    destruct Hin as [<- | []]. reflexivity.
  - intros [k l]. cbn [snd]. destruct l; cbn [List.length]; lia.
Qed.

(** X21. In the answer of the recommendation engine no category below 4.0
    is dropped for want of recommendations: every category other than
    Comments whose mean over the answered ratings, the float
    [statistics.mean] returns, is below 4.0 is reported.
    A reported category is reported once, its mean is at least 1 and below
    4, its recommendations are not empty and each has a mean of at least 1
    and below 4, and one of them is not above the mean of the category. *)
Theorem mejora_sin_categorias_perdidas :
  forall (evaluaciones : list Evaluacion.t)
         (request : ObtenerPropuestaMejoraUseCase.PropuestaMejoraRequest)
         (response : ObtenerPropuestaMejoraUseCase.PropuestaMejoraResponse),
    ObtenerPropuestaMejoraUseCase.execute
      (PandasEvaluacionRepository.init evaluaciones) request = Ok response ->
    let consultadas :=
      evaluaciones_consultadas evaluaciones
        (ObtenerPropuestaMejoraUseCase.documento request)
        (ObtenerPropuestaMejoraUseCase.periodo request) in
    (forall c : Categoria.t,
        c <> Categoria.COMENTARIOS ->
        calificaciones_de_categoria c consultadas <> [] ->
        (promedio_plano (calificaciones_de_categoria c consultadas) < 4)%Q ->
        In (ObtenerPropuestaMejoraUseCase.mkMejora (Categoria.value c)
              (promedio_plano (calificaciones_de_categoria c consultadas))
              (recomendaciones_de c consultadas))
           (ObtenerPropuestaMejoraUseCase.categorias_a_mejorar response)) /\
    (forall m : ObtenerPropuestaMejoraUseCase.MejoraPorCategoria,
        In m (ObtenerPropuestaMejoraUseCase.categorias_a_mejorar response) ->
        (1 <= ObtenerPropuestaMejoraUseCase.promedio_categoria m /\
         ObtenerPropuestaMejoraUseCase.promedio_categoria m < 4)%Q /\
        ObtenerPropuestaMejoraUseCase.recomendaciones m <> [] /\
        (forall r, In r (ObtenerPropuestaMejoraUseCase.recomendaciones m) ->
           (1 <= ObtenerPropuestaMejoraUseCase.calificacion_promedio r /\
            ObtenerPropuestaMejoraUseCase.calificacion_promedio r < 4)%Q) /\
        (exists r, In r (ObtenerPropuestaMejoraUseCase.recomendaciones m) /\
           (ObtenerPropuestaMejoraUseCase.calificacion_promedio r <=
            ObtenerPropuestaMejoraUseCase.promedio_categoria m)%Q)) /\
    NoDup (map ObtenerPropuestaMejoraUseCase.categoria
             (ObtenerPropuestaMejoraUseCase.categorias_a_mejorar response)).
Proof.
  intros evaluaciones request response H consultadas.
  pose proof (execute_mejora_cases evaluaciones request) as E. cbv zeta in E.
  fold consultadas in E. rewrite E in H. clear E.
  destruct (filter _ evaluaciones) as [|e0 resto]; [discriminate H|].
  destruct consultadas as [|c0 cs] eqn:Econs; [discriminate H|].
  rewrite <- Econs in *. clear Econs. injection H as <-.
  cbn [ObtenerPropuestaMejoraUseCase.categorias_a_mejorar].
  split; [|split].
  - intros c Hc Hne Hlt. apply in_flat_map.
    exists (c, promedio_plano (calificaciones_de_categoria c consultadas)).
    assert (Hcb : Categoria.eqb c Categoria.COMENTARIOS = false).
    { destruct (Categoria.eqb c Categoria.COMENTARIOS) eqn:Ec; [|reflexivity].
      apply Categoria_eqb_eq in Ec. contradiction. }
    split.
    + apply _calcular_promedios_por_categoria_In. repeat split; assumption.
    + cbn [fst snd]. rewrite (proj2 (Qltb_lt _ _) Hlt).
      destruct (recomendaciones_de_categoria_baja c consultadas Hcb Hne Hlt)
        as (r & Hr & _).
      destruct (recomendaciones_de c consultadas); [destruct Hr | left; reflexivity].
  - intros m Hin. apply in_flat_map in Hin. destruct Hin as ([c p] & Hin & Hm).
    apply _calcular_promedios_por_categoria_In in Hin. destruct Hin as (Hcb & Hne & ->).
    cbn [fst snd] in Hm.
    destruct (Qltb (promedio_plano (calificaciones_de_categoria c consultadas)) 4) eqn:L4;
      [|destruct Hm].
    apply Qltb_lt in L4.
    destruct (recomendaciones_de c consultadas) as [|r0 rs] eqn:Er; [destruct Hm|].
    destruct Hm as [<- | []].
    cbn [ObtenerPropuestaMejoraUseCase.promedio_categoria
         ObtenerPropuestaMejoraUseCase.recomendaciones].
    split; [split; [|exact L4]|]; [|split; [discriminate | split]].
    + apply promedio_plano_acotado; [apply calificaciones_de_categoria_acotadas | exact Hne].
    + intros r Hr. rewrite <- Er in Hr. apply (recomendaciones_de_acotadas c consultadas r Hr).
    + rewrite <- Er. apply recomendaciones_de_categoria_baja; assumption.
  - apply (NoDup_flat_map_uno _ (fun item => Categoria.value (fst item))
             ObtenerPropuestaMejoraUseCase.categoria).
    + pose proof (NoDup_promedios_por_categoria consultadas) as Hnd. revert Hnd.
      generalize (ObtenerPropuestaMejoraUseCase._calcular_promedios_por_categoria consultadas).
      intros items. induction items as [|[c p] items IH]; intros Hnd; [constructor|].
      cbn [map fst] in *. inversion Hnd as [|x xs Hx Hnd']; subst.
      constructor; [|apply IH; exact Hnd'].
      intros Hin. apply in_map_iff in Hin. destruct Hin as ([c' p'] & Ev & Hin).
      cbn [fst] in Ev. apply Categoria_value_inj in Ev. subst c'.
      apply Hx. apply in_map_iff. exists (c, p'). split; [reflexivity | exact Hin].
    + intros [c p] b Hin. cbn [fst snd] in *.
      destruct (Qltb p 4); [|destruct Hin].
      destruct (recomendaciones_de c consultadas); [destruct Hin|].
      destruct Hin as [<- | []]. reflexivity.
    + intros [c p]. cbn [fst snd]. destruct (Qltb p 4); [|cbn [List.length]; lia].
      destruct (recomendaciones_de c consultadas); cbn [List.length]; lia.
Qed.

Lemma mejora_sin_categorias_perdidas_witness :
  exists response,
    ObtenerPropuestaMejoraUseCase.execute
      (PandasEvaluacionRepository.init [evaluacion_planeacion])
      (ObtenerPropuestaMejoraUseCase.mkRequest "123456" None) = Ok response /\
    In (ObtenerPropuestaMejoraUseCase.mkMejora (Categoria.value Categoria.PLANEACION)
          (promedio_plano
             (calificaciones_de_categoria Categoria.PLANEACION [evaluacion_planeacion]))
          (recomendaciones_de Categoria.PLANEACION [evaluacion_planeacion]))
       (ObtenerPropuestaMejoraUseCase.categorias_a_mejorar response) /\
    NoDup (map ObtenerPropuestaMejoraUseCase.categoria
             (ObtenerPropuestaMejoraUseCase.categorias_a_mejorar response)).
Proof.
  destruct (ObtenerPropuestaMejoraUseCase.execute
              (PandasEvaluacionRepository.init [evaluacion_planeacion])
              (ObtenerPropuestaMejoraUseCase.mkRequest "123456" None))
    as [response|e] eqn:E.
  - exists response. split; [reflexivity|].
    destruct (mejora_sin_categorias_perdidas [evaluacion_planeacion]
                (ObtenerPropuestaMejoraUseCase.mkRequest "123456" None)
                response E) as (Hbaja & _ & Hnd).
    split; [|exact Hnd].
    apply Hbaja; [discriminate | vm_compute; discriminate | vm_compute; reflexivity].
  - exfalso. vm_compute in E. discriminate E.
Defined.

(** ** The text of a recommendation *)

Lemma lower_char_idem (c : ascii) : Str.lower_char (Str.lower_char c) = Str.lower_char c.
Proof. destruct c as [[] [] [] [] [] [] [] []]; reflexivity. Qed.

Lemma lower_idem (s : string) : Str.lower (Str.lower s) = Str.lower s.
Proof.
  induction s as [|c s IH]; [reflexivity|].
  cbn [Str.lower]. rewrite lower_char_idem, IH. reflexivity.
Qed.

Lemma buscar_keyword_In (items : list (string * string)) (texto r : string) :
  ObtenerPropuestaMejoraUseCase.buscar_keyword items texto = Some r ->
  In r (map snd items).
Proof.
  induction items as [|[k v] items IH];
    cbn [ObtenerPropuestaMejoraUseCase.buscar_keyword map snd]; [discriminate|].
  destruct (Str.contains k texto).
  - intros H. apply Some_inj in H. left. exact H.
  - intros H. right. apply IH. exact H.
Qed.

(** X22. The text of a recommendation does not depend on the letter case
    of the question's text. It is always one of the texts of the table (a
    key word text or the default of the category) or the generic text; it
    is the generic text for every category the table has no entry for,
    which are five of the nine main categories and Comments, and never for
    the four categories of the table. The category itself is matched as it
    is written: in lower case it gets the generic text. *)
Theorem obtener_recomendacion_textos :
  (forall categoria texto : string,
      ObtenerPropuestaMejoraUseCase._obtener_recomendacion categoria (Str.lower texto) =
      ObtenerPropuestaMejoraUseCase._obtener_recomendacion categoria texto) /\
  (forall categoria texto : string,
      In (ObtenerPropuestaMejoraUseCase._obtener_recomendacion categoria texto)
         (ObtenerPropuestaMejoraUseCase.RECOMENDACION_GENERICA ::
          flat_map
            (fun entrada =>
               ObtenerPropuestaMejoraUseCase.default (snd entrada) ::
               map snd (ObtenerPropuestaMejoraUseCase.keywords (snd entrada)))
            ObtenerPropuestaMejoraUseCase.RECOMENDACIONES)) /\
  (forall (c : Categoria.t) (texto : string),
      ObtenerPropuestaMejoraUseCase._obtener_recomendacion (Categoria.value c) texto =
        ObtenerPropuestaMejoraUseCase.RECOMENDACION_GENERICA <->
      ~ In c [Categoria.PLANEACION; Categoria.CONDUCCION;
              Categoria.EVALUACION_APRENDIZAJE; Categoria.COMPONENTE_PERSONAL]) /\
  (forall (c : Categoria.t) (texto : string),
      ObtenerPropuestaMejoraUseCase._obtener_recomendacion
        (Str.lower (Categoria.value c)) texto =
      ObtenerPropuestaMejoraUseCase.RECOMENDACION_GENERICA).
Proof.
  split; [|split; [|split]].
  - intros categoria texto. unfold ObtenerPropuestaMejoraUseCase._obtener_recomendacion.
    rewrite lower_idem. reflexivity.
  - intros categoria texto. unfold ObtenerPropuestaMejoraUseCase._obtener_recomendacion.
    destruct (Dict.get String.eqb categoria ObtenerPropuestaMejoraUseCase.RECOMENDACIONES)
      as [config|] eqn:G; [|left; reflexivity].
    right. apply get_In in G. destruct G as (k & _ & Hin).
    apply in_flat_map. exists (k, config). split; [exact Hin|]. cbn [snd].
    destruct (ObtenerPropuestaMejoraUseCase.buscar_keyword _ _) as [r|] eqn:B.
    + right. apply (buscar_keyword_In _ _ _ B).
    + left. reflexivity.
  - intros c texto. unfold ObtenerPropuestaMejoraUseCase._obtener_recomendacion.
    destruct (Dict.get String.eqb (Categoria.value c)
                ObtenerPropuestaMejoraUseCase.RECOMENDACIONES) as [config|] eqn:G.
    + assert (Hc : In c [Categoria.PLANEACION; Categoria.CONDUCCION;
                         Categoria.EVALUACION_APRENDIZAJE; Categoria.COMPONENTE_PERSONAL]).
      { destruct c; try (vm_compute in G; discriminate G); cbn; tauto. }
      split; [|intros H; contradiction].
      intros E. exfalso.
      assert (Hr : In (match ObtenerPropuestaMejoraUseCase.buscar_keyword
                               (ObtenerPropuestaMejoraUseCase.keywords config)
                               (Str.lower texto) with
                       | Some r => r
                       | None => ObtenerPropuestaMejoraUseCase.default config
                       end)
                     (ObtenerPropuestaMejoraUseCase.default config ::
                      map snd (ObtenerPropuestaMejoraUseCase.keywords config))).
      { destruct (ObtenerPropuestaMejoraUseCase.buscar_keyword _ _) as [r|] eqn:B.
        - right. apply (buscar_keyword_In _ _ _ B).
        - left. reflexivity. }
      rewrite E in Hr. clear E.
      destruct c; vm_compute in G; try discriminate G;
        apply Some_inj in G; subst config; vm_compute in Hr;
        repeat (destruct Hr as [Hr | Hr]; [discriminate Hr|]); exact Hr.
    + split; [|reflexivity]. intros _ Hc.
      destruct c; try (vm_compute in G; discriminate G);
        cbn in Hc; intuition discriminate.
  - intros c texto. unfold ObtenerPropuestaMejoraUseCase._obtener_recomendacion.
    destruct c; reflexivity.
Qed.

(* ================================================================== *)
(** * Properties of the CSV parsers *)

(** ** White space *)

Lemma rstrip_idem (s : string) : Str.rstrip (Str.rstrip s) = Str.rstrip s.
Proof.
  induction s as [|c s IH]; [reflexivity|].
  cbn [Str.rstrip]. destruct (Str.rstrip s) as [|d r] eqn:E.
  - destruct (Str.is_space c) eqn:Ec; [reflexivity|].
    cbn [Str.rstrip]. rewrite Ec. reflexivity.
  - cbn [Str.rstrip]. cbn [Str.rstrip] in IH. rewrite IH. reflexivity.
Qed.

Lemma lstrip_fijo (s : string) :
  match s with
  | EmptyString => True
  | String c _ => Str.is_space c = false
  end ->
  Str.lstrip s = s.
Proof.
  destruct s as [|c s]; [reflexivity|]. cbn [Str.lstrip]. intros ->. reflexivity.
Qed.

Lemma lstrip_cabeza (s : string) :
  match Str.lstrip s with
  | EmptyString => True
  | String c _ => Str.is_space c = false
  end.
Proof.
  induction s as [|c s IH]; [exact I|].
  cbn [Str.lstrip]. destruct (Str.is_space c) eqn:E; [exact IH | exact E].
Qed.

Lemma rstrip_cabeza (s : string) :
  match s with
  | EmptyString => True
  | String c _ => Str.is_space c = false
  end ->
  match Str.rstrip s with
  | EmptyString => True
  | String c _ => Str.is_space c = false
  end.
Proof.
  destruct s as [|c s]; [intros _; exact I|].
  intros Hc. cbn [Str.rstrip]. destruct (Str.rstrip s); [rewrite Hc|]; exact Hc.
Qed.

Lemma strip_idem (s : string) : Str.strip (Str.strip s) = Str.strip s.
Proof.
  unfold Str.strip.
  rewrite (lstrip_fijo (Str.rstrip (Str.lstrip s))).
  - apply rstrip_idem.
  - apply rstrip_cabeza, lstrip_cabeza.
Qed.

(** A period built from a stripped string has exactly six characters. *)
Lemma Periodo_de_strip (s : string) (p : Periodo.t) :
  Periodo.new (Str.strip s) = Ok p ->
  Periodo.valor p = Str.strip s /\ String.length (Periodo.valor p) = 6%nat.
Proof.
  intros H.
  destruct (Periodo_new_cases (Str.strip s)) as [[Hm E] | [_ E]];
    rewrite E in H; [|discriminate H].
  assert (Ep : Periodo.valor p = Str.strip s) by (injection H as <-; reflexivity).
  split; [exact Ep|]. rewrite Ep.
  pose proof Hm as Hf. rewrite PATTERN_forma in Hf.
  destruct (forma_inv _ Hf) as (d1 & d2 & d3 & d4 & t & r & Hs & _ & _ & _ & _ & Ht & Hr).
  destruct Hr as [-> | ->]; [rewrite Hs; reflexivity|].
  exfalso.
  assert (Hid : Str.rstrip (Str.strip s) = Str.strip s) by (apply rstrip_idem).
  rewrite Hs in Hid. apply (f_equal String.length) in Hid.
  destruct Ht as [-> | ->]; cbn in Hid; discriminate Hid.
Qed.

(** ** The catalog of questions *)

Lemma Categoria_from_string_cases (s : string) :
  (exists c, Categoria_from_string s = Ok c) \/
  Categoria_from_string s =
    Raise (ValueError (Str.latin1 "Categoría no reconocida: " ++ s)%string).
Proof.
  unfold Categoria_from_string.
  destruct (find _ Categoria.all) as [c|]; [left; exists c; reflexivity | right; reflexivity].
Qed.

Lemma _crear_pregunta_Ok (row : PreguntaCSVParser.fila) :
  tiene_columnas row = true ->
  PreguntaCSVParser._crear_pregunta row =
  inl (Pregunta.mk
         (texto_de_columna row "IDPREGUNTA")
         (match Categoria_from_string (texto_de_columna row "CATEGORIA") with
          | Ok c => c
          | Raise _ => Categoria.COMENTARIOS
          end)
         (texto_de_columna row "PREGUNTA")).
Proof.
  unfold tiene_columnas, columnas_de_pregunta, texto_de_columna,
    PreguntaCSVParser._crear_pregunta, PreguntaCSVParser.columna.
  cbn [forallb].
  destruct (Dict.get String.eqb "IDPREGUNTA" row) as [a|]; [|discriminate].
  destruct (Dict.get String.eqb "CATEGORIA" row) as [b|]; [|discriminate].
  destruct (Dict.get String.eqb "PREGUNTA" row) as [c|]; [|discriminate].
  intros _.
  destruct (Categoria_from_string_cases (Str.strip (PreguntaCSVParser.str b)))
    as [[k E] | E]; rewrite E; reflexivity.
Qed.

Lemma _crear_pregunta_KeyError (row : PreguntaCSVParser.fila) :
  tiene_columnas row = false ->
  exists nombre : string,
    In nombre columnas_de_pregunta /\
    Dict.get String.eqb nombre row = None /\
    PreguntaCSVParser._crear_pregunta row = inr (PreguntaCSVParser.KeyError nombre).
Proof.
  unfold tiene_columnas, columnas_de_pregunta,
    PreguntaCSVParser._crear_pregunta, PreguntaCSVParser.columna.
  cbn [forallb].
  destruct (Dict.get String.eqb "IDPREGUNTA" row) as [a|] eqn:Ea;
    [|intros _; exists "IDPREGUNTA"; cbn; auto].
  destruct (Dict.get String.eqb "CATEGORIA" row) as [b|] eqn:Eb;
    [|intros _; exists "CATEGORIA"; cbn; auto].
  destruct (Dict.get String.eqb "PREGUNTA" row) as [c|] eqn:Ec;
    [discriminate|intros _; exists "PREGUNTA"; cbn; auto].
Qed.

(** X23. The question parser makes a question of every row that has the
    three columns IDPREGUNTA, CATEGORIA and PREGUNTA: code and text are the
    cells stripped of surrounding white space, and the category is the one
    whose label is the category cell, white space and letter case apart; a
    cell that is the label of no category gives the category Comments, and
    so does a missing cell. A row without one of the three columns raises
    the [KeyError] of a missing column and is skipped: the questions parsed
    are those of the rows with the three columns, in order, and a catalog
    file lacking a column gives no question at all. *)
Theorem PreguntaCSVParser_spec :
  (forall row : PreguntaCSVParser.fila,
      tiene_columnas row = true ->
      exists p : Pregunta.t,
        PreguntaCSVParser._crear_pregunta row = inl p /\
        Pregunta.codigo p = texto_de_columna row "IDPREGUNTA" /\
        Pregunta.texto p = texto_de_columna row "PREGUNTA" /\
        sin_espacios_alrededor (Pregunta.codigo p) /\
        sin_espacios_alrededor (Pregunta.texto p) /\
        (forall c : Categoria.t,
            Unicode.upper (texto_de_columna row "CATEGORIA") =
            Unicode.upper (Categoria.value c) ->
            Pregunta.categoria p = c) /\
        ((forall c : Categoria.t,
             Unicode.upper (texto_de_columna row "CATEGORIA") <>
             Unicode.upper (Categoria.value c)) ->
         Pregunta.categoria p = Categoria.COMENTARIOS) /\
        (Dict.get String.eqb "CATEGORIA" row = Some None ->
         Pregunta.categoria p = Categoria.COMENTARIOS)) /\
  (forall row : PreguntaCSVParser.fila,
      tiene_columnas row = false ->
      exists nombre : string,
        In nombre columnas_de_pregunta /\
        Dict.get String.eqb nombre row = None /\
        PreguntaCSVParser._crear_pregunta row =
          inr (PreguntaCSVParser.KeyError nombre)) /\
  (forall df : list PreguntaCSVParser.fila,
      PreguntaCSVParser.parse df = PreguntaCSVParser.parse (filter tiene_columnas df) /\
      List.length (PreguntaCSVParser.parse df) =
        List.length (filter tiene_columnas df) /\
      map Pregunta.codigo (PreguntaCSVParser.parse df) =
        map (fun row => texto_de_columna row "IDPREGUNTA") (filter tiene_columnas df) /\
      (forallb tiene_columnas df = true ->
       List.length (PreguntaCSVParser.parse df) = List.length df) /\
      (forallb (fun row => negb (tiene_columnas row)) df = true ->
       PreguntaCSVParser.parse df = [])).
Proof.
  split; [|split].
  - intros row Hcols. eexists. split; [apply _crear_pregunta_Ok, Hcols|].
    cbn [Pregunta.codigo Pregunta.texto Pregunta.categoria].
    split; [reflexivity|]. split; [reflexivity|].
    assert (S : forall nombre, sin_espacios_alrededor (texto_de_columna row nombre)).
    { intros nombre. unfold texto_de_columna.
      destruct (Dict.get String.eqb nombre row); [apply strip_idem | reflexivity]. }
    split; [apply S|]. split; [apply S|].
    set (s := texto_de_columna row "CATEGORIA").
    assert (Es : Str.strip s = s) by apply S.
    assert (N : (forall c : Categoria.t,
                    Unicode.upper s <> Unicode.upper (Categoria.value c)) ->
                match Categoria_from_string s with
                | Ok c => c
                | Raise _ => Categoria.COMENTARIOS
                end = Categoria.COMENTARIOS).
    { intros H. destruct (Categoria_from_string s) as [c|e] eqn:E; [|reflexivity].
      exfalso. apply Categoria_from_string_Ok in E. apply (H c).
      rewrite <- E, Es. reflexivity. }
    split; [|split; [exact N|]].
    + intros c H.
      assert (E : Categoria_from_string s = Ok c).
      { apply Categoria_from_string_Ok. rewrite Es. exact H. }
      rewrite E. reflexivity.
    + intros Hnone. apply N. subst s. unfold texto_de_columna. rewrite Hnone.
      intros c H. destruct c; vm_compute in H; discriminate H.
  - apply _crear_pregunta_KeyError.
  - intros df. unfold PreguntaCSVParser.parse.
    induction df as [|row df (IH0 & IH1 & IH2 & IH3 & IH4)];
      [repeat split; reflexivity|].
    cbn [flat_map filter forallb].
    destruct (tiene_columnas row) eqn:Hc.
    + cbn [flat_map negb andb]. rewrite (_crear_pregunta_Ok row Hc).
      cbn [app List.length map Pregunta.codigo].
      rewrite <- IH0, IH1, IH2. repeat split; try reflexivity.
      * intros H. rewrite <- (IH3 H), IH1. reflexivity.
      * discriminate.
    + destruct (_crear_pregunta_KeyError row Hc) as (nombre & _ & _ & E).
      rewrite E. cbn [app negb andb]. repeat split; try assumption. discriminate.
Qed.

(** ** The evaluations *)

Lemma _parse_calificacion_cases (c : EvaluacionCSVParser.celda) :
  match EvaluacionCSVParser.valor c with
  | EvaluacionCSVParser.Numero q =>
      (exists H : Calificacion.in_range q = true,
          EvaluacionCSVParser._parse_calificacion c = Ok (Some (Calificacion.mk q H))) \/
      (Calificacion.in_range q = false /\
       EvaluacionCSVParser._parse_calificacion c = Raise (InvalidCalificacionError q))
  | _ => EvaluacionCSVParser._parse_calificacion c = Ok None
  end.
Proof.
  unfold EvaluacionCSVParser._parse_calificacion.
  destruct (EvaluacionCSVParser.valor c) as [|q|]; [reflexivity | | reflexivity].
  destruct (Calificacion_new_cases q) as [[H E] | [H E]]; rewrite E.
  - left. exists H. reflexivity.
  - right. split; [exact H | reflexivity].
Qed.

Lemma _parse_calificacion_fuera (c : EvaluacionCSVParser.celda) :
  (exists cal, EvaluacionCSVParser._parse_calificacion c = Ok cal /\
               ~ fuera_de_escala c) \/
  (exists q, EvaluacionCSVParser.valor c = EvaluacionCSVParser.Numero q /\
             EvaluacionCSVParser._parse_calificacion c =
               Raise (InvalidCalificacionError q) /\
             fuera_de_escala c).
Proof.
  pose proof (_parse_calificacion_cases c) as H. unfold fuera_de_escala.
  destruct (EvaluacionCSVParser.valor c) as [|q|] eqn:E.
  - left. eexists. split; [exact H | tauto].
  - destruct H as [[Hr H] | [Hr H]].
    + left. eexists. split; [exact H|]. congruence.
    + right. exists q. split; [reflexivity|]. split; assumption.
  - left. eexists. split; [exact H | tauto].
Qed.

Lemma get_app {K V : Type} (eqb : K -> K -> bool) (k : K) (d1 d2 : Dict.t K V) :
  Dict.get eqb k (d1 ++ d2) =
  match Dict.get eqb k d1 with
  | Some v => Some v
  | None => Dict.get eqb k d2
  end.
Proof.
  induction d1 as [|[k0 v0] d1 IH]; cbn [app Dict.get]; [reflexivity|].
  destruct (eqb k0 k); [reflexivity | exact IH].
Qed.

Lemma _preguntas_dict_spec (preguntas : list Pregunta.t) :
  claves_distintas String.eqb (EvaluacionCSVParser._preguntas_dict preguntas) /\
  (forall k p, In (k, p) (EvaluacionCSVParser._preguntas_dict preguntas) ->
               Pregunta.codigo p = k /\ In p preguntas).
Proof.
  unfold EvaluacionCSVParser._preguntas_dict.
  assert (G : forall (l : list Pregunta.t) (d : Dict.t string Pregunta.t),
             (forall p, In p l -> In p preguntas) ->
             claves_distintas String.eqb d /\
             (forall k p, In (k, p) d -> Pregunta.codigo p = k /\ In p preguntas) ->
             claves_distintas String.eqb
               (fold_left (fun d p => Dict.set String.eqb (Pregunta.codigo p) p d) l d) /\
             (forall k p,
                 In (k, p)
                   (fold_left (fun d p => Dict.set String.eqb (Pregunta.codigo p) p d) l d) ->
                 Pregunta.codigo p = k /\ In p preguntas)).
  { induction l as [|x l IH]; intros d Hl [Hcd Hd]; cbn [fold_left]; [split; assumption|].
    apply IH; [intros p Hp; apply Hl; right; exact Hp|].
    split.
    - apply update_claves_distintas;
        [apply String.eqb_sym | apply String_eqb_trans | exact Hcd].
    - intros k p Hin. unfold Dict.set in Hin.
      apply (update_In _ _ String.eqb String.eqb_eq) in Hin; [|exact Hcd].
      destruct Hin as [[_ Hin] | [-> ->]]; [apply Hd; exact Hin|].
      split; [reflexivity | apply Hl; left; reflexivity]. }
  apply G; [tauto|]. split; [constructor | intros k p []].
Qed.

Lemma procesar_respuestas_spec (row : EvaluacionCSVParser.fila)
    (items : list (string * Pregunta.t)) :
  forall e0 : Evaluacion.t,
    claves_distintas String.eqb items ->
    (forall k p, In (k, p) items -> Pregunta.codigo p = k) ->
    (forall k p, In (k, p) items ->
                 Dict.get Pregunta.eqb p (Evaluacion.respuestas e0) = None) ->
    match EvaluacionCSVParser.procesar_respuestas row items e0 with
    | inl e =>
        e = Evaluacion.mk (Evaluacion.id e0) (Evaluacion.profesor_documento e0)
              (Evaluacion.profesor_nombre e0) (Evaluacion.periodo e0)
              (Evaluacion.tipo_formulario e0)
              (Evaluacion.respuestas e0 ++
               flat_map
                 (fun item =>
                    match Dict.get String.eqb (fst item) row with
                    | Some c => [(snd item, calificacion_de_celda c)]
                    | None => []
                    end)
                 items) /\
        (forall k p c, In (k, p) items -> Dict.get String.eqb k row = Some c ->
                       ~ fuera_de_escala c)
    | inr err =>
        exists k p c q,
          In (k, p) items /\ Dict.get String.eqb k row = Some c /\
          EvaluacionCSVParser.valor c = EvaluacionCSVParser.Numero q /\
          fuera_de_escala c /\
          err = EvaluacionCSVParser.Excepcion (InvalidCalificacionError q)
    end.
Proof.
  induction items as [|[k p] items IH]; intros e0 Hcd Hk Hget;
    cbn [EvaluacionCSVParser.procesar_respuestas flat_map].
  - rewrite app_nil_r. split; [destruct e0; reflexivity | intros k p c []].
  - inversion Hcd as [|k' v' d' Hnone Hcd' E]; subst.
    assert (Hk' : forall k p, In (k, p) items -> Pregunta.codigo p = k)
      by (intros k1 p1 H1; apply Hk; right; exact H1).
    cbn [fst snd]. destruct (Dict.get String.eqb k row) as [c|] eqn:Ec.
    + destruct (_parse_calificacion_fuera c) as [(cal & Ep & Hno) | (q & Ev & Ep & Hf)];
        rewrite Ep.
      * assert (Eset : Evaluacion.respuestas (Evaluacion.agregar_respuesta e0 p cal) =
                       Evaluacion.respuestas e0 ++ [(p, cal)]).
        { unfold Evaluacion.agregar_respuesta. cbn [Evaluacion.respuestas].
          unfold Dict.set. apply update_absent.
          intros p' v Hin.
          apply (get_None_In _ _ Pregunta.eqb p (Evaluacion.respuestas e0)
                   (Hget k p (or_introl eq_refl)) p' v Hin). }
        specialize (IH (Evaluacion.agregar_respuesta e0 p cal) Hcd' Hk').
        destruct (EvaluacionCSVParser.procesar_respuestas row items
                    (Evaluacion.agregar_respuesta e0 p cal)) as [e|err].
        -- destruct IH as [IH1 IH2].
           { intros k1 p1 H1. rewrite Eset, get_app.
             rewrite (Hget k1 p1 (or_intror H1)). cbn [Dict.get].
             unfold Pregunta.eqb.
             rewrite (Hk k p (or_introl eq_refl)), (Hk' k1 p1 H1).
             rewrite String.eqb_sym,
               (get_None_In _ _ String.eqb k items Hnone k1 p1 H1).
             reflexivity. }
           split.
           ++ rewrite IH1, Eset. unfold Evaluacion.agregar_respuesta.
              cbn [Evaluacion.id Evaluacion.profesor_documento Evaluacion.profesor_nombre
                   Evaluacion.periodo Evaluacion.tipo_formulario].
              rewrite <- app_assoc. cbn [app].
              unfold calificacion_de_celda at 2. rewrite Ep. reflexivity.
           ++ intros k1 p1 c1 [H1 | H1] Hc1.
              ** injection H1 as <- <-. rewrite Ec in Hc1. apply Some_inj in Hc1.
                 subst c1. exact Hno.
              ** apply (IH2 k1 p1 c1 H1 Hc1).
        -- destruct IH as (k1 & p1 & c1 & q1 & H1 & H2 & H3 & H4 & H5).
           { intros k1 p1 H1. rewrite Eset, get_app.
             rewrite (Hget k1 p1 (or_intror H1)). cbn [Dict.get].
             unfold Pregunta.eqb.
             rewrite (Hk k p (or_introl eq_refl)), (Hk' k1 p1 H1).
             rewrite String.eqb_sym,
               (get_None_In _ _ String.eqb k items Hnone k1 p1 H1).
             reflexivity. }
           exists k1, p1, c1, q1. split; [right; exact H1|]. repeat split; assumption.
      * exists k, p, c, q. split; [left; reflexivity|]. repeat split; assumption.
    + specialize (IH e0 Hcd' Hk').
      destruct (EvaluacionCSVParser.procesar_respuestas row items e0) as [e|err].
      * destruct IH as [IH1 IH2].
        { intros k1 p1 H1. apply (Hget k1 p1). right. exact H1. }
        split; [exact IH1|].
        intros k1 p1 c1 [H1 | H1] Hc1; [|apply (IH2 k1 p1 c1 H1 Hc1)].
        injection H1 as <- <-. rewrite Ec in Hc1. discriminate Hc1.
      * destruct IH as (k1 & p1 & c1 & q1 & H1 & H2).
        { intros k1 p1 H1. apply (Hget k1 p1). right. exact H1. }
        exists k1, p1, c1, q1. split; [right; exact H1 | exact H2].
Qed.

Lemma _crear_evaluacion_cases (preguntas : list Pregunta.t)
    (row : EvaluacionCSVParser.fila) :
  match EvaluacionCSVParser._crear_evaluacion preguntas row with
  | inl e =>
      exists (c1 c2 c3 c4 c5 : EvaluacionCSVParser.celda) (periodo : Periodo.t),
        Dict.get String.eqb "PEGE_ID" row = Some c1 /\
        Dict.get String.eqb "DOCUMENTO" row = Some c2 /\
        Dict.get String.eqb "NOMBRECOMPLETO" row = Some c3 /\
        Dict.get String.eqb "PERIODO" row = Some c4 /\
        Dict.get String.eqb "FORMULARIO" row = Some c5 /\
        Periodo.new (Str.strip (EvaluacionCSVParser.str c4)) = Ok periodo /\
        e = Evaluacion.mk (EvaluacionCSVParser.str c1)
              (Str.strip (EvaluacionCSVParser.str c2))
              (Str.strip (EvaluacionCSVParser.str c3)) periodo
              (Str.strip (EvaluacionCSVParser.str c5))
              (flat_map
                 (fun item =>
                    match Dict.get String.eqb (fst item) row with
                    | Some c => [(snd item, calificacion_de_celda c)]
                    | None => []
                    end)
                 (EvaluacionCSVParser._preguntas_dict preguntas)) /\
        (forall k p c,
            In (k, p) (EvaluacionCSVParser._preguntas_dict preguntas) ->
            Dict.get String.eqb k row = Some c -> ~ fuera_de_escala c)
  | inr err =>
      (exists nombre,
          In nombre ["PEGE_ID"; "DOCUMENTO"; "NOMBRECOMPLETO"; "PERIODO"; "FORMULARIO"] /\
          Dict.get String.eqb nombre row = None /\
          err = EvaluacionCSVParser.KeyError nombre) \/
      (exists c,
          Dict.get String.eqb "PERIODO" row = Some c /\
          Re.matches Periodo.PATTERN (Str.strip (EvaluacionCSVParser.str c)) = false /\
          err = EvaluacionCSVParser.Excepcion
                  (Periodo.format_error (Str.strip (EvaluacionCSVParser.str c)))) \/
      (exists k p c q,
          In (k, p) (EvaluacionCSVParser._preguntas_dict preguntas) /\
          Dict.get String.eqb k row = Some c /\
          EvaluacionCSVParser.valor c = EvaluacionCSVParser.Numero q /\
          fuera_de_escala c /\
          err = EvaluacionCSVParser.Excepcion (InvalidCalificacionError q))
  end.
Proof.
  unfold EvaluacionCSVParser._crear_evaluacion, EvaluacionCSVParser.columna.
  destruct (Dict.get String.eqb "PEGE_ID" row) as [c1|] eqn:E1;
    [|left; exists "PEGE_ID"; cbn; tauto].
  destruct (Dict.get String.eqb "DOCUMENTO" row) as [c2|] eqn:E2;
    [|left; exists "DOCUMENTO"; cbn; tauto].
  destruct (Dict.get String.eqb "NOMBRECOMPLETO" row) as [c3|] eqn:E3;
    [|left; exists "NOMBRECOMPLETO"; cbn; tauto].
  destruct (Dict.get String.eqb "PERIODO" row) as [c4|] eqn:E4;
    [|left; exists "PERIODO"; cbn; tauto].
  destruct (Periodo_new_cases (Str.strip (EvaluacionCSVParser.str c4)))
    as [[Hm Ep] | [Hm Ep]]; rewrite Ep;
    [|right; left; exists c4; repeat split; assumption].
  destruct (Dict.get String.eqb "FORMULARIO" row) as [c5|] eqn:E5;
    [|left; exists "FORMULARIO"; cbn; tauto].
  destruct (_preguntas_dict_spec preguntas) as [Hcd Hd].
  pose proof (procesar_respuestas_spec row (EvaluacionCSVParser._preguntas_dict preguntas)
                (Evaluacion.mk (EvaluacionCSVParser.str c1)
                   (Str.strip (EvaluacionCSVParser.str c2))
                   (Str.strip (EvaluacionCSVParser.str c3))
                   (Periodo.mk (Str.strip (EvaluacionCSVParser.str c4)) Hm)
                   (Str.strip (EvaluacionCSVParser.str c5)) [])
                Hcd (fun k p H => proj1 (Hd k p H)) (fun k p H => eq_refl)) as S.
  destruct (EvaluacionCSVParser.procesar_respuestas row _ _) as [e|err].
  - destruct S as [S1 S2].
    cbn [Evaluacion.id Evaluacion.profesor_documento Evaluacion.profesor_nombre
         Evaluacion.periodo Evaluacion.tipo_formulario Evaluacion.respuestas app] in S1.
    exists c1, c2, c3, c4, c5, (Periodo.mk (Str.strip (EvaluacionCSVParser.str c4)) Hm).
    repeat (split; [first [reflexivity | assumption]|]). exact S2.
  - right. right. exact S.
Qed.


(** X25. An evaluation the parser makes of a row carries the id cell as
    it is and the document, name and form type stripped of white space; its
    period has exactly six characters, so the periods of loaded data are
    totally ordered. It holds one answer per question of the catalog index
    whose code is a column of the row, in the order of the index and one
    per code: the rating of the cell when the cell is a number on the scale,
    no rating when it is empty or unreadable. *)
Theorem EvaluacionCSVParser_evaluacion :
  forall (preguntas : list Pregunta.t) (row : EvaluacionCSVParser.fila)
         (e : Evaluacion.t),
    EvaluacionCSVParser._crear_evaluacion preguntas row = inl e ->
    (exists c1 c2 c3 c5,
        Dict.get String.eqb "PEGE_ID" row = Some c1 /\
        Dict.get String.eqb "DOCUMENTO" row = Some c2 /\
        Dict.get String.eqb "NOMBRECOMPLETO" row = Some c3 /\
        Dict.get String.eqb "FORMULARIO" row = Some c5 /\
        Evaluacion.id e = EvaluacionCSVParser.str c1 /\
        Evaluacion.profesor_documento e = Str.strip (EvaluacionCSVParser.str c2) /\
        Evaluacion.profesor_nombre e = Str.strip (EvaluacionCSVParser.str c3) /\
        Evaluacion.tipo_formulario e = Str.strip (EvaluacionCSVParser.str c5)) /\
    (exists c4,
        Dict.get String.eqb "PERIODO" row = Some c4 /\
        Periodo.valor (Evaluacion.periodo e) = Str.strip (EvaluacionCSVParser.str c4)) /\
    String.length (Periodo.valor (Evaluacion.periodo e)) = 6%nat /\
    Evaluacion.respuestas e =
      flat_map
        (fun item =>
           match Dict.get String.eqb (fst item) row with
           | Some c => [(snd item, calificacion_de_celda c)]
           | None => []
           end)
        (EvaluacionCSVParser._preguntas_dict preguntas) /\
    claves_distintas Pregunta.eqb (Evaluacion.respuestas e) /\
    (forall p cal,
        In (p, cal) (Evaluacion.respuestas e) ->
        In p preguntas /\
        exists c, Dict.get String.eqb (Pregunta.codigo p) row = Some c /\
                  cal = calificacion_de_celda c /\ ~ fuera_de_escala c).
Proof.
  intros preguntas row e H.
  pose proof (_crear_evaluacion_cases preguntas row) as C. rewrite H in C.
  destruct C as (c1 & c2 & c3 & c4 & c5 & periodo & E1 & E2 & E3 & E4 & E5 & Ep & -> & Hf).
  cbn [Evaluacion.id Evaluacion.profesor_documento Evaluacion.profesor_nombre
       Evaluacion.periodo Evaluacion.tipo_formulario Evaluacion.respuestas].
  destruct (Periodo_de_strip _ _ Ep) as [Ev El].
  destruct (_preguntas_dict_spec preguntas) as [Hcd Hd].
  split; [exists c1, c2, c3, c5; repeat split; assumption|].
  split; [exists c4; split; assumption|].
  split; [exact El|]. split; [reflexivity|]. split.
  - revert Hcd Hd. generalize (EvaluacionCSVParser._preguntas_dict preguntas) as d.
    induction d as [|[k p] d IH]; intros Hcd Hd; cbn [flat_map]; [constructor|].
    inversion Hcd as [|k' v' d' Hnone Hcd' E]; subst.
    assert (IH' := IH Hcd' (fun k1 p1 H1 => Hd k1 p1 (or_intror H1))).
    cbn [fst snd]. destruct (Dict.get String.eqb k row) as [c|]; [|exact IH'].
    cbn [app]. constructor; [|exact IH'].
    destruct (Dict.get Pregunta.eqb p (flat_map _ d)) as [v|] eqn:G; [|reflexivity].
    exfalso. apply get_In in G. destruct G as (p' & Epp & Hin).
    apply in_flat_map in Hin. destruct Hin as ([k1 p1] & Hin & H1).
    cbn [fst snd] in H1. destruct (Dict.get String.eqb k1 row); [|destruct H1].
    destruct H1 as [H1 | []]. injection H1 as <- _.
    unfold Pregunta.eqb in Epp.
    rewrite (proj1 (Hd k p (or_introl eq_refl))),
      (proj1 (Hd k1 p1 (or_intror Hin))) in Epp.
    pose proof (get_None_In _ _ String.eqb k d Hnone k1 p1 Hin) as F. congruence.
  - intros p cal Hin. apply in_flat_map in Hin. destruct Hin as ([k p'] & Hin & H1).
    cbn [fst snd] in H1. destruct (Dict.get String.eqb k row) as [c|] eqn:Ec; [|destruct H1].
    destruct H1 as [H1 | []]. injection H1 as <- <-.
    destruct (Hd k p' Hin) as [Hk Hp]. split; [exact Hp|].
    exists c. rewrite Hk. split; [exact Ec|]. split; [reflexivity|].
    apply (Hf k p' c Hin Ec).
Qed.

Lemma EvaluacionCSVParser_evaluacion_witness :
  exists e : Evaluacion.t,
    EvaluacionCSVParser._crear_evaluacion [pregunta_P364]
      [("PEGE_ID", EvaluacionCSVParser.mkCelda "1" (EvaluacionCSVParser.Numero 1));
       ("DOCUMENTO", EvaluacionCSVParser.mkCelda " 123456 " EvaluacionCSVParser.Ilegible);
       ("NOMBRECOMPLETO", EvaluacionCSVParser.mkCelda "Ana Ruiz" EvaluacionCSVParser.Ilegible);
       ("PERIODO", EvaluacionCSVParser.mkCelda "2025-1 " EvaluacionCSVParser.Ilegible);
       ("FORMULARIO", EvaluacionCSVParser.mkCelda "ESTUDIANTE V3" EvaluacionCSVParser.Ilegible);
       ("P364", EvaluacionCSVParser.mkCelda "4" (EvaluacionCSVParser.Numero 4))]
    = inl e /\
    String.length (Periodo.valor (Evaluacion.periodo e)) = 6%nat.
Proof.
  destruct (EvaluacionCSVParser._crear_evaluacion [pregunta_P364]
              [("PEGE_ID", EvaluacionCSVParser.mkCelda "1" (EvaluacionCSVParser.Numero 1));
               ("DOCUMENTO", EvaluacionCSVParser.mkCelda " 123456 " EvaluacionCSVParser.Ilegible);
               ("NOMBRECOMPLETO",
                EvaluacionCSVParser.mkCelda "Ana Ruiz" EvaluacionCSVParser.Ilegible);
               ("PERIODO", EvaluacionCSVParser.mkCelda "2025-1 " EvaluacionCSVParser.Ilegible);
               ("FORMULARIO",
                EvaluacionCSVParser.mkCelda "ESTUDIANTE V3" EvaluacionCSVParser.Ilegible);
               ("P364", EvaluacionCSVParser.mkCelda "4" (EvaluacionCSVParser.Numero 4))])
    as [e|err] eqn:E.
  - exists e. split; [reflexivity|].
    exact (proj1 (proj2 (proj2 (EvaluacionCSVParser_evaluacion _ _ _ E)))).
  - exfalso. vm_compute in E. discriminate E.
Defined.

(* ================================================================== *)
(** * The answers about one teacher, side by side *)

Lemma consultadas_incl (evaluaciones : list Evaluacion.t) (documento : string)
    (periodo : option string) (e : Evaluacion.t) :
  In e (evaluaciones_consultadas evaluaciones documento periodo) ->
  In e (filter (fun e => String.eqb (Evaluacion.profesor_documento e) documento)
          evaluaciones).
Proof.
  unfold evaluaciones_consultadas. destruct (truthy periodo); [|tauto].
  intros H. apply filter_In in H. apply H.
Qed.

(** X26. When the three use cases answer the same request, they echo its
    document and period and the average calculator and the detail count
    the same evaluations. The average calculator names the teacher after
    the first evaluation the request is about, the detail and the
    recommendation engine after the first loaded evaluation of the
    document: the three names agree whenever the evaluations of the
    document carry one name. *)
Theorem respuestas_coherentes :
  forall (evaluaciones : list Evaluacion.t)
         (orden_set : CalcularPromedioProfesorUseCase.orden)
         (documento : string) (periodo : option string)
         (rp : CalcularPromedioProfesorUseCase.PromedioProfesorResponse)
         (rd : ObtenerDetalleEvaluacionUseCase.DetalleEvaluacionResponse)
         (rm : ObtenerPropuestaMejoraUseCase.PropuestaMejoraResponse),
    CalcularPromedioProfesorUseCase.execute
      (PandasEvaluacionRepository.init evaluaciones) orden_set
      (CalcularPromedioProfesorUseCase.mkRequest documento periodo) = Ok rp ->
    ObtenerDetalleEvaluacionUseCase.execute
      (PandasEvaluacionRepository.init evaluaciones)
      (ObtenerDetalleEvaluacionUseCase.mkRequest documento periodo) = Ok rd ->
    ObtenerPropuestaMejoraUseCase.execute
      (PandasEvaluacionRepository.init evaluaciones)
      (ObtenerPropuestaMejoraUseCase.mkRequest documento periodo) = Ok rm ->
    let del_profesor :=
      filter (fun e => String.eqb (Evaluacion.profesor_documento e) documento)
        evaluaciones in
    let consultadas := evaluaciones_consultadas evaluaciones documento periodo in
    (CalcularPromedioProfesorUseCase.r_documento rp,
     ObtenerDetalleEvaluacionUseCase.r_documento rd,
     ObtenerPropuestaMejoraUseCase.r_documento rm) = (documento, documento, documento) /\
    (CalcularPromedioProfesorUseCase.r_periodo rp,
     ObtenerDetalleEvaluacionUseCase.r_periodo rd,
     ObtenerPropuestaMejoraUseCase.r_periodo rm) = (periodo, periodo, periodo) /\
    CalcularPromedioProfesorUseCase.r_total_evaluaciones rp =
      ObtenerDetalleEvaluacionUseCase.total_evaluaciones rd /\
    (exists c0 cs,
        consultadas = c0 :: cs /\
        CalcularPromedioProfesorUseCase.r_nombre_completo rp =
          Evaluacion.profesor_nombre c0) /\
    (exists e0 es,
        del_profesor = e0 :: es /\
        ObtenerDetalleEvaluacionUseCase.r_nombre_completo rd =
          Evaluacion.profesor_nombre e0 /\
        ObtenerPropuestaMejoraUseCase.r_nombre_completo rm =
          Evaluacion.profesor_nombre e0) /\
    (forall nombre : string,
        (forall e, In e del_profesor -> Evaluacion.profesor_nombre e = nombre) ->
        CalcularPromedioProfesorUseCase.r_nombre_completo rp = nombre /\
        ObtenerDetalleEvaluacionUseCase.r_nombre_completo rd = nombre /\
        ObtenerPropuestaMejoraUseCase.r_nombre_completo rm = nombre).
Proof.
  intros evaluaciones orden_set documento periodo rp rd rm Hp Hd Hm del_profesor consultadas.
  apply execute_Ok in Hp.
  cbn [CalcularPromedioProfesorUseCase.documento CalcularPromedioProfesorUseCase.periodo]
    in Hp.
  fold consultadas in Hp.
  destruct (execute_detalle_Ok evaluaciones _ rd Hd) as (e0 & es & Edel & _ & Erd).
  cbn [ObtenerDetalleEvaluacionUseCase.documento ObtenerDetalleEvaluacionUseCase.periodo]
    in Edel, Erd.
  fold del_profesor in Edel. fold consultadas in Erd.
  pose proof (execute_mejora_cases evaluaciones
                (ObtenerPropuestaMejoraUseCase.mkRequest documento periodo)) as Em.
  cbv zeta in Em.
  cbn [ObtenerPropuestaMejoraUseCase.documento ObtenerPropuestaMejoraUseCase.periodo] in Em.
  fold del_profesor consultadas in Em. rewrite Edel in Em. rewrite Em in Hm. clear Em.
  assert (Hin : forall e, In e consultadas -> In e del_profesor)
    by (intros e; apply consultadas_incl).
  destruct consultadas as [|c0 cs] eqn:Econs; [discriminate Hp|].
  unfold CalcularPromedioProfesorUseCase.responder in Hp.
  injection Hp as <-. injection Hm as <-. subst rd.
  cbn [CalcularPromedioProfesorUseCase.r_documento
       CalcularPromedioProfesorUseCase.r_periodo
       CalcularPromedioProfesorUseCase.r_total_evaluaciones
       CalcularPromedioProfesorUseCase.r_nombre_completo
       CalcularPromedioProfesorUseCase.documento CalcularPromedioProfesorUseCase.periodo
       ObtenerDetalleEvaluacionUseCase.r_documento ObtenerDetalleEvaluacionUseCase.r_periodo
       ObtenerDetalleEvaluacionUseCase.total_evaluaciones
       ObtenerDetalleEvaluacionUseCase.r_nombre_completo
       ObtenerPropuestaMejoraUseCase.r_documento ObtenerPropuestaMejoraUseCase.r_periodo
       ObtenerPropuestaMejoraUseCase.r_nombre_completo].
  split; [reflexivity|]. split; [reflexivity|]. split; [reflexivity|].
  split; [exists c0, cs; split; reflexivity|].
  split; [exists e0, es; split; [exact Edel | split; reflexivity]|].
  intros nombre Hn. split; [|split].
  - apply Hn, Hin. left. reflexivity.
  - apply Hn. rewrite Edel. left. reflexivity.
  - apply Hn. rewrite Edel. left. reflexivity.
Qed.

Lemma respuestas_coherentes_witness :
  exists rp rd rm,
    CalcularPromedioProfesorUseCase.execute
      (PandasEvaluacionRepository.init [eval1; eval2]) Evaluacion.categorias_evaluadas
      (CalcularPromedioProfesorUseCase.mkRequest "123456" (Some "2025-2")) = Ok rp /\
    ObtenerDetalleEvaluacionUseCase.execute
      (PandasEvaluacionRepository.init [eval1; eval2])
      (ObtenerDetalleEvaluacionUseCase.mkRequest "123456" (Some "2025-2")) = Ok rd /\
    ObtenerPropuestaMejoraUseCase.execute
      (PandasEvaluacionRepository.init [eval1; eval2])
      (ObtenerPropuestaMejoraUseCase.mkRequest "123456" (Some "2025-2")) = Ok rm /\
    CalcularPromedioProfesorUseCase.r_total_evaluaciones rp =
      ObtenerDetalleEvaluacionUseCase.total_evaluaciones rd.
Proof.
  destruct (CalcularPromedioProfesorUseCase.execute
              (PandasEvaluacionRepository.init [eval1; eval2])
              Evaluacion.categorias_evaluadas
              (CalcularPromedioProfesorUseCase.mkRequest "123456" (Some "2025-2")))
    as [rp|ep] eqn:Ep; [|exfalso; vm_compute in Ep; discriminate Ep].
  destruct (ObtenerDetalleEvaluacionUseCase.execute
              (PandasEvaluacionRepository.init [eval1; eval2])
              (ObtenerDetalleEvaluacionUseCase.mkRequest "123456" (Some "2025-2")))
    as [rd|ed] eqn:Ed; [|exfalso; vm_compute in Ed; discriminate Ed].
  destruct (ObtenerPropuestaMejoraUseCase.execute
              (PandasEvaluacionRepository.init [eval1; eval2])
              (ObtenerPropuestaMejoraUseCase.mkRequest "123456" (Some "2025-2")))
    as [rm|em] eqn:Em; [|exfalso; vm_compute in Em; discriminate Em].
  exists rp, rd, rm. repeat (split; [reflexivity|]).
  exact (proj1 (proj2 (proj2
           (respuestas_coherentes [eval1; eval2] Evaluacion.categorias_evaluadas
              "123456" (Some "2025-2") rp rd rm Ep Ed Em)))).
Defined.

(** X27. A teacher of [get_profesores] holds no id twice, as many
    evaluations as the loaded evaluations of the document have distinct
    ids, at least one: never more than [find_by_profesor] gives for the
    document, which is what the use cases count, and every evaluation
    [find_by_profesor] gives is represented by one with its id. *)
Theorem profesores_sin_repetidos :
  forall (evaluaciones : list Evaluacion.t) (p : Profesor.t),
    In p (PandasEvaluacionRepository.get_profesores
            (PandasEvaluacionRepository.init evaluaciones)) ->
    let suyas :=
      PandasEvaluacionRepository.find_by_profesor
        (PandasEvaluacionRepository.init evaluaciones) (Profesor.documento p) in
    NoDup (map Evaluacion.id (Profesor.evaluaciones p)) /\
    (forall i : string,
        In i (map Evaluacion.id (Profesor.evaluaciones p)) <->
        In i (map Evaluacion.id suyas)) /\
    (1 <= Profesor.total_evaluaciones p <= List.length suyas)%nat /\
    (NoDup (map Evaluacion.id suyas) ->
     Profesor.total_evaluaciones p = List.length suyas).
Proof.
  intros evaluaciones p Hin suyas.
  destruct (get_profesores_spec evaluaciones) as (_ & Hp & _).
  destruct (Hp p Hin) as ((e0 & He0 & Hd0 & _) & Hnd & Hsub & Hrep).
  assert (Es : suyas =
               filter (fun e => String.eqb (Evaluacion.profesor_documento e)
                                  (Profesor.documento p)) evaluaciones)
    by apply find_by_profesor_init.
  assert (M : forall i : string,
             In i (map Evaluacion.id (Profesor.evaluaciones p)) <->
             In i (map Evaluacion.id suyas)).
  { intros i. rewrite Es, !in_map_iff. split.
    - intros (e & <- & He). exists e. split; [reflexivity|].
      apply filter_In. destruct (Hsub e He) as [H1 H2].
      split; [exact H1 | apply String.eqb_eq; exact H2].
    - intros (e & <- & He). apply filter_In in He. destruct He as [H1 H2].
      apply String.eqb_eq in H2. destruct (Hrep e H1 H2) as (e' & He' & Hid).
      exists e'. split; assumption. }
  split; [exact Hnd|]. split; [exact M|].
  unfold Profesor.total_evaluaciones.
  rewrite <- (length_map Evaluacion.id (Profesor.evaluaciones p)),
    <- (length_map Evaluacion.id suyas).
  split; [split|].
  - destruct (Hrep e0 He0 Hd0) as (e' & He' & _).
    destruct (Profesor.evaluaciones p); [destruct He' | cbn [map List.length]; lia].
  - apply NoDup_incl_length; [exact Hnd|]. intros i Hi. apply M. exact Hi.
  - intros Hnd'. apply Nat.le_antisymm.
    + apply NoDup_incl_length; [exact Hnd|]. intros i Hi. apply M. exact Hi.
    + apply NoDup_incl_length; [exact Hnd'|]. intros i Hi. apply M. exact Hi.
Qed.

Lemma profesores_sin_repetidos_witness :
  exists p : Profesor.t,
    In p (PandasEvaluacionRepository.get_profesores
            (PandasEvaluacionRepository.init [eval1; eval1])) /\
    Profesor.total_evaluaciones p = 1%nat /\
    List.length
      (PandasEvaluacionRepository.find_by_profesor
         (PandasEvaluacionRepository.init [eval1; eval1]) (Profesor.documento p)) = 2%nat /\
    NoDup (map Evaluacion.id (Profesor.evaluaciones p)).
Proof.
  exists (Profesor.mk "123456" (Str.latin1 "Juan Pérez") [eval1]).
  assert (H : In (Profesor.mk "123456" (Str.latin1 "Juan Pérez") [eval1])
                (PandasEvaluacionRepository.get_profesores
                   (PandasEvaluacionRepository.init [eval1; eval1])))
    by (left; reflexivity).
  split; [exact H|]. split; [reflexivity|]. split; [reflexivity|].
  exact (proj1 (profesores_sin_repetidos [eval1; eval1] _ H)).
Defined.
